(** * libreport: the problem-directory manager (src/lib/dump_dir.c)

    A shallow embedding of the directory manager of libreport and the
    verification of its specification: the [time] file parser, the text
    loader and the item writer, the [.lock] protocol, the [reported_to]
    log and the accessibility query.

    Conventions.
    - A C [char] is an [ascii]; its numeric value is [code c].  A byte
      buffer and the content of a file are [list ascii].  A C string is
      the part of a buffer before its first NUL ([c_str]).
    - An [int] is a [Z] kept in the 32-bit two's complement range by
      [int_wrap]; [long long] likewise with [llong_wrap].
    - System calls act on an explicit [world] (inode table, descriptor
      table, [errno], the log, and the actions of the other processes of
      the host), threaded by the monad [M]. *)

From Stdlib Require Import ZArith Lia Bool Ascii String.
From Equations Require Import Equations.
From stdpp Require Import base option list gmap strings pretty.

Local Open Scope Z_scope.

(** ** Characters *)

Definition NUL : ascii := "000"%char.
Definition LF : ascii := "010"%char.
Definition SP : ascii := " "%char.

Definition code (c : ascii) : Z := Z.of_N (N_of_ascii c).
Definition char_of (z : Z) : ascii := ascii_of_N (Z.to_N z).

(** [isspace] of the C locale: space, and [\t \n \v \f \r]. *)
Definition isspace (ch : Z) : bool :=
  (ch =? 32) || ((9 <=? ch) && (ch <=? 13)).

(** The value of a 32-bit [int] after an operation whose mathematical
    result is [z] (two's complement wrap-around, as gcc compiles it). *)
Definition int_wrap (z : Z) : Z := (z + 2 ^ 31) mod 2 ^ 32 - 2 ^ 31.

(** The C string a [char*] to [buf] denotes: the bytes before the first NUL. *)
Fixpoint c_str (buf : list ascii) : list ascii :=
  match buf with
  | [] => []
  | c :: buf' => if Ascii.eqb c NUL then [] else c :: c_str buf'
  end.

Definition strlen (s : list ascii) : Z := Z.of_nat (length (c_str s)).

(** ** The text loader: [load_text_from_file_descriptor] *)

Module TextLoader.

(** The [while ((ch = fgetc(fp)) != EOF)] loop over the bytes of the
    stream, with the local [oneline] and the string buffer. *)
Fixpoint fgetc_loop (fp : list ascii) (oneline : Z) (buf_content : list ascii)
  : Z * list ascii :=
  match fp with
  | [] => (oneline, buf_content)
  | c :: fp' =>
      let ch := code c in
      let oneline :=
        if ch =? code LF then int_wrap (Z.lor (Z.shiftl oneline 1) 1)
        else oneline in
      let ch := if ch =? 0 then code SP else ch in
      let buf_content :=
        if isspace ch || (code SP <=? ch) then buf_content ++ [char_of ch]
        else buf_content in
      fgetc_loop fp' oneline buf_content
  end.

(** The part of [load_text_from_file_descriptor] after a successful
    [fdopen]: the loop, then the treatment of the last newline. *)
Definition load_text_from_stream (fp : list ascii) : list ascii :=
  let '(oneline, buf_content) := fgetc_loop fp 0 [] in
  let last_ch :=
    if negb (oneline =? 0) then code (List.last buf_content NUL) else 0 in
  if last_ch =? code LF then
    if oneline =? 1 then removelast buf_content else buf_content
  else
    if 1 <=? oneline then buf_content ++ [LF] else buf_content.

(** *** What the specification says the loader computes *)

Definition sanitize_byte (c : ascii) : option ascii :=
  if Ascii.eqb c NUL then Some SP
  else if isspace (code c) || (code SP <=? code c) then Some c
  else None.

Definition sanitize (input : list ascii) : list ascii :=
  omap sanitize_byte input.

Definition count_newlines (l : list ascii) : nat :=
  length (filter (λ c, c = LF) l).

Definition ends_with_newline (l : list ascii) : bool :=
  match List.last (map Some l) None with
  | Some c => Ascii.eqb c LF
  | None => false
  end.

Definition text_loader_spec (input : list ascii) : list ascii :=
  let r := sanitize input in
  if ends_with_newline r && Nat.eqb (count_newlines r) 1 then removelast r
  else if Nat.ltb 0 (count_newlines r) && negb (ends_with_newline r)
       then r ++ [LF]
       else r.

End TextLoader.

(** ** C library string functions *)

Fixpoint dropwhile_space (s : list ascii) : list ascii :=
  match s with
  | c :: s' => if isspace (code c) then dropwhile_space s' else s
  | [] => []
  end.

(** [strncmp(s1, s2, n)] on buffers; the end of a list reads as the
    terminating NUL. *)
Fixpoint strncmp (s1 s2 : list ascii) (n : nat) : Z :=
  match n with
  | O => 0
  | S n' =>
      match s1, s2 with
      | [], [] => 0
      | [], c2 :: _ => 0 - code c2
      | c1 :: _, [] => code c1
      | c1 :: s1', c2 :: s2' =>
          if negb (Ascii.eqb c1 c2) then code c1 - code c2
          else if Ascii.eqb c1 NUL then 0
          else strncmp s1' s2' n'
      end
  end.

Definition strcmp (s1 s2 : list ascii) : Z :=
  strncmp s1 s2 (S (Nat.max (length s1) (length s2))).

(** The value of a [long long] (64-bit two's complement). *)
Definition llong_wrap (z : Z) : Z := (z + 2 ^ 63) mod 2 ^ 64 - 2 ^ 63.
Definition LLONG_MAX : Z := 2 ^ 63 - 1.
Definition LLONG_MIN : Z := - 2 ^ 63.

Definition is_digit (c : ascii) : bool :=
  (code "0" <=? code c) && (code c <=? code "9").

(** The digits [strtoll] consumes: the mathematical value of the digit
    sequence (accumulated from [acc]) and the first byte not consumed. *)
Fixpoint strtoll_digits (s : list ascii) (acc : Z) : Z * list ascii :=
  match s with
  | c :: s' =>
      if is_digit c then strtoll_digits s' (acc * 10 + (code c - code "0"))
      else (acc, s)
  | [] => (acc, [])
  end.

Record strtoll_result := StrtollResult {
  strtoll_val : Z;                 (* the returned value *)
  strtoll_end : list ascii;        (* the string at [*endptr] *)
  strtoll_errno : option Z         (* [Some ERANGE] when out of range *)
}.

(** [strtoll(s, &endptr, 10)] on a C string [s]: optional white space,
    optional sign, decimal digits; without a digit nothing is consumed;
    out of range values are clamped and reported with [ERANGE] (= 34). *)
Definition strtoll (s : list ascii) : strtoll_result :=
  let body := dropwhile_space s in
  let '(negative, unsigned_part) :=
    match body with
    | c :: rest =>
        if Ascii.eqb c "-" then (true, rest)
        else if Ascii.eqb c "+" then (false, rest)
        else (false, body)
    | [] => (false, body)
    end in
  match unsigned_part with
  | c :: _ =>
      if is_digit c then
        let '(magnitude, rest) := strtoll_digits unsigned_part 0 in
        let v := if negative then - magnitude else magnitude in
        if LLONG_MAX <? v then StrtollResult LLONG_MAX rest (Some 34)
        else if v <? LLONG_MIN then StrtollResult LLONG_MIN rest (Some 34)
        else StrtollResult v rest None
      else StrtollResult 0 s None
  | [] => StrtollResult 0 s None
  end.

(** ** The file system and the other processes *)

Module Errno.
Definition EPERM : Z := 1.
Definition ENOENT : Z := 2.
Definition EBADF : Z := 9.
Definition EACCES : Z := 13.
Definition EEXIST : Z := 17.
Definition ENOTDIR : Z := 20.
Definition EISDIR : Z := 21.
Definition EINVAL : Z := 22.
Definition ERANGE : Z := 34.
Definition ELOOP : Z := 40.
End Errno.
Import Errno.

(** <fcntl.h> and <sys/stat.h> (Linux values). *)
Definition O_RDONLY : Z := 0.
Definition O_WRONLY : Z := 1.
Definition O_CREAT : Z := 64.
Definition O_EXCL : Z := 128.
Definition O_DIRECTORY : Z := 65536.
Definition O_NOFOLLOW : Z := 131072.
Definition S_IRUSR : Z := 256.
Definition S_IWUSR : Z := 128.
Definition S_IROTH : Z := 4.
Definition S_IWOTH : Z := 2.

Definition has_flag (flags bit : Z) : bool := negb (Z.land flags bit =? 0).

Inductive file_type := S_IFREG | S_IFDIR | S_IFLNK | S_IFIFO.

#[global] Instance file_type_eq_dec : EqDecision file_type.
Proof. solve_decision. Defined.

(** An inode, which is also what [fstat] reports about it. *)
Record inode := Inode {
  st_fmt : file_type;
  st_nlink : Z;
  st_mode : Z;                   (* the permission bits *)
  st_uid : Z;
  st_gid : Z;
  i_data : list ascii;           (* bytes of a file, target of a symlink *)
  i_entries : gmap string Z      (* of a directory: name to inode number *)
}.

Record open_file := OpenFile { of_ino : Z; of_pos : nat }.

Record passwd := Passwd { pw_name : string; pw_gid : Z }.
Record group := Group { gr_name : string; gr_mem : option (list string) }.

(** What another process of the host may do between two of our system
    calls: the directory named by its inode number [dir]. *)
Inductive env_action :=
| EnvUnlink (dir : Z) (name : string)
| EnvSymlink (dir : Z) (name : string) (target : list ascii)
| EnvCreat (dir : Z) (name : string) (data : list ascii)
| EnvRmdir (dir : Z)
| EnvExit (proc_path : string)
| EnvSpawn (proc_path : string).

Record world := World {
  w_inodes : gmap Z inode;        (* inode table *)
  w_paths : gmap string Z;        (* the directories reachable by path *)
  w_fds : gmap nat open_file;     (* our descriptor table *)
  w_errno : Z;
  w_euid : Z;
  w_pid : Z;
  w_proc : gset string;           (* the entries of /proc, as path names *)
  w_passwd : gmap Z passwd;
  w_group : gmap Z group;
  w_log : list string;            (* what was logged, oldest first *)
  w_env : list (list env_action)  (* pending actions of other processes *)
}.

Definition with_inodes (f : gmap Z inode → gmap Z inode) (w : world) : world :=
  World (f (w_inodes w)) (w_paths w) (w_fds w) (w_errno w) (w_euid w) (w_pid w)
        (w_proc w) (w_passwd w) (w_group w) (w_log w) (w_env w).
Definition with_fds (f : gmap nat open_file → gmap nat open_file) (w : world) : world :=
  World (w_inodes w) (w_paths w) (f (w_fds w)) (w_errno w) (w_euid w) (w_pid w)
        (w_proc w) (w_passwd w) (w_group w) (w_log w) (w_env w).
Definition with_errno (e : Z) (w : world) : world :=
  World (w_inodes w) (w_paths w) (w_fds w) e (w_euid w) (w_pid w)
        (w_proc w) (w_passwd w) (w_group w) (w_log w) (w_env w).
Definition with_proc (f : gset string → gset string) (w : world) : world :=
  World (w_inodes w) (w_paths w) (w_fds w) (w_errno w) (w_euid w) (w_pid w)
        (f (w_proc w)) (w_passwd w) (w_group w) (w_log w) (w_env w).
Definition with_log (msg : string) (w : world) : world :=
  World (w_inodes w) (w_paths w) (w_fds w) (w_errno w) (w_euid w) (w_pid w)
        (w_proc w) (w_passwd w) (w_group w) (w_log w ++ [msg]) (w_env w).
Definition with_env (env : list (list env_action)) (w : world) : world :=
  World (w_inodes w) (w_paths w) (w_fds w) (w_errno w) (w_euid w) (w_pid w)
        (w_proc w) (w_passwd w) (w_group w) (w_log w) env.

(** *** Operations on the inode table *)

Definition is_dir (i : inode) : bool := bool_decide (st_fmt i = S_IFDIR).

(** The entry [name] of the directory inode [dir]: its inode number and inode. *)
Definition dir_entry (w : world) (dir : Z) (name : string) : option (Z * inode) :=
  di ← w_inodes w !! dir;
  ino ← i_entries di !! name;
  i ← w_inodes w !! ino;
  Some (ino, i).

Definition set_entries (f : gmap string Z → gmap string Z) (i : inode) : inode :=
  Inode (st_fmt i) (st_nlink i) (st_mode i) (st_uid i) (st_gid i) (i_data i)
        (f (i_entries i)).
Definition set_nlink (n : Z) (i : inode) : inode :=
  Inode (st_fmt i) n (st_mode i) (st_uid i) (st_gid i) (i_data i) (i_entries i).
Definition set_owner (uid gid : Z) (i : inode) : inode :=
  Inode (st_fmt i) (st_nlink i) (st_mode i) uid gid (i_data i) (i_entries i).
Definition set_mode (mode : Z) (i : inode) : inode :=
  Inode (st_fmt i) (st_nlink i) mode (st_uid i) (st_gid i) (i_data i) (i_entries i).
Definition set_data (data : list ascii) (i : inode) : inode :=
  Inode (st_fmt i) (st_nlink i) (st_mode i) (st_uid i) (st_gid i) data (i_entries i).

(** Remove the entry [name] of directory [dir]; the inode loses a link. *)
Definition fs_unlink (dir : Z) (name : string) (w : world) : world :=
  match dir_entry w dir name with
  | Some (ino, i) =>
      with_inodes (λ tbl,
        alter (set_entries (delete name)) dir
              (<[ino := set_nlink (st_nlink i - 1) i]> tbl)) w
  | None => w
  end.

(** Add to directory [dir] an entry [name] for a new inode [i]. *)
Definition fs_create (dir : Z) (name : string) (i : inode) (w : world) : Z * world :=
  let ino := fresh (dom (w_inodes w)) in
  (ino, with_inodes (λ tbl,
          alter (set_entries (<[name := ino]>)) dir (<[ino := i]> tbl)) w).

(** A new inode, owned by the process.  The groups of the process are not
    in the model: the group of a new inode is entered as 0, whatever the
    group of the process and of the directory. *)
Definition new_inode (w : world) (fmt : file_type) (mode : Z) (data : list ascii) : inode :=
  Inode fmt 1 mode (w_euid w) 0 data ∅.

Definition apply_env (a : env_action) (w : world) : world :=
  match a with
  | EnvUnlink dir name => fs_unlink dir name w
  | EnvSymlink dir name target =>
      match dir_entry w dir name with
      | Some _ => w
      | None => snd (fs_create dir name (new_inode w S_IFLNK 511 target) w)
      end
  | EnvCreat dir name data =>
      snd (fs_create dir name (new_inode w S_IFREG 420 data) (fs_unlink dir name w))
  | EnvRmdir dir =>
      match w_inodes w !! dir with
      | Some di =>
          if bool_decide (i_entries di = ∅)
          then with_inodes (<[dir := set_nlink 0 di]>) w else w
      | None => w
      end
  | EnvExit p => with_proc (λ s, s ∖ {[p]}) w
  | EnvSpawn p => with_proc (λ s, {[p]} ∪ s) w
  end.

(** The other processes run: the next batch of pending actions happens. *)
Definition env_step (w : world) : world :=
  match w_env w with
  | [] => w
  | batch :: env => foldl (λ w a, apply_env a w) (with_env env w) batch
  end.

(** *** System calls

    Each [sys_*] function is what the call does to the world it finds
    and what it returns; a failing call leaves its code in [w_errno]. *)

Definition sys_fail {A} (r : A) (e : Z) (w : world) : A * world :=
  (r, with_errno e w).

Definition fd_inode (w : world) (fd : Z) : option (Z * inode) :=
  if fd <? 0 then None
  else f ← w_fds w !! Z.to_nat fd;
       i ← w_inodes w !! of_ino f;
       Some (of_ino f, i).

(** The directory behind [dir_fd], or the error of using [dir_fd] as one. *)
Definition dir_at (w : world) (dir_fd : Z) : Z + (Z * inode) :=
  match fd_inode w dir_fd with
  | None => inl EBADF
  | Some (d, di) => if is_dir di then inr (d, di) else inl ENOTDIR
  end.

(** Discretionary access control, without the group class: the super-user
    may do everything, the owner is checked against the owner bit, every
    one else against the bit for others.  The search bit of a directory
    is not looked at. *)
Definition may_access (w : world) (i : inode) (owner_bit other_bit : Z) : bool :=
  (w_euid w =? 0)
  || (if w_euid w =? st_uid i then has_flag (st_mode i) owner_bit
      else has_flag (st_mode i) other_bit).
Definition may_read (w : world) (i : inode) : bool := may_access w i S_IRUSR S_IROTH.
Definition may_write (w : world) (i : inode) : bool := may_access w i S_IWUSR S_IWOTH.

(** A new descriptor for inode [ino]. *)
Definition open_fd (ino : Z) (w : world) : Z * world :=
  let fd := fresh (dom (w_fds w)) in
  (Z.of_nat fd, with_fds (<[fd := OpenFile ino 0]>) w).

(** Opening an inode that exists.  A FIFO is opened as the other files
    are, which is the open that finds the other end in use; without a
    peer the call does not return, and the model does not show that. *)
Definition open_existing (ino : Z) (i : inode) (flags : Z) (w : world) : Z * world :=
  if has_flag flags O_WRONLY then
    if is_dir i then sys_fail (-1) EISDIR w
    else if may_write w i then open_fd ino w else sys_fail (-1) EACCES w
  else
    if may_read w i then open_fd ino w else sys_fail (-1) EACCES w.

(** [openat(dir_fd, name, flags, mode)].  A symbolic link is followed one
    level, to an entry of the same directory. *)
Definition sys_openat (dir_fd : Z) (name : string) (flags mode : Z) (w : world)
  : Z * world :=
  match dir_at w dir_fd with
  | inl e => sys_fail (-1) e w
  | inr (d, di) =>
      match dir_entry w d name with
      | Some (ino, i) =>
          if has_flag flags O_CREAT && has_flag flags O_EXCL
          then sys_fail (-1) EEXIST w
          else if bool_decide (st_fmt i = S_IFLNK) then
            if has_flag flags O_NOFOLLOW then sys_fail (-1) ELOOP w
            else
              match dir_entry w d (string_of_list_ascii (i_data i)) with
              | Some (ino', i') =>
                  if bool_decide (st_fmt i' = S_IFLNK) then sys_fail (-1) ELOOP w
                  else open_existing ino' i' flags w
              | None => sys_fail (-1) ENOENT w
              end
          else open_existing ino i flags w
      | None =>
          if has_flag flags O_CREAT then
            if st_nlink di =? 0 then sys_fail (-1) ENOENT w
            else if may_write w di then
              let '(ino, w') := fs_create d name (new_inode w S_IFREG mode []) w in
              open_fd ino w'
            else sys_fail (-1) EACCES w
          else sys_fail (-1) ENOENT w
      end
  end.

(** [open(path, O_DIRECTORY | O_NOFOLLOW)] and the like, by path. *)
Definition sys_open (path : string) (flags : Z) (w : world) : Z * world :=
  match ino ← w_paths w !! path; i ← w_inodes w !! ino; Some (ino, i) with
  | None => sys_fail (-1) ENOENT w
  | Some (ino, i) =>
      if has_flag flags O_DIRECTORY && negb (is_dir i) then sys_fail (-1) ENOTDIR w
      else if bool_decide (st_fmt i = S_IFLNK) && has_flag flags O_NOFOLLOW
      then sys_fail (-1) ELOOP w
      else open_existing ino i flags w
  end.

Definition sys_close (fd : Z) (w : world) : Z * world :=
  match fd_inode w fd with
  | Some _ => (0, with_fds (delete (Z.to_nat fd)) w)
  | None => sys_fail (-1) EBADF w
  end.

(** [fstat(fd, &buf)]: the inode when it returns 0. *)
Definition sys_fstat (fd : Z) (w : world) : option inode * world :=
  match fd_inode w fd with
  | Some (_, i) => (Some i, w)
  | None => sys_fail None EBADF w
  end.

(** [fstatat(dir_fd, name, &buf, AT_SYMLINK_NOFOLLOW)]. *)
Definition sys_fstatat (dir_fd : Z) (name : string) (w : world) : option inode * world :=
  match dir_at w dir_fd with
  | inl e => sys_fail None e w
  | inr (d, _) =>
      match dir_entry w d name with
      | Some (_, i) => (Some i, w)
      | None => sys_fail None ENOENT w
      end
  end.

(** [read(fd, buf, count)]: the return value and the bytes stored. *)
Definition sys_read (fd : Z) (count : nat) (w : world) : Z * list ascii * world :=
  match fd_inode w fd with
  | None => sys_fail (-1, []) EBADF w
  | Some (ino, i) =>
      if is_dir i then sys_fail (-1, []) EISDIR w
      else
        let pos := default 0%nat (of_pos <$> w_fds w !! Z.to_nat fd) in
        let bytes := take count (drop pos (i_data i)) in
        (Z.of_nat (length bytes), bytes,
         with_fds (<[Z.to_nat fd := OpenFile ino (pos + length bytes)]>) w)
  end.

(** [write] until [count] bytes of [buf] are written, at the file position. *)
Definition sys_write (fd : Z) (buf : list ascii) (count : nat) (w : world) : Z * world :=
  match fd_inode w fd with
  | None => sys_fail (-1) EBADF w
  | Some (ino, i) =>
      if bool_decide (st_fmt i = S_IFREG) then
        let pos := default 0%nat (of_pos <$> w_fds w !! Z.to_nat fd) in
        let bytes := take count buf in
        let data := take pos (i_data i) ++ bytes
                    ++ drop (pos + length bytes) (i_data i) in
        (Z.of_nat (length bytes),
         with_fds (<[Z.to_nat fd := OpenFile ino (pos + length bytes)]>)
                  (with_inodes (<[ino := set_data data i]>) w))
      else sys_fail (-1) EINVAL w
  end.

Definition sys_symlinkat (target : list ascii) (dir_fd : Z) (name : string) (w : world)
  : Z * world :=
  match dir_at w dir_fd with
  | inl e => sys_fail (-1) e w
  | inr (d, di) =>
      if st_nlink di =? 0 then sys_fail (-1) ENOENT w
      else match dir_entry w d name with
           | Some _ => sys_fail (-1) EEXIST w
           | None =>
               if may_write w di
               then (0, snd (fs_create d name (new_inode w S_IFLNK 511 target) w))
               else sys_fail (-1) EACCES w
           end
  end.

(** [readlinkat(dir_fd, name, buf, bufsiz)]: the return value and the
    bytes stored (no NUL is appended). *)
Definition sys_readlinkat (dir_fd : Z) (name : string) (bufsiz : nat) (w : world)
  : Z * list ascii * world :=
  match dir_at w dir_fd with
  | inl e => sys_fail (-1, []) e w
  | inr (d, _) =>
      match dir_entry w d name with
      | None => sys_fail (-1, []) ENOENT w
      | Some (_, i) =>
          if bool_decide (st_fmt i = S_IFLNK) then
            let bytes := take bufsiz (i_data i) in
            (Z.of_nat (length bytes), bytes, w)
          else sys_fail (-1, []) EINVAL w
      end
  end.

(** [unlinkat(dir_fd, name, 0)]: removes files only. *)
Definition sys_unlinkat (dir_fd : Z) (name : string) (w : world) : Z * world :=
  match dir_at w dir_fd with
  | inl e => sys_fail (-1) e w
  | inr (d, di) =>
      match dir_entry w d name with
      | None => sys_fail (-1) ENOENT w
      | Some (_, i) =>
          if is_dir i then sys_fail (-1) EISDIR w
          else if may_write w di then (0, fs_unlink d name w)
          else sys_fail (-1) EACCES w
      end
  end.

(** [access(path, F_OK)] *)
Definition sys_access (path : string) (w : world) : Z * world :=
  if bool_decide (path ∈ w_proc w) || bool_decide (is_Some (w_paths w !! path))
  then (0, w) else sys_fail (-1) ENOENT w.

(** [fchown(fd, uid, gid)]: the super-user may give any owner and group,
    the owner may keep the owner.  The group asked for is not checked
    against the groups of the process, which are not in the model. *)
Definition sys_fchown (fd uid gid : Z) (w : world) : Z * world :=
  match fd_inode w fd with
  | None => sys_fail (-1) EBADF w
  | Some (ino, i) =>
      if (w_euid w =? 0) || ((w_euid w =? st_uid i) && (uid =? st_uid i))
      then (0, with_inodes (<[ino := set_owner uid gid i]>) w)
      else sys_fail (-1) EPERM w
  end.

Definition sys_fchmod (fd mode : Z) (w : world) : Z * world :=
  match fd_inode w fd with
  | None => sys_fail (-1) EBADF w
  | Some (ino, i) =>
      if (w_euid w =? 0) || (w_euid w =? st_uid i)
      then (0, with_inodes (<[ino := set_mode mode i]>) w)
      else sys_fail (-1) EPERM w
  end.

(** ** The monad of the program

    A function of the program runs on a world and returns, or terminates
    the process ([error_msg_and_die], [xfunc_die]), or exhausts the bound
    the model puts on its unbounded loops. *)

Inductive outcome (A : Type) : Type :=
| Ret (a : A) (w : world)
| Die (w : world)
| Spin.
Arguments Ret {A} a w.
Arguments Die {A} w.
Arguments Spin {A}.

Definition M (A : Type) : Type := world → outcome A.

#[global] Instance M_ret : MRet M := λ A a w, Ret a w.
#[global] Instance M_bind : MBind M := λ A B f m w,
  match m w with
  | Ret a w' => f a w'
  | Die w' => Die w'
  | Spin => Spin
  end.

(** A system call: the other processes run, then the call happens. *)
Definition syscall {A} (f : world → A * world) : M A :=
  λ w, let '(a, w') := f (env_step w) in Ret a w'.

Definition get_errno : M Z := λ w, Ret (w_errno w) w.
Definition set_errno (e : Z) : M unit := λ w, Ret tt (with_errno e w).
Definition spin {A} : M A := λ _, Spin.

(** Logging; the [VERBn] guards are taken as satisfied, so that [w_log]
    is the log at the highest verbosity.  Messages are kept without the
    values formatted into them. *)
Definition log (msg : string) : M unit := λ w, Ret tt (with_log msg w).
Definition perror_msg (msg : string) : M unit := log msg.
Definition error_msg (msg : string) : M unit := log msg.
Definition error_msg_and_die {A} (msg : string) : M A := λ w, Die (with_log msg w).
Definition xfunc_die {A} : M A := λ w, Die w.

Definition usleep (usec : Z) : M unit := syscall (λ w, (tt, w)).
Definition getpid : M Z := λ w, Ret (w_pid w) w.
Definition getpwuid (uid : Z) : M (option passwd) := λ w, Ret (w_passwd w !! uid) w.
Definition getgrgid (gid : Z) : M (option group) := λ w, Ret (w_group w !! gid) w.

Definition openat (dir_fd : Z) (name : string) (flags mode : Z) : M Z :=
  syscall (sys_openat dir_fd name flags mode).
Definition open (path : string) (flags : Z) : M Z := syscall (sys_open path flags).
Definition close (fd : Z) : M Z := syscall (sys_close fd).
Definition fstat (fd : Z) : M (option inode) := syscall (sys_fstat fd).
Definition fstatat (dir_fd : Z) (name : string) : M (option inode) :=
  syscall (sys_fstatat dir_fd name).
Definition read (fd : Z) (count : nat) : M (Z * list ascii) := syscall (sys_read fd count).
Definition symlinkat (target : list ascii) (dir_fd : Z) (name : string) : M Z :=
  syscall (sys_symlinkat target dir_fd name).
Definition readlinkat (dir_fd : Z) (name : string) (bufsiz : nat) : M (Z * list ascii) :=
  syscall (sys_readlinkat dir_fd name bufsiz).
Definition unlinkat (dir_fd : Z) (name : string) : M Z := syscall (sys_unlinkat dir_fd name).
Definition access (path : string) : M Z := syscall (sys_access path).
Definition fchown (fd uid gid : Z) : M Z := syscall (sys_fchown fd uid gid).
Definition fchmod (fd mode : Z) : M Z := syscall (sys_fchmod fd mode).

(** [full_write(fd, buf, count)]: the number of bytes written, or -1. *)
Definition full_write (fd : Z) (buf : list ascii) (count : nat) : M Z :=
  syscall (sys_write fd buf count).

(** The bytes [fgetc] delivers from a stream on [fd] until it returns
    [EOF], at the end of the file or at a read error. *)
Definition fgetc_until_EOF (fd : Z) : M (list ascii) :=
  syscall (λ w,
    let size := default 0%nat ((λ p, length (i_data (snd p))) <$> fd_inode w fd) in
    let '(_, bytes, w') := sys_read fd size w in (bytes, w')).

(** Modelled from the spec: [xunlinkat] of xfuncs.c, which is not under
    src/; section 4.3 has it unlink and be "fatal on failure". *)
Definition xunlinkat (dir_fd : Z) (name : string) : M unit :=
  r ← unlinkat dir_fd name;
  if negb (r =? 0) then error_msg_and_die "Can't remove file" else mret tt.

(** ** dump_dir.c *)

(** Modelled from the spec: the flag bits of dump_dir.h, which is not
    under src/ (section 6, Flags): one bit each. *)
Definition DD_FAIL_QUIETLY_ENOENT : Z := 1.
Definition DD_FAIL_QUIETLY_EACCES : Z := 2.
Definition DD_OPEN_FOLLOW : Z := 4.
Definition DD_OPEN_READONLY : Z := 8.
Definition DD_LOAD_TEXT_RETURN_NULL_ON_FAILURE : Z := 16.
Definition DD_DONT_WAIT_FOR_LOCK : Z := 32.
Definition DD_CREATE_PARENTS : Z := 64.

(** Modelled from the spec: the item names of the header (section 6). *)
Definition FILENAME_TIME : string := "time".
Definition FILENAME_REPORTED_TO : string := "reported_to".
Definition FILENAME_OS_RELEASE : string := "os_release".

Definition SYMLINK_RETRY_USLEEP : Z := 10 * 1000.
Definition WAIT_FOR_OTHER_PROCESS_USLEEP : Z := 500 * 1000.
Definition CREATE_LOCK_USLEEP : Z := 10 * 1000.
Definition NO_TIME_FILE_USLEEP : Z := 50 * 1000.
Definition NO_TIME_FILE_COUNT : Z := 10.

(** [unsigned] arithmetic *)
Definition unsigned_wrap (z : Z) : Z := z mod 2 ^ 32.

(** Modelled from the spec: [str_is_correct_filename], which is not under
    src/; by section 6 a name is non-empty, has no [/] and no control
    character, and is neither [.] nor [..]. *)
Definition str_is_correct_filename (name : string) : bool :=
  let s := list_ascii_of_string name in
  negb (bool_decide (s = []))
  && forallb (λ c, negb (Ascii.eqb c "/") && (32 <=? code c) && negb (code c =? 127)) s
  && negb (String.eqb name ".") && negb (String.eqb name "..").

(** The handle ([struct dump_dir], without the iteration cursor). *)
Record dump_dir := DumpDir {
  dd_dirname : string;
  dd_fd : Z;
  locked : bool;
  dd_uid : Z;
  dd_gid : Z;
  mode : Z;
  dd_time : Z
}.

Definition set_locked (b : bool) (dd : dump_dir) : dump_dir :=
  DumpDir (dd_dirname dd) (dd_fd dd) b (dd_uid dd) (dd_gid dd) (mode dd) (dd_time dd).
Definition set_dd_time (t : Z) (dd : dump_dir) : dump_dir :=
  DumpDir (dd_dirname dd) (dd_fd dd) (locked dd) (dd_uid dd) (dd_gid dd) (mode dd) t.

(** [isdigit_str] on a C string: a do-while loop, so that the empty
    string is refused at its terminator. *)
Fixpoint isdigit_str (str : list ascii) : bool :=
  match str with
  | [] => false
  | c :: str' =>
      if (code c <? code "0") || (code "9" <? code c) then false
      else match str' with
           | [] => true
           | _ :: _ => isdigit_str str'
           end
  end.

Definition exist_file_dir_at (dir_fd : Z) (name : string) : M bool :=
  buf ← fstatat dir_fd name;
  match buf with
  | Some st =>
      if bool_decide (st_fmt st = S_IFDIR) || bool_decide (st_fmt st = S_IFREG)
      then mret true else mret false
  | None => mret false
  end.

Definition secure_openat_read (dir_fd : Z) (pathname : string) : M Z :=
  path_fd ← openat dir_fd pathname (Z.lor O_RDONLY O_NOFOLLOW) 0;
  if path_fd <? 0 then mret (-1)
  else
    r ← fstat path_fd;
    match r with
    | None =>
        perror_msg "stat";;
        close path_fd;;
        mret (-1)
    | Some path_sb =>
        if negb (bool_decide (st_fmt path_sb = S_IFREG)) || (1 <? st_nlink path_sb)
        then
          log "Path isn't a regular file or has more links";;
          set_errno EINVAL;;
          close path_fd;;
          mret (-1)
        else mret path_fd
    end.

Section Build.

(** The platform: [sizeof(time_t)], 4 or 8. *)
Variable sizeof_time_t : Z.

Definition sizeof_time_buf : Z := sizeof_time_t * 3 + 1.

(** [(1ULL << (sizeof(time_t)*8 - 1)) - 1] stored in a [long long]. *)
Definition MAX_TIME_T : Z :=
  llong_wrap ((Z.shiftl 1 (sizeof_time_t * 8 - 1) mod 2 ^ 64 - 1) mod 2 ^ 64).

(** A [long long] returned as a [time_t]. *)
Definition time_t_wrap (z : Z) : Z :=
  (z + 2 ^ (sizeof_time_t * 8 - 1)) mod 2 ^ (sizeof_time_t * 8)
  - 2 ^ (sizeof_time_t * 8 - 1).

Definition parse_time_file_at (dir_fd : Z) (filename : string) : M Z :=
  fd ← secure_openat_read dir_fd filename;
  if fd <? 0 then
    perror_msg "Can't open";;
    mret (-1)
  else
    '(rdsz, bytes) ← read fd (Z.to_nat sizeof_time_buf);
    close fd;;
    if rdsz =? -1 then
      perror_msg "Can't read";;
      mret (-1)
    else if rdsz =? sizeof_time_buf then
      log "File is too long to be valid unix time stamp";;
      mret (-1)
    else
      let rdsz :=
        if (0 <? rdsz) && Ascii.eqb (nth (Z.to_nat (rdsz - 1)) bytes NUL) LF
        then rdsz - 1 else rdsz in
      (* time_buf[rdsz] = '\0' *)
      let time_buf := c_str (take (Z.to_nat rdsz) bytes) in
      set_errno 0;;
      let res := strtoll time_buf in
      match strtoll_errno res with Some e => set_errno e | None => mret tt end;;
      let val := strtoll_val res in
      errno ← get_errno;
      if negb (errno =? 0)
         || negb (bool_decide (strtoll_end res = []))
         || (MAX_TIME_T <=? val)
         || negb (isdigit_str time_buf)
      then
        perror_msg "File doesn't contain valid unix time stamp";;
        mret (-1)
      else mret (time_t_wrap val).

(** [sizeof(pid_buf) - 1] for [char pid_buf[sizeof(pid_t)*3 + 4]] *)
Definition readlink_bufsiz : nat := 15.

Fixpoint create_symlink_lockfile_at (fuel : nat) (dir_fd : Z) (lock_file : string)
    (pid : list ascii) : M Z :=
  match fuel with
  | O => spin
  | S fuel' =>
      r ← symlinkat pid dir_fd lock_file;
      if r =? 0 then
        log "Locked";;
        mret 1
      else
        errno ← get_errno;
        if negb (errno =? EEXIST) then
          (if negb (errno =? ENOENT) && negb (errno =? ENOTDIR)
              && negb (errno =? EACCES)
           then perror_msg "Can't create lock file";; set_errno 0
           else mret tt);;
          mret (-1)
        else
          '(r, bytes) ← readlinkat dir_fd lock_file readlink_bufsiz;
          if r <? 0 then
            errno ← get_errno;
            if errno =? ENOENT then
              usleep SYMLINK_RETRY_USLEEP;;
              create_symlink_lockfile_at fuel' dir_fd lock_file pid
            else
              perror_msg "Can't read lock file";;
              set_errno 0;;
              mret (-1)
          else
            (* pid_buf[r] = '\0' *)
            let pid_buf := c_str (take (Z.to_nat r) bytes) in
            if strcmp pid_buf pid =? 0 then
              log "Lock file is already locked by us";;
              mret 0
            else
              alive ←
                (if isdigit_str pid_buf then
                   r ← access ("/proc/" +:+ string_of_list_ascii pid_buf);
                   if r =? 0 then
                     log "Lock file is locked by process";;
                     mret true
                   else
                     log "Lock file was locked by process, but it crashed?";;
                     mret false
                 else mret false);
              if alive : bool then mret 0
              else
                r ← unlinkat dir_fd lock_file;
                errno ← get_errno;
                if negb (r =? 0) && negb (errno =? ENOENT) then
                  perror_msg "Can't remove stale lock file";;
                  set_errno 0;;
                  mret (-1)
                else create_symlink_lockfile_at fuel' dir_fd lock_file pid
  end.

(** [dd_check]: the name of the missing file, or NULL; [dd_time] is set. *)
Definition dd_check (dd : dump_dir) : M (option string * dump_dir) :=
  t ← parse_time_file_at (dd_fd dd) FILENAME_TIME;
  let dd := set_dd_time t dd in
  if t <? 0 then
    log "Missing file: time";;
    mret (Some FILENAME_TIME, dd)
  else mret (None, dd).

Definition MSG_UNLOCKED_NO_TIME : string := "Unlocked (no or corrupted file)".

(** The body of [dd_lock] from the label [retry] on, with the value of
    [count]; one unit of [fuel] per turn of the [while (1)] loop and
    per [goto retry]. *)
Fixpoint dd_lock_retry (fuel : nat) (dd : dump_dir) (sleep_usec flags : Z)
    (pid_buf : list ascii) (count : Z) : M (Z * dump_dir) :=
  match fuel with
  | O => spin
  | S fuel' =>
      r ← create_symlink_lockfile_at fuel' (dd_fd dd) ".lock" pid_buf;
      if r <? 0 then mret (r, dd)
      else if negb (0 <? r) then
        usleep sleep_usec;;
        dd_lock_retry fuel' dd sleep_usec flags pid_buf count
      else
        if sleep_usec =? WAIT_FOR_OTHER_PROCESS_USLEEP then
          '(missing_file, dd) ← dd_check dd;
          match missing_file with
          | Some _ =>
              xunlinkat (dd_fd dd) ".lock";;
              log MSG_UNLOCKED_NO_TIME;;
              let count := unsigned_wrap (count - 1) in
              if (count =? 0) || has_flag flags DD_DONT_WAIT_FOR_LOCK then
                set_errno EISDIR;;
                mret (-1, dd)
              else
                usleep NO_TIME_FILE_USLEEP;;
                dd_lock_retry fuel' dd sleep_usec flags pid_buf count
          | None => mret (0, set_locked true dd)
          end
        else mret (0, set_locked true dd)
  end.

Definition dd_lock (fuel : nat) (dd : dump_dir) (sleep_usec flags : Z)
  : M (Z * dump_dir) :=
  if locked dd then error_msg_and_die "Locking bug"
  else
    pid ← getpid;
    let pid_buf := list_ascii_of_string (pretty pid) in
    dd_lock_retry fuel dd sleep_usec flags pid_buf NO_TIME_FILE_COUNT.

Definition dd_unlock (dd : dump_dir) : M dump_dir :=
  if locked dd then
    let dd := set_locked false dd in
    xunlinkat (dd_fd dd) ".lock";;
    log "Unlocked";;
    mret dd
  else mret dd.

Definition dd_exist (dd : dump_dir) (name : string) : M bool :=
  if negb (str_is_correct_filename name)
  then error_msg_and_die "Cannot test existence. Not a valid file name"
  else exist_file_dir_at (dd_fd dd) name.

End Build.

(** *** Items *)

Definition load_text_from_file_descriptor (fd : Z) (path : string) (flags : Z)
  : M (option (list ascii)) :=
  if fd =? -1 then
    (if negb (has_flag flags DD_FAIL_QUIETLY_ENOENT)
     then perror_msg "Can't open file" else mret tt);;
    mret (if has_flag flags DD_LOAD_TEXT_RETURN_NULL_ON_FAILURE
          then None else Some [])
  else
    fp ← fgetc_until_EOF fd;
    close fd;;
    mret (Some (TextLoader.load_text_from_stream fp)).

(** [assert(name[0] != '/')] *)
Definition assert_relative (name : string) : M unit :=
  match name with
  | String "/" _ => xfunc_die
  | _ => mret tt
  end.

Definition load_text_file_at (dir_fd : Z) (name : string) (flags : Z)
  : M (option (list ascii)) :=
  assert_relative name;;
  fd ← openat dir_fd name
         (Z.lor O_RDONLY (if has_flag flags DD_OPEN_FOLLOW then 0 else O_NOFOLLOW)) 0;
  load_text_from_file_descriptor fd name flags.

(** [(uid_t)-1L] *)
Definition NO_UID : Z := 2 ^ 32 - 1.

Definition save_binary_file_at (dir_fd : Z) (name : string) (data : list ascii)
    (size : Z) (uid gid mode : Z) : M bool :=
  assert_relative name;;
  unlinkat dir_fd name;;
  fd ← openat dir_fd name
         (Z.lor (Z.lor (Z.lor O_WRONLY O_EXCL) O_CREAT) O_NOFOLLOW) mode;
  if fd <? 0 then
    perror_msg "Can't open file";;
    mret false
  else
    chowned ←
      (if negb (uid =? NO_UID) then
         r ← fchown fd uid gid;
         if r =? -1 then
           perror_msg "Can't change ownership";;
           close fd;;
           mret false
         else mret true
       else mret true);
    if negb chowned then mret false
    else
      r ← fchmod fd mode;
      if r =? -1 then
        perror_msg "Can't change mode";;
        close fd;;
        mret false
      else
        r ← full_write fd data (Z.to_nat size);
        close fd;;
        if negb (unsigned_wrap r =? size) then
          error_msg "Can't save file";;
          mret false
        else mret true.

Definition dd_load_text_ext (dd : dump_dir) (name : string) (flags : Z)
  : M (option (list ascii)) :=
  if negb (str_is_correct_filename name) then
    error_msg "Cannot load text. Not a valid file name";;
    if has_flag flags DD_LOAD_TEXT_RETURN_NULL_ON_FAILURE then mret None
    else xfunc_die
  else
    let name := if String.eqb name "release" then FILENAME_OS_RELEASE else name in
    load_text_file_at (dd_fd dd) name flags.

Definition dd_load_text (dd : dump_dir) (name : string) : M (option (list ascii)) :=
  dd_load_text_ext dd name 0.

Definition dd_save_text (dd : dump_dir) (name : string) (data : list ascii) : M unit :=
  if negb (locked dd) then error_msg_and_die "dump_dir is not opened"
  else if negb (str_is_correct_filename name)
  then error_msg_and_die "Cannot save text. Not a valid file name"
  else
    save_binary_file_at (dd_fd dd) name data (unsigned_wrap (strlen data))
                        (dd_uid dd) (dd_gid dd) (mode dd);;
    mret tt.

Definition dd_delete_item (dd : dump_dir) (name : string) : M Z :=
  if negb (locked dd) then error_msg_and_die "dump_dir is not opened"
  else if negb (str_is_correct_filename name)
  then error_msg_and_die "Cannot delete item. Not a valid file name"
  else
    res ← unlinkat (dd_fd dd) name;
    if res <? 0 then
      errno ← get_errno;
      if errno =? ENOENT then mret 0
      else
        perror_msg "Can't delete file";;
        mret res
    else mret res.

(** *** The [reported_to] log *)

(** [strchrnul(s, c)]: the string at the first [c], or at the terminator. *)
Fixpoint strchrnul (s : list ascii) (c : ascii) : list ascii :=
  match s with
  | [] => []
  | x :: s' => if Ascii.eqb x c || Ascii.eqb x NUL then s else strchrnul s' c
  end.

(** Modelled from the spec: [skip_whitespace] and [skip_non_whitespace]
    of the string helpers, which are not under src/ (section 4.8:
    "Tokenize on whitespace"), on a C string. *)
Definition skip_whitespace (s : list ascii) : list ascii := dropwhile_space s.

Fixpoint skip_non_whitespace (s : list ascii) : list ascii :=
  match s with
  | c :: s' => if isspace (code c) then s else skip_non_whitespace s'
  | [] => []
  end.

Definition inspect {A} (a : A) : {b : A | a = b} := exist _ a eq_refl.

(** The test of [add_reported_to] at a line start [p]:
    [strncmp(p, line, len_line) == 0 && (p[len_line] == '\n' || p[len_line] == '\0')] *)
Definition line_at (p line : list ascii) (len_line : nat) : bool :=
  (strncmp p line len_line =? 0)
  && (Ascii.eqb (nth len_line p NUL) LF
      || Ascii.eqb (nth len_line p NUL) NUL).

(** The [while] loop of [add_reported_to] on the C string at [p]:
    [None] when it leaves by [goto ret], otherwise the string at the
    final [p]. *)
Equations? reported_to_scan (line : list ascii) (len_line : nat) (p : list ascii)
  : option (list ascii) by wf (length p) lt :=
  reported_to_scan line len_line [] := Some [];
  reported_to_scan line len_line (c :: p') with inspect (strchrnul (c :: p') LF) := {
    | exist _ [] _ := if line_at (c :: p') line len_line then None else Some [];
    | exist _ (x :: q) Hq :=
        if line_at (c :: p') line len_line then None
        else reported_to_scan line len_line q }.
Proof.
  assert (Hlen : ∀ s, (length (strchrnul s LF) ≤ length s)%nat).
  { induction s as [|y s IH]; simpl; [lia|].
    destruct (Ascii.eqb y LF || Ascii.eqb y NUL); simpl; lia. }
  specialize (Hlen (c :: p')).
  change (strchrnul (c :: p') LF = x :: q) in Hq.
  rewrite Hq in Hlen. simpl in *. lia.
Qed.

Record report_result := ReportResult {
  url : option (list ascii);
  msg : option (list ascii)
}.

Definition MSG_KEY : list ascii := list_ascii_of_string "MSG=".
Definition URL_KEY : list ascii := list_ascii_of_string "URL=".

(** The [for (;;)] loop of [parse_reported_line] on the C string [line]. *)
Equations? parse_reported_loop (line : list ascii) (result : report_result)
  : report_result by wf (length line) lt :=
  parse_reported_loop line result with inspect (skip_whitespace line) := {
    | exist _ [] _ := result;
    | exist _ (c :: rest) Hline :=
        let line := c :: rest in
        let end_ := skip_non_whitespace line in
        if strncmp line MSG_KEY 4 =? 0 then
          ReportResult (url result) (Some (drop 4 line))
        else
          let result :=
            if strncmp line URL_KEY 4 =? 0 then
              ReportResult
                (Some (take (length line - length end_ - 4) (drop 4 line)))
                (msg result)
            else result in
          parse_reported_loop end_ result }.
Proof.
  assert (H1 : (length (skip_whitespace line0) ≤ length line0)%nat).
  { clear. induction line0 as [|y s IH]; simpl; [lia|].
    destruct (isspace (code y)); simpl; lia. }
  assert (H2 : isspace (code c) = false).
  { clear -Hline. induction line0 as [|y s IH]; simpl in Hline; [done|].
    destruct (isspace (code y)) eqn:E; [by apply IH|]. by simplify_eq. }
  assert (H3 : (length (skip_non_whitespace rest) ≤ length rest)%nat).
  { clear. induction rest as [|y s IH]; simpl; [lia|].
    destruct (isspace (code y)); simpl; lia. }
  rewrite Hline in H1. clear result. subst end_ line. cbn [skip_non_whitespace].
  rewrite H2. simpl in *. lia.
Qed.

Definition parse_reported_line (line : list ascii) : report_result :=
  parse_reported_loop line (ReportResult None None).

Definition add_reported_to (dd : dump_dir) (line : list ascii) : M unit :=
  if negb (locked dd) then error_msg_and_die "dump_dir is not opened"
  else
    loaded ← dd_load_text_ext dd FILENAME_REPORTED_TO
               (Z.lor DD_FAIL_QUIETLY_ENOENT DD_LOAD_TEXT_RETURN_NULL_ON_FAILURE);
    let line := c_str line in
    match loaded with
    | Some buf =>
        let reported_to := c_str buf in
        let len_line := Z.to_nat (unsigned_wrap (strlen line)) in
        match reported_to_scan line len_line reported_to with
        | None => mret tt
        | Some p =>
            let offset := (length reported_to - length p)%nat in
            let reported_to :=
              if negb (Nat.eqb offset 0)
                 && negb (Ascii.eqb (nth (offset - 1) reported_to NUL) LF)
              then reported_to ++ [LF] else reported_to in
            let reported_to := reported_to ++ line in
            let reported_to := reported_to ++ [LF] in
            dd_save_text dd FILENAME_REPORTED_TO reported_to
        end
    | None => dd_save_text dd FILENAME_REPORTED_TO (line ++ [LF])
    end.

(** [*p] for the offset [p] into the buffer [buf]; the terminator is read
    at the end of the list. *)
Definition char_at (buf : list ascii) (p : nat) : ascii := nth p buf NUL.

(** The offset [strchrnul(buf + p, c)] points to. *)
Definition strchrnul_at (buf : list ascii) (p : nat) (c : ascii) : nat :=
  (p + (length (drop p buf) - length (strchrnul (drop p buf) c)))%nat.

(** The [while] loop of [find_in_reported_to]: the buffer, in which the
    line ends passed are overwritten with NUL, the offset [p] and the
    offset [found] (NULL is [None]). *)
Equations? find_loop (prefix : list ascii) (prefix_len : nat) (buf : list ascii)
    (p : nat) (found : option nat)
  : list ascii * option nat by wf (length buf - p)%nat lt :=
  find_loop prefix prefix_len buf p found
    with inspect (Ascii.eqb (char_at buf p) NUL) := {
    | exist _ true _ := (buf, found);
    | exist _ false Hp :=
        let found :=
          if strncmp (drop p buf) prefix prefix_len =? 0
          then Some (p + prefix_len)%nat else found in
        let q := strchrnul_at buf p LF in
        if negb (Ascii.eqb (char_at buf q) NUL)
        then find_loop prefix prefix_len (<[q := NUL]> buf) (S q) found
        else (buf, found) }.
Proof.
  assert (Hlt : (p < length buf)%nat).
  { destruct (decide (p < length buf)%nat) as [|Hge]; [done|].
    unfold char_at in Hp. rewrite nth_overflow in Hp by lia. done. }
  rewrite length_insert. unfold q, strchrnul_at. lia.
Qed.

Definition find_in_reported_to (dd : dump_dir) (prefix : list ascii)
  : M (option report_result) :=
  loaded ← dd_load_text_ext dd FILENAME_REPORTED_TO
             (Z.lor DD_FAIL_QUIETLY_ENOENT DD_LOAD_TEXT_RETURN_NULL_ON_FAILURE);
  match loaded with
  | None => mret None
  | Some buf =>
      let prefix := c_str prefix in
      let prefix_len := Z.to_nat (unsigned_wrap (strlen prefix)) in
      let '(buf, found) := find_loop prefix prefix_len (c_str buf) 0 None in
      match found with
      | Some f => mret (Some (parse_reported_line (c_str (drop f buf))))
      | None => mret None
      end
  end.

(** *** The accessibility query *)

Section Policy.

(** The configuration macro [DUMP_DIR_OWNED_BY_USER]. *)
Variable DUMP_DIR_OWNED_BY_USER : Z.

Definition uid_in_group (uid gid : Z) : M bool :=
  pwd ← getpwuid uid;
  match pwd with
  | None => mret false
  | Some pwd =>
      if pw_gid pwd =? gid then mret true
      else
        grp ← getgrgid gid;
        match grp with
        | Some (Group grp_name (Some members)) =>
            if existsb (String.eqb (pw_name pwd)) members then
              log "user belongs to group";;
              mret true
            else
              log "user DOESN'T belong to group";;
              mret false
        | _ => mret false
        end
  end.

Definition DD_STAT_ACCESSIBLE_BY_UID : Z := 1.
Definition DD_STAT_OWNED_BY_UID : Z := Z.shiftl DD_STAT_ACCESSIBLE_BY_UID 1.

Definition fdump_dir_stat_for_uid (dir_fd uid : Z) : M Z :=
  statbuf ← fstat dir_fd;
  match statbuf with
  | Some st =>
      if negb (is_dir st) then
        log "can't get stat: not a problem directory";;
        set_errno ENOTDIR;;
        mret (-1)
      else
        set_errno 0;;
        let ddstat := 0 in
        ddstat ←
          (if (uid =? 0) || has_flag (st_mode st) S_IROTH then
             log "directory is accessible by uid";;
             mret (Z.lor ddstat DD_STAT_ACCESSIBLE_BY_UID)
           else mret ddstat);
        owner ←
          (if 0 <? DUMP_DIR_OWNED_BY_USER then
             mret ((uid =? 0) || has_flag (st_mode st) S_IROTH
                   || (uid =? st_uid st))
           else
             if (uid =? 0) || has_flag (st_mode st) S_IROTH then mret true
             else uid_in_group uid (st_gid st));
        if owner : bool then
          log "uid owns directory";;
          mret (Z.lor (Z.lor ddstat DD_STAT_ACCESSIBLE_BY_UID) DD_STAT_OWNED_BY_UID)
        else mret ddstat
  | None =>
      log "can't get stat: not a problem directory";;
      set_errno ENOTDIR;;
      mret (-1)
  end.

Definition dump_dir_stat_for_uid (dirname : string) (uid : Z) : M Z :=
  dir_fd ← open dirname (Z.lor O_DIRECTORY O_NOFOLLOW);
  if dir_fd <? 0 then
    log "can't open: not a problem directory";;
    set_errno ENOTDIR;;
    mret (-1)
  else
    r ← fdump_dir_stat_for_uid dir_fd uid;
    close dir_fd;;
    mret r.

Definition fdump_dir_accessible_by_uid (dir_fd uid : Z) : M Z :=
  ddstat ← fdump_dir_stat_for_uid dir_fd uid;
  if 0 <=? ddstat then mret (Z.land ddstat DD_STAT_ACCESSIBLE_BY_UID)
  else
    perror_msg "can't determine accessibility for uid";;
    mret 0.

Definition dump_dir_accessible_by_uid (dirname : string) (uid : Z) : M Z :=
  ddstat ← dump_dir_stat_for_uid dirname uid;
  if 0 <=? ddstat then mret (Z.land ddstat DD_STAT_ACCESSIBLE_BY_UID)
  else
    perror_msg "can't determine accessibility by uid";;
    mret 0.

End Policy.


(** ** dump_dir.c: the rest of the handle's life cycle *)

(** [rm_trailing_slashes]: the [while] loop on [len], from the length
    stored in an [unsigned]. *)
Fixpoint rm_trailing_slashes_loop (dir : list ascii) (len : nat) : nat :=
  match len with
  | O => O
  | S len' =>
      if Ascii.eqb (nth len' dir NUL) "/" then rm_trailing_slashes_loop dir len'
      else len
  end.

(** [xstrndup(dir, len)] is the C string of the first [len] bytes. *)
Definition rm_trailing_slashes (dir : list ascii) : list ascii :=
  let len := Z.to_nat (unsigned_wrap (strlen dir)) in
  let len := rm_trailing_slashes_loop dir len in
  c_str (take len dir).

(** [dd_save_binary]; [size] is an [unsigned], and [data] a buffer of
    [size] bytes at least. *)
Definition dd_save_binary (dd : dump_dir) (name : string) (data : list ascii) (size : Z)
  : M unit :=
  if negb (locked dd) then error_msg_and_die "dump_dir is not opened"
  else if negb (str_is_correct_filename name)
  then error_msg_and_die "Cannot save binary. Not a valid file name"
  else
    save_binary_file_at (dd_fd dd) name data size (dd_uid dd) (dd_gid dd) (mode dd);;
    mret tt.

(** *** Opening and closing a handle *)

(** [geteuid()] *)
Definition geteuid : M Z := λ w, Ret (w_euid w) w.

(** [faccessat(dir_fd, ".", R_OK, AT_SYMLINK_NOFOLLOW)].  The call
    checks the real user, and the world has one user for the process:
    the real user is taken to be the effective one. *)
Definition sys_faccessat_read (dir_fd : Z) (w : world) : Z * world :=
  match dir_at w dir_fd with
  | inl e => sys_fail (-1) e w
  | inr (_, di) => if may_read w di then (0, w) else sys_fail (-1) EACCES w
  end.
Definition faccessat_read (dir_fd : Z) : M Z := syscall (sys_faccessat_read dir_fd).

(** [closedir] of a stream made by [fdopendir]: its descriptor is closed. *)
Definition closedir (dir : Z) : M Z := close dir.

Definition set_dd_dirname (name : string) (dd : dump_dir) : dump_dir :=
  DumpDir name (dd_fd dd) (locked dd) (dd_uid dd) (dd_gid dd) (mode dd) (dd_time dd).
Definition set_dd_fd (fd : Z) (dd : dump_dir) : dump_dir :=
  DumpDir (dd_dirname dd) fd (locked dd) (dd_uid dd) (dd_gid dd) (mode dd) (dd_time dd).
Definition set_dd_mode (m : Z) (dd : dump_dir) : dump_dir :=
  DumpDir (dd_dirname dd) (dd_fd dd) (locked dd) (dd_uid dd) (dd_gid dd) m (dd_time dd).
Definition set_dd_owner (uid gid : Z) (dd : dump_dir) : dump_dir :=
  DumpDir (dd_dirname dd) (dd_fd dd) (locked dd) uid gid (mode dd) (dd_time dd).

(** [dd_init]: the zeroed structure, with [dd_time] and [dd_fd] at -1;
    the NULL [dd_dirname] is the empty string, and the NULL [next_dir]
    is the absence of a cursor. *)
Definition dd_init : dump_dir := DumpDir "" (-1) false 0 0 0 (-1).

(** [dd_close] of a handle that is not NULL; [next_dir] is the
    descriptor of the directory stream of the handle, if it has one. *)
Definition dd_close (dd : dump_dir) (next_dir : option Z) : M unit :=
  dd ← dd_unlock dd;
  (if 0 <=? dd_fd dd then close (dd_fd dd);; mret tt else mret tt);;
  match next_dir with
  | Some dir => closedir dir;; mret tt
  | None => mret tt
  end.

Section Open.

Variable sizeof_time_t : Z.

(** [dd_do_open] from the label [cant_access] on. *)
Definition dd_do_open_cant_access (dd : dump_dir) (flags : Z) : M (option dump_dir) :=
  errno ← get_errno;
  (if (errno =? ENOENT) || (errno =? ENOTDIR) then
     if negb (has_flag flags DD_FAIL_QUIETLY_ENOENT)
     then error_msg "does not exist" else mret tt
   else
     if negb (has_flag flags DD_FAIL_QUIETLY_EACCES)
     then perror_msg "Can't access" else mret tt);;
  dd_close dd None;;
  mret None.

(** [dd_do_open]; the handle comes from [dd_init] and has no cursor.
    [fuel] bounds the loops of [dd_lock]. *)
Definition dd_do_open (fuel : nat) (dd : dump_dir) (flags : Z) : M (option dump_dir) :=
  if dd_fd dd <? 0 then dd_do_open_cant_access dd flags
  else
    st ← fstat (dd_fd dd);
    match st with
    | None => dd_do_open_cant_access dd flags
    | Some stat_buf =>
        (* & 0666 *)
        let dd := set_dd_mode (Z.land (st_mode stat_buf) 438) dd in
        set_errno 0;;
        '(r, dd) ← dd_lock sizeof_time_t fuel dd WAIT_FOR_OTHER_PROCESS_USLEEP flags;
        if r <? 0 then
          errno ← get_errno;
          readable ←
            (if has_flag flags DD_OPEN_READONLY && (errno =? EACCES) then
               r ← faccessat_read (dd_fd dd);
               mret (r =? 0)
             else mret false);
          if readable : bool then
            '(missing_file, dd) ← dd_check sizeof_time_t dd;
            match missing_file with
            | Some _ =>
                dd_close dd None;;
                mret None
            | None => mret (Some dd)
            end
          else
            errno ← get_errno;
            if errno =? EISDIR then
              error_msg "is not a problem directory";;
              dd_close dd None;;
              mret None
            else dd_do_open_cant_access dd flags
        else
          let dd := set_dd_owner NO_UID NO_UID dd in
          euid ← geteuid;
          if euid =? 0 then
            st ← fstat (dd_fd dd);
            match st with
            | None =>
                error_msg "Can't stat";;
                dd_close dd None;;
                mret None
            | Some stat_buf =>
                mret (Some (set_dd_owner (st_uid stat_buf) (st_gid stat_buf) dd))
            end
          else mret (Some dd)
    end.

Definition dd_openfd (dir : string) : M Z := open dir (Z.lor O_DIRECTORY O_NOFOLLOW).

Definition dd_fdopendir (fuel : nat) (dir_fd : Z) (dir : string) (flags : Z)
  : M (option dump_dir) :=
  let dd := dd_init in
  let dd := set_dd_dirname
              (string_of_list_ascii (rm_trailing_slashes (list_ascii_of_string dir))) dd in
  let dd := set_dd_fd dir_fd dd in
  set_errno 0;;
  dd_do_open fuel dd flags.

Definition dd_opendir (fuel : nat) (dir : string) (flags : Z) : M (option dump_dir) :=
  let dd := dd_init in
  let dd := set_dd_dirname
              (string_of_list_ascii (rm_trailing_slashes (list_ascii_of_string dir))) dd in
  fd ← dd_openfd dir;
  let dd := set_dd_fd fd dd in
  dd_do_open fuel dd flags.

End Open.

(** ** Specifications

    The vocabulary of the statements proved below: what the source is
    compared with, and the sample worlds the statements are run on. *)

(** *** Runs *)

(** [post m w Q]: if [m] returns from [w], the result and the final world
    satisfy [Q]. *)
Definition post {A} (m : M A) (w : world) (Q : A → world → Prop) : Prop :=
  ∀ a w', m w = Ret a w' → Q a w'.

(** The worlds that differ from [w] in the log only. *)
Definition logged (w w' : world) : Prop :=
  ∃ msgs, w' = World (w_inodes w) (w_paths w) (w_fds w) (w_errno w) (w_euid w)
                     (w_pid w) (w_proc w) (w_passwd w) (w_group w)
                     (w_log w ++ msgs) (w_env w).

(** In the directory open as [dir_fd] the entry [name] is the inode
    [ino], with the content [i]. *)
Definition holds_item (w : world) (dir_fd : Z) (name : string) (ino : Z) (i : inode)
  : Prop :=
  0 ≤ dir_fd
  ∧ ∃ d di, of_ino <$> w_fds w !! Z.to_nat dir_fd = Some d
      ∧ w_inodes w !! d = Some di ∧ is_dir di = true
      ∧ i_entries di !! name = Some ino ∧ ino ≠ d
      ∧ w_inodes w !! ino = Some i.

(** The state of [save_binary_file_at] between the creation of the file
    and the [close]: the new file is the entry [name], open as [fd] at
    position [pos]. *)
Definition writing (w : world) (dir_fd : Z) (name : string) (fd : Z) (ino : Z)
    (i : inode) (pos : nat) : Prop :=
  holds_item w dir_fd name ino i
  ∧ 0 ≤ fd ∧ fd ≠ dir_fd
  ∧ w_fds w !! Z.to_nat fd = Some (OpenFile ino pos)
  ∧ w_env w = [].

(** *** The text loader *)

(** [oneline = (oneline << 1) | 1] on an [int]. *)
Definition shift_in (oneline : Z) : Z := int_wrap (Z.lor (Z.shiftl oneline 1) 1).

(** The bytes the loader keeps as they are. *)
Definition kept (c : ascii) : Prop := TextLoader.sanitize_byte c = Some c.

(** The text the specification expects back for the payload [data]. *)
Definition round_trip_text (data : list ascii) : list ascii :=
  if TextLoader.ends_with_newline data && Nat.eqb (TextLoader.count_newlines data) 1
  then removelast data
  else if Nat.ltb 0 (TextLoader.count_newlines data)
          && negb (TextLoader.ends_with_newline data)
       then data ++ [LF]
       else data.

(** *** The [time] file *)

(** The value of a sequence of decimal digits. *)
Definition decimal (s : list ascii) : Z :=
  fold_left (λ acc c, acc * 10 + (code c - code "0")) s 0.

(** What [parse_time_file_at] returns for the content [data] of a
    regular, readable [time] file with one link. *)
Definition time_file_value (sizeof_time_t : Z) (data : list ascii) : Z :=
  if sizeof_time_buf sizeof_time_t <=? Z.of_nat (length data) then -1
  else
    let stripped :=
      if TextLoader.ends_with_newline data then removelast data else data in
    let time_buf := c_str stripped in
    if isdigit_str time_buf && (decimal time_buf <? 2 ^ (sizeof_time_t * 8 - 1) - 1)
    then decimal time_buf else -1.

(** *** The lock *)

(** How often the lock was released for want of a [time] file, by the log. *)
Definition no_time_count (w : world) : nat :=
  length (filter (λ m, m = MSG_UNLOCKED_NO_TIME) (w_log w)).

(** What a return of [dd_lock], called as [dd_opendir] calls it, says
    about the run: [n] is the number of times the lock was taken and
    released because no parseable [time] file was found. *)
Definition lock_outcome (flags : Z) (dd : dump_dir) (count : nat) (w : world)
    (res : Z * dump_dir) (w' : world) : Prop :=
  let '(r, dd') := res in
  ∃ n : nat,
    no_time_count w' = (no_time_count w + n)%nat
    ∧ (n ≤ count)%nat
    ∧ ((r = -1 ∧ w_errno w' = EISDIR) ↔
       (1 ≤ n)%nat ∧ (has_flag flags DD_DONT_WAIT_FOR_LOCK = true ∨ n = count))
    ∧ (r = -1 ∧ w_errno w' = EISDIR →
       locked dd' = false ∧ (sys_fstatat (dd_fd dd) ".lock" w').1 = None)
    ∧ (r = 0 ∨ r = -1)
    ∧ (r = 0 ↔ locked dd' = true)
    ∧ (r = 0 → 0 ≤ dd_time dd').

(** *** The accessibility query *)

(** Membership of [uid] in the group [gid], by the passwd and group
    data bases: the primary group of the user, or the member list of
    the group. *)
Definition member_of_group (w : world) (uid gid : Z) : Prop :=
  ∃ pwd, w_passwd w !! uid = Some pwd
    ∧ (pw_gid pwd = gid
       ∨ ∃ grp members, w_group w !! gid = Some grp
           ∧ gr_mem grp = Some members ∧ pw_name pwd ∈ members).

(** The decision of [fdump_dir_stat_for_uid] on the stat of a directory,
    under the build-time policy [DUMP_DIR_OWNED_BY_USER]. *)
Definition accessible (DUMP_DIR_OWNED_BY_USER : Z) (w : world) (st : inode) (uid : Z)
  : Prop :=
  uid = 0 ∨ has_flag (st_mode st) S_IROTH = true
  ∨ (if 0 <? DUMP_DIR_OWNED_BY_USER then uid = st_uid st
     else member_of_group w uid (st_gid st)).

(** *** The [reported_to] log *)

(** The flags [reported_to] is loaded with. *)
Definition REPORTED_TO_FLAGS : Z :=
  Z.lor DD_FAIL_QUIETLY_ENOENT DD_LOAD_TEXT_RETURN_NULL_ON_FAILURE.

(** The lines of a text: the maximal runs without newline, each ended by
    a newline or by the end of the text; a final newline opens no line. *)
Fixpoint lines_of (s : list ascii) : list (list ascii) :=
  match s with
  | [] => []
  | c :: s' =>
      if Ascii.eqb c LF then [] :: lines_of s'
      else match lines_of s' with
           | [] => [[c]]
           | l :: ls => (c :: l) :: ls
           end
  end.

(** The first line of a text. *)
Fixpoint first_line (p : list ascii) : list ascii :=
  match p with
  | [] => []
  | c :: p' => if Ascii.eqb c LF then [] else c :: first_line p'
  end.

(** The text after the first line, as [strchrnul] and [p++] find it. *)
Definition after_first_line (p : list ascii) : list ascii :=
  match strchrnul p LF with
  | [] => []
  | _ :: q => q
  end.

(** A text that is empty or ends in a newline: every line is terminated. *)
Definition terminated (t : list ascii) : Prop :=
  t = [] ∨ TextLoader.ends_with_newline t = true.

(** The newline [add_reported_to] puts after the existing content. *)
Definition separator (content : list ascii) : list ascii :=
  if negb (bool_decide (content = [])) && negb (TextLoader.ends_with_newline content)
  then [LF] else [].

(** The token at the start of [s]: the bytes before the first white space. *)
Fixpoint first_token (s : list ascii) : list ascii :=
  match s with
  | [] => []
  | c :: s' => if isspace (code c) then [] else c :: first_token s'
  end.

(** The specification of the tokens of a line, split on white space:
    each token with the text from its first byte to the end of the
    line; [at_start] tells that a token may start at the head of [s]. *)
Fixpoint tokens_with_rest (at_start : bool) (s : list ascii)
  : list (list ascii * list ascii) :=
  match s with
  | [] => []
  | c :: s' =>
      if isspace (code c) then tokens_with_rest true s'
      else (if at_start then [(first_token s, s)] else [])
           ++ tokens_with_rest false s'
  end.

Definition starts_with (key s : list ascii) : bool :=
  bool_decide (key `prefix_of` s).

(** The specification of the fields: a [URL=] token sets the URL, a
    later one overwriting it; a [MSG=] token takes the rest of the line
    as the message and ends the parsing; other tokens are ignored. *)
Fixpoint apply_tokens (tokens : list (list ascii * list ascii)) (result : report_result)
  : report_result :=
  match tokens with
  | [] => result
  | (token, rest) :: tokens' =>
      if starts_with MSG_KEY token then ReportResult (url result) (Some (drop 4 rest))
      else apply_tokens tokens'
             (if starts_with URL_KEY token
              then ReportResult (Some (drop 4 token)) (msg result)
              else result)
  end.

Definition parse_reported_spec (line : list ascii) : report_result :=
  apply_tokens (tokens_with_rest true line) (ReportResult None None).

(** The text [parse_reported_line] is called on, for the lines [ls] of
    the log in file order: the last line with the prefix, after the
    prefix. *)
Definition found_suffix (prefix : list ascii) (ls : list (list ascii))
  : option (list ascii) :=
  drop (length prefix) <$> last (filter (λ l, prefix `prefix_of` l) ls).

(** *** Sample worlds *)

(** A problem directory (inode 1, open as descriptor 3, at the path
    [/var/tmp/pd]) with one entry [name] for the inode [i] (inode 2); the
    process is the super-user, and no other process acts. *)
Definition world_with_entry (name : string) (i : inode) : world :=
  World (<[1 := Inode S_IFDIR 2 493 0 0 [] (<[name := 2]> ∅)]> (<[2 := i]> ∅))
        (<["/var/tmp/pd" := 1]> ∅)
        (<[3%nat := OpenFile 1 0]> ∅)
        0 0 4242 ∅ ∅ ∅ [] [].

(** The same with a regular file of content [data] as the entry. *)
Definition world_with_item (name : string) (data : list ascii) : world :=
  world_with_entry name (Inode S_IFREG 1 420 0 0 data ∅).

(** The same with a [time] file of content [data]. *)
Definition world_with_time_file (data : list ascii) : world :=
  world_with_item "time" data.

(** A world without directories, for a process of the user 1000. *)
Definition world_without_directory : world :=
  World ∅ ∅ ∅ 0 1000 4242 ∅ ∅ ∅ [] [].

(** A handle on the directory of the sample worlds. *)
Definition sample_dd (is_locked : bool) : dump_dir :=
  DumpDir "/var/tmp/pd" 3 is_locked NO_UID NO_UID 420 0.


(** *** Further vocabulary *)

(** The worlds that differ from [w] at most in [errno] and in the log:
    the files, the descriptors and the processes are those of [w]. *)
Definition same_files (w w' : world) : Prop :=
  w_inodes w' = w_inodes w ∧ w_paths w' = w_paths w ∧ w_fds w' = w_fds w
  ∧ w_euid w' = w_euid w ∧ w_pid w' = w_pid w ∧ w_proc w' = w_proc w
  ∧ w_passwd w' = w_passwd w ∧ w_group w' = w_group w ∧ w_env w' = w_env w.

(** A directory that is no problem directory and is not locked: open as
    [dir_fd], still linked, writable by the process, without [.lock] and
    [time] entries, while no other process acts. *)
Definition plain_directory (w : world) (dir_fd : Z) (d : Z) (di : inode) : Prop :=
  w_env w = []
  ∧ dir_at w dir_fd = inr (d, di)
  ∧ st_nlink di ≠ 0
  ∧ may_write w di = true
  ∧ i_entries di !! ".lock"%string = None
  ∧ i_entries di !! "time"%string = None.

(** The decimal text of the process identifier, as [dd_lock] prints it. *)
Definition pid_text (w : world) : list ascii :=
  list_ascii_of_string (pretty (w_pid w)).

(** In the directory open as [dir_fd], which is still linked, [.lock]
    is a symbolic link to [target]. *)
Definition lock_is (w : world) (dir_fd : Z) (target : list ascii) : Prop :=
  ∃ d di ino i, dir_at w dir_fd = inr (d, di) ∧ st_nlink di ≠ 0
    ∧ dir_entry w d ".lock" = Some (ino, i)
    ∧ st_fmt i = S_IFLNK ∧ i_data i = target.

(** What [create_symlink_lockfile_at] reads back from a lock with the
    target [target]. *)
Definition lock_holder (target : list ascii) : list ascii :=
  c_str (take readlink_bufsiz target).

(** The holder of a lock is alive for [create_symlink_lockfile_at]: its
    text is a decimal number, and [/proc] has an entry of that name. *)
Definition holder_alive (w : world) (holder : list ascii) : Prop :=
  isdigit_str holder = true
  ∧ (sys_access ("/proc/" +:+ string_of_list_ascii holder) w).1 = 0.

(** [w'] is [w] with one more descriptor, [fd], open on an inode of the
    table, and possibly another [errno] and log. *)
Definition one_more_fd (w w' : world) (fd : Z) : Prop :=
  fd = Z.of_nat (fresh (dom (w_fds w)))
  ∧ (∃ f i, w_fds w' = <[fresh (dom (w_fds w)) := f]> (w_fds w)
            ∧ w_inodes w !! of_ino f = Some i)
  ∧ same_files w (with_fds (λ _, w_fds w) w').

(** The entry [dd_load_text_ext] reads for the item [name]: the legacy
    name [release] stands for [os_release]. *)
Definition item_name (name : string) : string :=
  if String.eqb name "release" then FILENAME_OS_RELEASE else name.

(** What [name] names in the directory open as [dir_fd], if anything,
    is no FIFO: it is a regular file, a directory or a symbolic link.
    An open for reading returns at once for these, while it may wait
    for a peer on a FIFO. *)
Definition no_fifo_at (w : world) (dir_fd : Z) (name : string) : Prop :=
  ∀ d di j i, dir_at w dir_fd = inr (d, di) → dir_entry w d name = Some (j, i) →
              st_fmt i ≠ S_IFIFO.

(** *** Items *)

(** The directory of the handle [dd] can take items: it is open as
    [dd_fd], still linked and writable by the process, and no other
    process acts; the handle gives new files no owner ([dd_uid] is
    [(uid_t)-1], as for every handle [dd_opendir] makes for another
    user than the super-user), or the process is the super-user, who
    may give a file to any owner; the mode of the handle has
    permission bits only; and the directory has no sticky bit (01000),
    under which the file of another owner could not be replaced. *)
Definition item_directory (w : world) (dd : dump_dir) (d : Z) (di : inode) : Prop :=
  w_env w = []
  ∧ dir_at w (dd_fd dd) = inr (d, di)
  ∧ st_nlink di ≠ 0
  ∧ may_write w di = true
  ∧ (dd_uid dd = NO_UID ∨ w_euid w = 0)
  ∧ Z.land (mode dd) 511 = mode dd
  ∧ Z.land (st_mode di) 512 = 0.

(** What [name] names in the directory [d], if anything, can be
    unlinked: it is not a directory. *)
Definition replaceable (w : world) (d : Z) (name : string) : Prop :=
  ∀ ino i, dir_entry w d name = Some (ino, i) → is_dir i = false ∧ ino ≠ d.

(** The inode [i] is what an item of the handle [dd] is saved as, with
    the content [data]: a regular file with one link and the mode of
    the handle; its owner is the process when the handle gives none,
    and otherwise the owner of the handle, with the group of the handle
    when that is not [(gid_t)-1].  The group of a file that is not
    given one is left open. *)
Definition saved_as (w : world) (dd : dump_dir) (data : list ascii) (i : inode) : Prop :=
  st_fmt i = S_IFREG
  ∧ st_nlink i = 1
  ∧ st_mode i = mode dd
  ∧ i_data i = data
  ∧ st_uid i = (if dd_uid dd =? NO_UID then w_euid w else dd_uid dd)
  ∧ (dd_uid dd ≠ NO_UID → dd_gid dd ≠ NO_UID → st_gid i = dd_gid dd).

(** The table of inodes once the entry [name] of [d] is unlinked. *)
Definition unlinked (w : world) (d : Z) (name : string) : gmap Z inode :=
  match dir_entry w d name with
  | Some (old, oi) => <[old := set_nlink (st_nlink oi - 1) oi]> (w_inodes w)
  | None => w_inodes w
  end.

(** *** Opening *)

(** [dir] is the path of the directory [d], which the process may open
    for reading, while no other process acts. *)
Definition directory_at_path (w : world) (dir : string) (d : Z) (di : inode) : Prop :=
  w_env w = []
  ∧ w_paths w !! dir = Some d
  ∧ w_inodes w !! d = Some di
  ∧ is_dir di = true
  ∧ may_read w di = true.

(** The descriptor the next successful open returns. *)
Definition next_fd (w : world) : Z := Z.of_nat (fresh (dom (w_fds w))).

(** The name [dd_opendir] stores for the path [dir]. *)
Definition stored_dirname (dir : string) : string :=
  string_of_list_ascii (rm_trailing_slashes (list_ascii_of_string dir)).

(** *** The lock of a directory without time stamp *)

(** The directory [di], of inode [d], has no [time] file that gives a
    time stamp: no such entry, or one that is not a regular, readable
    file with one link whose content the parser accepts.  A FIFO, on
    which an open waits for a writer, is left out. *)
Definition no_parseable_time (sizeof_time_t : Z) (w : world) (d : Z) (di : inode)
  : Prop :=
  match i_entries di !! FILENAME_TIME with
  | None => True
  | Some j =>
      j ≠ d
      ∧ ∃ ti, w_inodes w !! j = Some ti
          ∧ st_fmt ti ≠ S_IFIFO
          ∧ ¬ (st_fmt ti = S_IFREG ∧ st_nlink ti ≤ 1 ∧ may_read w ti = true
               ∧ 0 ≤ time_file_value sizeof_time_t (i_data ti))
  end.

(** A directory whose lock is free and which has no time stamp: open as
    [dir_fd], still linked, writable by the process, without [.lock],
    while no other process acts. *)
Definition free_lock_no_time (sizeof_time_t : Z) (w : world) (dir_fd : Z) (d : Z)
    (di : inode) : Prop :=
  w_env w = []
  ∧ dir_at w dir_fd = inr (d, di)
  ∧ st_nlink di ≠ 0
  ∧ may_write w di = true
  ∧ i_entries di !! ".lock"%string = None
  ∧ no_parseable_time sizeof_time_t w d di.

(** The inode [ino] is a lock the process took and released between
    [w] and [w']: it did not exist in [w]; in [w'] it is a symbolic
    link to the process identifier, and no entry names it any more. *)
Definition released_lock (w w' : world) (ino : Z) : Prop :=
  w_inodes w !! ino = None
  ∧ ∃ i, w_inodes w' !! ino = Some i
      ∧ st_fmt i = S_IFLNK ∧ i_data i = pid_text w ∧ st_nlink i = 0.

(** * Theorems *)

(** ** Strings *)

Lemma strchrnul_length s c : (length (strchrnul s c) ≤ length s)%nat.
Proof.
  induction s as [|x s IH]; simpl; [lia|].
  destruct (Ascii.eqb x c || Ascii.eqb x NUL); simpl; lia.
Qed.

Lemma skip_non_whitespace_length s : (length (skip_non_whitespace s) ≤ length s)%nat.
Proof.
  induction s as [|x s IH]; simpl; [lia|].
  destruct (isspace (code x)); simpl; lia.
Qed.

Lemma skip_whitespace_length s : (length (skip_whitespace s) ≤ length s)%nat.
Proof.
  induction s as [|x s IH]; simpl; [lia|].
  destruct (isspace (code x)); simpl; lia.
Qed.

Lemma skip_whitespace_head s c rest :
  skip_whitespace s = c :: rest → isspace (code c) = false.
Proof.
  induction s as [|x s IH]; simpl; [done|].
  destruct (isspace (code x)) eqn:E; [done|]. intros [= -> _]. done.
Qed.

Lemma char_at_lt buf p : Ascii.eqb (char_at buf p) NUL = false → (p < length buf)%nat.
Proof.
  unfold char_at. intros H. destruct (decide (p < length buf)%nat) as [|Hge]; [done|].
  rewrite nth_overflow in H by lia. done.
Qed.

(** * Verification *)

(** ** Characters and C strings *)

Lemma code_NUL c : (code c =? 0) = Ascii.eqb c NUL.
Proof. destruct c as [[] [] [] [] [] [] [] []]; reflexivity. Qed.

Lemma code_LF c : (code c =? code LF) = Ascii.eqb c LF.
Proof. destruct c as [[] [] [] [] [] [] [] []]; reflexivity. Qed.

Lemma char_of_code c : char_of (code c) = c.
Proof. unfold char_of, code. rewrite N2Z.id. apply ascii_N_embedding. Qed.

Lemma code_range c : 0 ≤ code c < 256.
Proof.
  unfold code. pose proof (N_ascii_bounded c). lia.
Qed.

Lemma code_inj c1 c2 : code c1 = code c2 → c1 = c2.
Proof.
  intros H. rewrite <- (char_of_code c1), <- (char_of_code c2). by rewrite H.
Qed.

Lemma c_str_id s : NUL ∉ s → c_str s = s.
Proof.
  induction s as [|c s IH]; [done|]. intros Hs. simpl.
  destruct (Ascii.eqb_spec c NUL) as [->|_].
  - exfalso. apply Hs. left.
  - f_equal. apply IH. intros ?. apply Hs. by right.
Qed.

Lemma c_str_no_NUL s : NUL ∉ c_str s.
Proof.
  induction s as [|c s IH]; simpl; [by intros ?%elem_of_nil|].
  destruct (Ascii.eqb_spec c NUL) as [->|Hc]; [by intros ?%elem_of_nil|].
  intros [?|?]%elem_of_cons; [congruence|done].
Qed.

(** ** The text loader *)

Section TextLoaderFacts.
Import TextLoader.

Lemma sanitize_cons c fp :
  sanitize (c :: fp) =
  match sanitize_byte c with Some c' => c' :: sanitize fp | None => sanitize fp end.
Proof. reflexivity. Qed.

Lemma count_newlines_cons c l :
  count_newlines (c :: l) =
  if Ascii.eqb c LF then S (count_newlines l) else count_newlines l.
Proof.
  unfold count_newlines. rewrite filter_cons.
  destruct (Ascii.eqb_spec c LF) as [->|Hc].
  - by rewrite decide_True.
  - by rewrite decide_False.
Qed.

Lemma count_newlines_app l1 l2 :
  count_newlines (l1 ++ l2) = (count_newlines l1 + count_newlines l2)%nat.
Proof. unfold count_newlines. by rewrite filter_app, length_app. Qed.

(** A byte the loader keeps is a newline exactly when the byte read is. *)
Lemma sanitize_byte_LF c c' :
  sanitize_byte c = Some c' → Ascii.eqb c' LF = Ascii.eqb c LF.
Proof.
  unfold sanitize_byte. destruct (Ascii.eqb_spec c NUL) as [->|Hc].
  - by intros [= <-].
  - destruct (isspace (code c) || (code SP <=? code c)); by intros [= <-].
Qed.

Lemma sanitize_byte_None_LF c : sanitize_byte c = None → Ascii.eqb c LF = false.
Proof.
  destruct (Ascii.eqb_spec c LF) as [->|]; [|done]. by vm_compute.
Qed.

Lemma count_newlines_sanitize fp : count_newlines (sanitize fp) = count_newlines fp.
Proof.
  induction fp as [|c fp IH]; [done|].
  rewrite sanitize_cons, (count_newlines_cons c).
  destruct (sanitize_byte c) as [c'|] eqn:E.
  - rewrite count_newlines_cons, (sanitize_byte_LF _ _ E), IH. done.
  - by rewrite (sanitize_byte_None_LF _ E).
Qed.

(** The loop: [oneline] is shifted once per newline read, and the buffer
    receives the sanitized bytes. *)
Lemma fgetc_loop_spec fp : ∀ oneline buf,
  fgetc_loop fp oneline buf =
  (Nat.iter (count_newlines fp) shift_in oneline, buf ++ sanitize fp).
Proof.
  induction fp as [|c fp IH]; intros oneline buf.
  - simpl. by rewrite app_nil_r.
  - cbn [fgetc_loop]. rewrite IH, sanitize_cons, count_newlines_cons.
    rewrite code_LF, code_NUL. unfold sanitize_byte.
    destruct (Ascii.eqb_spec c NUL) as [->|Hn].
    + change (Ascii.eqb NUL LF) with false. cbv iota.
      change (isspace (code SP) || (code SP <=? code SP)) with true. cbv iota.
      rewrite char_of_code. by rewrite <- app_assoc.
    + rewrite char_of_code.
      assert (Hshift : ∀ n x, Nat.iter n shift_in (shift_in x)
                             = Nat.iter (S n) shift_in x).
      { intros n x. by rewrite Nat.iter_succ_r. }
      destruct (Ascii.eqb c LF);
        destruct (isspace (code c) || (code SP <=? code c));
        rewrite <- ?app_assoc; fold (shift_in oneline);
        rewrite ?Hshift; reflexivity.
Qed.

Lemma shift_in_small k : (k ≤ 31)%nat → Nat.iter k shift_in 0 = 2 ^ Z.of_nat k - 1.
Proof.
  intros Hk.
  do 32 (destruct k as [|k]; [vm_compute; reflexivity|]). lia.
Qed.

Lemma shift_in_large k : (32 ≤ k)%nat → Nat.iter k shift_in 0 = -1.
Proof.
  intros Hk. replace k with ((k - 32) + 32)%nat by lia.
  generalize (k - 32)%nat as j. clear. intros j. rewrite Nat.iter_add.
  replace (Nat.iter 32 shift_in 0) with (-1) by (vm_compute; reflexivity).
  induction j as [|j IH]; [done|]. simpl. rewrite IH. reflexivity.
Qed.

Lemma ends_with_newline_last l :
  ends_with_newline l = negb (bool_decide (l = [])) && Ascii.eqb (List.last l NUL) LF.
Proof.
  unfold ends_with_newline. induction l as [|c l IH]; [done|].
  destruct l as [|c' l]; [simpl; by destruct (Ascii.eqb c LF)|].
  change (List.last (map Some (c :: c' :: l)) None)
    with (List.last (map Some (c' :: l)) None).
  change (List.last (c :: c' :: l) NUL) with (List.last (c' :: l) NUL).
  rewrite IH. done.
Qed.

Lemma ends_with_newline_count l : ends_with_newline l = true → (0 < count_newlines l)%nat.
Proof.
  unfold ends_with_newline. induction l as [|c l IH]; [done|].
  destruct l as [|c' l].
  - simpl. rewrite count_newlines_cons. destruct (Ascii.eqb c LF); [lia|done].
  - change (List.last (map Some (c :: c' :: l)) None)
      with (List.last (map Some (c' :: l)) None).
    intros H. specialize (IH H). rewrite (count_newlines_cons c).
    destruct (Ascii.eqb c LF); lia.
Qed.

(** What [load_text_from_stream] computes: as the specification has it,
    except that a newline is appended to an unterminated last line only
    when there are at most 31 newlines. *)
Lemma load_text_from_stream_char fp :
  load_text_from_stream fp =
  let r := sanitize fp in
  let n := count_newlines r in
  if ends_with_newline r then (if Nat.eqb n 1 then removelast r else r)
  else if Nat.ltb 0 n && Nat.leb n 31 then r ++ [LF] else r.
Proof.
  unfold load_text_from_stream. rewrite fgetc_loop_spec, app_nil_l.
  rewrite <- (count_newlines_sanitize fp).
  cbv zeta. generalize (sanitize fp) as r. intros r.
  pose proof (ends_with_newline_count r) as Hcount.
  assert (Hnil : r = [] → count_newlines r = 0%nat) by (by intros ->).
  revert Hcount Hnil. generalize (count_newlines r) as n. intros n Hcount Hnil.
  rewrite (ends_with_newline_last r) in *.
  destruct (decide (n ≤ 31)%nat) as [Hn|Hn].
  - rewrite shift_in_small by done.
    assert (Hpow : n = 0%nat ∨ ((0 < n)%nat ∧ 2 ≤ 2 ^ Z.of_nat n)).
    { destruct n as [|n]; [by left|right]. split; [lia|].
      rewrite Nat2Z.inj_succ, Z.pow_succ_r by lia.
      pose proof (Z.pow_pos_nonneg 2 (Z.of_nat n)). lia. }
    destruct Hpow as [Hz|[Hpos Hpow]].
    + rewrite Hz in *. simpl.
      destruct (bool_decide (r = [])); simpl; [done|].
      destruct (Ascii.eqb (List.last r NUL) LF) eqn:E; [|done].
      simpl in Hcount. specialize (Hcount eq_refl). lia.
    + replace (2 ^ Z.of_nat n - 1 =? 0) with false
        by (symmetry; apply Z.eqb_neq; lia).
      cbn [negb].
      rewrite code_LF.
      assert (Hr : bool_decide (r = []) = false).
      { apply bool_decide_eq_false. intros Hr. specialize (Hnil Hr). lia. }
      rewrite Hr. cbn [negb andb].
      destruct (Ascii.eqb (List.last r NUL) LF).
      * destruct (Nat.eqb_spec n 1) as [->|Hne]; [done|].
        replace (2 ^ Z.of_nat n - 1 =? 1) with false; [done|].
        symmetry. apply Z.eqb_neq. intros Heq.
        assert (2 ^ Z.of_nat n = 2 ^ 1) as Hinj by lia.
        apply Z.pow_inj_r in Hinj; lia.
      * replace (1 <=? 2 ^ Z.of_nat n - 1) with true
          by (symmetry; apply Z.leb_le; lia).
        replace (0 <? n)%nat with true by (symmetry; apply Nat.ltb_lt; lia).
        replace (n <=? 31)%nat with true by (symmetry; apply Nat.leb_le; lia).
        done.
  - rewrite shift_in_large by lia. cbn [Z.eqb negb]. rewrite code_LF.
    assert (Hr : bool_decide (r = []) = false).
    { apply bool_decide_eq_false. intros Hr. specialize (Hnil Hr). lia. }
    rewrite Hr. cbn [negb andb].
    replace (n =? 1)%nat with false by (symmetry; apply Nat.eqb_neq; lia).
    replace (n <=? 31)%nat with false by (symmetry; apply Nat.leb_gt; lia).
    rewrite andb_false_r.
    destruct (Ascii.eqb (List.last r NUL) LF); reflexivity.
Qed.

(** The loader agrees with the specification on every input with at most
    31 newlines, and on every input whose last kept byte is a newline. *)
Lemma load_text_from_stream_spec fp :
  (count_newlines fp ≤ 31)%nat ∨ ends_with_newline (sanitize fp) = true →
  load_text_from_stream fp = text_loader_spec fp.
Proof.
  intros H. rewrite load_text_from_stream_char. unfold text_loader_spec. cbv zeta.
  rewrite count_newlines_sanitize.
  destruct (ends_with_newline (sanitize fp)) eqn:E.
  { cbn [andb negb]. rewrite andb_false_r. by destruct (Nat.eqb _ 1). }
  destruct H as [H|H]; [|done]. cbn [negb andb].
  rewrite andb_true_r.
  replace (count_newlines fp <=? 31)%nat with true
    by (symmetry; by apply Nat.leb_le).
  by rewrite andb_true_r.
Qed.

(** The loaded text has no NUL. *)
Lemma sanitize_no_NUL fp : NUL ∉ sanitize fp.
Proof.
  induction fp as [|c fp IH]; [by intros ?%elem_of_nil|].
  rewrite sanitize_cons. destruct (sanitize_byte c) as [c'|] eqn:E; [|done].
  intros [Hc|?]%elem_of_cons; [|done]. subst c'.
  unfold sanitize_byte in E. destruct (Ascii.eqb_spec c NUL) as [->|Hc]; [done|].
  destruct (isspace (code c) || (code SP <=? code c)); congruence.
Qed.

Lemma load_text_from_stream_no_NUL fp : NUL ∉ load_text_from_stream fp.
Proof.
  rewrite load_text_from_stream_char. cbv zeta.
  pose proof (sanitize_no_NUL fp) as Hs.
  assert (Hrm : ∀ l : list ascii, NUL ∉ l → NUL ∉ removelast l).
  { intros l Hl Hin. apply Hl. clear Hl.
    induction l as [|x l IH]; [done|]. destruct l as [|y l]; [by apply elem_of_nil in Hin|].
    change (removelast (x :: y :: l)) with (x :: removelast (y :: l)) in Hin.
    apply elem_of_cons in Hin as [->|Hin]; [left|right; by apply IH]. }
  assert (Happ : NUL ∉ sanitize fp ++ [LF]).
  { intros [?|Hin]%elem_of_app; [done|]. by apply list_elem_of_singleton in Hin. }
  repeat case_match; auto.
Qed.

End TextLoaderFacts.

(** C4. The text loader on 32 newlines followed by an unterminated line:
    the content has a newline and does not end in one, and the specified
    result has a newline appended; the loader returns the content as it
    is, [oneline] having wrapped around to -1 at the 32nd newline. *)
Theorem load_text_unterminated_after_32_newlines :
  let input := repeat LF 32 ++ ["x"%char] in
  fst (TextLoader.fgetc_loop input 0 []) = -1
  ∧ TextLoader.load_text_from_stream input = input
  ∧ TextLoader.text_loader_spec input = input ++ [LF]
  ∧ TextLoader.load_text_from_stream input ≠ TextLoader.text_loader_spec input.
Proof. vm_compute. repeat split; discriminate. Qed.

(** ** The monad and the system calls *)

Lemma env_step_quiet w : w_env w = [] → env_step w = w.
Proof. unfold env_step. by intros ->. Qed.

Lemma syscall_quiet {A} (f : world → A * world) w :
  w_env w = [] → syscall f w = Ret (f w).1 (f w).2.
Proof.
  intros H. unfold syscall. rewrite env_step_quiet by done. by destruct (f w).
Qed.

Lemma bind_unfold {A B} (m : M A) (f : A → M B) w :
  (m ≫= f) w = match m w with Ret a w' => f a w' | Die w' => Die w' | Spin => Spin end.
Proof. reflexivity. Qed.

Lemma ret_unfold {A} (a : A) w : (mret a : M A) w = Ret a w.
Proof. reflexivity. Qed.

Lemma fd_inode_open_fd w ino i :
  w_inodes w !! ino = Some i →
  fd_inode (open_fd ino w).2 (open_fd ino w).1 = Some (ino, i).
Proof.
  intros Hi. unfold open_fd, fd_inode. simpl.
  destruct (Z.ltb_spec (Z.of_nat (fresh (dom (w_fds w)))) 0) as [?|_]; [lia|].
  rewrite Nat2Z.id, lookup_insert_eq. simpl. by rewrite Hi.
Qed.

Lemma open_fd_nonneg w ino : 0 ≤ (open_fd ino w).1.
Proof. unfold open_fd. simpl. lia. Qed.

Lemma dir_entry_inode w d name ino i :
  dir_entry w d name = Some (ino, i) → w_inodes w !! ino = Some i.
Proof.
  unfold dir_entry. intros H.
  destruct (w_inodes w !! d) as [di|]; simpl in H; [|done].
  destruct (i_entries di !! name) as [ino'|]; simpl in H; [|done].
  destruct (w_inodes w !! ino') as [i'|] eqn:E; simpl in H; [|done].
  congruence.
Qed.

(** The result of opening an entry for reading without following links:
    an error other than [EINVAL], or a new descriptor for the entry. *)
Lemma sys_openat_read dir_fd name w :
  let flags := Z.lor O_RDONLY O_NOFOLLOW in
  (∃ e, sys_openat dir_fd name flags 0 w = (-1, with_errno e w)
        ∧ e ∈ [EBADF; ENOTDIR; ELOOP; ENOENT; EACCES]
        ∧ ∀ d di ino i, dir_at w dir_fd = inr (d, di) →
            dir_entry w d name = Some (ino, i) →
            st_fmt i = S_IFLNK ∨ may_read w i = false)
  ∨ (∃ d di ino i, dir_at w dir_fd = inr (d, di)
        ∧ dir_entry w d name = Some (ino, i)
        ∧ st_fmt i ≠ S_IFLNK
        ∧ may_read w i = true
        ∧ sys_openat dir_fd name flags 0 w = open_fd ino w).
Proof.
  intros flags. unfold sys_openat.
  destruct (dir_at w dir_fd) as [e|[d di]] eqn:Hd.
  { left. exists e. split; [done|]. split; [|done].
    unfold dir_at in Hd. repeat case_match; simplify_eq; set_solver. }
  destruct (dir_entry w d name) as [[ino i]|] eqn:He.
  - change (has_flag flags O_CREAT && has_flag flags O_EXCL) with false.
    change (has_flag flags O_NOFOLLOW) with true. cbv iota.
    destruct (bool_decide (st_fmt i = S_IFLNK)) eqn:Hl.
    + left. exists ELOOP. split; [done|]. split; [set_solver|].
      intros ???? ? ?. simplify_eq. left. by apply bool_decide_eq_true in Hl.
    + unfold open_existing. change (has_flag flags O_WRONLY) with false. cbv iota.
      destruct (may_read w i) eqn:Hr.
      * right. exists d, di, ino, i. apply bool_decide_eq_false in Hl. done.
      * left. exists EACCES. split; [done|]. split; [set_solver|].
        intros ???? ? ?. simplify_eq. by right.
  - change (has_flag flags O_CREAT) with false. cbv iota.
    left. exists ENOENT. split; [done|]. split; [set_solver|]. intros ???? ? ?. simplify_eq.
Qed.

(** ** Secure open *)

(** C7. [secure_openat_read] returns -1 with [errno] set to [EINVAL]
    exactly when the open without following links succeeds and the
    descriptor is not a regular file or has more than one link; an entry
    whose inode has more than one link is always refused, and so is a
    [time] file with more than one link by the parser built on it. *)
Theorem secure_openat_read_refuses (sizeof_time_t : Z) (dir_fd : Z) (name : string)
    (w : world) :
  w_env w = [] →
  ∃ r w', secure_openat_read dir_fd name w = Ret r w'
    ∧ ((r = -1 ∧ w_errno w' = EINVAL) ↔
       ∃ ino st,
         let opened := sys_openat dir_fd name (Z.lor O_RDONLY O_NOFOLLOW) 0 w in
         0 ≤ opened.1
         ∧ fd_inode opened.2 opened.1 = Some (ino, st)
         ∧ (st_fmt st ≠ S_IFREG ∨ 1 < st_nlink st))
    ∧ (∀ d di ino i,
         dir_at w dir_fd = inr (d, di) →
         dir_entry w d name = Some (ino, i) →
         1 < st_nlink i →
         r = -1
         ∧ ∃ w'', parse_time_file_at sizeof_time_t dir_fd name w = Ret (-1) w'').
Proof.
  intros Hq. unfold parse_time_file_at, secure_openat_read, openat.
  rewrite !bind_unfold, syscall_quiet by done.
  destruct (sys_openat_read dir_fd name w) as
    [(e & -> & He & Hent)|(d & di & ino & i & Hd & Hent & Hl & Hr & ->)].
  - (* the open fails *)
    simpl. eexists _, _. split; [done|]. split; [split|].
    + intros [_ Herr]. simpl in Herr. subst e. exfalso.
      repeat (apply elem_of_cons in He as [He|He]; [by vm_compute in He|]).
      by apply elem_of_nil in He.
    + intros (? & ? & Hfd & _). simpl in Hfd. lia.
    + intros. split; [done|]. eexists. reflexivity.
  - (* the open succeeds *)
    pose proof (open_fd_nonneg w ino) as Hfd.
    pose proof (fd_inode_open_fd w ino i (dir_entry_inode _ _ _ _ _ Hent)) as Hino.
    destruct (open_fd ino w) as [fd w1] eqn:Hopen. simpl in Hfd, Hino.
    assert (Hq1 : w_env w1 = []).
    { unfold open_fd in Hopen. by simplify_eq. }
    simpl. destruct (Z.ltb_spec fd 0) as [?|_]; [lia|].
    unfold fstat. rewrite !bind_unfold, syscall_quiet by done.
    unfold sys_fstat. rewrite Hino. simpl.
    destruct (negb (bool_decide (st_fmt i = S_IFREG)) || (1 <? st_nlink i)) eqn:Hchk.
    + (* refused *)
      unfold close, log, set_errno. rewrite !bind_unfold. simpl.
      rewrite syscall_quiet by done. unfold sys_close.
      replace (fd_inode (with_errno EINVAL (with_log _ w1)) fd) with (Some (ino, i)).
      simpl. eexists _, _. split; [done|]. split; [split|].
      * intros _. exists ino, i. split; [done|]. split; [done|].
        apply orb_true_iff in Hchk as [Hk|Hk].
        -- left. by apply negb_true_iff, bool_decide_eq_false in Hk.
        -- right. lia.
      * done.
      * intros. split; [done|]. eexists. reflexivity.
    + (* accepted *)
      apply orb_false_iff in Hchk as [Hk1 Hk2].
      apply negb_false_iff, bool_decide_eq_true in Hk1.
      eexists _, _. split; [done|]. split; [split|].
      * intros [-> _]. lia.
      * intros (ino' & st & _ & Hst & Hbad).
        apply Z.ltb_ge in Hk2. simplify_eq. destruct Hbad; [done|lia].
      * intros d' di' ino' i' Hd' Hent' Hn. apply Z.ltb_ge in Hk2.
        rewrite Hd in Hd'. simplify_eq. lia.
Qed.

(** ** Existence and deletion of an item *)

(** C10. [dd_exist] on a valid name returns true exactly when the stat of
    the name in the directory, without following links, succeeds and
    reports a regular file or a directory; a symbolic link, dangling or
    not, is reported as not existing. *)
Theorem dd_exist_spec (dd : dump_dir) (name : string) (w : world) :
  str_is_correct_filename name = true →
  ∃ b w', dd_exist dd name w = Ret b w'
    ∧ (b = true ↔
       ∃ st, (sys_fstatat (dd_fd dd) name (env_step w)).1 = Some st
             ∧ (st_fmt st = S_IFREG ∨ st_fmt st = S_IFDIR))
    ∧ (∀ d di ino i,
         dir_at (env_step w) (dd_fd dd) = inr (d, di) →
         dir_entry (env_step w) d name = Some (ino, i) →
         st_fmt i = S_IFLNK → b = false).
Proof.
  intros Hname. unfold dd_exist, exist_file_dir_at, fstatat. rewrite Hname.
  cbn [negb]. rewrite bind_unfold. unfold syscall.
  destruct (sys_fstatat (dd_fd dd) name (env_step w)) as [[st|] w1] eqn:Hstat.
  - destruct (bool_decide (st_fmt st = S_IFDIR) || bool_decide (st_fmt st = S_IFREG))
      eqn:Hk; eexists _, _; (split; [reflexivity|]); simpl.
    + apply orb_true_iff in Hk. rewrite !bool_decide_eq_true in Hk.
      split; [split; [intros _; exists st; tauto|done]|].
      intros d di ino i Hd He Hl. unfold sys_fstatat in Hstat.
      rewrite Hd, He in Hstat. simplify_eq. destruct Hk; congruence.
    + apply orb_false_iff in Hk. rewrite !bool_decide_eq_false in Hk.
      split; [split; [done|]|done].
      intros (st' & [= <-] & Hst). tauto.
  - eexists _, _. split; [reflexivity|]. simpl.
    split; [split; [done|]|done]. by intros (st' & ? & _).
Qed.

(** C9. [dd_delete_item] on a locked handle and a valid name returns 0
    when the unlink succeeds and when it fails with [ENOENT], and a
    negative value for every other failure of the unlink; deleting an
    absent item returns 0. *)
Theorem dd_delete_item_spec (dd : dump_dir) (name : string) (w : world) :
  locked dd = true →
  str_is_correct_filename name = true →
  ∃ r w', dd_delete_item dd name w = Ret r w'
    ∧ let unlinked := sys_unlinkat (dd_fd dd) name (env_step w) in
      (r = 0 ↔ unlinked.1 = 0 ∨ (unlinked.1 < 0 ∧ w_errno unlinked.2 = ENOENT))
      ∧ (r ≠ 0 → r < 0)
      ∧ (∀ d di, dir_at (env_step w) (dd_fd dd) = inr (d, di) →
                 dir_entry (env_step w) d name = None → r = 0).
Proof.
  intros Hl Hname. unfold dd_delete_item, unlinkat. rewrite Hl, Hname.
  cbn [negb]. rewrite bind_unfold. unfold syscall.
  assert (Hres : ∀ w0, (sys_unlinkat (dd_fd dd) name w0).1 = 0
                       ∨ (sys_unlinkat (dd_fd dd) name w0).1 = -1).
  { intros w0. unfold sys_unlinkat, sys_fail. repeat case_match; simpl; auto. }
  assert (Habs : ∀ d di, dir_at (env_step w) (dd_fd dd) = inr (d, di) →
                 dir_entry (env_step w) d name = None →
                 sys_unlinkat (dd_fd dd) name (env_step w)
                 = (-1, with_errno ENOENT (env_step w))).
  { intros d di Hd He. unfold sys_unlinkat. by rewrite Hd, He. }
  specialize (Hres (env_step w)).
  destruct (sys_unlinkat (dd_fd dd) name (env_step w)) as [res w1] eqn:Hu.
  simpl in Hres. destruct Hres as [-> | ->]; simpl.
  - eexists _, _. split; [reflexivity|]. simpl. split; [tauto|]. split; [done|].
    intros d di Hd He. done.
  - rewrite bind_unfold. unfold get_errno.
    destruct (w_errno w1 =? ENOENT) eqn:E.
    + apply Z.eqb_eq in E. eexists _, _. split; [reflexivity|]. simpl.
      split; [split; [intros _; right; split; [lia|done]|done]|done].
    + apply Z.eqb_neq in E. eexists _, _. split; [reflexivity|]. simpl.
      split; [split; [done|intros [?|[_ ?]]; [lia|done]]|]. split; [lia|].
      intros d di Hd He. specialize (Habs d di Hd He). simplify_eq.
Qed.

(** ** The accessibility query *)

Section Accessibility.

Variable DUMP_DIR_OWNED_BY_USER : Z.

Lemma logged_refl w : logged w w.
Proof. exists []. rewrite app_nil_r. by destruct w. Qed.

Lemma logged_log msg w : logged w (with_log msg w).
Proof. by exists [msg]. Qed.

Lemma logged_trans w1 w2 w3 : logged w1 w2 → logged w2 w3 → logged w1 w3.
Proof.
  intros [m1 ->] [m2 ->]. exists (m1 ++ m2). simpl. by rewrite app_assoc.
Qed.

Ltac solve_logged :=
  first [ assumption | apply logged_refl | apply logged_log
        | eapply logged_trans; [|apply logged_log]; solve_logged ].

Lemma existsb_eqb_elem_of (x : string) (l : list string) :
  existsb (String.eqb x) l = true ↔ x ∈ l.
Proof.
  rewrite existsb_exists. split.
  - intros (y & Hy & ->%String.eqb_eq). by apply list_elem_of_In.
  - intros Hx. exists x. split; [by apply list_elem_of_In|apply String.eqb_refl].
Qed.

Lemma uid_in_group_spec uid gid w :
  ∃ b w', uid_in_group uid gid w = Ret b w' ∧ logged w w'
          ∧ (b = true ↔ member_of_group w uid gid).
Proof.
  unfold uid_in_group, getpwuid, getgrgid.
  rewrite bind_unfold.
  destruct (w_passwd w !! uid) as [pwd|] eqn:Hpw.
  2:{ eexists _, _. split; [reflexivity|]. split; [apply logged_refl|].
      split; [done|]. intros (? & ? & _). congruence. }
  destruct (Z.eqb_spec (pw_gid pwd) gid) as [Hg|Hg].
  { eexists _, _. split; [reflexivity|]. split; [apply logged_refl|].
    split; [|done]. intros _. exists pwd. auto. }
  rewrite bind_unfold.
  assert (Hno : ∀ b : bool,
    (match w_group w !! gid with
     | Some (Group _ (Some members)) => pw_name pwd ∈ members → b = true
     | _ => True
     end) →
    member_of_group w uid gid → b = true).
  { intros b Hb (pwd' & Hp' & Hdis). rewrite Hpw in Hp'. injection Hp' as <-.
    destruct Hdis as [?|(grp & ms & Hg' & Hm' & Hin)]; [done|].
    rewrite Hg' in Hb. destruct grp as [gname mem]. simpl in Hm'. subst mem.
    auto. }
  destruct (w_group w !! gid) as [[gname [members|]]|] eqn:Hgr.
  - destruct (existsb (String.eqb (pw_name pwd)) members) eqn:Hm.
    + apply existsb_eqb_elem_of in Hm.
      eexists _, _. split; [reflexivity|]. split; [apply logged_log|].
      split; [|done]. intros _. exists pwd. split; [done|]. right.
      exists (Group gname (Some members)), members. done.
    + eexists _, _. split; [reflexivity|]. split; [apply logged_log|].
      split; [done|]. apply Hno. intros Hin.
      apply existsb_eqb_elem_of in Hin. congruence.
  - eexists _, _. split; [reflexivity|]. split; [apply logged_refl|].
    split; [done|]. by apply Hno.
  - eexists _, _. split; [reflexivity|]. split; [apply logged_refl|].
    split; [done|]. by apply Hno.
Qed.

(** Opening a path as a directory: an error, or a new descriptor for a
    directory inode. *)
Lemma sys_open_directory path w :
  let flags := Z.lor O_DIRECTORY O_NOFOLLOW in
  (∃ e, sys_open path flags w = (-1, with_errno e w))
  ∨ (∃ ino i, w_inodes w !! ino = Some i ∧ is_dir i = true
              ∧ sys_open path flags w = open_fd ino w).
Proof.
  intros flags. unfold sys_open.
  destruct (w_paths w !! path) as [ino|]; simpl; [|left; by eexists].
  destruct (w_inodes w !! ino) as [i|] eqn:Hi; simpl; [|left; by eexists].
  change (has_flag flags O_DIRECTORY) with true.
  change (has_flag flags O_NOFOLLOW) with true.
  destruct (is_dir i) eqn:Hdir; simpl; [|left; by eexists].
  destruct (bool_decide (st_fmt i = S_IFLNK)); simpl; [left; by eexists|].
  unfold open_existing. change (has_flag flags O_WRONLY) with false. cbv iota.
  destruct (may_read w i); [|left; by eexists].
  right. by exists ino, i.
Qed.

Lemma accessible_same_db w w' st uid :
  w_passwd w' = w_passwd w → w_group w' = w_group w →
  accessible DUMP_DIR_OWNED_BY_USER w' st uid ↔ accessible DUMP_DIR_OWNED_BY_USER w st uid.
Proof.
  intros Hp Hg. unfold accessible, member_of_group. by rewrite Hp, Hg.
Qed.

Lemma fdump_dir_stat_for_uid_ok dir_fd uid ino st w :
  w_env w = [] →
  fd_inode w dir_fd = Some (ino, st) → is_dir st = true →
  ∃ r w', fdump_dir_stat_for_uid DUMP_DIR_OWNED_BY_USER dir_fd uid w = Ret r w'
    ∧ logged (with_errno 0 w) w'
    ∧ ((r = 3 ∧ accessible DUMP_DIR_OWNED_BY_USER w st uid)
       ∨ (r = 0 ∧ ¬ accessible DUMP_DIR_OWNED_BY_USER w st uid)).
Proof.
  intros Hq Hfd Hdir. unfold fdump_dir_stat_for_uid, fstat.
  rewrite bind_unfold, syscall_quiet by done. unfold sys_fstat. rewrite Hfd.
  cbn [fst snd]. rewrite Hdir. cbn [negb]. rewrite bind_unfold.
  unfold set_errno at 1. cbv beta iota. rewrite bind_unfold.
  unfold accessible.
  destruct (Z.eqb_spec uid 0) as [Hu|Hu]; cbn [orb].
  { unfold log at 1. rewrite bind_unfold.
    destruct (0 <? DUMP_DIR_OWNED_BY_USER); eexists _, _;
      (split; [reflexivity|]);
      (split; [solve_logged|]); left; auto. }
  destruct (has_flag (st_mode st) S_IROTH) eqn:Hoth.
  { unfold log at 1. rewrite bind_unfold.
    destruct (0 <? DUMP_DIR_OWNED_BY_USER); eexists _, _;
      (split; [reflexivity|]);
      (split; [solve_logged|]); left; auto. }
  rewrite (ret_unfold 0). cbv beta iota. rewrite bind_unfold.
  destruct (0 <? DUMP_DIR_OWNED_BY_USER).
  - cbv beta iota. destruct (Z.eqb_spec uid (st_uid st)) as [Ho|Ho].
    + eexists _, _. split; [reflexivity|].
      split; [solve_logged|]. left. auto.
    + eexists _, _. split; [reflexivity|].
      split; [apply logged_refl|]. right. split; [done|].
      intros [?|[?|?]]; done.
  - destruct (uid_in_group_spec uid (st_gid st) (with_errno 0 w))
      as (b & w1 & -> & Hlog & Hb).
    destruct b.
    + eexists _, _. split; [reflexivity|].
      split; [solve_logged|]. left.
      split; [done|]. right; right. by apply Hb.
    + eexists _, _. split; [reflexivity|]. split; [done|]. right.
      split; [done|]. intros [?|[?|Hm]]; [done|done|].
      apply Hb in Hm. done.
Qed.

Lemma fdump_dir_stat_for_uid_fail dir_fd uid w :
  w_env w = [] →
  (∀ ino st, fd_inode w dir_fd = Some (ino, st) → is_dir st = false) →
  ∃ w', fdump_dir_stat_for_uid DUMP_DIR_OWNED_BY_USER dir_fd uid w = Ret (-1) w'
    ∧ w_errno w' = ENOTDIR.
Proof.
  intros Hq Hfd. unfold fdump_dir_stat_for_uid, fstat.
  rewrite bind_unfold, syscall_quiet by done. unfold sys_fstat.
  destruct (fd_inode w dir_fd) as [[ino st]|] eqn:E; cbn [fst snd].
  - rewrite (Hfd ino st) by done. by eexists.
  - by eexists.
Qed.

Lemma logged_fd_inode w w' fd : logged w w' → fd_inode w' fd = fd_inode w fd.
Proof. by intros [msgs ->]. Qed.

Lemma logged_env w w' : logged w w' → w_env w' = w_env w.
Proof. by intros [msgs ->]. Qed.

Lemma logged_errno w w' : logged w w' → w_errno w' = w_errno w.
Proof. by intros [msgs ->]. Qed.

End Accessibility.

(** C8, as amended. [dump_dir_accessible_by_uid] returns true exactly
    when the directory can be opened and uid is 0, or the mode of the
    directory has the world-read bit, or, by the build-time policy
    [DUMP_DIR_OWNED_BY_USER], uid is the owner of the directory (policy
    above 0) or uid is a member of the group of the directory; when the
    open or the stat fails it returns false and [errno] is [ENOTDIR],
    whatever the failing call had left there. *)
Theorem dump_dir_accessible_by_uid_spec (DUMP_DIR_OWNED_BY_USER : Z)
    (dirname : string) (uid : Z) (w : world) :
  w_env w = [] →
  let opened := sys_open dirname (Z.lor O_DIRECTORY O_NOFOLLOW) w in
  ∃ r w', dump_dir_accessible_by_uid DUMP_DIR_OWNED_BY_USER dirname uid w = Ret r w'
    ∧ (opened.1 < 0 → r = 0 ∧ w_errno w' = ENOTDIR)
    ∧ (0 ≤ opened.1 →
       ∃ ino st, fd_inode opened.2 opened.1 = Some (ino, st)
         ∧ st_fmt st = S_IFDIR
         ∧ (r ≠ 0 ↔ accessible DUMP_DIR_OWNED_BY_USER w st uid))
    ∧ (∀ dir_fd,
         (∀ ino st, fd_inode w dir_fd = Some (ino, st) → st_fmt st ≠ S_IFDIR) →
         ∃ w'', fdump_dir_accessible_by_uid DUMP_DIR_OWNED_BY_USER dir_fd uid w
                = Ret 0 w''
                ∧ w_errno w'' = ENOTDIR).
Proof.
  intros Hq opened. unfold dump_dir_accessible_by_uid, dump_dir_stat_for_uid, open.
  rewrite !bind_unfold, syscall_quiet by done. fold opened.
  assert (Hf : ∀ dir_fd,
         (∀ ino st, fd_inode w dir_fd = Some (ino, st) → st_fmt st ≠ S_IFDIR) →
         ∃ w'', fdump_dir_accessible_by_uid DUMP_DIR_OWNED_BY_USER dir_fd uid w
                = Ret 0 w''
                ∧ w_errno w'' = ENOTDIR).
  { intros dir_fd Hnd. unfold fdump_dir_accessible_by_uid. rewrite bind_unfold.
    destruct (fdump_dir_stat_for_uid_fail DUMP_DIR_OWNED_BY_USER dir_fd uid w Hq)
      as (w1 & -> & He).
    - intros ino st Hst. apply bool_decide_eq_false. eauto.
    - simpl. eexists. split; [reflexivity|done]. }
  destruct (sys_open_directory dirname w) as [(e & He)|(ino & i & Hi & Hdir & He)];
    fold opened in He.
  - (* the open fails *)
    rewrite He. simpl. eexists _, _. split; [reflexivity|].
    split; [done|]. split; [lia|done].
  - (* the open succeeds *)
    pose proof (open_fd_nonneg w ino) as Hfd.
    pose proof (fd_inode_open_fd w ino i Hi) as Hino.
    rewrite He. destruct (open_fd ino w) as [fd w1] eqn:Hopen. simpl in Hfd, Hino.
    assert (Hw1 : w_env w1 = [] ∧ w_passwd w1 = w_passwd w ∧ w_group w1 = w_group w).
    { unfold open_fd in Hopen. by simplify_eq. }
    destruct Hw1 as (Hq1 & Hp1 & Hg1).
    cbn [fst snd]. destruct (Z.ltb_spec fd 0) as [?|_]; [lia|].
    rewrite bind_unfold.
    destruct (fdump_dir_stat_for_uid_ok DUMP_DIR_OWNED_BY_USER fd uid ino i w1
                Hq1 Hino Hdir) as (r & w2 & -> & Hlog & Hr).
    rewrite bind_unfold. unfold close. rewrite syscall_quiet
      by (by rewrite (logged_env _ _ Hlog)).
    unfold sys_close. rewrite (logged_fd_inode _ _ _ Hlog).
    change (fd_inode (with_errno 0 w1) fd) with (fd_inode w1 fd). rewrite Hino.
    cbn [fst snd]. apply bool_decide_eq_true in Hdir.
    rewrite (accessible_same_db _ w w1) in Hr by done.
    destruct Hr as [[-> Hacc]|[-> Hacc]]; simpl;
      eexists _, _; (split; [reflexivity|]); (split; [lia|]); (split; [|done]);
      intros _; exists ino, i; (split; [done|]); (split; [done|]); split; done.
Qed.

(** C8, as stated, fails: when the directory does not exist the open
    fails with [ENOENT], and the function returns with [errno] set to
    [ENOTDIR]: the [errno] of the failing call is not preserved. *)
Lemma dump_dir_accessible_by_uid_overwrites_errno :
  let w := world_without_directory in
  let failed := sys_open "/var/tmp/absent" (Z.lor O_DIRECTORY O_NOFOLLOW) (env_step w) in
  failed.1 = -1
  ∧ w_errno failed.2 = ENOENT
  ∧ ∃ w', dump_dir_accessible_by_uid 0 "/var/tmp/absent" 1000 w = Ret 0 w'
          ∧ w_errno w' = ENOTDIR
          ∧ w_errno w' ≠ w_errno failed.2.
Proof.
  cbv zeta. split; [reflexivity|]. split; [reflexivity|].
  eexists. split; [vm_compute; reflexivity|]. split; [reflexivity|]. discriminate.
Qed.

(** ** A weakest-precondition calculus for the monad *)

Lemma post_ret {A} (a : A) w Q : Q a w → post (mret a) w Q.
Proof. intros H a' w' [= <- <-]. done. Qed.

Lemma post_bind {A B} (m : M A) (f : A → M B) w Q :
  post m w (λ a w1, post (f a) w1 Q) → post (m ≫= f) w Q.
Proof.
  intros H b w'. rewrite bind_unfold. destruct (m w) as [a w1| |] eqn:E; [|done..].
  by apply H.
Qed.

Lemma post_syscall {A} (f : world → A * world) w Q :
  Q (f (env_step w)).1 (f (env_step w)).2 → post (syscall f) w Q.
Proof.
  intros H a w'. unfold syscall. destruct (f (env_step w)). by intros [= <- <-].
Qed.

Lemma post_log msg w Q : Q tt (with_log msg w) → post (log msg) w Q.
Proof. by intros H a w' [= <- <-]. Qed.

Lemma post_set_errno e w Q : Q tt (with_errno e w) → post (set_errno e) w Q.
Proof. by intros H a w' [= <- <-]. Qed.

Lemma post_get_errno w Q : Q (w_errno w) w → post get_errno w Q.
Proof. by intros H a w' [= <- <-]. Qed.

Lemma post_getpid w Q : Q (w_pid w) w → post getpid w Q.
Proof. by intros H a w' [= <- <-]. Qed.

Lemma post_die {A} msg w (Q : A → world → Prop) : post (error_msg_and_die msg) w Q.
Proof. by intros a w'. Qed.

Lemma post_spin {A} w (Q : A → world → Prop) : post spin w Q.
Proof. by intros a w'. Qed.

Lemma post_mono {A} (m : M A) w (Q Q' : A → world → Prop) :
  post m w Q → (∀ a w', Q a w' → Q' a w') → post m w Q'.
Proof. intros H HQ a w' E. by apply HQ, H. Qed.

(** One step of the calculus on the head of the program. *)
Ltac wp_step :=
  lazymatch goal with
  | |- post (mret _) _ _ => apply post_ret
  | |- post (_ ≫= _) _ _ => apply post_bind
  | |- post (syscall _) _ _ => apply post_syscall
  | |- post (log _) _ _ => apply post_log
  | |- post (perror_msg _) _ _ => apply post_log
  | |- post (error_msg _) _ _ => apply post_log
  | |- post (set_errno _) _ _ => apply post_set_errno
  | |- post get_errno _ _ => apply post_get_errno
  | |- post getpid _ _ => apply post_getpid
  | |- post (error_msg_and_die _) _ _ => apply post_die
  | |- post spin _ _ => apply post_spin
  | |- post (if ?b then _ else _) _ _ => destruct b eqn:?
  | |- post (match ?x with _ => _ end) _ _ => destruct x eqn:?
  | |- post (let '(_, _) := ?x in _) _ _ => destruct x eqn:?
  end.

Ltac wp := repeat (wp_step; cbv beta).

(** ** The log of a run *)

Section LogFacts.

Variable sizeof_time_t : Z.

Lemma apply_env_log a w : w_log (apply_env a w) = w_log w.
Proof.
  destruct a; simpl; unfold fs_unlink, fs_create; repeat case_match; done.
Qed.

Lemma env_step_log w : w_log (env_step w) = w_log w.
Proof.
  unfold env_step. destruct (w_env w) as [|batch env]; [done|].
  change (w_log w) with (w_log (with_env env w)).
  generalize (with_env env w). induction batch as [|a batch IH]; intros w0; [done|].
  simpl. by rewrite IH, apply_env_log.
Qed.

Lemma sys_symlinkat_log t fd n w : w_log (sys_symlinkat t fd n w).2 = w_log w.
Proof. unfold sys_symlinkat, sys_fail, fs_create. repeat case_match; done. Qed.

Lemma sys_readlinkat_log fd n sz w : w_log (sys_readlinkat fd n sz w).2 = w_log w.
Proof. unfold sys_readlinkat, sys_fail. repeat case_match; done. Qed.

Lemma sys_unlinkat_log fd n w : w_log (sys_unlinkat fd n w).2 = w_log w.
Proof.
  unfold sys_unlinkat, sys_fail, fs_unlink. repeat case_match; done.
Qed.

Lemma sys_access_log p w : w_log (sys_access p w).2 = w_log w.
Proof. unfold sys_access, sys_fail. repeat case_match; done. Qed.

Lemma sys_openat_log fd n fl m w : w_log (sys_openat fd n fl m w).2 = w_log w.
Proof.
  unfold sys_openat, open_existing, sys_fail, open_fd, fs_create.
  repeat case_match; simplify_eq; done.
Qed.

Lemma sys_fstat_log fd w : w_log (sys_fstat fd w).2 = w_log w.
Proof. unfold sys_fstat, sys_fail. repeat case_match; done. Qed.

Lemma sys_read_log fd n w : w_log (sys_read fd n w).2 = w_log w.
Proof. unfold sys_read, sys_fail. repeat case_match; done. Qed.

Lemma sys_close_log fd w : w_log (sys_close fd w).2 = w_log w.
Proof. unfold sys_close, sys_fail. repeat case_match; done. Qed.

Lemma no_time_count_log msg w :
  msg ≠ MSG_UNLOCKED_NO_TIME → no_time_count (with_log msg w) = no_time_count w.
Proof.
  intros Hm. unfold no_time_count. simpl. rewrite filter_app, length_app.
  rewrite filter_cons, decide_False by done. simpl. lia.
Qed.

Lemma no_time_count_eq w w' : w_log w' = w_log w → no_time_count w' = no_time_count w.
Proof. unfold no_time_count. by intros ->. Qed.

End LogFacts.

(** ** The lock *)

Section Lock.

Variable sizeof_time_t : Z.

#[local] Create Rewrite HintDb wlog.
#[local] Hint Rewrite env_step_log sys_symlinkat_log sys_readlinkat_log sys_unlinkat_log
  sys_access_log sys_openat_log sys_fstat_log sys_read_log sys_close_log : wlog.

Lemma count_app_other (l : list string) msg :
  msg ≠ MSG_UNLOCKED_NO_TIME →
  length (filter (λ m, m = MSG_UNLOCKED_NO_TIME) (l ++ [msg]))
  = length (filter (λ m, m = MSG_UNLOCKED_NO_TIME) l).
Proof.
  intros Hm. rewrite filter_app, length_app, filter_cons, decide_False by done.
  simpl. lia.
Qed.

(** Close a goal on the log count of a world built by system calls,
    [errno] updates and log entries other than the one counted. *)
Ltac solve_count :=
  unfold no_time_count in *;
  repeat (progress
    (cbn [w_log with_log with_errno with_fds with_inodes with_env with_proc fst snd];
     autorewrite with wlog;
     rewrite ?count_app_other by discriminate));
  try done; try congruence.

(** Close a goal on the value returned and the [errno] left. *)
Ltac solve_result :=
  first [ left; reflexivity
        | right; left; reflexivity
        | right; right; split; [reflexivity|];
          cbn [w_errno with_log with_errno];
          first [ discriminate
                | let He := fresh in intros He; rewrite He in *; discriminate ] ].

(** [create_symlink_lockfile_at] returns 1, 0 or -1; it leaves no
    [EISDIR] in [errno] when it fails, and does not log a missing
    [time] file. *)
Lemma create_symlink_lockfile_at_post fuel dir_fd lock_file pid : ∀ w,
  post (create_symlink_lockfile_at fuel dir_fd lock_file pid) w
    (λ r w', no_time_count w' = no_time_count w
             ∧ (r = 1 ∨ r = 0 ∨ (r = -1 ∧ w_errno w' ≠ EISDIR))).
Proof.
  induction fuel as [|fuel IH]; intros w; [apply post_spin|].
  cbn [create_symlink_lockfile_at].
  unfold symlinkat, readlinkat, unlinkat, access, usleep.
  wp.
  all: try (eapply post_mono; [apply IH|]; cbv beta; intros r' w' [Hc Hr];
            split; [rewrite Hc|done]).
  all: try (split; [|solve_result]).
  all: solve_count.
Qed.

Lemma parse_time_file_at_post dir_fd filename w :
  post (parse_time_file_at sizeof_time_t dir_fd filename) w
    (λ _ w', no_time_count w' = no_time_count w).
Proof.
  unfold parse_time_file_at, secure_openat_read, openat, fstat, close, read.
  wp. all: solve_count.
Qed.

Lemma dd_check_post dd w :
  post (dd_check sizeof_time_t dd) w
    (λ res w', no_time_count w' = no_time_count w
               ∧ locked res.2 = locked dd ∧ dd_fd res.2 = dd_fd dd
               ∧ (res.1 = None → 0 ≤ dd_time res.2)).
Proof.
  unfold dd_check. apply post_bind.
  eapply post_mono; [apply parse_time_file_at_post|]. cbv beta.
  intros t w1 Hc. wp; simpl.
  - split; [solve_count|]. done.
  - split; [done|]. repeat split; try done. intros _. lia.
Qed.

(** The removed entry is gone: a stat of it fails. *)
Lemma sys_unlinkat_absent dir_fd name w :
  (sys_unlinkat dir_fd name w).1 = 0 →
  (sys_fstatat dir_fd name (sys_unlinkat dir_fd name w).2).1 = None.
Proof.
  unfold sys_unlinkat.
  destruct (dir_at w dir_fd) as [e|[d di]] eqn:Hd; [done|].
  destruct (dir_entry w d name) as [[ino i]|] eqn:He; [|done].
  destruct (is_dir i) eqn:Hi; [done|].
  destruct (may_write w di); [|done]. intros _. simpl.
  unfold dir_at, fd_inode in Hd.
  destruct (dir_fd <? 0) eqn:Hneg; [done|].
  destruct (w_fds w !! Z.to_nat dir_fd) as [f|] eqn:Hf; simpl in Hd; [|done].
  destruct (w_inodes w !! of_ino f) as [di'|] eqn:Hdi; simpl in Hd; [|done].
  destruct (is_dir di') eqn:Hdir; [|done]. simplify_eq.
  assert (Hne : ino ≠ of_ino f).
  { intros ->. apply dir_entry_inode in He. congruence. }
  unfold sys_fstatat, dir_at, fd_inode, fs_unlink. rewrite Hneg, He. simpl.
  rewrite Hf. simpl. rewrite lookup_alter_eq, lookup_insert_ne, Hdi by done.
  simpl. unfold is_dir in *. simpl. rewrite Hdir.
  unfold dir_entry. simpl.
  rewrite lookup_alter_eq, lookup_insert_ne, Hdi by done. simpl.
  by rewrite lookup_delete_eq.
Qed.

Lemma xunlinkat_post dir_fd name w :
  post (xunlinkat dir_fd name) w
    (λ _ w', no_time_count w' = no_time_count w
             ∧ (sys_fstatat dir_fd name w').1 = None).
Proof.
  unfold xunlinkat, unlinkat. wp.
  split; [solve_count|]. apply sys_unlinkat_absent.
  by apply negb_false_iff, Z.eqb_eq in Heqb.
Qed.

Lemma sys_fstatat_log dir_fd name msg w :
  (sys_fstatat dir_fd name (with_log msg w)).1 = (sys_fstatat dir_fd name w).1.
Proof.
  unfold sys_fstatat.
  change (dir_at (with_log msg w) dir_fd) with (dir_at w dir_fd).
  destruct (dir_at w dir_fd) as [e|[d di]]; [done|].
  change (dir_entry (with_log msg w) d name) with (dir_entry w d name).
  by destruct (dir_entry w d name) as [[]|].
Qed.

Lemma sys_fstatat_errno dir_fd name e w :
  (sys_fstatat dir_fd name (with_errno e w)).1 = (sys_fstatat dir_fd name w).1.
Proof.
  unfold sys_fstatat.
  change (dir_at (with_errno e w) dir_fd) with (dir_at w dir_fd).
  destruct (dir_at w dir_fd) as [e'|[d di]]; [done|].
  change (dir_entry (with_errno e w) d name) with (dir_entry w d name).
  by destruct (dir_entry w d name) as [[]|].
Qed.

Lemma dd_lock_retry_post flags pid_buf fuel : ∀ dd (count : nat) w,
  locked dd = false → (1 ≤ count ≤ 10)%nat →
  post (dd_lock_retry sizeof_time_t fuel dd WAIT_FOR_OTHER_PROCESS_USLEEP flags
          pid_buf (Z.of_nat count)) w
    (lock_outcome flags dd count w).
Proof.
  induction fuel as [|fuel IH]; intros dd count w Hl Hcount; [apply post_spin|].
  cbn [dd_lock_retry]. apply post_bind.
  eapply post_mono; [apply create_symlink_lockfile_at_post|]. cbv beta.
  intros r w1 [Hc1 Hr].
  destruct Hr as [-> | [-> | [-> Herr]]]; cbn [Z.ltb Z.compare negb].
  - (* the lock is taken: look for the time file *)
    change (WAIT_FOR_OTHER_PROCESS_USLEEP =? WAIT_FOR_OTHER_PROCESS_USLEEP)
      with true. cbv iota.
    apply post_bind. eapply post_mono; [apply dd_check_post|]. cbv beta.
    intros [missing dd1] w2 (Hc2 & Hl2 & Hfd2 & Htime). simpl in Hl2, Hfd2, Htime.
    destruct missing as [file|].
    + (* no time file: unlock and back off *)
      apply post_bind. eapply post_mono; [apply xunlinkat_post|]. cbv beta.
      intros _ w3 [Hc3 Habs]. apply post_bind, post_log.
      assert (Hcnt : unsigned_wrap (Z.of_nat count - 1) = Z.of_nat (count - 1)).
      { unfold unsigned_wrap. rewrite Z.mod_small; lia. }
      rewrite Hcnt.
      assert (Hc4 : no_time_count (with_log MSG_UNLOCKED_NO_TIME w3)
                    = (no_time_count w + 1)%nat).
      { unfold no_time_count in *. simpl. rewrite filter_app, length_app.
        simpl. congruence. }
      destruct ((Z.of_nat (count - 1) =? 0) || has_flag flags DD_DONT_WAIT_FOR_LOCK)
        eqn:Hstop.
      * (* give up *)
        wp. exists 1%nat. split; [done|]. split; [lia|].
        split; [split; [intros _|done]|].
        -- split; [done|]. apply orb_true_iff in Hstop as [Hz|Hf]; [|by left].
           right. apply Z.eqb_eq in Hz. lia.
        -- split; [intros _|]. { split; [by rewrite Hl2, Hl|].
             rewrite sys_fstatat_errno, sys_fstatat_log. by rewrite Hfd2 in Habs. }
           split; [by right|]. split; [|done]. split; [done|]. congruence.
      * (* sleep and retry *)
        apply orb_false_iff in Hstop as [Hz Hf]. apply Z.eqb_neq in Hz.
        apply post_bind. unfold usleep. apply post_syscall. cbv beta. simpl.
        eapply post_mono; [apply (IH dd1 (count - 1)%nat); [congruence|lia]|].
        intros [r dd'] w' (n & Hn & Hle & Hiff & Habs' & Hr & Hlk & Ht).
        exists (S n). split.
        { rewrite Hn. unfold no_time_count in *. autorewrite with wlog.
          simpl in *. lia. }
        split; [lia|]. split.
        { rewrite Hiff, Hf. split.
          - intros [? [?|?]]; [done|]. split; [lia|]. right. lia.
          - intros [? [?|?]]; [done|]. split; [lia|]. right. lia. }
        split; [by rewrite <- Hfd2|]. done.
    + (* the time file is there: the handle holds the lock *)
      wp. exists 0%nat. split; [solve_count; lia|]. split; [lia|].
      split; [split; [by intros [? _]|intros [? _]; lia]|].
      split; [by intros [? _]|]. split; [by left|]. split; [done|]. auto.
  - (* busy: sleep and try again *)
    apply post_bind. unfold usleep. apply post_syscall. cbv beta. simpl.
    eapply post_mono; [apply (IH dd count); done|].
    intros [r dd'] w' (n & Hn & Hrest). exists n. split; [|done].
    rewrite Hn. unfold no_time_count in *. autorewrite with wlog. simpl in *. lia.
  - (* error *)
    wp. exists 0%nat. split; [lia|]. split; [lia|].
    split; [split; [intros [_ ?]; done|intros [? _]; lia]|].
    split; [intros [_ ?]; done|]. split; [by right|].
    split; [split; [done|congruence]|done].
Qed.

End Lock.

(** ** The time stamp parser *)

(** Run the monad on the world at hand. *)
Ltac mstep :=
  first [ rewrite bind_unfold
        | rewrite ret_unfold
        | progress (unfold get_errno, set_errno, log, perror_msg, error_msg)
        | progress cbv beta iota ].
Ltac mrun := repeat mstep.

Section TimeFile.

Variable sizeof_time_t : Z.
Hypothesis sizeof_time_t_cases : sizeof_time_t = 4 ∨ sizeof_time_t = 8.

Lemma removelast_take {A} (l : list A) : removelast l = take (length l - 1) l.
Proof.
  induction l as [|x l IH]; [done|]. destruct l as [|y l]; [done|].
  change (removelast (x :: y :: l)) with (x :: removelast (y :: l)).
  rewrite IH. simpl. by rewrite Nat.sub_0_r.
Qed.

Lemma last_nth {A} (l : list A) (d : A) : List.last l d = nth (length l - 1) l d.
Proof.
  induction l as [|x l IH]; [done|]. destruct l as [|y l]; [done|].
  change (List.last (x :: y :: l) d) with (List.last (y :: l) d).
  rewrite IH. simpl. by rewrite Nat.sub_0_r.
Qed.

Lemma TextLoader_ends_with_newline_nth l :
  TextLoader.ends_with_newline l
  = negb (bool_decide (l = [])) && Ascii.eqb (nth (length l - 1) l NUL) LF.
Proof. by rewrite ends_with_newline_last, last_nth. Qed.

Lemma MAX_TIME_T_value : MAX_TIME_T sizeof_time_t = 2 ^ (sizeof_time_t * 8 - 1) - 1.
Proof. destruct sizeof_time_t_cases as [-> | ->]; reflexivity. Qed.

Lemma isdigit_str_forall s :
  isdigit_str s = negb (bool_decide (s = [])) && forallb is_digit s.
Proof.
  induction s as [|c s IH]; [done|]. cbn [isdigit_str forallb]. unfold is_digit at 1.
  rewrite !Z.leb_antisym.
  destruct (code c <? code "0"); [done|].
  destruct (code "9" <? code c); [done|].
  cbn [orb negb andb]. destruct s as [|c' s]; [done|]. rewrite IH. done.
Qed.

Lemma strtoll_digits_all s : ∀ acc,
  forallb is_digit s = true →
  strtoll_digits s acc
  = (fold_left (λ acc c, acc * 10 + (code c - code "0")) s acc, []).
Proof.
  induction s as [|c s IH]; intros acc H; [done|].
  simpl in H. apply andb_true_iff in H as [Hc Hs]. simpl. rewrite Hc. by apply IH.
Qed.

Lemma decimal_nonneg s : forallb is_digit s = true → 0 ≤ decimal s.
Proof.
  unfold decimal.
  assert (H : ∀ acc, 0 ≤ acc → forallb is_digit s = true →
            0 ≤ fold_left (λ acc c, acc * 10 + (code c - code "0")) s acc).
  { induction s as [|c s IH]; intros acc Hacc Hs; [done|].
    simpl in Hs. apply andb_true_iff in Hs as [Hc Hs]. simpl. apply IH; [|done].
    unfold is_digit in Hc. apply andb_true_iff in Hc as [?%Z.leb_le ?%Z.leb_le]. lia. }
  by apply H.
Qed.

(** [strtoll] on a string [isdigit_str] accepts. *)
Lemma strtoll_digit_string s :
  isdigit_str s = true →
  strtoll s =
  if LLONG_MAX <? decimal s then StrtollResult LLONG_MAX [] (Some 34)
  else StrtollResult (decimal s) [] None.
Proof.
  rewrite isdigit_str_forall. intros [Hne Hall]%andb_true_iff.
  destruct s as [|c s]; [done|].
  pose proof (decimal_nonneg _ Hall) as Hpos.
  pose proof Hall as Hc. simpl in Hc. apply andb_true_iff in Hc as [Hc _].
  assert (Hcode : 48 ≤ code c ≤ 57).
  { unfold is_digit in Hc. apply andb_true_iff in Hc as [?%Z.leb_le ?%Z.leb_le].
    change (code "0") with 48 in *. change (code "9") with 57 in *. lia. }
  unfold strtoll. cbn [dropwhile_space].
  replace (isspace (code c)) with false.
  2:{ unfold isspace. symmetry. apply orb_false_iff. split.
      - apply Z.eqb_neq. lia.
      - apply andb_false_iff. right. apply Z.leb_gt. lia. }
  replace (Ascii.eqb c "-") with false.
  2:{ symmetry. apply Ascii.eqb_neq. intros ->.
      change (code "-") with 45 in Hcode. lia. }
  replace (Ascii.eqb c "+") with false.
  2:{ symmetry. apply Ascii.eqb_neq. intros ->.
      change (code "+") with 43 in Hcode. lia. }
  rewrite Hc, strtoll_digits_all by done. fold (decimal (c :: s)).
  destruct (LLONG_MAX <? decimal (c :: s)); [done|].
  replace (decimal (c :: s) <? LLONG_MIN) with false; [done|].
  symmetry. apply Z.ltb_ge. unfold LLONG_MIN. lia.
Qed.

Lemma secure_openat_read_ok dir_fd name w d di ino i :
  w_env w = [] →
  dir_at w dir_fd = inr (d, di) → dir_entry w d name = Some (ino, i) →
  st_fmt i = S_IFREG → st_nlink i ≤ 1 → may_read w i = true →
  secure_openat_read dir_fd name w = Ret (open_fd ino w).1 (open_fd ino w).2.
Proof.
  intros Hq Hd He Hreg Hlink Hread. unfold secure_openat_read, openat.
  rewrite bind_unfold, syscall_quiet by done.
  destruct (sys_openat_read dir_fd name w) as
    [(e & _ & _ & Hbad)|(d' & di' & ino' & i' & Hd' & He' & _ & _ & ->)].
  { destruct (Hbad _ _ _ _ Hd He) as [?|?]; congruence. }
  rewrite Hd in Hd'. simplify_eq.
  pose proof (open_fd_nonneg w ino) as Hfd.
  pose proof (fd_inode_open_fd w ino i (dir_entry_inode _ _ _ _ _ He)) as Hino.
  destruct (open_fd ino w) as [fd w1] eqn:Hopen. simpl in Hfd, Hino |- *.
  destruct (Z.ltb_spec fd 0) as [?|_]; [lia|].
  assert (Hq1 : w_env w1 = []) by (unfold open_fd in Hopen; by simplify_eq).
  unfold fstat. rewrite bind_unfold, syscall_quiet by done.
  unfold sys_fstat. rewrite Hino. cbn [fst snd].
  rewrite Hreg, bool_decide_eq_true_2 by done.
  replace (1 <? st_nlink i) with false by (symmetry; apply Z.ltb_ge; lia).
  done.
Qed.

(** The parser on a regular, readable file with one link. *)
Lemma parse_time_file_at_value dir_fd name w d di ino i :
  w_env w = [] →
  dir_at w dir_fd = inr (d, di) → dir_entry w d name = Some (ino, i) →
  st_fmt i = S_IFREG → st_nlink i ≤ 1 → may_read w i = true →
  ∃ w', parse_time_file_at sizeof_time_t dir_fd name w
        = Ret (time_file_value sizeof_time_t (i_data i)) w'.
Proof.
  intros Hq Hd He Hreg Hlink Hread. unfold parse_time_file_at.
  rewrite bind_unfold, (secure_openat_read_ok _ _ _ _ _ _ _ Hq Hd He) by done.
  pose proof (open_fd_nonneg w ino) as Hfd.
  pose proof (fd_inode_open_fd w ino i (dir_entry_inode _ _ _ _ _ He)) as Hino.
  assert (Hpos : w_fds (open_fd ino w).2 !! Z.to_nat (open_fd ino w).1
                 = Some (OpenFile ino 0)).
  { unfold open_fd. simpl. by rewrite Nat2Z.id, lookup_insert_eq. }
  assert (Hq1 : w_env (open_fd ino w).2 = []) by done.
  destruct (open_fd ino w) as [fd w1]. simpl in Hfd, Hino, Hpos, Hq1 |- *.
  destruct (Z.ltb_spec fd 0) as [?|_]; [lia|].
  unfold read, close. rewrite bind_unfold, syscall_quiet by done.
  unfold sys_read. rewrite Hino, Hpos.
  assert (Hnd : is_dir i = false) by (unfold is_dir; by rewrite Hreg).
  rewrite Hnd. cbn [fmap option_fmap option_map default of_pos fst snd id].
  rewrite drop_0.
  set (n := Z.to_nat (sizeof_time_buf sizeof_time_t)).
  set (bytes := take n (i_data i)).
  rewrite bind_unfold, syscall_quiet by done.
  unfold sys_close.
  replace (fd_inode _ fd) with (Some (ino, i)).
  2:{ unfold fd_inode in *. destruct (fd <? 0); [done|]. cbn.
      rewrite lookup_insert_eq. cbn. rewrite Hpos in Hino. cbn in Hino. done. }
  cbn [fst snd].
  assert (Hn : Z.of_nat n = sizeof_time_buf sizeof_time_t).
  { unfold n, sizeof_time_buf. destruct sizeof_time_t_cases as [-> | ->]; done. }
  assert (Hlen : length bytes = Nat.min n (length (i_data i))).
  { unfold bytes. apply length_take. }
  unfold time_file_value.
  replace (Z.of_nat (length bytes) =? -1) with false
    by (symmetry; apply Z.eqb_neq; lia).
  destruct (Z.leb_spec (sizeof_time_buf sizeof_time_t) (Z.of_nat (length (i_data i))))
    as [Hlong|Hshort].
  { replace (Z.of_nat (length bytes) =? sizeof_time_buf sizeof_time_t) with true
      by (symmetry; apply Z.eqb_eq; lia).
    by eexists. }
  replace (Z.of_nat (length bytes) =? sizeof_time_buf sizeof_time_t) with false
    by (symmetry; apply Z.eqb_neq; lia).
  assert (Hbytes : bytes = i_data i).
  { unfold bytes. apply take_ge. lia. }
  rewrite Hbytes. clear Hbytes Hlen. clearbody bytes. revert Hshort.
  generalize (i_data i) as data. intros data Hshort.
  (* the content is stripped of one trailing newline *)
  set (stripped := if TextLoader.ends_with_newline data then removelast data else data).
  assert (Hstrip :
    take (Z.to_nat (if (0 <? Z.of_nat (length data))
                       && Ascii.eqb (nth (Z.to_nat (Z.of_nat (length data) - 1)) data NUL) LF
                    then Z.of_nat (length data) - 1 else Z.of_nat (length data))) data
    = stripped).
  { unfold stripped. rewrite TextLoader_ends_with_newline_nth.
    replace (Z.to_nat (Z.of_nat (length data) - 1)) with (length data - 1)%nat by lia.
    destruct data as [|c data]; [done|].
    replace (0 <? Z.of_nat (length (c :: data))) with true
      by (symmetry; apply Z.ltb_lt; simpl; lia).
    cbn [andb negb]. rewrite bool_decide_eq_false_2 by done. cbn [negb andb].
    destruct (Ascii.eqb (nth (length (c :: data) - 1) (c :: data) NUL) LF).
    - replace (Z.to_nat (Z.of_nat (length (c :: data)) - 1))
        with (length (c :: data) - 1)%nat by lia.
      by rewrite removelast_take.
    - rewrite Nat2Z.id. by apply take_ge. }
  rewrite Hstrip. set (time_buf := c_str stripped).
  rewrite MAX_TIME_T_value.
  destruct (isdigit_str time_buf) eqn:Hdig.
  2:{ cbn [andb negb].
      destruct (strtoll_errno (strtoll time_buf)); mrun;
        rewrite !orb_true_r; mrun; by eexists. }
  rewrite strtoll_digit_string by done.
  pose proof Hdig as Hall. rewrite isdigit_str_forall in Hall.
  apply andb_true_iff in Hall as [_ Hall]. apply decimal_nonneg in Hall.
  assert (Hmax : 2 ^ (sizeof_time_t * 8 - 1) - 1 ≤ LLONG_MAX).
  { destruct sizeof_time_t_cases as [-> | ->]; by vm_compute. }
  cbn [andb negb].
  destruct (Z.ltb_spec LLONG_MAX (decimal time_buf)) as [Hbig|Hfit].
  - cbn [strtoll_errno strtoll_val strtoll_end]. mrun.
    cbn [w_errno with_errno].
    replace (decimal time_buf <? 2 ^ (sizeof_time_t * 8 - 1) - 1) with false
      by (symmetry; apply Z.ltb_ge; lia).
    change (negb (34 =? 0)) with true. cbn [orb]. mrun. by eexists.
  - cbn [strtoll_errno strtoll_val strtoll_end]. mrun.
    cbn [w_errno with_errno].
    change (negb (0 =? 0)) with false.
    rewrite bool_decide_eq_true_2 by done. cbn [negb orb]. rewrite orb_false_r.
    destruct (Z.leb_spec (2 ^ (sizeof_time_t * 8 - 1) - 1) (decimal time_buf))
      as [Hover|Hok].
    + replace (decimal time_buf <? 2 ^ (sizeof_time_t * 8 - 1) - 1) with false
        by (symmetry; apply Z.ltb_ge; lia).
      mrun. by eexists.
    + replace (decimal time_buf <? 2 ^ (sizeof_time_t * 8 - 1) - 1) with true
        by (symmetry; apply Z.ltb_lt; lia).
      mrun. eexists. f_equal. unfold time_t_wrap.
      assert (Hp : 2 ^ (sizeof_time_t * 8) = 2 * 2 ^ (sizeof_time_t * 8 - 1)).
      { destruct sizeof_time_t_cases as [-> | ->]; by vm_compute. }
      assert (Hp2 : 0 < 2 ^ (sizeof_time_t * 8 - 1)).
      { destruct sizeof_time_t_cases as [-> | ->]; by vm_compute. }
      rewrite Hp, Z.mod_small; lia.
Qed.

(** On a content without NUL the parser does what the specification
    says: the value is returned exactly when the content is shorter
    than the buffer and, stripped of one trailing newline, a non-empty
    sequence of digits of value below [2^(bits-1) - 1]. *)
Lemma time_file_value_spec data :
  NUL ∉ data →
  let stripped :=
    if TextLoader.ends_with_newline data then removelast data else data in
  let valid :=
    Z.of_nat (length data) < sizeof_time_buf sizeof_time_t
    ∧ stripped ≠ [] ∧ forallb is_digit stripped = true
    ∧ decimal stripped < 2 ^ (sizeof_time_t * 8 - 1) - 1 in
  (valid → time_file_value sizeof_time_t data = decimal stripped ∧ 0 ≤ decimal stripped)
  ∧ (¬ valid → time_file_value sizeof_time_t data = -1).
Proof.
  intros Hnul stripped valid. unfold time_file_value. fold stripped.
  assert (Hs : c_str stripped = stripped).
  { apply c_str_id. unfold stripped. destruct (TextLoader.ends_with_newline data);
      [|done]. intros Hin. apply Hnul. rewrite removelast_take in Hin.
    by apply subseteq_take in Hin. }
  rewrite Hs, isdigit_str_forall. unfold valid. split.
  - intros (Hlen & Hne & Hdig & Hval).
    replace (sizeof_time_buf sizeof_time_t <=? Z.of_nat (length data)) with false
      by (symmetry; apply Z.leb_gt; lia).
    rewrite bool_decide_eq_false_2, Hdig by done. cbn [negb andb].
    replace (decimal stripped <? 2 ^ (sizeof_time_t * 8 - 1) - 1) with true
      by (symmetry; apply Z.ltb_lt; lia).
    split; [done|]. by apply decimal_nonneg.
  - intros Hnot.
    destruct (Z.leb_spec (sizeof_time_buf sizeof_time_t) (Z.of_nat (length data)));
      [done|].
    destruct (decide (stripped = [])) as [He|He].
    { rewrite (bool_decide_eq_true_2 _ He). reflexivity. }
    rewrite bool_decide_eq_false_2 by done. cbn [negb andb].
    destruct (forallb is_digit stripped) eqn:Hdig; [|done]. cbn [andb].
    destruct (Z.ltb_spec (decimal stripped) (2 ^ (sizeof_time_t * 8 - 1) - 1));
      [|done].
    exfalso. apply Hnot. done.
Qed.

End TimeFile.

(** C2. A [time] file with the content [12], a NUL byte and [x]: the
    content is not a sequence of digits, and the specified result is a
    failure; the parser returns 12, the digits before the NUL. *)
Theorem parse_time_file_at_embedded_NUL :
  let data := ["1"; "2"; NUL; "x"]%char in
  forallb is_digit data = false
  ∧ ∃ w', parse_time_file_at 8 3 "time" (world_with_time_file data) = Ret 12 w'.
Proof.
  cbv zeta. split; [reflexivity|]. eexists. vm_compute. reflexivity.
Qed.

(** ** Writing an item and reading it back *)

Section Items.

Lemma holds_item_dir_entry w dir_fd name ino i :
  holds_item w dir_fd name ino i →
  ∃ d di, dir_at w dir_fd = inr (d, di) ∧ dir_entry w d name = Some (ino, i).
Proof.
  intros (Hfd & d & di & Hd & Hdi & Hdir & He & Hne & Hi).
  exists d, di. unfold dir_at, fd_inode, dir_entry.
  destruct (Z.ltb_spec dir_fd 0) as [?|_]; [lia|].
  destruct (w_fds w !! Z.to_nat dir_fd) as [f|]; simpl in Hd; [|done].
  simplify_eq. simpl. rewrite Hdi. simpl. rewrite Hdir, He. simpl. by rewrite Hi.
Qed.

Lemma writing_fd_inode w dir_fd name fd ino i pos :
  writing w dir_fd name fd ino i pos → fd_inode w fd = Some (ino, i).
Proof.
  intros ((_ & d & di & _ & _ & _ & _ & _ & Hi) & Hfd & _ & Hf & _).
  unfold fd_inode. destruct (Z.ltb_spec fd 0) as [?|_]; [lia|].
  rewrite Hf. simpl. by rewrite Hi.
Qed.

(** Replacing the inode of the file keeps the state. *)
Lemma writing_update w dir_fd name fd ino i i' pos :
  writing w dir_fd name fd ino i pos →
  writing (with_inodes (<[ino := i']>) w) dir_fd name fd ino i' pos.
Proof.
  intros ((Hdfd & d & di & Hd & Hdi & Hdir & He & Hne & Hi) & Hfd & Hneq & Hf & Hq).
  split; [|done]. split; [done|]. exists d, di. simpl.
  rewrite lookup_insert_ne, lookup_insert_eq by done. done.
Qed.

(** The creating open of [save_binary_file_at]. *)
Lemma sys_openat_creat dir_fd name mode w :
  w_env w = [] →
  let flags := Z.lor (Z.lor (Z.lor O_WRONLY O_EXCL) O_CREAT) O_NOFOLLOW in
  let opened := sys_openat dir_fd name flags mode w in
  0 ≤ opened.1 →
  ∃ ino, writing opened.2 dir_fd name opened.1 ino
           (new_inode w S_IFREG mode []) 0.
Proof.
  intros Hq flags opened. unfold opened, sys_openat.
  destruct (dir_at w dir_fd) as [e|[d di]] eqn:Hd; [simpl; lia|].
  destruct (dir_entry w d name) as [[ino i]|] eqn:He.
  { change (has_flag flags O_CREAT && has_flag flags O_EXCL) with true. simpl. lia. }
  change (has_flag flags O_CREAT) with true. cbv iota.
  destruct (st_nlink di =? 0); [simpl; lia|].
  destruct (may_write w di); [|simpl; lia].
  intros _. unfold fs_create, open_fd. cbn [fst snd with_inodes with_fds w_fds w_inodes].
  set (ino := fresh (dom (w_inodes w))). set (fd := fresh (dom (w_fds w))).
  exists ino.
  unfold dir_at, fd_inode in Hd.
  destruct (Z.ltb_spec dir_fd 0) as [?|Hpos]; [done|].
  destruct (w_fds w !! Z.to_nat dir_fd) as [f|] eqn:Hf; simpl in Hd; [|done].
  destruct (w_inodes w !! of_ino f) as [di'|] eqn:Hdi; simpl in Hd; [|done].
  destruct (is_dir di') eqn:Hdir; [|done]. simplify_eq.
  assert (Hino : ino ≠ of_ino f).
  { intros Heq. pose proof (is_fresh (dom (w_inodes w))) as Hfresh.
    fold ino in Hfresh. rewrite Heq in Hfresh. apply Hfresh.
    apply elem_of_dom. by eexists. }
  assert (Hfdne : fd ≠ Z.to_nat dir_fd).
  { intros Heq. pose proof (is_fresh (dom (w_fds w))) as Hfresh.
    fold fd in Hfresh. rewrite Heq in Hfresh. apply Hfresh.
    apply elem_of_dom. by eexists. }
  split; [|split; [lia|split; [lia|split; [|done]]]].
  - split; [done|]. exists (of_ino f), (set_entries <[name:=ino]> di). simpl.
    rewrite lookup_insert_ne, Hf by done. split; [done|].
    rewrite lookup_alter_eq, lookup_insert_ne, Hdi by done. split; [done|].
    split; [done|]. split; [by rewrite lookup_insert_eq|]. split; [done|].
    by rewrite lookup_alter_ne, lookup_insert_eq.
  - simpl. by rewrite Nat2Z.id, lookup_insert_eq.
Qed.

Lemma sys_fchown_writing w dir_fd name fd ino i pos uid gid :
  writing w dir_fd name fd ino i pos →
  (sys_fchown fd uid gid w).1 = -1
  ∨ writing (sys_fchown fd uid gid w).2 dir_fd name fd ino (set_owner uid gid i) pos.
Proof.
  intros Hw. unfold sys_fchown. rewrite (writing_fd_inode _ _ _ _ _ _ _ Hw).
  destruct ((w_euid w =? 0) || _); [right|by left].
  simpl. eapply writing_update. eassumption.
Qed.

Lemma sys_fchmod_writing w dir_fd name fd ino i pos mode :
  writing w dir_fd name fd ino i pos →
  (sys_fchmod fd mode w).1 = -1
  ∨ writing (sys_fchmod fd mode w).2 dir_fd name fd ino (set_mode mode i) pos.
Proof.
  intros Hw. unfold sys_fchmod. rewrite (writing_fd_inode _ _ _ _ _ _ _ Hw).
  destruct ((w_euid w =? 0) || _); [right|by left].
  simpl. eapply writing_update. eassumption.
Qed.

Lemma sys_write_writing w dir_fd name fd ino i buf count :
  writing w dir_fd name fd ino i 0 →
  st_fmt i = S_IFREG → i_data i = [] →
  (sys_write fd buf count w).1 = Z.of_nat (length (take count buf))
  ∧ writing (sys_write fd buf count w).2 dir_fd name fd ino
            (set_data (take count buf) i) (length (take count buf)).
Proof.
  intros Hw Hreg Hdata. unfold sys_write.
  rewrite (writing_fd_inode _ _ _ _ _ _ _ Hw), Hreg, bool_decide_eq_true_2 by done.
  pose proof Hw as (_ & _ & _ & Hf & _). rewrite Hf, Hdata. simpl.
  split; [done|]. rewrite drop_nil, app_nil_r.
  apply (writing_update _ _ _ _ _ _ (set_data (take count buf) i)) in Hw.
  destruct Hw as ((Hdfd & d & di & Hd & Hrest) & Hfd & Hneq & Hf' & Hq).
  split; [|split; [done|split; [done|split; [|done]]]].
  - split; [done|]. exists d, di. simpl in *.
    rewrite lookup_insert_ne by lia. done.
  - simpl. by rewrite lookup_insert_eq.
Qed.

Lemma sys_close_writing w dir_fd name fd ino i pos :
  writing w dir_fd name fd ino i pos →
  holds_item (sys_close fd w).2 dir_fd name ino i ∧ w_env (sys_close fd w).2 = [].
Proof.
  intros Hw. unfold sys_close. rewrite (writing_fd_inode _ _ _ _ _ _ _ Hw).
  destruct Hw as ((Hdfd & d & di & Hd & Hrest) & Hfd & Hneq & Hf' & Hq).
  split; [|done]. split; [done|]. exists d, di. simpl.
  rewrite lookup_delete_ne by lia. done.
Qed.

Lemma sys_unlinkat_env dir_fd name w : w_env (sys_unlinkat dir_fd name w).2 = w_env w.
Proof. unfold sys_unlinkat, sys_fail, fs_unlink. repeat case_match; done. Qed.

Lemma sys_openat_env dir_fd name flags mode w :
  w_env (sys_openat dir_fd name flags mode w).2 = w_env w.
Proof.
  unfold sys_openat, open_existing, sys_fail, open_fd, fs_create.
  repeat case_match; simplify_eq; done.
Qed.

Lemma sys_fchown_env fd uid gid w : w_env (sys_fchown fd uid gid w).2 = w_env w.
Proof. unfold sys_fchown, sys_fail. repeat case_match; done. Qed.

Lemma sys_fchmod_env fd mode w : w_env (sys_fchmod fd mode w).2 = w_env w.
Proof. unfold sys_fchmod, sys_fail. repeat case_match; done. Qed.

Lemma sys_write_env fd buf n w : w_env (sys_write fd buf n w).2 = w_env w.
Proof. unfold sys_write, sys_fail. repeat case_match; done. Qed.

Lemma sys_close_env fd w : w_env (sys_close fd w).2 = w_env w.
Proof. unfold sys_close, sys_fail. repeat case_match; done. Qed.

Lemma sys_read_env fd n w : w_env (sys_read fd n w).2 = w_env w.
Proof. unfold sys_read, sys_fail. repeat case_match; done. Qed.

Lemma post_syscall_quiet {A} (f : world → A * world) w Q :
  w_env w = [] → Q (f w).1 (f w).2 → post (syscall f) w Q.
Proof. intros Hq H. apply post_syscall. by rewrite env_step_quiet. Qed.

Lemma post_assert_relative name w Q :
  Q tt w → post (assert_relative name) w Q.
Proof.
  intros H [] w'. unfold assert_relative. repeat case_match; try done.
  all: by intros [= <-].
Qed.

#[local] Create Rewrite HintDb wenv.
#[local] Hint Rewrite sys_unlinkat_env sys_openat_env sys_fchown_env sys_fchmod_env
  sys_write_env sys_close_env sys_read_env : wenv.

Ltac solve_quiet :=
  cbn [w_env with_log with_errno fst snd]; autorewrite with wenv;
  repeat (progress (cbn [w_env with_log with_errno fst snd]; autorewrite with wenv));
  assumption.

(** The calculus on a world without pending actions of other processes. *)
Ltac wpq_step :=
  lazymatch goal with
  | |- post (syscall _) _ _ => apply post_syscall_quiet; [solve_quiet|]
  | |- post (assert_relative _) _ _ => apply post_assert_relative
  | |- _ => wp_step
  end.
Ltac wpq := repeat (wpq_step; cbv beta).

(** A successful [save_binary_file_at] leaves the first [size] bytes of
    [data] in a regular file that is the entry [name]. *)
Lemma save_binary_file_at_ok dir_fd name data size uid gid mode w :
  w_env w = [] →
  post (save_binary_file_at dir_fd name data size uid gid mode) w
    (λ saved w1, saved = true →
       ∃ ino i, holds_item w1 dir_fd name ino i
         ∧ st_fmt i = S_IFREG
         ∧ i_data i = take (Z.to_nat size) data
         ∧ unsigned_wrap (Z.of_nat (length (take (Z.to_nat size) data))) = size
         ∧ w_env w1 = []).
Proof.
  intros Hq. unfold save_binary_file_at.
  unfold unlinkat, openat, fchown, fchmod, full_write, close.
  wpq; try done; intros _.
  all: apply Z.ltb_ge in Heqb.
  all: match goal with
       | H : 0 ≤ (sys_openat _ _ _ _ ?wa).1 |- _ =>
           let Hqa := fresh in
           assert (Hqa : w_env wa = []) by solve_quiet;
           destruct (sys_openat_creat dir_fd name mode wa Hqa H) as (ino & Hw)
       end.
  - (* with a change of owner *)
    match type of Hw with writing _ _ _ ?fd _ ?i0 _ =>
      destruct (sys_fchown_writing _ _ _ _ _ _ _ uid gid Hw) as [Hr|Hw1]
    end.
    { rewrite Hr in Heqb1. done. }
    destruct (sys_fchmod_writing _ _ _ _ _ _ _ mode Hw1) as [Hr|Hw2].
    { rewrite Hr in Heqb3. done. }
    destruct (sys_write_writing _ _ _ _ _ _ data (Z.to_nat size) Hw2)
      as [Hr Hw3]; [done..|].
    destruct (sys_close_writing _ _ _ _ _ _ _ Hw3) as [Hitem Hq3].
    eexists _, _. split; [exact Hitem|]. split; [done|]. split; [done|].
    split; [|done]. rewrite Hr in Heqb4.
    by apply negb_false_iff, Z.eqb_eq in Heqb4.
  - (* without *)
    destruct (sys_fchmod_writing _ _ _ _ _ _ _ mode Hw) as [Hr|Hw2].
    { rewrite Hr in Heqb2. done. }
    destruct (sys_write_writing _ _ _ _ _ _ data (Z.to_nat size) Hw2)
      as [Hr Hw3]; [done..|].
    destruct (sys_close_writing _ _ _ _ _ _ _ Hw3) as [Hitem Hq3].
    eexists _, _. split; [exact Hitem|]. split; [done|]. split; [done|].
    split; [|done]. rewrite Hr in Heqb3.
    by apply negb_false_iff, Z.eqb_eq in Heqb3.
Qed.

Lemma correct_filename_relative name w :
  str_is_correct_filename name = true → assert_relative name w = Ret tt w.
Proof.
  unfold str_is_correct_filename, assert_relative.
  destruct name as [|c name]; [done|]. simpl.
  destruct (Ascii.eqb_spec c "/") as [->|Hc]; [done|].
  intros _. destruct c as [[] [] [] [] [] [] [] []]; done.
Qed.

(** Reading an item that is a regular file, when the open succeeds:
    the loader runs on the bytes of the file, and no file changes. *)
Lemma load_text_file_at_item dir_fd name flags w ino i :
  w_env w = [] →
  holds_item w dir_fd name ino i → st_fmt i = S_IFREG →
  str_is_correct_filename name = true →
  has_flag flags DD_OPEN_FOLLOW = false →
  0 ≤ (sys_openat dir_fd name (Z.lor O_RDONLY O_NOFOLLOW) 0 w).1 →
  ∃ w', load_text_file_at dir_fd name flags w
        = Ret (Some (TextLoader.load_text_from_stream (i_data i))) w'
        ∧ w_inodes w' = w_inodes w ∧ w_env w' = []
        ∧ holds_item w' dir_fd name ino i.
Proof.
  intros Hq Hitem Hreg Hname Hflag Hopen. unfold load_text_file_at.
  rewrite bind_unfold, correct_filename_relative by done.
  rewrite Hflag. unfold openat. rewrite bind_unfold, syscall_quiet by done.
  destruct (holds_item_dir_entry _ _ _ _ _ Hitem) as (d & di & Hd & He).
  destruct (sys_openat_read dir_fd name w) as
    [(e & Hfail & _)|(d' & di' & ino' & i' & Hd' & He' & _ & _ & Hok)].
  { rewrite Hfail in Hopen. simpl in Hopen. lia. }
  rewrite Hok. rewrite Hd in Hd'. simplify_eq.
  pose proof (open_fd_nonneg w ino) as Hfd.
  pose proof (fd_inode_open_fd w ino i (dir_entry_inode _ _ _ _ _ He)) as Hino.
  assert (Hpos : w_fds (open_fd ino w).2 !! Z.to_nat (open_fd ino w).1
                 = Some (OpenFile ino 0)).
  { unfold open_fd. simpl. by rewrite Nat2Z.id, lookup_insert_eq. }
  assert (Hw1 : w_inodes (open_fd ino w).2 = w_inodes w
                ∧ w_env (open_fd ino w).2 = []
                ∧ w_fds (open_fd ino w).2
                  = <[Z.to_nat (open_fd ino w).1 := OpenFile ino 0]> (w_fds w)).
  { unfold open_fd. simpl. by rewrite Nat2Z.id. }
  assert (Hfresh : w_fds w !! Z.to_nat (open_fd ino w).1 = None).
  { unfold open_fd. simpl. rewrite Nat2Z.id. apply not_elem_of_dom, is_fresh. }
  destruct (open_fd ino w) as [fd w1]. cbn [fst snd] in *.
  destruct Hw1 as (Hi1 & Hq1 & Hf1).
  unfold load_text_from_file_descriptor.
  replace (fd =? -1) with false by (symmetry; apply Z.eqb_neq; lia).
  unfold fgetc_until_EOF, close.
  rewrite bind_unfold, syscall_quiet by done. rewrite Hino. cbn [fmap option_fmap option_map default snd].
  unfold sys_read. rewrite Hino, Hpos.
  assert (Hnd : is_dir i = false) by (unfold is_dir; by rewrite Hreg).
  rewrite Hnd. cbn [fmap option_fmap option_map default of_pos fst snd id].
  rewrite drop_0, firstn_all.
  rewrite bind_unfold, syscall_quiet by done. unfold sys_close.
  replace (fd_inode _ fd) with (Some (ino, i)).
  2:{ unfold fd_inode in *. destruct (fd <? 0); [done|]. cbn.
      rewrite lookup_insert_eq. cbn. rewrite Hpos in Hino. cbn in Hino. done. }
  cbn [fst snd]. eexists. split; [reflexivity|]. cbn.
  split; [done|]. split; [done|].
  destruct Hitem as (Hdfd & d0 & di0 & Hd0 & Hrest).
  split; [done|]. exists d0, di0. cbn. rewrite Hi1. split; [|done].
  assert (Z.to_nat fd ≠ Z.to_nat dir_fd).
  { intros Heq. rewrite Heq in Hfresh. rewrite Hfresh in Hd0. done. }
  rewrite lookup_delete_ne, lookup_insert_ne, Hf1, lookup_insert_ne by done. done.
Qed.

(** Reading an item whose open fails, for a caller that asks for NULL
    on failure: no file changes. *)
Lemma load_text_file_at_fail dir_fd name flags w :
  w_env w = [] →
  str_is_correct_filename name = true →
  has_flag flags DD_OPEN_FOLLOW = false →
  (sys_openat dir_fd name (Z.lor O_RDONLY O_NOFOLLOW) 0 w).1 < 0 →
  ∃ w', load_text_file_at dir_fd name flags w
        = Ret (if has_flag flags DD_LOAD_TEXT_RETURN_NULL_ON_FAILURE
               then None else Some []) w'
        ∧ w_inodes w' = w_inodes w ∧ w_fds w' = w_fds w ∧ w_env w' = [].
Proof.
  intros Hq Hname Hflag Hopen. unfold load_text_file_at.
  rewrite bind_unfold, correct_filename_relative by done.
  rewrite Hflag. unfold openat. rewrite bind_unfold, syscall_quiet by done.
  destruct (sys_openat_read dir_fd name w) as
    [(e & Hfail & _)|(d' & di' & ino' & i' & Hd' & He' & _ & _ & Hok)].
  2:{ rewrite Hok in Hopen. pose proof (open_fd_nonneg w ino'). lia. }
  rewrite Hfail. cbn [fst snd]. unfold load_text_from_file_descriptor.
  change (-1 =? -1) with true. cbv iota.
  destruct (negb (has_flag flags DD_FAIL_QUIETLY_ENOENT)); mrun; by eexists.
Qed.

Lemma sanitize_id_no_NUL data : TextLoader.sanitize data = data → NUL ∉ data.
Proof. intros <-. apply sanitize_no_NUL. Qed.

End Items.

(** C3, as amended. For a locked handle, a valid item name other than
    [release], and a text payload shorter than 2^32 bytes that the
    sanitization of the reader leaves unchanged and that has at most 31
    newlines or ends in one: when [dd_save_text] succeeds and the item
    can be opened for reading, [dd_load_text] yields the payload, without
    its newline if that is the only one and at the end, with a newline
    appended if it has newlines and does not end in one. *)
Theorem save_text_load_text_round_trip (dd : dump_dir) (name : string)
    (data : list ascii) (w w1 : world) :
  locked dd = true →
  str_is_correct_filename name = true →
  name ≠ "release"%string →
  w_env w = [] →
  TextLoader.sanitize data = data →
  Z.of_nat (length data) < 2 ^ 32 →
  (TextLoader.count_newlines data ≤ 31)%nat
    ∨ TextLoader.ends_with_newline data = true →
  save_binary_file_at (dd_fd dd) name data (unsigned_wrap (strlen data))
    (dd_uid dd) (dd_gid dd) (mode dd) w = Ret true w1 →
  0 ≤ (sys_openat (dd_fd dd) name (Z.lor O_RDONLY O_NOFOLLOW) 0 w1).1 →
  dd_save_text dd name data w = Ret tt w1
  ∧ ∃ w2, dd_load_text dd name w1 = Ret (Some (round_trip_text data)) w2.
Proof.
  intros Hl Hname Hrel Hq Hclean Hlen Hnl Hsave Hopen.
  split.
  { unfold dd_save_text. rewrite Hl, Hname. cbn [negb]. by rewrite bind_unfold, Hsave. }
  destruct (save_binary_file_at_ok _ _ _ _ _ _ _ _ Hq _ _ Hsave eq_refl)
    as (ino & i & Hitem & Hreg & Hdata & _ & Hq1).
  assert (Hsize : take (Z.to_nat (unsigned_wrap (strlen data))) data = data).
  { unfold strlen. rewrite c_str_id by (by apply sanitize_id_no_NUL).
    unfold unsigned_wrap. rewrite Z.mod_small by lia. rewrite Nat2Z.id.
    apply firstn_all. }
  rewrite Hsize in Hdata.
  unfold dd_load_text, dd_load_text_ext. rewrite Hname. cbn [negb].
  replace (String.eqb name "release") with false
    by (symmetry; by apply String.eqb_neq).
  destruct (load_text_file_at_item (dd_fd dd) name 0 w1 ino i Hq1 Hitem Hreg Hname
              eq_refl Hopen) as (w2 & Hload & _).
  exists w2. rewrite Hload, Hdata. do 2 f_equal.
  rewrite load_text_from_stream_spec by (by rewrite Hclean).
  unfold TextLoader.text_loader_spec, round_trip_text. by rewrite Hclean.
Qed.

(** C3, as stated, fails for the item name [release], which the reader
    maps to [os_release]: the text saved under [release] is not read
    back; an empty text is, there being no [os_release]. *)
Lemma save_text_load_text_release :
  let dd := DumpDir "/var/tmp/pd" 3 true NO_UID NO_UID 420 0 in
  let w := world_with_time_file ["0"%char] in
  str_is_correct_filename "release" = true
  ∧ ∃ w1 w2, dd_save_text dd "release" ["x"%char] w = Ret tt w1
      ∧ dd_load_text dd "release" w1 = Ret (Some []) w2
      ∧ Some [] ≠ Some (round_trip_text ["x"%char]).
Proof.
  cbv zeta. split; [reflexivity|]. eexists _, _.
  split; [vm_compute; reflexivity|]. split; [vm_compute; reflexivity|]. discriminate.
Qed.

(** ** The [reported_to] log *)

(** The functions defined by well-founded recursion, unfolded once. *)
Lemma reported_to_scan_step line len_line c p' :
  reported_to_scan line len_line (c :: p') =
  if line_at (c :: p') line len_line then None
  else match strchrnul (c :: p') LF with
       | [] => Some []
       | _ :: q => reported_to_scan line len_line q
       end.
Proof.
  simp reported_to_scan.
  destruct (inspect (strchrnul (c :: p') LF)) as [[|a q] Hx];
    simp reported_to_scan; rewrite Hx; reflexivity.
Qed.

Lemma parse_reported_loop_step line result :
  parse_reported_loop line result =
  match skip_whitespace line with
  | [] => result
  | c :: rest =>
      let line := c :: rest in
      let end_ := skip_non_whitespace line in
      if strncmp line MSG_KEY 4 =? 0 then
        ReportResult (url result) (Some (drop 4 line))
      else
        parse_reported_loop end_
          (if strncmp line URL_KEY 4 =? 0 then
             ReportResult (Some (take (length line - length end_ - 4) (drop 4 line)))
                          (msg result)
           else result)
  end.
Proof.
  simp parse_reported_loop.
  destruct (inspect (skip_whitespace line)) as [[|a q] Hx];
    simp parse_reported_loop; rewrite Hx; reflexivity.
Qed.

Lemma find_loop_step prefix prefix_len buf p found :
  find_loop prefix prefix_len buf p found =
  if Ascii.eqb (char_at buf p) NUL then (buf, found)
  else
    let found :=
      if strncmp (drop p buf) prefix prefix_len =? 0
      then Some (p + prefix_len)%nat else found in
    let q := strchrnul_at buf p LF in
    if negb (Ascii.eqb (char_at buf q) NUL)
    then find_loop prefix prefix_len (<[q := NUL]> buf) (S q) found
    else (buf, found).
Proof.
  simp find_loop.
  destruct (inspect (Ascii.eqb (char_at buf p) NUL)) as [[] Hx];
    simp find_loop; rewrite Hx; reflexivity.
Qed.

Section Lines.

Implicit Types p line : list ascii.

Lemma not_elem_of_cons_inv (x y : ascii) l : x ∉ y :: l → x ≠ y ∧ x ∉ l.
Proof. rewrite not_elem_of_cons. done. Qed.

Lemma lines_of_cons c s :
  lines_of (c :: s) =
  if Ascii.eqb c LF then [] :: lines_of s
  else match lines_of s with
       | [] => [[c]]
       | l :: ls => (c :: l) :: ls
       end.
Proof. reflexivity. Qed.

Lemma lines_of_nonempty p : p ≠ [] → lines_of p ≠ [].
Proof.
  destruct p as [|c p]; [done|]. intros _. simpl.
  destruct (Ascii.eqb c LF); [done|]. by destruct (lines_of p).
Qed.

Lemma lines_of_first p :
  NUL ∉ p → p ≠ [] → lines_of p = first_line p :: lines_of (after_first_line p).
Proof.
  unfold after_first_line.
  induction p as [|c p IH]; [done|]. intros [Hc Hp]%not_elem_of_cons_inv _.
  cbn [lines_of first_line strchrnul].
  destruct (Ascii.eqb_spec c LF) as [->|Hlf]; [done|].
  replace (Ascii.eqb c NUL) with false by (symmetry; apply Ascii.eqb_neq; congruence).
  cbn [orb]. destruct p as [|c' p]; [done|].
  rewrite IH by done. done.
Qed.

Lemma after_first_line_length p : p ≠ [] → (length (after_first_line p) < length p)%nat.
Proof.
  intros Hp. unfold after_first_line. pose proof (strchrnul_length p LF) as Hlen.
  destruct (strchrnul p LF); simpl in *; [|lia].
  destruct p; [done|simpl; lia].
Qed.

Lemma strchrnul_suffix p c : ∃ pre, p = pre ++ strchrnul p c.
Proof.
  induction p as [|x p [pre IH]]; [by exists []|]. simpl.
  destruct (Ascii.eqb x c || Ascii.eqb x NUL); [by exists []|].
  exists (x :: pre). simpl. by rewrite <- IH.
Qed.

Lemma after_first_line_no_NUL p : NUL ∉ p → NUL ∉ after_first_line p.
Proof.
  intros Hp Hin. apply Hp. unfold after_first_line in Hin.
  destruct (strchrnul_suffix p LF) as [pre Hpre].
  destruct (strchrnul p LF) as [|x q]; [by apply elem_of_nil in Hin|].
  rewrite Hpre. apply elem_of_app. right. by right.
Qed.

(** The test of [add_reported_to] holds at [p] exactly when the first
    line of [p] is [line]. *)
Lemma line_at_first_line line : ∀ p,
  NUL ∉ p → NUL ∉ line → LF ∉ line →
  line_at p line (length line) = true ↔ first_line p = line.
Proof.
  unfold line_at.
  induction line as [|x line IH]; intros p Hp Hnul Hlf.
  - cbn [length strncmp nth]. change (0 =? 0) with true. cbn [andb].
    destruct p as [|c p]; [done|].
    apply not_elem_of_cons_inv in Hp as [Hc Hp]. cbn [nth first_line].
    replace (Ascii.eqb c NUL) with false
      by (symmetry; apply Ascii.eqb_neq; congruence).
    rewrite orb_false_r. destruct (Ascii.eqb c LF); done.
  - apply not_elem_of_cons_inv in Hnul as [Hx Hnul].
    apply not_elem_of_cons_inv in Hlf as [Hxl Hlf].
    destruct p as [|c p].
    + cbn [length strncmp first_line].
      assert (0 - code x ≠ 0).
      { intros Heq. apply Hx. apply code_inj. change (code NUL) with 0. lia. }
      replace (0 - code x =? 0) with false by (symmetry; by apply Z.eqb_neq). done.
    + apply not_elem_of_cons_inv in Hp as [Hc Hp].
      cbn [length strncmp nth first_line].
      destruct (Ascii.eqb_spec c x) as [->|Hcx]; cbn [negb].
      * replace (Ascii.eqb x NUL) with false
          by (symmetry; apply Ascii.eqb_neq; congruence).
        replace (Ascii.eqb x LF) with false
          by (symmetry; apply Ascii.eqb_neq; congruence).
        rewrite (IH p) by done. split; [by intros ->|by intros [= ->]].
      * assert (code c - code x ≠ 0).
        { intros Heq. apply Hcx. apply code_inj. lia. }
        replace (code c - code x =? 0) with false by (symmetry; by apply Z.eqb_neq).
        cbn [andb]. split; [done|].
        destruct (Ascii.eqb c LF); [done|]. by intros [= -> _].
Qed.

(** The loop of [add_reported_to] leaves by [goto ret] exactly when
    [line] is a line of the text; otherwise it ends at the terminator. *)
Lemma reported_to_scan_spec line p :
  NUL ∉ p → NUL ∉ line → LF ∉ line →
  (reported_to_scan line (length line) p = None ↔ line ∈ lines_of p)
  ∧ (∀ q, reported_to_scan line (length line) p = Some q → q = []).
Proof.
  intros Hp Hnul Hlf. revert Hp.
  induction p as [p IH] using (induction_ltof1 _ (@length ascii)).
  unfold ltof in IH. intros Hp.
  destruct p as [|c p'] eqn:Ep.
  { simp reported_to_scan. split.
    - split; [intros [=]|]. by intros ?%elem_of_nil.
    - by intros q [= <-]. }
  assert (Hunfold : reported_to_scan line (length line) p =
    if line_at p line (length line) then None
    else match strchrnul p LF with
         | [] => Some []
         | _ :: q => reported_to_scan line (length line) q
         end) by (rewrite Ep; apply reported_to_scan_step).
  rewrite <- Ep in *. assert (Hne : p ≠ []) by (by rewrite Ep).
  rewrite lines_of_first, !Hunfold by done. clear Hunfold.
  pose proof (line_at_first_line line p Hp Hnul Hlf) as Hat.
  specialize (IH (after_first_line p) (after_first_line_length p Hne)
                 (after_first_line_no_NUL p Hp)).
  unfold after_first_line in IH |- *.
  destruct (line_at p line (length line)) eqn:Hl; cbv iota.
  - split; [split; [|done]|done]. intros _. apply elem_of_cons. left. symmetry. by apply Hat.
  - assert (Hfirst : line ≠ first_line p).
    { intros Heq. symmetry in Heq. apply Hat in Heq. done. }
    destruct (strchrnul p LF) as [|x q].
    + split; [split; [done|]|by intros q [= <-]].
      intros [?|?%elem_of_nil]%elem_of_cons; done.
    + destruct IH as [IH1 IH2]. split; [|done]. rewrite IH1.
      rewrite elem_of_cons. tauto.
Qed.

Lemma ends_with_newline_snoc l c :
  TextLoader.ends_with_newline (l ++ [c]) = Ascii.eqb c LF.
Proof.
  rewrite ends_with_newline_last, last_last.
  rewrite bool_decide_eq_false_2; [done|]. by destruct l.
Qed.

Lemma ends_with_newline_cons c c' l :
  TextLoader.ends_with_newline (c :: c' :: l) = TextLoader.ends_with_newline (c' :: l).
Proof. reflexivity. Qed.

Lemma lines_of_line L : L ≠ [] → LF ∉ L → lines_of L = [L] ∧ lines_of (L ++ [LF]) = [L].
Proof.
  induction L as [|x L IH]; [done|]. intros _ [Hx HL]%not_elem_of_cons_inv.
  cbn [lines_of app].
  replace (Ascii.eqb x LF) with false by (symmetry; apply Ascii.eqb_neq; congruence).
  destruct L as [|y L]; [done|].
  destruct IH as [-> ->]; done.
Qed.

Lemma terminated_tail c t : terminated (c :: t) → c ≠ LF → t ≠ [] ∧ terminated t.
Proof.
  intros [?|Ht] Hc; [done|]. destruct t as [|c' t].
  - unfold TextLoader.ends_with_newline in Ht. simpl in Ht.
    by apply Ascii.eqb_eq in Ht.
  - split; [done|]. by right.
Qed.

Lemma terminated_tail_LF t : terminated (LF :: t) → terminated t.
Proof.
  intros [?|Ht]; [done|]. destruct t as [|c' t]; [by left|by right].
Qed.

(** A line appended to a terminated text is its last line. *)
Lemma lines_of_append t L :
  terminated t → L ≠ [] → LF ∉ L →
  lines_of (t ++ L) = lines_of t ++ [L]
  ∧ lines_of (t ++ L ++ [LF]) = lines_of t ++ [L].
Proof.
  intros Ht HL Hlf. induction t as [|c t IH].
  - simpl. by apply lines_of_line.
  - cbn [app lines_of]. destruct (Ascii.eqb_spec c LF) as [->|Hc].
    + destruct (IH (terminated_tail_LF _ Ht)) as [-> ->]. done.
    + destruct (terminated_tail _ _ Ht Hc) as [Hne Ht'].
      destruct (IH Ht') as [-> ->].
      pose proof (lines_of_nonempty t Hne).
      destruct (lines_of t); done.
Qed.

Lemma separator_terminated c : terminated (c ++ separator c).
Proof.
  unfold separator, terminated. destruct c as [|x c]; [by left|].
  rewrite bool_decide_eq_false_2 by done. cbn [negb andb].
  destruct (TextLoader.ends_with_newline (x :: c)) eqn:E; cbn [negb].
  - right. by rewrite app_nil_r.
  - right. by rewrite ends_with_newline_snoc.
Qed.

Lemma lines_of_snoc_LF c :
  c ≠ [] → TextLoader.ends_with_newline c = false → lines_of (c ++ [LF]) = lines_of c.
Proof.
  induction c as [|x c IH]; [done|]. intros _ He.
  destruct c as [|y c].
  - unfold TextLoader.ends_with_newline in He. simpl in He. simpl. by rewrite He.
  - rewrite ends_with_newline_cons in He.
    change ((x :: y :: c) ++ [LF]) with (x :: ((y :: c) ++ [LF])).
    rewrite (lines_of_cons x ((y :: c) ++ [LF])), (lines_of_cons x (y :: c)).
    by rewrite IH.
Qed.

Lemma lines_of_separator c : lines_of (c ++ separator c) = lines_of c.
Proof.
  unfold separator. destruct (decide (c = [])) as [->|Hc]; [done|].
  rewrite bool_decide_eq_false_2 by done. cbn [negb andb].
  destruct (TextLoader.ends_with_newline c) eqn:E; cbn [negb].
  - by rewrite app_nil_r.
  - by apply lines_of_snoc_LF.
Qed.

(** The text [add_reported_to] saves has the lines of the content,
    then [line]. *)
Lemma lines_of_added c L :
  L ≠ [] → LF ∉ L →
  lines_of (c ++ separator c ++ L ++ [LF]) = lines_of c ++ [L]
  ∧ lines_of (c ++ separator c ++ L) = lines_of c ++ [L].
Proof.
  intros HL Hlf. rewrite !(app_assoc c).
  destruct (lines_of_append _ L (separator_terminated c) HL Hlf) as [-> ->].
  by rewrite lines_of_separator.
Qed.

End Lines.

Section Sanitized.
Import TextLoader.

Lemma sanitize_byte_kept c c' : sanitize_byte c = Some c' → kept c'.
Proof.
  unfold kept, sanitize_byte.
  destruct (Ascii.eqb_spec c NUL) as [->|Hc]; [by intros [= <-]|].
  destruct (isspace (code c) || (code SP <=? code c)) eqn:E; [|done].
  intros [= <-]. rewrite E.
  by replace (Ascii.eqb c NUL) with false by (symmetry; by apply Ascii.eqb_neq).
Qed.

Lemma sanitize_kept fp : Forall kept (sanitize fp).
Proof.
  induction fp as [|c fp IH]; [constructor|]. rewrite sanitize_cons.
  destruct (sanitize_byte c) as [c'|] eqn:E; [|done].
  constructor; [by eapply sanitize_byte_kept|done].
Qed.

Lemma sanitize_fixed l : Forall kept l → sanitize l = l.
Proof.
  induction 1 as [|c l Hc _ IH]; [done|]. rewrite sanitize_cons, Hc. by rewrite IH.
Qed.

Lemma sanitize_fixed_inv l : sanitize l = l → Forall kept l.
Proof. intros <-. apply sanitize_kept. Qed.

Lemma sanitize_app l1 l2 : sanitize (l1 ++ l2) = sanitize l1 ++ sanitize l2.
Proof. apply omap_app. Qed.

Lemma Forall_removelast {A} (P : A → Prop) l : Forall P l → Forall P (removelast l).
Proof.
  induction 1 as [|x l Hx Hl IH]; [constructor|].
  destruct l as [|y l]; [constructor|].
  change (removelast (x :: y :: l)) with (x :: removelast (y :: l)).
  by constructor.
Qed.

Lemma load_text_from_stream_kept fp : Forall kept (load_text_from_stream fp).
Proof.
  rewrite load_text_from_stream_char. cbv zeta.
  pose proof (sanitize_kept fp) as Hk.
  assert (Forall kept (sanitize fp ++ [LF])).
  { apply Forall_app. split; [done|]. by repeat constructor. }
  pose proof (Forall_removelast kept _ Hk).
  repeat case_match; auto.
Qed.

End Sanitized.

Section ReportedTo.

(** Loading [reported_to] always returns; the text has no NUL. *)
Lemma dd_load_reported_to dd w :
  ∃ loaded w1,
    dd_load_text_ext dd FILENAME_REPORTED_TO REPORTED_TO_FLAGS w = Ret loaded w1
    ∧ (∀ c, loaded = Some c → (NUL ∉ c) ∧ Forall kept c)
    ∧ (w_env w = [] → w_env w1 = []).
Proof.
  unfold dd_load_text_ext.
  change (str_is_correct_filename FILENAME_REPORTED_TO) with true.
  change (String.eqb FILENAME_REPORTED_TO "release") with false.
  cbn [negb]. unfold load_text_file_at.
  change (has_flag REPORTED_TO_FLAGS DD_OPEN_FOLLOW) with false. cbv iota.
  rewrite bind_unfold.
  change (assert_relative FILENAME_REPORTED_TO w) with (Ret tt w). cbv iota.
  unfold openat. rewrite bind_unfold. unfold syscall at 1.
  pose proof (sys_openat_env (dd_fd dd) FILENAME_REPORTED_TO
                (Z.lor O_RDONLY O_NOFOLLOW) 0 (env_step w)) as Henv.
  destruct (sys_openat _ _ _ _ (env_step w)) as [fd wa]. cbn [snd] in Henv.
  unfold load_text_from_file_descriptor.
  destruct (fd =? -1).
  - change (has_flag REPORTED_TO_FLAGS DD_FAIL_QUIETLY_ENOENT) with true.
    change (has_flag REPORTED_TO_FLAGS DD_LOAD_TEXT_RETURN_NULL_ON_FAILURE) with true.
    cbn [negb]. mrun. eexists _, _. split; [reflexivity|]. split; [done|].
    intros Hq. rewrite env_step_quiet in Henv by done. congruence.
  - unfold fgetc_until_EOF, close. rewrite bind_unfold. unfold syscall at 1.
    match goal with |- context [sys_read ?a ?b ?c] =>
      pose proof (sys_read_env a b c) as Henv2;
      destruct (sys_read a b c) as [[r bytes] wb] end.
    cbn [snd] in Henv2. rewrite bind_unfold. unfold syscall.
    pose proof (sys_close_env fd (env_step wb)) as Henv3.
    destruct (sys_close fd (env_step wb)) as [r' wc]. cbn [snd] in Henv3.
    eexists _, _. split; [reflexivity|]. split.
    + intros c [= <-]. split; [apply load_text_from_stream_no_NUL|].
      apply load_text_from_stream_kept.
    + intros Hq. rewrite env_step_quiet in Henv by done.
      assert (w_env wa = []) by congruence.
      rewrite env_step_quiet in Henv2 by done.
      assert (w_env wb = []) by congruence.
      rewrite env_step_quiet in Henv3 by done. congruence.
Qed.

(** The second call: [line] is found in the text just saved. *)
Lemma added_line_found c line :
  Forall kept c → TextLoader.sanitize line = line → line ≠ [] → LF ∉ line →
  let text := c ++ separator c ++ line ++ [LF] in
  line ∈ lines_of (TextLoader.load_text_from_stream text)
  ∧ (line ∉ lines_of c → length (filter (λ l, l = line) (lines_of text)) = 1%nat).
Proof.
  intros Hc Hline Hne Hlf text.
  destruct (lines_of_added c line Hne Hlf) as [Hl1 Hl2]. fold text in Hl1.
  assert (Hsep : Forall kept (separator c)).
  { unfold separator. case_match; by repeat constructor. }
  assert (Hclean : TextLoader.sanitize text = text).
  { apply sanitize_fixed. unfold text. rewrite !Forall_app.
    split; [done|]. split; [done|]. split; [by apply sanitize_fixed_inv|].
    by repeat constructor. }
  assert (Hend : TextLoader.ends_with_newline text = true).
  { unfold text. rewrite !app_assoc. by rewrite ends_with_newline_snoc. }
  split.
  - rewrite load_text_from_stream_spec by (right; by rewrite Hclean).
    unfold TextLoader.text_loader_spec. rewrite Hclean, Hend. cbn [andb negb].
    rewrite andb_false_r.
    destruct (Nat.eqb (TextLoader.count_newlines text) 1).
    + unfold text. rewrite !app_assoc, removelast_last, <- !app_assoc.
      rewrite Hl2. apply elem_of_app. right. by left.
    + rewrite Hl1. apply elem_of_app. right. by left.
  - intros Hnot. rewrite Hl1, filter_app, length_app.
    rewrite filter_cons, decide_True by done. simpl.
    assert (Hnil : ∀ ls : list (list ascii),
              line ∉ ls → filter (λ l, l = line) ls = []).
    { induction ls as [|l ls IH]; [done|].
      intros [Hl Hls]%not_elem_of_cons. rewrite filter_cons, decide_False by done.
      by apply IH. }
    by rewrite Hnil.
Qed.

Lemma default_loaded (loaded : option (list ascii)) :
  (∀ c, loaded = Some c → (NUL ∉ c) ∧ Forall kept c) →
  (NUL ∉ default [] loaded) ∧ Forall kept (default [] loaded).
Proof.
  destruct loaded as [c|]; simpl; [by auto|].
  intros _. split; [by intros ?%elem_of_nil|constructor].
Qed.

(** What [add_reported_to] does with the text it loaded. *)
Lemma add_reported_to_loaded dd line w loaded w1 :
  locked dd = true → NUL ∉ line → LF ∉ line → Z.of_nat (length line) < 2 ^ 32 →
  dd_load_text_ext dd FILENAME_REPORTED_TO REPORTED_TO_FLAGS w = Ret loaded w1 →
  NUL ∉ default [] loaded →
  let content := default [] loaded in
  add_reported_to dd line w =
  if bool_decide (line ∈ lines_of content) then Ret tt w1
  else dd_save_text dd FILENAME_REPORTED_TO
         (content ++ separator content ++ line ++ [LF]) w1.
Proof.
  intros Hl Hnul Hlf Hlen Hload Hc content. unfold add_reported_to.
  rewrite Hl. cbn [negb]. fold REPORTED_TO_FLAGS. rewrite bind_unfold, Hload.
  rewrite (c_str_id line) by done.
  destruct loaded as [c|]; cbn [default] in *.
  2:{ by rewrite bool_decide_eq_false_2 by (by intros ?%elem_of_nil). }
  subst content. rewrite (c_str_id c) by done.
  replace (Z.to_nat (unsigned_wrap (strlen line))) with (length line).
  2:{ unfold strlen, unsigned_wrap. rewrite c_str_id by done.
      rewrite Z.mod_small by lia. by rewrite Nat2Z.id. }
  destruct (reported_to_scan_spec line c Hc Hnul Hlf) as [Hfound Hend].
  destruct (reported_to_scan line (length line) c) as [q|] eqn:Hscan.
  - rewrite bool_decide_eq_false_2.
    2:{ intros Hin. apply Hfound in Hin. done. }
    rewrite (Hend q eq_refl). cbn [length]. rewrite Nat.sub_0_r.
    unfold id. f_equal. unfold separator.
    rewrite ends_with_newline_last, last_nth.
    destruct c as [|x c]; [done|].
    rewrite bool_decide_eq_false_2 by done. cbn [negb andb length Nat.eqb].
    destruct (Ascii.eqb _ LF); cbn [negb]; by rewrite <- ?app_assoc.
  - rewrite bool_decide_eq_true_2; [done|]. by apply Hfound.
Qed.

End ReportedTo.

(** C5, as amended. For a locked handle and a line without newline,
    shorter than 2^32 bytes:
    if the loaded content of [reported_to] has a line equal to the new
    line, nothing is saved; otherwise the content is saved with a newline
    after it if it is not empty and does not end in one, then the line,
    then a newline.  Hence when the line is not empty, is left unchanged
    by the sanitization of the reader and was not in the content, and the
    save succeeds and the file can be read back, the file then has
    exactly one line equal to it, and a second call with the same line
    changes no file. *)
Theorem add_reported_to_spec (dd : dump_dir) (line : list ascii) (w : world) :
  locked dd = true → NUL ∉ line → LF ∉ line → Z.of_nat (length line) < 2 ^ 32 →
  ∃ loaded w1,
    dd_load_text_ext dd FILENAME_REPORTED_TO REPORTED_TO_FLAGS w = Ret loaded w1
    ∧ let content := default [] loaded in
      let text := content ++ separator content ++ line ++ [LF] in
      (line ∈ lines_of content → add_reported_to dd line w = Ret tt w1)
      ∧ (line ∉ lines_of content →
         add_reported_to dd line w = dd_save_text dd FILENAME_REPORTED_TO text w1)
      ∧ (line ∉ lines_of content → line ≠ [] → TextLoader.sanitize line = line →
         w_env w = [] → Z.of_nat (length text) < 2 ^ 32 →
         ∀ w2,
           save_binary_file_at (dd_fd dd) FILENAME_REPORTED_TO text
             (unsigned_wrap (strlen text)) (dd_uid dd) (dd_gid dd) (mode dd) w1
           = Ret true w2 →
           0 ≤ (sys_openat (dd_fd dd) FILENAME_REPORTED_TO
                  (Z.lor O_RDONLY O_NOFOLLOW) 0 w2).1 →
           add_reported_to dd line w = Ret tt w2
           ∧ (∃ ino i, holds_item w2 (dd_fd dd) FILENAME_REPORTED_TO ino i
                       ∧ i_data i = text)
           ∧ length (filter (λ l, l = line) (lines_of text)) = 1%nat
           ∧ ∃ w3, add_reported_to dd line w2 = Ret tt w3
                   ∧ w_inodes w3 = w_inodes w2).
Proof.
  intros Hl Hnul Hlf Hlen32.
  destruct (dd_load_reported_to dd w) as (loaded & w1 & Hload & Hc & Hq1).
  exists loaded, w1. split; [done|]. cbv zeta.
  destruct (default_loaded loaded Hc) as [Hcn Hck].
  pose proof (add_reported_to_loaded dd line w loaded w1 Hl Hnul Hlf Hlen32 Hload Hcn)
    as Hadd.
  cbv zeta in Hadd.
  set (content := default [] loaded) in *.
  set (text := content ++ separator content ++ line ++ [LF]) in *.
  split; [|split].
  - intros Hin. by rewrite Hadd, bool_decide_eq_true_2.
  - intros Hin. by rewrite Hadd, bool_decide_eq_false_2.
  - intros Hin Hne Hclean Hq Hlen w2 Hsave Hopen.
    rewrite bool_decide_eq_false_2 in Hadd by done.
    destruct (added_line_found content line Hck Hclean Hne Hlf) as [Hfound Hcount].
    fold text in Hfound, Hcount.
    destruct (save_binary_file_at_ok _ _ _ _ _ _ _ _ (Hq1 Hq) _ _ Hsave eq_refl)
      as (ino & i & Hitem & Hreg & Hdata & _ & Hq2).
    assert (Hnt : NUL ∉ text).
    { unfold text. rewrite !elem_of_app. intros [?|[Hs|[?|Hx]]]; try done.
      - unfold separator in Hs. case_match; [|by apply elem_of_nil in Hs].
        by apply list_elem_of_singleton in Hs.
      - by apply list_elem_of_singleton in Hx. }
    assert (Hsize : take (Z.to_nat (unsigned_wrap (strlen text))) text = text).
    { unfold strlen. rewrite c_str_id by done.
      unfold unsigned_wrap. rewrite Z.mod_small by lia. rewrite Nat2Z.id.
      apply firstn_all. }
    rewrite Hsize in Hdata.
    split; [|split; [by eauto|split; [by apply Hcount|]]].
    { rewrite Hadd. unfold dd_save_text. rewrite Hl. cbn [negb].
      change (str_is_correct_filename FILENAME_REPORTED_TO) with true. cbn [negb].
      by rewrite bind_unfold, Hsave. }
    (* the second call *)
    destruct (load_text_file_at_item (dd_fd dd) FILENAME_REPORTED_TO REPORTED_TO_FLAGS
                w2 ino i Hq2 Hitem Hreg eq_refl eq_refl Hopen)
      as (w3 & Hload2 & Hino3 & _).
    exists w3. split; [|done].
    rewrite (add_reported_to_loaded dd line w2 (Some (TextLoader.load_text_from_stream text))
               w3 Hl Hnul Hlf Hlen32).
    + cbn [default]. by rewrite bool_decide_eq_true_2.
    + unfold dd_load_text_ext.
      change (str_is_correct_filename FILENAME_REPORTED_TO) with true.
      change (String.eqb FILENAME_REPORTED_TO "release") with false.
      cbn [negb]. by rewrite Hload2, Hdata.
    + apply load_text_from_stream_no_NUL.
Qed.

(** C5, as stated, fails on an empty [reported_to]: the content does not
    end in a newline, and no newline is put before the line. *)
Lemma add_reported_to_empty_file :
  let dd := DumpDir "/var/tmp/pd" 3 true NO_UID NO_UID 420 0 in
  let w :=
    World (<[1 := Inode S_IFDIR 2 493 0 0 [] (<["reported_to" := 2]> ∅)]>
             (<[2 := Inode S_IFREG 1 420 0 0 [] ∅]> ∅))
          ∅ (<[3%nat := OpenFile 1 0]> ∅) 0 0 4242 ∅ ∅ ∅ [] [] in
  let line := ["x"%char] in
  let content_of (w : world) :=
    (λ p, i_data p.2) <$> dir_entry w 1 "reported_to" in
  content_of w = Some []
  ∧ TextLoader.ends_with_newline [] = false
  ∧ ∃ w', add_reported_to dd line w = Ret tt w'
          ∧ content_of w' = Some (line ++ [LF])
          ∧ content_of w' ≠ Some ([] ++ [LF] ++ line ++ [LF]).
Proof.
  cbv zeta. split; [reflexivity|]. split; [reflexivity|]. eexists.
  split; [vm_compute; reflexivity|]. split; [vm_compute; reflexivity|].
  vm_compute. discriminate.
Qed.

(** ** Searching the [reported_to] log *)

Section Tokens.

Implicit Types s line : list ascii.

Lemma tokens_skip_whitespace s :
  tokens_with_rest true s = tokens_with_rest true (skip_whitespace s).
Proof.
  induction s as [|c s IH]; [done|]. cbn [tokens_with_rest skip_whitespace dropwhile_space].
  destruct (isspace (code c)) eqn:E; [done|]. cbn [tokens_with_rest]. by rewrite E.
Qed.

Lemma tokens_skip_non_whitespace s :
  tokens_with_rest false s = tokens_with_rest true (skip_non_whitespace s).
Proof.
  induction s as [|c s IH]; [done|]. cbn [tokens_with_rest skip_non_whitespace].
  destruct (isspace (code c)) eqn:E; [|done]. cbn [tokens_with_rest]. by rewrite E.
Qed.

Lemma tokens_head c rest :
  isspace (code c) = false →
  tokens_with_rest true (c :: rest)
  = (first_token (c :: rest), c :: rest)
      :: tokens_with_rest true (skip_non_whitespace (c :: rest)).
Proof.
  intros E. cbn [tokens_with_rest skip_non_whitespace]. rewrite E.
  by rewrite tokens_skip_non_whitespace.
Qed.

Lemma first_token_split s : s = first_token s ++ skip_non_whitespace s.
Proof.
  induction s as [|c s IH]; [done|]. simpl. destruct (isspace (code c)); [done|].
  simpl. by rewrite <- IH.
Qed.

Lemma first_token_take s :
  take (length s - length (skip_non_whitespace s)) s = first_token s.
Proof.
  rewrite (first_token_split s) at 1 3. rewrite length_app.
  replace (length (first_token s) + length (skip_non_whitespace s)
           - length (skip_non_whitespace s))%nat with (length (first_token s)) by lia.
  by rewrite take_app_length.
Qed.

(** [strncmp] against a key without NUL is the test for a prefix. *)
Lemma strncmp_prefix key : ∀ s,
  NUL ∉ key → NUL ∉ s →
  (strncmp s key (length key) =? 0) = bool_decide (key `prefix_of` s).
Proof.
  induction key as [|k key IH]; intros s Hk Hs.
  - replace (strncmp s [] (length (@nil ascii))) with 0 by (by destruct s).
    symmetry. apply bool_decide_eq_true_2. apply prefix_nil.
  - apply not_elem_of_cons_inv in Hk as [Hk0 Hk].
    destruct s as [|c s].
    + cbn [length strncmp].
      assert (0 - code k ≠ 0).
      { intros Heq. apply Hk0. apply code_inj. change (code NUL) with 0. lia. }
      replace (0 - code k =? 0) with false by (symmetry; by apply Z.eqb_neq).
      symmetry. apply bool_decide_eq_false_2. by intros ?%prefix_nil_inv.
    + apply not_elem_of_cons_inv in Hs as [Hc Hs]. cbn [length strncmp].
      destruct (Ascii.eqb_spec c k) as [->|Hck]; cbn [negb].
      * replace (Ascii.eqb k NUL) with false
          by (symmetry; apply Ascii.eqb_neq; congruence).
        rewrite IH by done. apply bool_decide_ext. split.
        -- by apply prefix_cons.
        -- by apply prefix_cons_inv_2.
      * assert (code c - code k ≠ 0).
        { intros Heq. apply Hck. apply code_inj. lia. }
        replace (code c - code k =? 0) with false by (symmetry; by apply Z.eqb_neq).
        symmetry. apply bool_decide_eq_false_2. intros Hp.
        apply prefix_cons_inv_1 in Hp. congruence.
Qed.

Lemma prefix_first_token key : ∀ s,
  (∀ c, c ∈ key → isspace (code c) = false) →
  key `prefix_of` s ↔ key `prefix_of` first_token s.
Proof.
  induction key as [|k key IH]; intros s Hkey.
  - split; intros _; apply prefix_nil.
  - assert (Hk : isspace (code k) = false) by (apply Hkey; by left).
    assert (Hkey' : ∀ c, c ∈ key → isspace (code c) = false)
      by (intros; apply Hkey; by right).
    destruct s as [|c s]; [done|]. cbn [first_token]. split.
    + intros Hp. pose proof (prefix_cons_inv_1 _ _ _ _ Hp) as ->.
      rewrite Hk. apply prefix_cons.
      apply (proj1 (IH s Hkey')). exact (prefix_cons_inv_2 _ _ _ _ Hp).
    + destruct (isspace (code c)) eqn:E; [by intros ?%prefix_nil_not|].
      intros Hp. pose proof (prefix_cons_inv_1 _ _ _ _ Hp) as ->.
      apply prefix_cons.
      apply (proj2 (IH s Hkey')). exact (prefix_cons_inv_2 _ _ _ _ Hp).
Qed.

Lemma skip_whitespace_subseteq s x : x ∈ skip_whitespace s → x ∈ s.
Proof.
  induction s as [|c s IH]; [done|]. simpl.
  destruct (isspace (code c)); [|done]. intros Hx. right. by apply IH.
Qed.

Lemma skip_non_whitespace_subseteq s x : x ∈ skip_non_whitespace s → x ∈ s.
Proof.
  induction s as [|c s IH]; [done|]. simpl.
  destruct (isspace (code c)); [done|]. intros Hx. right. by apply IH.
Qed.

(** The loop of [parse_reported_line] computes the specified fields. *)
Lemma parse_reported_loop_spec line : ∀ result,
  NUL ∉ line →
  parse_reported_loop line result = apply_tokens (tokens_with_rest true line) result.
Proof.
  induction line as [line IH] using (induction_ltof1 _ (@length ascii)).
  unfold ltof in IH. intros result Hnul.
  rewrite parse_reported_loop_step, tokens_skip_whitespace.
  pose proof (skip_whitespace_length line) as Hlen.
  pose proof (skip_whitespace_subseteq line) as Hsub.
  destruct (skip_whitespace line) as [|c rest] eqn:Hskip; [done|].
  pose proof (skip_whitespace_head _ _ _ Hskip) as Hc.
  rewrite tokens_head by done. cbv zeta. cbn [apply_tokens].
  assert (Hnul' : NUL ∉ c :: rest) by (intros ?; by apply Hnul, Hsub).
  assert (Hkey : ∀ key, key = MSG_KEY ∨ key = URL_KEY →
            (strncmp (c :: rest) key 4 =? 0) = starts_with key (first_token (c :: rest))).
  { intros key Hk. unfold starts_with.
    assert (length key = 4%nat) as Hl4 by (by destruct Hk as [-> | ->]).
    rewrite <- Hl4, strncmp_prefix; [| |done].
    - apply bool_decide_ext, prefix_first_token.
      destruct Hk as [-> | ->]; intros x; unfold MSG_KEY, URL_KEY; simpl;
        rewrite !elem_of_cons, elem_of_nil;
        intros [->|[->|[->|[->|[]]]]]; reflexivity.
    - destruct Hk as [-> | ->]; apply (bool_decide_unpack _); vm_compute; exact I. }
  rewrite (Hkey MSG_KEY), (Hkey URL_KEY) by auto.
  destruct (starts_with MSG_KEY (first_token (c :: rest))); [done|].
  pose proof (first_token_take (c :: rest)) as Htake.
  pose proof (skip_non_whitespace_length rest) as Hlen2.
  assert (Hend : skip_non_whitespace (c :: rest) = skip_non_whitespace rest)
    by (cbn [skip_non_whitespace]; by rewrite Hc).
  rewrite IH.
  - f_equal. destruct (starts_with URL_KEY (first_token (c :: rest))) eqn:Hurl; [|done].
    do 2 f_equal. rewrite take_drop_commute, <- Htake. do 2 f_equal.
    apply bool_decide_eq_true_1, prefix_length in Hurl.
    rewrite <- Htake, length_take in Hurl. change (length URL_KEY) with 4%nat in Hurl.
    lia.
  - rewrite Hend. simpl in Hlen. lia.
  - intros Hin. by apply Hnul', skip_non_whitespace_subseteq.
Qed.

End Tokens.

Section Find.

Implicit Types s pre prefix : list ascii.

Lemma c_str_app_NUL a b : NUL ∈ a → c_str (a ++ b) = c_str a.
Proof.
  induction a as [|x a IH]; [by intros ?%elem_of_nil|]. intros Hin. simpl.
  destruct (Ascii.eqb_spec x NUL) as [|Hx]; [done|]. f_equal. apply IH.
  apply elem_of_cons in Hin as [?|?]; [congruence|done].
Qed.

Lemma c_str_app a b : NUL ∉ a → c_str (a ++ NUL :: b) = a.
Proof.
  induction a as [|x a IH]; [done|]. intros [Hx Ha]%not_elem_of_cons_inv. simpl.
  replace (Ascii.eqb x NUL) with false by (symmetry; apply Ascii.eqb_neq; congruence).
  f_equal. by apply IH.
Qed.

Lemma first_line_split s : NUL ∉ s → s = first_line s ++ strchrnul s LF.
Proof.
  induction s as [|c s IH]; [done|]. intros [Hc Hs]%not_elem_of_cons_inv.
  cbn [first_line strchrnul]. destruct (Ascii.eqb_spec c LF) as [|Hlf]; [done|].
  replace (Ascii.eqb c NUL) with false by (symmetry; apply Ascii.eqb_neq; congruence).
  cbn [orb app]. f_equal. by apply IH.
Qed.

Lemma strchrnul_head s x rest : NUL ∉ s → strchrnul s LF = x :: rest → x = LF.
Proof.
  induction s as [|c s IH]; [done|]. intros [Hc Hs]%not_elem_of_cons_inv.
  cbn [strchrnul]. destruct (Ascii.eqb_spec c LF) as [->|Hlf].
  - cbn [orb]. by intros [= <- _].
  - replace (Ascii.eqb c NUL) with false by (symmetry; apply Ascii.eqb_neq; congruence).
    cbn [orb]. by apply IH.
Qed.

Lemma prefix_first_line prefix : ∀ s,
  LF ∉ prefix → prefix `prefix_of` s ↔ prefix `prefix_of` first_line s.
Proof.
  induction prefix as [|k prefix IH]; intros s Hlf.
  - split; intros _; apply prefix_nil.
  - apply not_elem_of_cons_inv in Hlf as [Hk Hlf].
    destruct s as [|c s]; [done|]. cbn [first_line]. split.
    + intros Hp. pose proof (prefix_cons_inv_1 _ _ _ _ Hp) as ->.
      replace (Ascii.eqb c LF) with false by (symmetry; apply Ascii.eqb_neq; congruence).
      apply prefix_cons.
      apply (proj1 (IH s Hlf)). exact (prefix_cons_inv_2 _ _ _ _ Hp).
    + destruct (Ascii.eqb c LF); [by intros ?%prefix_nil_not|].
      intros Hp. pose proof (prefix_cons_inv_1 _ _ _ _ Hp) as ->.
      apply prefix_cons.
      apply (proj2 (IH s Hlf)). exact (prefix_cons_inv_2 _ _ _ _ Hp).
Qed.

Lemma insert_middle (l1 l2 : list ascii) x y :
  <[length l1 := x]> (l1 ++ y :: l2) = l1 ++ x :: l2.
Proof. rewrite insert_app_r_alt by lia. by rewrite Nat.sub_diag. Qed.

Lemma found_suffix_cons prefix l ls :
  found_suffix prefix (l :: ls) =
  match found_suffix prefix ls with
  | Some t => Some t
  | None => if bool_decide (prefix `prefix_of` l)
            then Some (drop (length prefix) l) else None
  end.
Proof.
  unfold found_suffix. rewrite filter_cons. case_decide as Hp.
  - rewrite bool_decide_eq_true_2 by done. rewrite last_cons.
    by destruct (last _).
  - rewrite bool_decide_eq_false_2 by done. by destruct (last _).
Qed.

(** The loop of [find_in_reported_to] from a line start: [pre] is the
    part of the buffer already passed, [s] the text still to scan. *)
Lemma find_loop_spec prefix :
  NUL ∉ prefix → LF ∉ prefix →
  ∀ s pre found,
    NUL ∉ s → (∀ f, found = Some f → NUL ∈ drop f pre) →
    (λ f, c_str (drop f (find_loop prefix (length prefix) (pre ++ s)
                           (length pre) found).1))
      <$> (find_loop prefix (length prefix) (pre ++ s) (length pre) found).2
    = match found_suffix prefix (lines_of s) with
      | Some t => Some t
      | None => (λ f, c_str (drop f pre)) <$> found
      end.
Proof.
  intros Hpn Hpl s.
  induction s as [s IH] using (induction_ltof1 _ (@length ascii)).
  unfold ltof in IH. intros pre found Hs Hfound.
  assert (Hold : ∀ t, (λ f, c_str (drop f (pre ++ t))) <$> found
                      = (λ f, c_str (drop f pre)) <$> found).
  { intros t. destruct found as [f|]; [|done]. cbn. f_equal.
    rewrite drop_app. apply c_str_app_NUL. by apply Hfound. }
  rewrite find_loop_step.
  destruct (decide (s = [])) as [->|Hne].
  { unfold char_at. rewrite app_nil_r, nth_overflow by lia.
    change (Ascii.eqb NUL NUL) with true. cbv iota. cbn [fst snd].
    change (found_suffix prefix (lines_of [])) with (@None (list ascii)). done. }
  assert (Hhead : Ascii.eqb (char_at (pre ++ s) (length pre)) NUL = false).
  { unfold char_at. rewrite app_nth2, Nat.sub_diag by lia.
    destruct s as [|c s']; [done|]. apply not_elem_of_cons_inv in Hs as [Hc _].
    apply Ascii.eqb_neq. simpl. congruence. }
  rewrite Hhead. cbv zeta. unfold strchrnul_at. rewrite drop_app_length.
  rewrite strncmp_prefix by done.
  rewrite (bool_decide_ext _ _ (prefix_first_line prefix s Hpl)).
  rewrite lines_of_first by done. rewrite found_suffix_cons.
  pose proof (first_line_split s Hs) as Hsplit.
  pose proof (after_first_line_length s Hne) as Hlt.
  pose proof (after_first_line_no_NUL s Hs) as Hrest.
  pose proof (strchrnul_head s) as Hx.
  unfold after_first_line in *.
  assert (Hfl : NUL ∉ first_line s).
  { intros Hin. apply Hs. rewrite Hsplit. apply elem_of_app. by left. }
  remember (first_line s) as fl eqn:Efl. clear Efl.
  assert (Hmatch : prefix `prefix_of` fl →
            ∀ t, c_str (drop (length pre + length prefix) (pre ++ fl ++ t))
                 = c_str (drop (length prefix) fl ++ t)).
  { intros Hp t. rewrite drop_app_add. rewrite drop_app_le; [done|].
    by apply prefix_length. }
  destruct (strchrnul s LF) as [|x rest].
  - rewrite app_nil_r in Hsplit. subst s.
    replace (length fl - length (@nil ascii))%nat with (length fl) by (simpl; lia).
    unfold char_at. rewrite nth_overflow by (rewrite length_app; lia).
    change (Ascii.eqb NUL NUL) with true. cbn [negb fst snd].
    change (found_suffix prefix (lines_of [])) with (@None (list ascii)). cbv iota.
    case_bool_decide as Hp; [|apply Hold]. cbn. f_equal.
    rewrite <- (app_nil_r fl) at 1. rewrite Hmatch, app_nil_r by done.
    apply c_str_id. intros Hin. apply Hfl. by eapply subseteq_drop.
  - rewrite (Hx x rest Hs eq_refl) in *. clear Hx. subst s.
    replace (length pre + (length (fl ++ LF :: rest) - length (LF :: rest)))%nat
      with (length (pre ++ fl)) by (rewrite !length_app; simpl; lia).
    rewrite (app_assoc pre fl). unfold char_at. rewrite nth_middle.
    change (Ascii.eqb LF NUL) with false. cbn [negb]. rewrite insert_middle.
    replace ((pre ++ fl) ++ NUL :: rest) with ((pre ++ fl ++ [NUL]) ++ rest)
      by (by rewrite <- !app_assoc).
    replace (S (length (pre ++ fl))) with (length (pre ++ fl ++ [NUL]))
      by (rewrite !length_app; simpl; lia).
    rewrite IH; [|simpl in Hlt; lia|done|].
    + destruct (found_suffix prefix (lines_of rest)); [done|].
      case_bool_decide as Hp; [|apply Hold]. cbn. f_equal.
      rewrite Hmatch by done. apply c_str_app.
      intros Hin. apply Hfl. by eapply subseteq_drop.
    + intros f. case_bool_decide as Hp.
      * intros [= <-]. rewrite drop_app_add, drop_app_le by (by apply prefix_length).
        apply elem_of_app. right. by left.
      * intros ->. rewrite drop_app. apply elem_of_app. left. by apply Hfound.
Qed.

End Find.

(** C6, as amended. For a prefix without newline, shorter than 2^32
    bytes: [find_in_reported_to] returns null when the load of
    [reported_to] fails, as it does when the file cannot be opened;
    otherwise it takes the last line of the loaded text that starts with
    the prefix, and returns null if there is none, and otherwise the
    fields of the text after the prefix on that line, split into tokens
    on white space: a token that starts with [URL=] sets the URL to the
    rest of the token, a later one overwriting it; a token that starts
    with [MSG=] takes the rest of the line as the message and ends the
    parsing; other tokens are ignored. *)
Theorem find_in_reported_to_spec (dd : dump_dir) (prefix : list ascii) (w : world) :
  LF ∉ c_str prefix → Z.of_nat (length (c_str prefix)) < 2 ^ 32 →
  ∃ loaded w1,
    dd_load_text_ext dd FILENAME_REPORTED_TO REPORTED_TO_FLAGS w = Ret loaded w1
    ∧ find_in_reported_to dd prefix w
      = Ret match loaded with
            | Some content =>
                parse_reported_spec <$> found_suffix (c_str prefix) (lines_of content)
            | None => None
            end w1
    ∧ (w_env w = [] →
       (sys_openat (dd_fd dd) FILENAME_REPORTED_TO (Z.lor O_RDONLY O_NOFOLLOW) 0 w).1 < 0 →
       loaded = None)
    ∧ (w_env w = [] →
       ∀ ino i,
         holds_item w (dd_fd dd) FILENAME_REPORTED_TO ino i → st_fmt i = S_IFREG →
         0 ≤ (sys_openat (dd_fd dd) FILENAME_REPORTED_TO
                (Z.lor O_RDONLY O_NOFOLLOW) 0 w).1 →
         loaded = Some (TextLoader.load_text_from_stream (i_data i))).
Proof.
  intros Hlf Hlen.
  destruct (dd_load_reported_to dd w) as (loaded & w1 & Hload & Hc & _).
  exists loaded, w1. split; [done|].
  assert (Hext : dd_load_text_ext dd FILENAME_REPORTED_TO REPORTED_TO_FLAGS w
                 = load_text_file_at (dd_fd dd) FILENAME_REPORTED_TO REPORTED_TO_FLAGS w).
  { unfold dd_load_text_ext.
    change (str_is_correct_filename FILENAME_REPORTED_TO) with true.
    by change (String.eqb FILENAME_REPORTED_TO "release") with false. }
  split; [|split].
  - unfold find_in_reported_to. fold REPORTED_TO_FLAGS. rewrite bind_unfold, Hload.
    destruct loaded as [content|]; [|done].
    destruct (Hc content eq_refl) as [Hnul _].
    rewrite (c_str_id content) by done.
    replace (Z.to_nat (unsigned_wrap (strlen (c_str prefix))))
      with (length (c_str prefix)).
    2:{ unfold strlen, unsigned_wrap. rewrite (c_str_id (c_str prefix)) by apply c_str_no_NUL.
        rewrite Z.mod_small by lia. by rewrite Nat2Z.id. }
    pose proof (find_loop_spec (c_str prefix) (c_str_no_NUL prefix) Hlf content [] None Hnul)
      as Hloop.
    specialize (Hloop ltac:(by intros f [=])). cbn [app length] in Hloop.
    destruct (find_loop (c_str prefix) (length (c_str prefix)) content 0 None)
      as [buf found].
    cbn [fst snd] in Hloop.
    destruct (found_suffix (c_str prefix) (lines_of content)) as [t|].
    + destruct found as [f|]; [|by discriminate Hloop].
      cbn in Hloop. etrans; [apply ret_unfold|]. do 2 f_equal.
      unfold parse_reported_line, parse_reported_spec.
      rewrite parse_reported_loop_spec by apply c_str_no_NUL.
      by simplify_eq.
    + destruct found as [f|]; [|done]. by discriminate Hloop.
  - intros Hq Hopen. rewrite Hext in Hload.
    destruct (load_text_file_at_fail (dd_fd dd) FILENAME_REPORTED_TO REPORTED_TO_FLAGS w
                Hq eq_refl eq_refl Hopen) as (w' & Hfail & _).
    rewrite Hfail in Hload. by simplify_eq.
  - intros Hq ino i Hitem Hreg Hopen. rewrite Hext in Hload.
    destruct (load_text_file_at_item (dd_fd dd) FILENAME_REPORTED_TO REPORTED_TO_FLAGS w
                ino i Hq Hitem Hreg eq_refl eq_refl Hopen) as (w' & Hok & _).
    rewrite Hok in Hload. by simplify_eq.
Qed.

(** C6, as stated, fails for a prefix with a newline in it: no line of
    the text [a], [bc] starts with it, and the result is not null: the
    comparison with the prefix runs over the end of the line. *)
Lemma find_in_reported_to_newline_in_prefix :
  let content := ["a"; LF; "b"; "c"; LF]%char in
  let prefix := ["a"; LF; "b"]%char in
  let w := world_with_item "reported_to" content in
  lines_of (TextLoader.load_text_from_stream content) = [["a"]; ["b"; "c"]]%char
  ∧ filter (λ l, prefix `prefix_of` l) [["a"]; ["b"; "c"]]%char = []
  ∧ ∃ w', find_in_reported_to (sample_dd true) prefix w
          = Ret (Some (ReportResult None None)) w'.
Proof.
  cbv zeta. split; [vm_compute; reflexivity|]. split; [vm_compute; reflexivity|].
  eexists. vm_compute. reflexivity.
Qed.

Lemma find_in_reported_to_spec_witness :
  let content :=
    list_ascii_of_string "Bugzilla: URL=http://b/1" ++ [LF]
    ++ list_ascii_of_string "Bugzilla: TIME=5 URL=http://b/2 MSG=second report" ++ [LF]
    ++ list_ascii_of_string "ftp: URL=ftp://f" ++ [LF] in
  let prefix := list_ascii_of_string "Bugzilla:" in
  let w := world_with_item "reported_to" content in
  ∃ w', find_in_reported_to (sample_dd true) prefix w
        = Ret (Some (ReportResult (Some (list_ascii_of_string "http://b/2"))
                                  (Some (list_ascii_of_string "second report")))) w'.
Proof.
  intros content prefix w.
  destruct (find_in_reported_to_spec (sample_dd true) prefix w)
    as (loaded & w1 & _ & Hfind & _ & Hsome).
  - apply (bool_decide_unpack _). vm_compute. exact I.
  - vm_compute. reflexivity.
  - exists w1. rewrite Hfind.
    rewrite (Hsome eq_refl 2 (Inode S_IFREG 1 420 0 0 content ∅));
      [vm_compute; reflexivity|..].
    + split; [simpl; lia|].
      exists 1, (Inode S_IFDIR 2 493 0 0 [] (<["reported_to"%string := 2]> ∅)).
      repeat (split; [vm_compute; reflexivity|]). split; [lia|]. vm_compute. reflexivity.
    + reflexivity.
    + vm_compute. discriminate.
Defined.

(** ** The theorems at sample inputs *)

Lemma dd_exist_spec_witness :
  let w := world_with_entry "link" (Inode S_IFLNK 1 511 0 0 (list_ascii_of_string "gone") ∅) in
  str_is_correct_filename "link" = true
  ∧ ∃ w', dd_exist (sample_dd false) "link" w = Ret false w'.
Proof.
  intros w. split; [reflexivity|].
  destruct (dd_exist_spec (sample_dd false) "link" w eq_refl) as (b & w' & Hrun & _ & Hlnk).
  exists w'. rewrite Hrun. f_equal.
  apply (Hlnk 1 (Inode S_IFDIR 2 493 0 0 [] (<["link"%string := 2]> ∅))
              2 (Inode S_IFLNK 1 511 0 0 (list_ascii_of_string "gone") ∅));
    vm_compute; reflexivity.
Defined.

Lemma dd_delete_item_spec_witness :
  let w := world_with_item "time" ["0"%char] in
  ∃ w', dd_delete_item (sample_dd true) "absent" w = Ret 0 w'.
Proof.
  intros w.
  destruct (dd_delete_item_spec (sample_dd true) "absent" w eq_refl eq_refl)
    as (r & w' & Hrun & H).
  cbv zeta in H. destruct H as (_ & _ & Habs).
  exists w'. rewrite Hrun. f_equal.
  apply (Habs 1 (Inode S_IFDIR 2 493 0 0 [] (<["time"%string := 2]> ∅)));
    vm_compute; reflexivity.
Defined.

Lemma secure_openat_read_refuses_witness :
  let w := world_with_entry "time" (Inode S_IFREG 2 420 0 0 ["0"%char] ∅) in
  ∃ w' w'', secure_openat_read 3 "time" w = Ret (-1) w'
            ∧ w_errno w' = EINVAL
            ∧ parse_time_file_at 8 3 "time" w = Ret (-1) w''.
Proof.
  intros w.
  destruct (secure_openat_read_refuses 8 3 "time" w eq_refl)
    as (r & w' & Hrun & Hiff & Hlinks).
  destruct (Hlinks 1 (Inode S_IFDIR 2 493 0 0 [] (<["time"%string := 2]> ∅))
                   2 (Inode S_IFREG 2 420 0 0 ["0"%char] ∅))
    as [-> [w'' Hparse]]; [vm_compute; reflexivity..|].
  exists w', w''. split; [done|]. split; [|done].
  apply Hiff. exists 2, (Inode S_IFREG 2 420 0 0 ["0"%char] ∅). cbv zeta.
  split; [vm_compute; discriminate|]. split; [vm_compute; reflexivity|].
  right. vm_compute. reflexivity.
Defined.

Lemma dump_dir_accessible_by_uid_spec_witness :
  let w := world_with_item "time" ["0"%char] in
  ∃ r w', dump_dir_accessible_by_uid 1 "/var/tmp/pd" 1000 w = Ret r w' ∧ r ≠ 0.
Proof.
  intros w.
  destruct (dump_dir_accessible_by_uid_spec 1 "/var/tmp/pd" 1000 w eq_refl)
    as (r & w' & Hrun & _ & Hok & _).
  exists r, w'. split; [done|].
  destruct Hok as (ino & st & Hino & _ & Hacc); [vm_compute; discriminate|].
  apply Hacc. right. left. vm_compute in Hino. by simplify_eq.
Defined.

Lemma save_text_load_text_round_trip_witness :
  let w := world_with_item "time" ["0"%char] in
  let data := list_ascii_of_string "hello" ++ [LF] in
  ∃ w1 w2,
    dd_save_text (sample_dd true) "comment" data w = Ret tt w1
    ∧ dd_load_text (sample_dd true) "comment" w1
      = Ret (Some (list_ascii_of_string "hello")) w2.
Proof.
  intros w data.
  destruct (save_binary_file_at 3 "comment" data (unsigned_wrap (strlen data))
              NO_UID NO_UID 420 w) as [[|] w1| |] eqn:Hsave.
  2,3,4: vm_compute in Hsave; discriminate Hsave.
  pose proof Hsave as Hval. vm_compute in Hval. injection Hval as Hw.
  destruct (save_text_load_text_round_trip (sample_dd true) "comment" data w w1)
    as (Hsaved & w2 & Hloaded).
  - reflexivity.
  - reflexivity.
  - discriminate.
  - reflexivity.
  - vm_compute. reflexivity.
  - vm_compute. reflexivity.
  - right. reflexivity.
  - exact Hsave.
  - rewrite <- Hw. vm_compute. discriminate.
  - exists w1, w2. split; [exact Hsaved|exact Hloaded].
Defined.

Lemma add_reported_to_spec_witness :
  let content := list_ascii_of_string "Bugzilla: URL=http://b/1" in
  let line := list_ascii_of_string "ftp: URL=ftp://f" in
  let w := world_with_item "reported_to" content in
  let content_of (w : world) := (λ p, i_data p.2) <$> dir_entry w 1 "reported_to" in
  ∃ w' w'',
    add_reported_to (sample_dd true) line w = Ret tt w'
    ∧ content_of w' = Some (content ++ [LF] ++ line ++ [LF])
    ∧ add_reported_to (sample_dd true) line w' = Ret tt w''
    ∧ content_of w'' = content_of w'.
Proof.
  intros content line w content_of.
  destruct (add_reported_to_spec (sample_dd true) line w)
    as (loaded & w1 & Hload & H).
  - reflexivity.
  - apply (bool_decide_unpack _). vm_compute. exact I.
  - apply (bool_decide_unpack _). vm_compute. exact I.
  - vm_compute. reflexivity.
  - pose proof Hload as Hval. vm_compute in Hval. injection Hval as Hl Hw.
    cbv zeta in H. destruct H as (_ & _ & Htwice). rewrite <- Hl in Htwice.
    cbn [default] in Htwice.
    destruct (save_binary_file_at 3 "reported_to" (content ++ [LF] ++ line ++ [LF])
                (unsigned_wrap (strlen (content ++ [LF] ++ line ++ [LF])))
                NO_UID NO_UID 420 w1) as [[|] w2| |] eqn:Hsave.
    2,3,4: rewrite <- Hw in Hsave; vm_compute in Hsave; discriminate Hsave.
    pose proof Hsave as Hval. rewrite <- Hw in Hval. vm_compute in Hval.
    injection Hval as Hw2.
    destruct (Htwice) with (w2 := w2) as (Hadd & (ino & i & Hitem & Hdata) & _ & w3 & Hadd2 & Hino).
    + apply (bool_decide_unpack _). vm_compute. exact I.
    + discriminate.
    + vm_compute. reflexivity.
    + reflexivity.
    + vm_compute. reflexivity.
    + exact Hsave.
    + rewrite <- Hw2. vm_compute. discriminate.
    + exists w2, w3. split; [exact Hadd|]. split; [|split; [exact Hadd2|]].
      * rewrite <- Hw2. vm_compute. reflexivity.
      * unfold content_of, dir_entry. by rewrite Hino.
Defined.

(** ** Runs that leave the files alone *)

Lemma same_files_refl w : same_files w w.
Proof. by repeat split. Qed.

Lemma same_files_trans w1 w2 w3 : same_files w1 w2 → same_files w2 w3 → same_files w1 w3.
Proof. unfold same_files. intros ? ?. intuition congruence. Qed.

Lemma same_files_quiet w w' : same_files w w' → w_env w = [] → w_env w' = [].
Proof. unfold same_files. intuition congruence. Qed.

Lemma same_files_fd_inode w w' fd : same_files w w' → fd_inode w' fd = fd_inode w fd.
Proof. intros (Hi & _ & Hf & _). unfold fd_inode. by rewrite Hi, Hf. Qed.

Lemma same_files_dir_at w w' fd : same_files w w' → dir_at w' fd = dir_at w fd.
Proof. intros H. unfold dir_at. by rewrite (same_files_fd_inode w w'). Qed.

Lemma same_files_dir_entry w w' d name :
  same_files w w' → dir_entry w' d name = dir_entry w d name.
Proof. intros (Hi & _). unfold dir_entry. by rewrite Hi. Qed.

(** The descriptor table after a descriptor was opened, used and closed. *)
Lemma fds_open_close (fds : gmap nat open_file) (f f' : open_file) :
  delete (fresh (dom fds)) (<[fresh (dom fds) := f']> (<[fresh (dom fds) := f]> fds)) = fds.
Proof.
  rewrite insert_insert_eq. apply delete_insert_id, not_elem_of_dom, is_fresh.
Qed.

Lemma fds_open_close1 (fds : gmap nat open_file) (f : open_file) :
  delete (fresh (dom fds)) (<[fresh (dom fds) := f]> fds) = fds.
Proof. apply delete_insert_id, not_elem_of_dom, is_fresh. Qed.

Lemma sys_symlinkat_env t fd n w : w_env (sys_symlinkat t fd n w).2 = w_env w.
Proof. unfold sys_symlinkat, sys_fail, fs_create. repeat case_match; done. Qed.

Lemma sys_readlinkat_env fd n sz w : w_env (sys_readlinkat fd n sz w).2 = w_env w.
Proof. unfold sys_readlinkat, sys_fail. repeat case_match; done. Qed.

Lemma sys_access_env p w : w_env (sys_access p w).2 = w_env w.
Proof. unfold sys_access, sys_fail. repeat case_match; done. Qed.

Lemma sys_fstat_env fd w : w_env (sys_fstat fd w).2 = w_env w.
Proof. unfold sys_fstat, sys_fail. repeat case_match; done. Qed.

Lemma sys_fstatat_env fd n w : w_env (sys_fstatat fd n w).2 = w_env w.
Proof. unfold sys_fstatat, sys_fail. repeat case_match; done. Qed.

Lemma sys_open_env p fl w : w_env (sys_open p fl w).2 = w_env w.
Proof.
  unfold sys_open, open_existing, sys_fail, open_fd. repeat case_match; done.
Qed.

#[local] Create Rewrite HintDb quiet.
#[local] Hint Rewrite sys_unlinkat_env sys_openat_env sys_fchown_env sys_fchmod_env
  sys_write_env sys_close_env sys_read_env sys_symlinkat_env sys_readlinkat_env
  sys_access_env sys_fstat_env sys_fstatat_env sys_open_env : quiet.

(** Close a goal [w_env w' = []] for a world built by system calls. *)
Ltac quiet :=
  repeat (progress (cbn [w_env with_log with_errno fst snd]; autorewrite with quiet));
  first [assumption | reflexivity | congruence].

(** One step of the calculus in a world where no other process acts. *)
Ltac run_step :=
  lazymatch goal with
  | |- post (syscall _) _ _ => apply post_syscall_quiet; [quiet|]
  | |- post (assert_relative _) _ _ => apply post_assert_relative
  | |- _ => wp_step
  end.
Ltac run := repeat (run_step; cbv beta).

(** * Further properties of the code *)

(** ** Path and string helpers *)

Section Slashes.

Implicit Types dir : list ascii.

Lemma rm_trailing_slashes_loop_le dir len : (rm_trailing_slashes_loop dir len ≤ len)%nat.
Proof.
  induction len as [|len IH]; [done|]. simpl.
  destruct (Ascii.eqb _ "/"); lia.
Qed.

(** The loop stops below [len] at the end of the last byte that is no
    slash: what it drops are slashes, and what it keeps does not end in
    one. *)
Lemma rm_trailing_slashes_loop_spec dir len :
  (len ≤ length dir)%nat →
  let n := rm_trailing_slashes_loop dir len in
  take len dir = take n dir ++ repeat "/"%char (len - n)
  ∧ (n ≠ 0%nat → nth (n - 1) dir NUL ≠ "/"%char).
Proof.
  induction len as [|len IH]; intros Hlen; cbv zeta.
  { simpl. by rewrite take_0. }
  cbn [rm_trailing_slashes_loop].
  destruct (Ascii.eqb_spec (nth len dir NUL) "/") as [Hs|Hs].
  - destruct IH as [IH1 IH2]; [lia|]. split; [|done].
    pose proof (rm_trailing_slashes_loop_le dir len).
    replace (S len - rm_trailing_slashes_loop dir len)%nat
      with (S (len - rm_trailing_slashes_loop dir len)) by lia.
    cbn [repeat]. rewrite repeat_cons, app_assoc, <- IH1.
    rewrite (take_S_r dir len "/"%char); [done|].
    rewrite <- Hs. by destruct (nth_lookup_or_length dir len NUL) as [H1|H1]; [|lia].
  - rewrite Nat.sub_diag, app_nil_r. split; [done|]. intros _.
    by replace (S len - 1)%nat with len by lia.
Qed.

End Slashes.

(** X1. [rm_trailing_slashes] on a path without NUL, shorter than 2^32
    bytes: the path is the result followed by slashes only, and the
    result does not end in a slash; a path of slashes only, such as the
    root directory, gives the empty string.  The function applied to its
    result changes nothing. *)
Theorem rm_trailing_slashes_spec (dir : list ascii) :
  NUL ∉ dir → Z.of_nat (length dir) < 2 ^ 32 →
  let stripped := rm_trailing_slashes dir in
  (∃ k, dir = stripped ++ repeat "/"%char k)
  ∧ List.last stripped NUL ≠ "/"%char
  ∧ (Forall (λ c, c = "/"%char) dir → stripped = [])
  ∧ rm_trailing_slashes stripped = stripped.
Proof.
  intros Hnul Hlen.
  assert (Hmain : ∀ d, NUL ∉ d → Z.of_nat (length d) < 2 ^ 32 →
            let n := rm_trailing_slashes_loop d (length d) in
            rm_trailing_slashes d = take n d
            ∧ d = take n d ++ repeat "/"%char (length d - n)
            ∧ List.last (take n d) NUL ≠ "/"%char).
  { intros d Hd Hl n. unfold rm_trailing_slashes. cbv zeta.
    replace (Z.to_nat (unsigned_wrap (strlen d))) with (length d).
    2:{ unfold strlen, unsigned_wrap. rewrite c_str_id by done.
        rewrite Z.mod_small by lia. by rewrite Nat2Z.id. }
    fold n. destruct (rm_trailing_slashes_loop_spec d (length d)) as [H1 H2]; [lia|].
    fold n in H1, H2. rewrite firstn_all in H1.
    pose proof (rm_trailing_slashes_loop_le d (length d)) as Hle. fold n in Hle.
    split; [|split; [done|]].
    - apply c_str_id. intros Hin. apply Hd. by eapply subseteq_take.
    - rewrite last_nth, length_take, Nat.min_l by lia.
      destruct (decide (n = 0%nat)) as [->|Hn]; [by rewrite take_0|].
      rewrite <- (firstn_skipn n d) in H2 at 1.
      rewrite app_nth1 in H2 by (rewrite length_take; lia). by apply H2. }
  destruct (Hmain dir Hnul Hlen) as (Heq & Hsplit & Hlast). cbv zeta in *.
  set (n := rm_trailing_slashes_loop dir (length dir)) in *.
  rewrite Heq. split; [by eauto|]. split; [done|]. split.
  - intros Hall. destruct (decide (n = 0%nat)) as [->|Hn]; [by rewrite take_0|].
    exfalso. apply Hlast.
    assert (Hin : List.last (take n dir) NUL ∈ take n dir).
    { destruct (take n dir) as [|x l] eqn:E.
      - apply (f_equal length) in E. rewrite length_take in E. simpl in E.
        pose proof (rm_trailing_slashes_loop_le dir (length dir)). fold n in H. lia.
      - rewrite last_nth. apply list_elem_of_In, nth_In. simpl. lia. }
    apply subseteq_take in Hin. by apply (proj1 (Forall_forall _ _) Hall) in Hin.
  - assert (Hn' : NUL ∉ take n dir).
    { intros Hin. apply Hnul. by eapply subseteq_take. }
    assert (Hl' : Z.of_nat (length (take n dir)) < 2 ^ 32).
    { rewrite length_take. lia. }
    destruct (Hmain (take n dir) Hn' Hl') as (Heq2 & _ & _). cbv zeta in Heq2.
    rewrite Heq2. set (m := rm_trailing_slashes_loop _ _).
    assert (m = length (take n dir)) as ->; [|apply firstn_all].
    unfold m. destruct (take n dir) as [|x l] eqn:E using rev_ind; [done|].
    clear IHl. rewrite last_last in Hlast. rewrite length_app. simpl.
    replace (length l + 1)%nat with (S (length l)) by lia.
    cbn [rm_trailing_slashes_loop]. rewrite nth_middle.
    by replace (Ascii.eqb x "/") with false by (symmetry; by apply Ascii.eqb_neq).
Qed.

Lemma rm_trailing_slashes_spec_witness :
  let dir := list_ascii_of_string "/var/tmp/pd//" in
  let stripped := rm_trailing_slashes dir in
  (∃ k, dir = stripped ++ repeat "/"%char k)
  ∧ List.last stripped NUL ≠ "/"%char
  ∧ (Forall (λ c, c = "/"%char) dir → stripped = [])
  ∧ rm_trailing_slashes stripped = stripped.
Proof.
  apply (rm_trailing_slashes_spec (list_ascii_of_string "/var/tmp/pd//")).
  - apply (bool_decide_unpack _). vm_compute. exact I.
  - vm_compute. reflexivity.
Defined.

(** X2. [isdigit_str] accepts exactly the non-empty strings of ASCII
    digits: the empty string is refused at its terminator. *)
Theorem isdigit_str_spec (str : list ascii) :
  isdigit_str str = true
  ↔ str ≠ [] ∧ ∀ c, c ∈ str → code "0" ≤ code c ≤ code "9".
Proof.
  rewrite isdigit_str_forall, andb_true_iff, negb_true_iff, bool_decide_eq_false.
  rewrite forallb_forall. unfold is_digit. split.
  - intros [Hne Hall]. split; [done|]. intros c Hc%list_elem_of_In.
    apply Hall, andb_true_iff in Hc as [?%Z.leb_le ?%Z.leb_le]. lia.
  - intros [Hne Hall]. split; [done|]. intros c Hc%list_elem_of_In.
    apply Hall in Hc. apply andb_true_iff. split; apply Z.leb_le; lia.
Qed.

(** ** The text loader, continued *)

Section LoaderFixpoint.
Import TextLoader.

Lemma count_newlines_removelast l :
  ends_with_newline l = true → count_newlines l = S (count_newlines (removelast l)).
Proof.
  intros He. destruct l as [|x l] using rev_ind; [done|]. clear IHl.
  rewrite ends_with_newline_snoc in He. apply Ascii.eqb_eq in He as ->.
  rewrite removelast_last, count_newlines_app.
  change (count_newlines [LF]) with 1%nat. lia.
Qed.

Lemma count_newlines_zero_no_end l : count_newlines l = 0%nat → ends_with_newline l = false.
Proof.
  intros Hc. destruct (ends_with_newline l) eqn:E; [|done].
  apply ends_with_newline_count in E. lia.
Qed.

Lemma load_text_from_stream_fixed r :
  Forall kept r →
  (ends_with_newline r = true → count_newlines r ≠ 1%nat) →
  (ends_with_newline r = false → count_newlines r = 0%nat ∨ (32 ≤ count_newlines r)%nat) →
  load_text_from_stream r = r.
Proof.
  intros Hk He Hn. rewrite load_text_from_stream_char. cbv zeta.
  rewrite sanitize_fixed by done.
  destruct (ends_with_newline r).
  - by rewrite (proj2 (Nat.eqb_neq _ _) (He eq_refl)).
  - destruct (Hn eq_refl) as [->|Hbig]; [done|].
    replace (count_newlines r <=? 31)%nat with false
      by (symmetry; apply Nat.leb_gt; lia).
    by rewrite andb_false_r.
Qed.

End LoaderFixpoint.

(** X3. The text loader is idempotent: a text it has returned is read
    back as it is; the treatment of the last newline is applied once. *)
Theorem load_text_from_stream_idempotent (fp : list ascii) :
  TextLoader.load_text_from_stream (TextLoader.load_text_from_stream fp)
  = TextLoader.load_text_from_stream fp.
Proof.
  pose proof (load_text_from_stream_kept fp) as Hk.
  apply load_text_from_stream_fixed; [done|..];
    rewrite load_text_from_stream_char; cbv zeta;
    pose proof (sanitize_kept fp) as Hs;
    set (r := TextLoader.sanitize fp) in *;
    pose proof (count_newlines_removelast r) as Hrm;
    destruct (TextLoader.ends_with_newline r) eqn:E.
  - destruct (Nat.eqb_spec (TextLoader.count_newlines r) 1) as [H1|H1].
    + intros Hend. apply ends_with_newline_count in Hend. specialize (Hrm eq_refl). lia.
    + done.
  - destruct (Nat.ltb_spec 0 (TextLoader.count_newlines r)) as [Hpos|Hz];
      destruct (Nat.leb_spec (TextLoader.count_newlines r) 31) as [Hle|Hgt]; cbn [andb].
    + intros _. rewrite count_newlines_app. unfold TextLoader.count_newlines at 2.
      simpl. lia.
    + intros _. lia.
    + by rewrite E.
    + by rewrite E.
  - destruct (Nat.eqb_spec (TextLoader.count_newlines r) 1) as [H1|H1].
    + intros _. left. specialize (Hrm eq_refl). lia.
    + by rewrite E.
  - destruct (Nat.ltb_spec 0 (TextLoader.count_newlines r)) as [Hpos|Hz];
      destruct (Nat.leb_spec (TextLoader.count_newlines r) 31) as [Hle|Hgt]; cbn [andb].
    + by rewrite ends_with_newline_snoc.
    + intros _. right. lia.
    + intros _. left. lia.
    + intros _. left. lia.
Qed.

Lemma kept_plain c : kept c → isspace (code c) = true ∨ code SP ≤ code c.
Proof.
  unfold kept, TextLoader.sanitize_byte.
  destruct (Ascii.eqb_spec c NUL) as [->|_]; [by intros [=]|].
  destruct (isspace (code c)) eqn:Hs; [by left|]. simpl.
  destruct (Z.leb_spec (code SP) (code c)); [by right|done].
Qed.

(** X4. Whatever text [dd_load_text_ext] returns, it has no NUL byte,
    and every byte of it is white space (a space, or one of the codes 9
    to 13) or has a code of 32 or more: it holds no control byte below
    32 other than white space.  The test does not exclude DEL (127),
    which the loader keeps. *)
Theorem dd_load_text_ext_sanitized (dd : dump_dir) (name : string) (flags : Z)
    (w w' : world) (text : list ascii) :
  dd_load_text_ext dd name flags w = Ret (Some text) w' →
  (NUL ∉ text)
  ∧ Forall (λ c, isspace (code c) = true ∨ code SP ≤ code c) text.
Proof.
  revert text w'.
  assert (H : post (dd_load_text_ext dd name flags) w
                (λ r _, ∀ text, r = Some text →
                   Forall (λ c, isspace (code c) = true ∨ code SP ≤ code c) text)).
  { unfold dd_load_text_ext, load_text_file_at, load_text_from_file_descriptor,
      assert_relative, xfunc_die, openat, close, fgetc_until_EOF.
    wp; try (by intros ? [=]); try (by intros ?? [=]).
    all: try (intros text; destruct (has_flag flags DD_LOAD_TEXT_RETURN_NULL_ON_FAILURE);
              by intros [= <-]).
    all: intros text [= <-];
      eapply Forall_impl; [apply load_text_from_stream_kept|apply kept_plain]. }
  intros text w' Hrun. specialize (H _ _ Hrun text eq_refl). split; [|done].
  intros Hin. rewrite Forall_forall in H. by destruct (H NUL Hin) as [?|?].
Qed.

Lemma dd_load_text_ext_sanitized_witness :
  let w := world_with_item "comment" ["a"; NUL; "007"; "b"; "127"; LF]%char in
  ∃ w', dd_load_text_ext (sample_dd true) "comment" 0 w
        = Ret (Some ["a"; " "; "b"; "127"]%char) w'
        ∧ (NUL ∉ ["a"; " "; "b"; "127"]%char).
Proof.
  intros w. eexists. split; [vm_compute; reflexivity|].
  eapply (dd_load_text_ext_sanitized (sample_dd true) "comment" 0 w).
  vm_compute. reflexivity.
Defined.

Section Descriptors.

Lemma one_more_fd_open_fd w ino i :
  w_inodes w !! ino = Some i → one_more_fd w (open_fd ino w).2 (open_fd ino w).1.
Proof.
  intros Hi. split; [done|]. split; [by exists (OpenFile ino 0), i|]. by repeat split.
Qed.

Lemma one_more_fd_log msg w w' fd : one_more_fd w w' fd → one_more_fd w (with_log msg w') fd.
Proof. done. Qed.

Lemma one_more_fd_errno e w w' fd : one_more_fd w w' fd → one_more_fd w (with_errno e w') fd.
Proof. done. Qed.

Lemma one_more_fd_inode w w' fd :
  one_more_fd w w' fd →
  ∃ f i, w_fds w' !! Z.to_nat fd = Some f ∧ w_inodes w !! of_ino f = Some i
         ∧ fd_inode w' fd = Some (of_ino f, i).
Proof.
  intros (-> & (f & i & Hf & Hi) & Hs). exists f, i.
  destruct Hs as (Hino & _). simpl in Hino.
  unfold fd_inode. rewrite Nat2Z.id, Hf, lookup_insert_eq.
  destruct (Z.ltb_spec (Z.of_nat (fresh (dom (w_fds w)))) 0); [lia|].
  split; [done|]. split; [done|]. simpl. by rewrite Hino, Hi.
Qed.

Lemma one_more_fd_quiet w w' fd : one_more_fd w w' fd → w_env w = [] → w_env w' = [].
Proof. intros (_ & _ & Hs) Hq. destruct Hs as (_&_&_&_&_&_&_&_&He). simpl in He. congruence. Qed.

Lemma one_more_fd_fstat w w' fd :
  one_more_fd w w' fd →
  ∃ f i, w_inodes w !! of_ino f = Some i ∧ sys_fstat fd w' = (Some i, w').
Proof.
  intros H. destruct (one_more_fd_inode _ _ _ H) as (f & i & _ & Hw & Hi).
  exists f, i. unfold sys_fstat. by rewrite Hi.
Qed.

Lemma one_more_fd_read w w' fd n :
  one_more_fd w w' fd → one_more_fd w (sys_read fd n w').2 fd.
Proof.
  intros H. destruct (one_more_fd_inode _ _ _ H) as (f & i & Hf & _ & Hi).
  unfold sys_read. rewrite Hi. destruct (is_dir i); [done|]. cbn [snd].
  destruct H as (-> & (f0 & i0 & Hf0 & Hi0) & Hs).
  split; [done|]. split; [|done].
  rewrite Nat2Z.id in *. rewrite Hf0, lookup_insert_eq in Hf. simplify_eq.
  eexists _, i0. simpl. rewrite Hf0, insert_insert_eq. done.
Qed.

Lemma one_more_fd_close w w' fd :
  one_more_fd w w' fd → (sys_close fd w').1 = 0 ∧ same_files w (sys_close fd w').2.
Proof.
  intros H. destruct (one_more_fd_inode _ _ _ H) as (f & i & Hf & _ & Hi).
  unfold sys_close. rewrite Hi. split; [done|]. cbn [snd].
  destruct H as (-> & (f0 & i0 & Hf0 & Hi0) & Hs).
  destruct Hs as (?&?&?&?&?&?&?&?&?). simpl in *.
  repeat split; try done. simpl. rewrite Nat2Z.id, Hf0. apply fds_open_close1.
Qed.

(** Opening without [O_CREAT] fails, or adds a descriptor. *)
Lemma sys_openat_cases dir_fd name flags mode w :
  has_flag flags O_CREAT = false →
  (∃ e, sys_openat dir_fd name flags mode w = (-1, with_errno e w))
  ∨ (∃ ino i, w_inodes w !! ino = Some i
       ∧ sys_openat dir_fd name flags mode w = open_fd ino w).
Proof.
  intros Hc. unfold sys_openat, open_existing, sys_fail. rewrite Hc.
  repeat case_match; simplify_eq; try (left; by eexists).
  all: right; eexists _, _; split; [by eapply dir_entry_inode|done].
Qed.

Lemma sys_open_cases path flags w :
  (∃ e, sys_open path flags w = (-1, with_errno e w))
  ∨ (∃ ino i, w_inodes w !! ino = Some i ∧ sys_open path flags w = open_fd ino w).
Proof.
  unfold sys_open, open_existing, sys_fail.
  destruct (w_paths w !! path) as [ino|] eqn:Hp; simpl; [|by eauto].
  destruct (w_inodes w !! ino) as [i|] eqn:Hi; simpl; [|by eauto].
  repeat case_match; try (left; by eexists).
  all: right; by eexists _, _.
Qed.

(** What [openat] without [O_CREAT] leaves. *)
Lemma post_openat_read dir_fd name flags mode w (Q : Z → world → Prop) :
  w_env w = [] → has_flag flags O_CREAT = false →
  (∀ w1, same_files w w1 → Q (-1) w1) →
  (∀ fd w1, 0 ≤ fd → one_more_fd w w1 fd → Q fd w1) →
  post (openat dir_fd name flags mode) w Q.
Proof.
  intros Hq Hc Hfail Hok. unfold openat. apply post_syscall_quiet; [done|].
  destruct (sys_openat_cases dir_fd name flags mode w Hc) as [[e ->]|(ino & i & Hi & ->)].
  - apply Hfail. by repeat split.
  - apply Hok; [apply open_fd_nonneg|by eapply one_more_fd_open_fd].
Qed.

Lemma post_open path flags w (Q : Z → world → Prop) :
  w_env w = [] →
  (∀ w1, same_files w w1 → Q (-1) w1) →
  (∀ fd w1, 0 ≤ fd → one_more_fd w w1 fd → Q fd w1) →
  post (open path flags) w Q.
Proof.
  intros Hq Hfail Hok. unfold open. apply post_syscall_quiet; [done|].
  destruct (sys_open_cases path flags w) as [[e ->]|(ino & i & Hi & ->)].
  - apply Hfail. by repeat split.
  - apply Hok; [apply open_fd_nonneg|by eapply one_more_fd_open_fd].
Qed.

Lemma post_close w w1 fd (Q : Z → world → Prop) :
  w_env w = [] → one_more_fd w w1 fd →
  (∀ w2, same_files w w2 → Q 0 w2) →
  post (close fd) w1 Q.
Proof.
  intros Hq H HQ. unfold close. apply post_syscall_quiet; [by eapply one_more_fd_quiet|].
  destruct (one_more_fd_close _ _ _ H) as [-> Hs]. by apply HQ.
Qed.

(** [secure_openat_read] returns -1 and leaves the files and the
    descriptors as they are, or returns a new descriptor. *)
Lemma secure_openat_read_files dir_fd name w :
  w_env w = [] →
  post (secure_openat_read dir_fd name) w
    (λ fd w1, (fd = -1 ∧ same_files w w1) ∨ (0 ≤ fd ∧ one_more_fd w w1 fd)).
Proof.
  intros Hq. unfold secure_openat_read. apply post_bind.
  apply post_openat_read; [done|done|..].
  - intros w1 Hs. change (-1 <? 0) with true. cbv iota. apply post_ret. by left.
  - intros fd w1 Hfd H1. replace (fd <? 0) with false by (symmetry; apply Z.ltb_ge; lia).
    cbv iota. unfold fstat. apply post_bind. apply post_syscall_quiet;
      [by eapply one_more_fd_quiet|].
    destruct (one_more_fd_fstat _ _ _ H1) as (f & i & _ & ->). cbn [fst snd].
    destruct (negb (bool_decide (st_fmt i = S_IFREG)) || (1 <? st_nlink i)).
    + run. eapply post_close; [done|by apply one_more_fd_errno, one_more_fd_log|].
      intros w2 Hs. run. by left.
    + apply post_ret. by right.
Qed.

Lemma parse_time_file_at_files sizeof_time_t dir_fd filename w :
  w_env w = [] →
  post (parse_time_file_at sizeof_time_t dir_fd filename) w (λ _ w', same_files w w').
Proof.
  intros Hq. unfold parse_time_file_at. apply post_bind.
  eapply post_mono; [by apply secure_openat_read_files|]. cbv beta.
  intros fd w1 [[-> Hs]|[Hfd H1]].
  - change (-1 <? 0) with true. cbv iota. run. done.
  - replace (fd <? 0) with false by (symmetry; apply Z.ltb_ge; lia). cbv iota.
    unfold read. apply post_bind. apply post_syscall_quiet; [by eapply one_more_fd_quiet|].
    pose proof (one_more_fd_read w w1 fd (Z.to_nat (sizeof_time_buf sizeof_time_t)) H1) as H2.
    destruct (sys_read fd _ w1) as [[rdsz bytes] w2]. cbn [fst snd] in *.
    apply post_bind. eapply post_close; [done|done|]. intros w3 Hs.
    assert (Hall : ∀ e msg, same_files w (with_log msg (with_errno e w3))) by done.
    run; try done.
Qed.

Lemma secure_openat_read_returns dir_fd name w :
  ∃ r w', secure_openat_read dir_fd name w = Ret r w'.
Proof.
  unfold secure_openat_read, openat, fstat, close, syscall. mrun.
  destruct (sys_openat _ _ _ _ _) as [fd w1]. destruct (fd <? 0); mrun; [by eexists _, _|].
  destruct (sys_fstat _ _) as [[st|] w2]; mrun.
  - destruct (negb _ || _); mrun; [|by eexists _, _].
    destruct (sys_close _ _) as [c w3]. mrun. by eexists _, _.
  - destruct (sys_close _ _) as [c w3]. mrun. by eexists _, _.
Qed.

Lemma parse_time_file_at_returns sizeof_time_t dir_fd filename w :
  ∃ r w', parse_time_file_at sizeof_time_t dir_fd filename w = Ret r w'.
Proof.
  unfold parse_time_file_at. rewrite bind_unfold.
  destruct (secure_openat_read_returns dir_fd filename w) as (fd & w1 & ->).
  destruct (fd <? 0); mrun; [by eexists _, _|].
  unfold read, close, syscall. mrun.
  destruct (sys_read _ _ _) as [[rdsz bytes] w2]. mrun.
  destruct (sys_close _ _) as [c w3]. mrun.
  destruct (rdsz =? -1); mrun; [by eexists _, _|].
  destruct (rdsz =? _); mrun; [by eexists _, _|].
  destruct (strtoll_errno _); mrun;
    match goal with |- context [if ?b then _ else _] => destruct b end; mrun;
    by eexists _, _.
Qed.

End Descriptors.

(** X5. In a world where no other process acts, [parse_time_file_at]
    changes no file and leaves the descriptor table as it found it,
    whatever it returns: the descriptor it opens is closed on every
    path, and only [errno] and the log differ afterwards.  It does
    return when the name names nothing, a regular file, a directory or
    a symbolic link; on a FIFO its open may wait for a peer. *)
Theorem parse_time_file_at_keeps_files (sizeof_time_t dir_fd : Z) (filename : string)
    (w : world) :
  w_env w = [] →
  (∀ r w', parse_time_file_at sizeof_time_t dir_fd filename w = Ret r w' →
           same_files w w')
  ∧ (no_fifo_at w dir_fd filename →
     ∃ r w', parse_time_file_at sizeof_time_t dir_fd filename w = Ret r w').
Proof.
  intros Hq. split.
  - intros r w' Hrun. by eapply parse_time_file_at_files.
  - intros _. apply parse_time_file_at_returns.
Qed.

Lemma parse_time_file_at_keeps_files_witness :
  let w := world_with_entry "time" (Inode S_IFREG 2 420 0 0 ["0"%char] ∅) in
  ∃ r w', parse_time_file_at 8 3 "time" w = Ret r w' ∧ same_files w w'.
Proof.
  intros w.
  destruct (parse_time_file_at_keeps_files 8 3 "time" w eq_refl) as [Hsame Hret].
  destruct Hret as (r & w' & Hrun).
  - intros d di j i Hd He. vm_compute in Hd. injection Hd as <- <-.
    vm_compute in He. injection He as <- <-. discriminate.
  - exists r, w'. split; [exact Hrun|]. exact (Hsame r w' Hrun).
Defined.

(** The reader of items leaves the files alone. *)
Lemma dd_load_text_ext_files dd name flags w :
  w_env w = [] → post (dd_load_text_ext dd name flags) w (λ _ w', same_files w w').
Proof.
  intros Hq.
  assert (Hopen : ∀ name', post (load_text_file_at (dd_fd dd) name' flags) w
                               (λ _ w', same_files w w')).
  { intros name'. unfold load_text_file_at. apply post_bind, post_assert_relative.
    apply post_bind.
    apply post_openat_read; [done|by destruct (has_flag flags DD_OPEN_FOLLOW)|..].
    - intros w1 Hs. unfold load_text_from_file_descriptor. change (-1 =? -1) with true.
      cbv iota. assert (same_files w (with_log "Can't open file" w1)) by done.
      run; done.
    - intros fd w1 Hfd H1. unfold load_text_from_file_descriptor.
      replace (fd =? -1) with false by (symmetry; apply Z.eqb_neq; lia). cbv iota.
      unfold fgetc_until_EOF. apply post_bind.
      apply post_syscall_quiet; [by eapply one_more_fd_quiet|].
      destruct (one_more_fd_inode _ _ _ H1) as (f & i & _ & _ & Hi).
      rewrite Hi. cbn [fmap option_fmap option_map default snd].
      pose proof (one_more_fd_read w w1 fd (length (i_data i)) H1) as H2.
      destruct (sys_read fd _ w1) as [[rdsz bytes] w2]. cbn [fst snd] in *.
      apply post_bind. eapply post_close; [done|done|]. intros w3 Hs.
      by run. }
  unfold dd_load_text_ext, xfunc_die.
  destruct (negb (str_is_correct_filename name)); [|by apply Hopen].
  apply post_bind, post_log. destruct (has_flag _ _); [by apply post_ret|].
  by intros ??.
Qed.

(** The reader of items returns, for a valid name. *)
Lemma dd_load_text_ext_returns dd name flags w :
  str_is_correct_filename name = true →
  ∃ r w', dd_load_text_ext dd name flags w = Ret r w'.
Proof.
  intros Hname. unfold dd_load_text_ext. rewrite Hname. cbn [negb].
  assert (Hrel : ∀ name', str_is_correct_filename name' = true →
            ∃ r w', load_text_file_at (dd_fd dd) name' flags w = Ret r w').
  { intros name' Hname'. unfold load_text_file_at.
    rewrite bind_unfold, correct_filename_relative by done.
    unfold openat, syscall. rewrite bind_unfold.
    destruct (sys_openat _ _ _ _ _) as [fd w1].
    unfold load_text_from_file_descriptor.
    destruct (fd =? -1).
    - destruct (negb _); mrun; by eexists _, _.
    - unfold fgetc_until_EOF, close, syscall. mrun.
      destruct (sys_read _ _ _) as [[rdsz bytes] w2]. mrun.
      destruct (sys_close _ _) as [c w3]. mrun. by eexists _, _. }
  destruct (String.eqb name "release"); by apply Hrel.
Qed.

(** X6. In a world where no other process acts, [dd_load_text_ext]
    changes no file and leaves the descriptor table as it found it,
    whatever the name, the flags and what it returns.  It does return
    for a valid name, without [DD_OPEN_FOLLOW], when the entry it
    reads ([os_release] for [release]) is absent, a regular file, a
    directory or a symbolic link; on a FIFO its open may wait for a
    peer. *)
Theorem dd_load_text_ext_keeps_files (dd : dump_dir) (name : string) (flags : Z)
    (w : world) :
  w_env w = [] →
  (∀ r w', dd_load_text_ext dd name flags w = Ret r w' → same_files w w')
  ∧ (str_is_correct_filename name = true →
     has_flag flags DD_OPEN_FOLLOW = false →
     no_fifo_at w (dd_fd dd) (item_name name) →
     ∃ r w', dd_load_text_ext dd name flags w = Ret r w').
Proof.
  intros Hq. split.
  - intros r w' Hrun. by eapply dd_load_text_ext_files.
  - intros Hname _ _. by apply dd_load_text_ext_returns.
Qed.

Lemma dd_load_text_ext_keeps_files_witness :
  let w := world_with_item "comment" ["a"; LF]%char in
  ∃ w', dd_load_text_ext (sample_dd true) "comment" 0 w = Ret (Some ["a"%char]) w'
        ∧ same_files w w'.
Proof.
  intros w.
  destruct (dd_load_text_ext_keeps_files (sample_dd true) "comment" 0 w eq_refl)
    as [Hsame Hret].
  destruct Hret as (r & w' & Hrun).
  - reflexivity.
  - reflexivity.
  - intros d di j i Hd He. vm_compute in Hd. injection Hd as <- <-.
    vm_compute in He. injection He as <- <-. discriminate.
  - pose proof (Hsame r w' Hrun) as Hs. pose proof Hrun as Hval.
    vm_compute in Hval. injection Hval as Hr _. subst r.
    exists w'. split; [exact Hrun|exact Hs].
Defined.

Section AccessFiles.

Variable DUMP_DIR_OWNED_BY_USER : Z.

Lemma uid_in_group_files uid gid w :
  post (uid_in_group uid gid) w (λ _ w', same_files w w' ∧ w_errno w' = w_errno w).
Proof.
  unfold uid_in_group, getpwuid, getgrgid.
  apply post_bind. intros pwd w1 [= <- <-].
  destruct (w_passwd w !! uid) as [p|]; [|by apply post_ret].
  destruct (pw_gid p =? gid); [by apply post_ret|].
  apply post_bind. intros grp w1 [= <- <-].
  repeat case_match; run; done.
Qed.

Lemma one_more_fd_same w w1 w2 fd :
  one_more_fd w w1 fd → same_files w1 w2 → one_more_fd w w2 fd.
Proof.
  intros (-> & (f & i & Hf & Hi) & Hs) H12.
  destruct Hs as (?&?&?&?&?&?&?&?&?). destruct H12 as (?&?&?&?&?&?&?&?&?).
  simpl in *. split; [done|]. split; [exists f, i; split; [congruence|done]|].
  repeat split; simpl; congruence.
Qed.

Lemma sys_fstat_files fd w : same_files w (sys_fstat fd w).2.
Proof. unfold sys_fstat, sys_fail. by repeat case_match. Qed.

Lemma fdump_dir_stat_for_uid_files dir_fd uid w :
  w_env w = [] →
  post (fdump_dir_stat_for_uid DUMP_DIR_OWNED_BY_USER dir_fd uid) w (λ _ w', same_files w w').
Proof.
  intros Hq. unfold fdump_dir_stat_for_uid, fstat. apply post_bind.
  apply post_syscall_quiet; [done|].
  pose proof (sys_fstat_files dir_fd w) as Hs.
  destruct (sys_fstat dir_fd w) as [st w1]. cbn [fst snd] in *.
  assert (Hl : ∀ msg e w2, same_files w w2 → same_files w (with_log msg (with_errno e w2)))
    by done.
  destruct st as [st|]; [|run; by apply Hl].
  destruct (negb (is_dir st)); [run; by apply Hl|].
  apply post_bind, post_set_errno.
  set (w2 := with_errno 0 w1).
  assert (Hs2 : same_files w w2) by done. clearbody w2.
  destruct ((uid =? 0) || has_flag (st_mode st) S_IROTH).
  - run; done.
  - run; try done.
    all: eapply post_mono; [apply uid_in_group_files|]; cbv beta.
    all: intros b w3 [Hs3 _];
      assert (Hs4 : same_files w w3) by (by eapply same_files_trans).
    all: run; done.
Qed.

End AccessFiles.

Lemma dump_dir_accessible_by_uid_files DUMP_DIR_OWNED_BY_USER dirname uid w :
  w_env w = [] →
  post (dump_dir_accessible_by_uid DUMP_DIR_OWNED_BY_USER dirname uid) w
    (λ _ w', same_files w w').
Proof.
  intros Hq.
  unfold dump_dir_accessible_by_uid, dump_dir_stat_for_uid.
  apply post_bind, post_bind. apply post_open; [done|..].
  - intros w1 Hs. change (-1 <? 0) with true. cbv iota.
    assert (∀ m1 m2 e, same_files w (with_log m1 (with_errno e (with_log m2 w1)))) by done.
    run; done.
  - intros fd w1 Hfd H1. replace (fd <? 0) with false by (symmetry; apply Z.ltb_ge; lia).
    cbv iota. apply post_bind.
    eapply post_mono;
      [apply fdump_dir_stat_for_uid_files; by eapply one_more_fd_quiet|].
    cbv beta. intros ddstat w2 Hs2. apply post_bind.
    eapply post_close; [done|by eapply one_more_fd_same|]. intros w3 Hs3.
    assert (∀ m, same_files w (with_log m w3)) by done.
    run; done.
Qed.

Section StatValues.

Variable DUMP_DIR_OWNED_BY_USER : Z.

Lemma uid_in_group_returns uid gid w : ∃ b w', uid_in_group uid gid w = Ret b w'.
Proof.
  unfold uid_in_group, getpwuid, getgrgid. mrun.
  destruct (w_passwd w !! uid) as [pwd|]; [|by eexists _, _].
  destruct (pw_gid pwd =? gid); [by eexists _, _|]. mrun.
  destruct (w_group w !! gid) as [[name [members|]]|]; [|by eexists _, _..].
  destruct (existsb _ members); mrun; by eexists _, _.
Qed.

Lemma fdump_dir_stat_for_uid_returns dir_fd uid w :
  ∃ r w', fdump_dir_stat_for_uid DUMP_DIR_OWNED_BY_USER dir_fd uid w = Ret r w'
    ∧ ((r = -1 ∧ w_errno w' = ENOTDIR) ∨ r = 0 ∨ r = 3).
Proof.
  unfold fdump_dir_stat_for_uid, fstat, syscall. rewrite bind_unfold.
  destruct (sys_fstat dir_fd (env_step w)) as [[st|] w1];
    [|mrun; eexists _, _; split; [reflexivity|]; by left].
  destruct (is_dir st); cbn [negb];
    [|mrun; eexists _, _; split; [reflexivity|]; by left].
  mrun. destruct ((uid =? 0) || has_flag (st_mode st) S_IROTH) eqn:Hacc.
  - mrun. destruct (0 <? DUMP_DIR_OWNED_BY_USER); mrun; rewrite ?Hacc; cbn [orb]; mrun;
      eexists _, _; (split; [reflexivity|]); right; by right.
  - mrun. destruct (0 <? DUMP_DIR_OWNED_BY_USER); mrun; rewrite ?Hacc; cbn [orb].
    + destruct (uid =? st_uid st); mrun; eexists _, _; (split; [reflexivity|]); auto.
    + destruct (uid_in_group_returns uid (st_gid st) (with_errno 0 w1)) as (b & w2 & ->).
      destruct b; mrun; eexists _, _; (split; [reflexivity|]); auto.
Qed.

Lemma dump_dir_accessible_by_uid_returns dirname uid w :
  ∃ r w', dump_dir_accessible_by_uid DUMP_DIR_OWNED_BY_USER dirname uid w = Ret r w'
    ∧ (r = 0 ∨ r = 1).
Proof.
  unfold dump_dir_accessible_by_uid, dump_dir_stat_for_uid, open, syscall.
  rewrite !bind_unfold.
  destruct (sys_open dirname _ (env_step w)) as [fd w1].
  destruct (fd <? 0); [mrun; eexists _, _; split; [reflexivity|]; by left|].
  rewrite bind_unfold.
  destruct (fdump_dir_stat_for_uid_returns fd uid w1) as (r & w2 & -> & Hr).
  unfold close, syscall. rewrite bind_unfold.
  destruct (sys_close fd (env_step w2)) as [c w3]. mrun.
  destruct Hr as [[-> _]|[->| ->]]; mrun; eexists _, _; (split; [reflexivity|]); auto.
Qed.

End StatValues.

(** X7. In a world where no other process acts,
    [dump_dir_accessible_by_uid] returns 0 or 1, and it changes no file
    and leaves the descriptor table as it found it: the directory it
    opens is closed again, whatever the answer. *)
Theorem dump_dir_accessible_by_uid_keeps_files (DUMP_DIR_OWNED_BY_USER : Z)
    (dirname : string) (uid : Z) (w : world) :
  w_env w = [] →
  ∃ r w', dump_dir_accessible_by_uid DUMP_DIR_OWNED_BY_USER dirname uid w = Ret r w'
    ∧ (r = 0 ∨ r = 1)
    ∧ same_files w w'.
Proof.
  intros Hq.
  destruct (dump_dir_accessible_by_uid_returns DUMP_DIR_OWNED_BY_USER dirname uid w)
    as (r & w' & Hrun & Hr).
  exists r, w'. split; [done|]. split; [done|].
  by eapply dump_dir_accessible_by_uid_files.
Qed.

Lemma dump_dir_accessible_by_uid_keeps_files_witness :
  let w := world_with_item "time" ["0"%char] in
  ∃ r w', dump_dir_accessible_by_uid 0 "/var/tmp/pd" 1000 w = Ret r w'
    ∧ (r = 0 ∨ r = 1) ∧ same_files w w'.
Proof.
  intros w. exact (dump_dir_accessible_by_uid_keeps_files 0 "/var/tmp/pd" 1000 w eq_refl).
Defined.

(** ** The lock on a directory without [time] file *)

Section PlainDirectory.

Variable sizeof_time_t : Z.

Lemma dir_at_inode w dir_fd d di :
  dir_at w dir_fd = inr (d, di) →
  w_inodes w !! d = Some di ∧ is_dir di = true
  ∧ ∃ f, 0 ≤ dir_fd ∧ w_fds w !! Z.to_nat dir_fd = Some f ∧ of_ino f = d.
Proof.
  unfold dir_at, fd_inode. destruct (Z.ltb_spec dir_fd 0) as [|Hfd]; [done|].
  destruct (w_fds w !! Z.to_nat dir_fd) as [f|] eqn:Hf; [|done]. simpl.
  destruct (w_inodes w !! of_ino f) as [i|] eqn:Hi; [|done]. simpl.
  destruct (is_dir i) eqn:Hdir; [|done]. intros [= <- <-]. eauto 10.
Qed.

Lemma dir_at_same w w' dir_fd d di di' :
  dir_at w dir_fd = inr (d, di) →
  w_fds w' = w_fds w → w_inodes w' !! d = Some di' → is_dir di' = true →
  dir_at w' dir_fd = inr (d, di').
Proof.
  intros (_ & _ & f & Hfd & Hf & <-)%dir_at_inode Hfds Hd Hdir.
  unfold dir_at, fd_inode. rewrite Hfds, Hf.
  replace (dir_fd <? 0) with false by (symmetry; apply Z.ltb_ge; lia).
  simpl. rewrite Hd. simpl. by rewrite Hdir.
Qed.

Lemma set_entries_set_entries f g i :
  set_entries f (set_entries g i) = set_entries (f ∘ g) i.
Proof. done. Qed.

Lemma dd_lock_retry_S fuel dd sleep_usec flags pid_buf count :
  dd_lock_retry sizeof_time_t (S fuel) dd sleep_usec flags pid_buf count =
  (r ← create_symlink_lockfile_at fuel (dd_fd dd) ".lock" pid_buf;
   if r <? 0 then mret (r, dd)
   else if negb (0 <? r) then
     usleep sleep_usec;;
     dd_lock_retry sizeof_time_t fuel dd sleep_usec flags pid_buf count
   else
     if sleep_usec =? WAIT_FOR_OTHER_PROCESS_USLEEP then
       '(missing_file, dd) ← dd_check sizeof_time_t dd;
       match missing_file with
       | Some _ =>
           xunlinkat (dd_fd dd) ".lock";;
           log MSG_UNLOCKED_NO_TIME;;
           let count := unsigned_wrap (count - 1) in
           if (count =? 0) || has_flag flags DD_DONT_WAIT_FOR_LOCK then
             set_errno EISDIR;;
             mret (-1, dd)
           else
             usleep NO_TIME_FILE_USLEEP;;
             dd_lock_retry sizeof_time_t fuel dd sleep_usec flags pid_buf count
       | None => mret (0, set_locked true dd)
       end
     else mret (0, set_locked true dd)).
Proof. reflexivity. Qed.

Lemma symlink_made fuel dir_fd lock_file pid w w1 :
  w_env w = [] → sys_symlinkat pid dir_fd lock_file w = (0, w1) →
  create_symlink_lockfile_at (S fuel) dir_fd lock_file pid w
  = Ret 1 (with_log "Locked" w1).
Proof.
  intros Hq Hsym. cbn [create_symlink_lockfile_at]. unfold symlinkat.
  rewrite bind_unfold, syscall_quiet, Hsym by done. reflexivity.
Qed.

(** Taking the lock of a plain directory and finding no [time] file:
    the lock is released, and the directory is as before. *)
Lemma dd_lock_round fuel dd flags pid_buf count w d di :
  plain_directory w (dd_fd dd) d di →
  ∃ w', plain_directory w' (dd_fd dd) d di
    ∧ no_time_count w' = S (no_time_count w)
    ∧ same_files w (with_inodes (λ _, w_inodes w) w')
    ∧ dd_lock_retry sizeof_time_t (S (S fuel)) dd WAIT_FOR_OTHER_PROCESS_USLEEP flags
        pid_buf count w
      = if (unsigned_wrap (count - 1) =? 0) || has_flag flags DD_DONT_WAIT_FOR_LOCK
        then Ret (-1, set_dd_time (-1) dd) (with_errno EISDIR w')
        else dd_lock_retry sizeof_time_t (S fuel) (set_dd_time (-1) dd)
               WAIT_FOR_OTHER_PROCESS_USLEEP flags pid_buf (unsigned_wrap (count - 1)) w'.
Proof.
  intros (Hq & Hd & Hlink & Hwrite & Hlock & Htime).
  destruct (dir_at_inode _ _ _ _ Hd) as (Hdi & Hdir & _).
  set (ino := fresh (dom (w_inodes w))).
  assert (Hino : w_inodes w !! ino = None).
  { apply not_elem_of_dom. apply is_fresh. }
  assert (Hne : ino ≠ d) by congruence.
  set (i0 := new_inode w S_IFLNK 511 pid_buf).
  assert (Hi0 : is_dir i0 = false) by done.
  set (di1 := set_entries (<[".lock"%string := ino]>) di).
  assert (Hdir1 : is_dir di1 = true) by done.
  assert (Hlock1 : i_entries di1 !! ".lock"%string = Some ino)
    by apply lookup_insert_eq.
  assert (Htime1 : i_entries di1 !! "time"%string = None)
    by (unfold di1; simpl; by rewrite lookup_insert_ne).
  assert (Hwrite1 : ∀ w2, w_euid w2 = w_euid w → may_write w2 di1 = true).
  { intros w2 He2. unfold may_write, may_access in *. by rewrite He2. }
  assert (Hback : set_entries (delete ".lock"%string) di1 = di).
  { unfold di1, set_entries. destruct di as [? ? ? ? ? ? entries]. simpl in *.
    f_equal. by apply delete_insert_id. }
  (* the symlink is made *)
  assert (Hsym : sys_symlinkat pid_buf (dd_fd dd) ".lock" w
                 = (0, (fs_create d ".lock" i0 w).2)).
  { unfold sys_symlinkat. rewrite Hd.
    replace (st_nlink di =? 0) with false by (symmetry; by apply Z.eqb_neq).
    unfold dir_entry. rewrite Hdi. simpl. rewrite Hlock. simpl. by rewrite Hwrite. }
  set (w1 := (fs_create d ".lock" i0 w).2) in *.
  assert (Hd1 : w_inodes w1 !! d = Some di1).
  { unfold w1, fs_create. simpl. fold ino.
    rewrite lookup_alter_eq, lookup_insert_ne, Hdi by done. done. }
  assert (Hi1 : w_inodes w1 !! ino = Some i0).
  { unfold w1, fs_create. simpl. fold ino.
    by rewrite lookup_alter_ne, lookup_insert_eq by done. }
  assert (Hf1 : w_fds w1 = w_fds w) by done.
  assert (He1 : w_euid w1 = w_euid w) by done.
  assert (Hq1 : w_env w1 = []) by done.
  assert (Hl1 : w_log w1 = w_log w) by done.
  assert (Hs1 : same_files w (with_inodes (λ _, w_inodes w) w1)) by (by repeat split).
  clearbody w1 di1 i0 ino.
  (* what the system calls do while the lock is held *)
  assert (Hheld : ∀ w2, w_inodes w2 = w_inodes w1 → w_fds w2 = w_fds w1 →
            w_euid w2 = w_euid w1 → w_env w2 = [] →
            sys_openat (dd_fd dd) FILENAME_TIME (Z.lor O_RDONLY O_NOFOLLOW) 0 w2
            = (-1, with_errno ENOENT w2)
            ∧ sys_unlinkat (dd_fd dd) ".lock" w2 = (0, fs_unlink d ".lock" w2)
            ∧ plain_directory (fs_unlink d ".lock" w2) (dd_fd dd) d di
            ∧ w_log (fs_unlink d ".lock" w2) = w_log w2
            ∧ same_files w2 (with_inodes (λ _, w_inodes w2) (fs_unlink d ".lock" w2))).
  { intros w2 Hi2 Hf2 He2 Hq2.
    assert (Hd2 : dir_at w2 (dd_fd dd) = inr (d, di1)).
    { apply (dir_at_same w _ _ _ di); [done|congruence|congruence|done]. }
    assert (Hentry : dir_entry w2 d ".lock" = Some (ino, i0)).
    { unfold dir_entry. rewrite Hi2, Hd1. simpl. rewrite Hlock1. simpl. by rewrite Hi1. }
    assert (Hnone : dir_entry w2 d "time" = None).
    { unfold dir_entry. rewrite Hi2, Hd1. simpl. by rewrite Htime1. }
    split; [|split; [|split; [|split]]].
    - unfold sys_openat, FILENAME_TIME. by rewrite Hd2, Hnone.
    - unfold sys_unlinkat. rewrite Hd2, Hentry, Hi0, Hwrite1 by congruence. done.
    - unfold fs_unlink. rewrite Hentry.
      split; [done|]. split; [|split; [done|split; [|done]]].
      + apply (dir_at_same w _ _ _ di); [done|simpl; congruence| |done].
        simpl. rewrite lookup_alter_eq, lookup_insert_ne, Hi2, Hd1 by done.
        simpl. by rewrite Hback.
      + unfold may_write, may_access in *. simpl. by rewrite He2, He1.
    - unfold fs_unlink. by rewrite Hentry.
    - unfold fs_unlink. rewrite Hentry. by repeat split. }
  set (wa := with_log "Locked" w1).
  set (wb := with_log "Can't open" (with_errno ENOENT wa)).
  set (wc := with_log "Missing file: time" wb).
  destruct (Hheld wa) as (Hopen & _); [done..|].
  destruct (Hheld wc) as (_ & Hunlink & Hplain & Hlog & Hsc); [done..|].
  exists (with_log MSG_UNLOCKED_NO_TIME (fs_unlink d ".lock" wc)).
  split; [exact Hplain|]. split.
  { unfold no_time_count. cbn [w_log with_log]. rewrite Hlog. cbn [w_log with_log wc wb wa with_errno].
    rewrite Hl1. rewrite filter_app, length_app. simpl.
    rewrite !filter_app, !length_app. simpl. lia. }
  split.
  { destruct Hs1 as (_&?&?&?&?&?&?&?&?), Hsc as (_&?&?&?&?&?&?&?&?). simpl in *.
    repeat split; simpl; congruence. }
  rewrite dd_lock_retry_S, bind_unfold, (symlink_made _ _ _ _ _ w1) by done.
  fold wa. change (1 <? 0) with false. change (negb (0 <? 1)) with false. cbv iota.
  rewrite Z.eqb_refl. unfold dd_check, parse_time_file_at, secure_openat_read, openat.
  rewrite !bind_unfold, syscall_quiet, Hopen by done. cbn [fst snd].
  change (-1 <? 0) with true. cbv iota. mrun.
  change (-1 <? 0) with true. cbv iota. mrun. fold wb.
  change (-1 <? 0) with true. cbv iota. mrun. fold wc.
  change (dd_fd (set_dd_time (-1) dd)) with (dd_fd dd).
  unfold xunlinkat, unlinkat. rewrite !bind_unfold, syscall_quiet, Hunlink by done.
  cbn [fst snd]. change (negb (0 =? 0)) with false. cbv iota. mrun.
  destruct ((unsigned_wrap (count - 1) =? 0) || has_flag flags DD_DONT_WAIT_FOR_LOCK);
    mrun; [reflexivity|].
  unfold usleep. rewrite syscall_quiet; [reflexivity|]. apply Hplain.
Qed.

Lemma plain_directory_no_lock w dir_fd d di :
  plain_directory w dir_fd d di → (sys_fstatat dir_fd ".lock" w).1 = None.
Proof.
  intros (_ & Hd & _ & _ & Hlock & _). unfold sys_fstatat. rewrite Hd.
  unfold dir_entry. destruct (dir_at_inode _ _ _ _ Hd) as (-> & _).
  simpl. by rewrite Hlock.
Qed.

Lemma plain_directory_errno e w dir_fd d di :
  plain_directory w dir_fd d di → plain_directory (with_errno e w) dir_fd d di.
Proof. done. Qed.

(** The rounds of [dd_lock] on a plain directory, from the value [n] of
    [count]. *)
Lemma dd_lock_retry_plain flags pid_buf d di (n : nat) : ∀ fuel dd w,
  (1 ≤ n)%nat → Z.of_nat n < 2 ^ 32 → (n < fuel)%nat →
  plain_directory w (dd_fd dd) d di →
  ∃ w', dd_lock_retry sizeof_time_t fuel dd WAIT_FOR_OTHER_PROCESS_USLEEP flags pid_buf
          (Z.of_nat n) w
        = Ret (-1, set_dd_time (-1) dd) w'
    ∧ w_errno w' = EISDIR
    ∧ no_time_count w'
      = (no_time_count w + if has_flag flags DD_DONT_WAIT_FOR_LOCK then 1 else n)%nat
    ∧ plain_directory w' (dd_fd dd) d di
    ∧ same_files w (with_inodes (λ _, w_inodes w) w').
Proof.
  induction n as [|n IH]; intros fuel dd w Hn Hmax Hfuel Hplain; [lia|].
  destruct fuel as [|[|fuel]]; [lia..|].
  destruct (dd_lock_round fuel dd flags pid_buf (Z.of_nat (S n)) w d di Hplain)
    as (w1 & Hplain1 & Hcount1 & Hs1 & ->).
  replace (unsigned_wrap (Z.of_nat (S n) - 1)) with (Z.of_nat n)
    by (unfold unsigned_wrap; rewrite Z.mod_small; lia).
  destruct (has_flag flags DD_DONT_WAIT_FOR_LOCK) eqn:Hflag.
  { rewrite orb_true_r. exists (with_errno EISDIR w1).
    split; [done|]. split; [done|]. split; [|done].
    change (no_time_count (with_errno EISDIR w1)) with (no_time_count w1). lia. }
  rewrite orb_false_r. destruct n as [|n].
  { exists (with_errno EISDIR w1). split; [done|]. split; [done|]. split; [|done].
    change (no_time_count (with_errno EISDIR w1)) with (no_time_count w1). lia. }
  replace (Z.of_nat (S n) =? 0) with false by (symmetry; apply Z.eqb_neq; lia).
  destruct (IH (S fuel) (set_dd_time (-1) dd) w1)
    as (w' & Hrun & Herr & Hcount & Hplain' & Hs'); [lia..|done|].
  exists w'. split; [done|]. split; [done|]. split; [lia|]. split; [done|].
  destruct Hs1 as (_&?&?&?&?&?&?&?&?), Hs' as (_&?&?&?&?&?&?&?&?). simpl in *.
  repeat split; simpl; congruence.
Qed.

(** [dd_lock] on a plain directory. *)
Lemma dd_lock_plain fuel dd flags w d di :
  locked dd = false → plain_directory w (dd_fd dd) d di → (11 ≤ fuel)%nat →
  ∃ w', dd_lock sizeof_time_t fuel dd WAIT_FOR_OTHER_PROCESS_USLEEP flags w
        = Ret (-1, set_dd_time (-1) dd) w'
    ∧ w_errno w' = EISDIR
    ∧ no_time_count w'
      = (no_time_count w
         + if has_flag flags DD_DONT_WAIT_FOR_LOCK then 1
           else Z.to_nat NO_TIME_FILE_COUNT)%nat
    ∧ plain_directory w' (dd_fd dd) d di
    ∧ same_files w (with_inodes (λ _, w_inodes w) w').
Proof.
  intros Hl Hplain Hfuel. unfold dd_lock. rewrite Hl. unfold getpid. rewrite bind_unfold.
  destruct (dd_lock_retry_plain flags
              (list_ascii_of_string (pretty (w_pid w))) d di 10 fuel dd w)
    as (w' & Hrun & Herr & Hcount & Hplain' & Hs'); [lia|done|lia|done|].
  exists w'. done.
Qed.

End PlainDirectory.

(** X13. [dd_lock], called as [dd_opendir] calls it on a directory that is
    no problem directory: writable, without [.lock] and [time] entries,
    while no other process acts.  With fuel for eleven turns it returns
    -1 with [errno] set to [EISDIR], after [NO_TIME_FILE_COUNT] rounds
    of taking and releasing the lock, or after one round when the caller
    passed [DD_DONT_WAIT_FOR_LOCK]; the handle is not locked, and the
    directory is as it was, without [.lock]. *)
Theorem dd_lock_plain_directory (sizeof_time_t : Z) (fuel : nat) (dd : dump_dir)
    (flags : Z) (w : world) (d : Z) (di : inode) :
  locked dd = false → plain_directory w (dd_fd dd) d di → (11 ≤ fuel)%nat →
  ∃ w', dd_lock sizeof_time_t fuel dd WAIT_FOR_OTHER_PROCESS_USLEEP flags w
        = Ret (-1, set_dd_time (-1) dd) w'
    ∧ w_errno w' = EISDIR
    ∧ no_time_count w'
      = (no_time_count w
         + if has_flag flags DD_DONT_WAIT_FOR_LOCK then 1
           else Z.to_nat NO_TIME_FILE_COUNT)%nat
    ∧ locked (set_dd_time (-1) dd) = false
    ∧ plain_directory w' (dd_fd dd) d di.
Proof.
  intros Hl Hplain Hfuel.
  destruct (dd_lock_plain sizeof_time_t fuel dd flags w d di Hl Hplain Hfuel)
    as (w' & Hrun & Herr & Hcount & Hplain' & _).
  exists w'. done.
Qed.

Lemma dd_lock_plain_directory_witness :
  let w := world_with_item "reported_to" [] in
  ∃ w', dd_lock 8 11 (sample_dd false) WAIT_FOR_OTHER_PROCESS_USLEEP 0 w
        = Ret (-1, set_dd_time (-1) (sample_dd false)) w'
    ∧ w_errno w' = EISDIR
    ∧ no_time_count w' = 10%nat
    ∧ (sys_fstatat 3 ".lock" w').1 = None.
Proof.
  intros w.
  destruct (dd_lock_plain_directory 8 11 (sample_dd false) 0 w 1
              (Inode S_IFDIR 2 493 0 0 [] (<["reported_to"%string := 2]> ∅)))
    as (w' & Hrun & Herr & Hcount & _ & Hplain).
  - reflexivity.
  - repeat split; vm_compute; congruence.
  - lia.
  - exists w'. split; [exact Hrun|]. split; [exact Herr|]. split; [exact Hcount|].
    exact (plain_directory_no_lock _ _ _ _ Hplain).
Defined.


(** ** The lock, continued *)

Section LockHeld.

Variable sizeof_time_t : Z.

Lemma strncmp_refl s n : strncmp s s n = 0.
Proof.
  revert s. induction n as [|n IH]; intros s; [by destruct s|].
  destruct s as [|c s]; [done|]. cbn [strncmp]. rewrite Ascii.eqb_refl. cbn [negb].
  destruct (Ascii.eqb c NUL); [done|]. apply IH.
Qed.

Lemma strcmp_refl s : strcmp s s = 0.
Proof. apply strncmp_refl. Qed.

Lemma create_symlink_lockfile_at_S fuel dir_fd lock_file pid :
  create_symlink_lockfile_at (S fuel) dir_fd lock_file pid =
  (r ← symlinkat pid dir_fd lock_file;
   if r =? 0 then
     log "Locked";;
     mret 1
   else
     errno ← get_errno;
     if negb (errno =? EEXIST) then
       (if negb (errno =? ENOENT) && negb (errno =? ENOTDIR)
           && negb (errno =? EACCES)
        then perror_msg "Can't create lock file";; set_errno 0
        else mret tt);;
       mret (-1)
     else
       '(r, bytes) ← readlinkat dir_fd lock_file readlink_bufsiz;
       if r <? 0 then
         errno ← get_errno;
         if errno =? ENOENT then
           usleep SYMLINK_RETRY_USLEEP;;
           create_symlink_lockfile_at fuel dir_fd lock_file pid
         else
           perror_msg "Can't read lock file";;
           set_errno 0;;
           mret (-1)
       else
         let pid_buf := c_str (take (Z.to_nat r) bytes) in
         if strcmp pid_buf pid =? 0 then
           log "Lock file is already locked by us";;
           mret 0
         else
           alive ←
             (if isdigit_str pid_buf then
                r ← access ("/proc/" +:+ string_of_list_ascii pid_buf);
                if r =? 0 then
                  log "Lock file is locked by process";;
                  mret true
                else
                  log "Lock file was locked by process, but it crashed?";;
                  mret false
              else mret false);
           if alive : bool then mret 0
           else
             r ← unlinkat dir_fd lock_file;
             errno ← get_errno;
             if negb (r =? 0) && negb (errno =? ENOENT) then
               perror_msg "Can't remove stale lock file";;
               set_errno 0;;
               mret (-1)
             else create_symlink_lockfile_at fuel dir_fd lock_file pid).
Proof. reflexivity. Qed.

(** What the first two system calls of [create_symlink_lockfile_at] do
    when the lock exists. *)
Lemma lock_is_calls w dir_fd target pid :
  lock_is w dir_fd target →
  sys_symlinkat pid dir_fd ".lock" w = (-1, with_errno EEXIST w)
  ∧ ∀ e, sys_readlinkat dir_fd ".lock" readlink_bufsiz (with_errno e w)
         = (Z.of_nat (length (take readlink_bufsiz target)), take readlink_bufsiz target,
            with_errno e w).
Proof.
  intros (d & di & ino & i & Hd & Hlink & He & Hfmt & <-). split.
  - unfold sys_symlinkat. rewrite Hd, He.
    by replace (st_nlink di =? 0) with false by (symmetry; by apply Z.eqb_neq).
  - intros e. unfold sys_readlinkat.
    change (dir_at (with_errno e w) dir_fd) with (dir_at w dir_fd).
    change (dir_entry (with_errno e w)) with (dir_entry w).
    rewrite Hd, He, Hfmt. by rewrite bool_decide_eq_true_2.
Qed.

(** [create_symlink_lockfile_at] on a lock held by the process itself or
    by a live process: it returns 0, and changes no file. *)
Lemma create_symlink_lockfile_at_busy fuel w dir_fd target :
  w_env w = [] → lock_is w dir_fd target →
  lock_holder target = pid_text w ∨ holder_alive w (lock_holder target) →
  ∃ w', create_symlink_lockfile_at (S fuel) dir_fd ".lock" (pid_text w) w = Ret 0 w'
        ∧ same_files w w'.
Proof.
  intros Hq Hlock Hheld. destruct (lock_is_calls w dir_fd target (pid_text w) Hlock)
    as [Hsym Hread].
  rewrite create_symlink_lockfile_at_S. unfold symlinkat, readlinkat.
  rewrite bind_unfold, syscall_quiet, Hsym by done. cbn [fst snd].
  change (-1 =? 0) with false. cbv iota. mrun.
  change (w_errno (with_errno EEXIST w)) with EEXIST.
  change (negb (EEXIST =? EEXIST)) with false. cbv iota.
  rewrite bind_unfold, syscall_quiet, Hread by done. cbn [fst snd].
  replace (Z.of_nat (length (take readlink_bufsiz target)) <? 0) with false
    by (symmetry; apply Z.ltb_ge; lia).
  cbv iota zeta. rewrite Nat2Z.id, firstn_all. fold (lock_holder target).
  destruct (strcmp (lock_holder target) (pid_text w) =? 0) eqn:Hcmp.
  { mrun. eexists. split; [reflexivity|done]. }
  destruct Hheld as [Hown|[Hdigit Halive]].
  { rewrite Hown, strcmp_refl in Hcmp. done. }
  rewrite Hdigit. unfold access. rewrite !bind_unfold, syscall_quiet by done.
  assert (Hacc : sys_access ("/proc/" +:+ string_of_list_ascii (lock_holder target))
                   (with_errno EEXIST w)
                 = (0, with_errno EEXIST w)).
  { unfold sys_access in *. change (w_proc (with_errno EEXIST w)) with (w_proc w).
    change (w_paths (with_errno EEXIST w)) with (w_paths w).
    by destruct (_ || _). }
  rewrite Hacc. cbn [fst snd]. change (0 =? 0) with true. cbv iota. mrun.
  eexists. split; [reflexivity|done].
Qed.

Lemma lock_is_same w w' dir_fd target :
  same_files w w' → lock_is w dir_fd target → lock_is w' dir_fd target.
Proof.
  intros Hs (d & di & ino & i & Hd & Hlink & He & Hfmt & Hdata).
  exists d, di, ino, i. rewrite (same_files_dir_at w w'), (same_files_dir_entry w w') by done.
  done.
Qed.

Lemma holder_alive_same w w' holder :
  same_files w w' → holder_alive w holder → holder_alive w' holder.
Proof.
  intros (_ & Hp & _ & _ & _ & Hproc & _) [Hd Ha]. split; [done|].
  unfold sys_access in *. rewrite Hp, Hproc. by destruct (_ || _).
Qed.

(** The loop of [dd_lock] on a lock that is held: it goes on until the
    fuel is spent. *)
Lemma dd_lock_retry_busy dd sleep_usec flags count target pid : ∀ fuel w,
  w_env w = [] → pid = pid_text w → lock_is w (dd_fd dd) target →
  lock_holder target = pid ∨ holder_alive w (lock_holder target) →
  dd_lock_retry sizeof_time_t fuel dd sleep_usec flags pid count w = Spin.
Proof.
  induction fuel as [|fuel IH]; intros w Hq Hpid Hlock Hheld; [done|].
  rewrite dd_lock_retry_S, bind_unfold. destruct fuel as [|fuel]; [done|].
  subst pid.
  destruct (create_symlink_lockfile_at_busy fuel w (dd_fd dd) target Hq Hlock Hheld)
    as (w' & -> & Hs).
  change (0 <? 0) with false. cbn [negb]. cbv iota.
  assert (Hq' : w_env w' = []) by (by eapply same_files_quiet).
  unfold usleep. rewrite bind_unfold, syscall_quiet by done. cbn [fst snd].
  assert (Hpid : pid_text w = pid_text w').
  { unfold pid_text. destruct Hs as (_&_&_&_&->&_). done. }
  apply IH; [done|done|by eapply lock_is_same|].
  destruct Hheld as [Hown|Halive]; [left; congruence|right; by eapply holder_alive_same].
Qed.

End LockHeld.

(** X8. [dd_lock] on a directory whose [.lock] is held, by the process
    itself or by a live process, while no other process acts: it never
    returns, whatever the sleep interval and the flags, the flag
    [DD_DONT_WAIT_FOR_LOCK] included; every amount of fuel is spent. *)
Theorem dd_lock_held_never_returns (sizeof_time_t : Z) (fuel : nat) (dd : dump_dir)
    (sleep_usec flags : Z) (w : world) (target : list ascii) :
  locked dd = false → w_env w = [] → lock_is w (dd_fd dd) target →
  lock_holder target = pid_text w ∨ holder_alive w (lock_holder target) →
  dd_lock sizeof_time_t fuel dd sleep_usec flags w = Spin.
Proof.
  intros Hl Hq Hlock Hheld. unfold dd_lock. rewrite Hl. unfold getpid.
  rewrite bind_unfold. by eapply dd_lock_retry_busy.
Qed.

Lemma dd_lock_held_never_returns_witness :
  let w := world_with_entry ".lock"
             (Inode S_IFLNK 1 511 0 0 (list_ascii_of_string "4242") ∅) in
  dd_lock 8 100 (sample_dd false) WAIT_FOR_OTHER_PROCESS_USLEEP DD_DONT_WAIT_FOR_LOCK w
  = Spin.
Proof.
  intros w.
  apply (dd_lock_held_never_returns 8 100 (sample_dd false) _ _ w
           (list_ascii_of_string "4242")).
  - reflexivity.
  - reflexivity.
  - exists 1, (Inode S_IFDIR 2 493 0 0 [] (<[".lock"%string := 2]> ∅)), 2,
      (Inode S_IFLNK 1 511 0 0 (list_ascii_of_string "4242") ∅).
    repeat split; vm_compute; congruence.
  - left. vm_compute. reflexivity.
Defined.

Section LockTaken.

(** The directory after the lock was taken: the entry [.lock] is added,
    for the new inode [ino], a symbolic link to [pid]. *)
Lemma sys_symlinkat_free w dir_fd d di pid :
  dir_at w dir_fd = inr (d, di) → st_nlink di ≠ 0 → may_write w di = true →
  i_entries di !! ".lock"%string = None →
  ∃ w1 ino,
    sys_symlinkat pid dir_fd ".lock" w = (0, w1)
    ∧ w_inodes w !! ino = None ∧ ino ≠ d
    ∧ w_inodes w1
      = <[d := set_entries (<[".lock"%string := ino]>) di]>
          (<[ino := new_inode w S_IFLNK 511 pid]> (w_inodes w))
    ∧ same_files w (with_inodes (λ _, w_inodes w) w1)
    ∧ w_errno w1 = w_errno w ∧ w_log w1 = w_log w.
Proof.
  intros Hd Hlink Hwrite Hlock.
  destruct (dir_at_inode _ _ _ _ Hd) as (Hdi & Hdir & _).
  set (ino := fresh (dom (w_inodes w))).
  assert (Hino : w_inodes w !! ino = None) by (apply not_elem_of_dom, is_fresh).
  assert (Hne : ino ≠ d) by congruence.
  exists (fs_create d ".lock" (new_inode w S_IFLNK 511 pid) w).2, ino.
  split; [|split; [done|split; [done|split; [|done]]]].
  - unfold sys_symlinkat. rewrite Hd.
    replace (st_nlink di =? 0) with false by (symmetry; by apply Z.eqb_neq).
    unfold dir_entry. rewrite Hdi. simpl. rewrite Hlock. simpl. by rewrite Hwrite.
  - unfold fs_create. simpl. fold ino. apply map_eq. intros j.
    destruct (decide (j = d)) as [->|Hj].
    + by rewrite lookup_alter_eq, lookup_insert_eq, lookup_insert_ne, Hdi.
    + by rewrite lookup_alter_ne, (lookup_insert_ne _ d) by done.
Qed.

(** The directory with a lock, whoever holds it. *)
Lemma dir_at_update w w1 dir_fd d di di1 (tbl : gmap Z inode) :
  dir_at w dir_fd = inr (d, di) →
  w_fds w1 = w_fds w → w_inodes w1 = <[d := di1]> tbl → st_fmt di1 = st_fmt di →
  dir_at w1 dir_fd = inr (d, di1).
Proof.
  intros Hd Hf Hi Hfmt. destruct (dir_at_inode _ _ _ _ Hd) as (_ & Hdir & _).
  eapply dir_at_same; [done|done|by rewrite Hi, lookup_insert_eq|].
  unfold is_dir in *. by rewrite Hfmt.
Qed.


Lemma same_files_may_read w w' i : same_files w w' → may_read w' i = may_read w i.
Proof. intros (_&_&_&He&_). unfold may_read, may_access. by rewrite He. Qed.

(** The directory after [.lock] was unlinked. *)
Lemma sys_unlinkat_lock w dir_fd d di ino i :
  dir_at w dir_fd = inr (d, di) → dir_entry w d ".lock" = Some (ino, i) →
  is_dir i = false → may_write w di = true → ino ≠ d →
  ∃ w1,
    sys_unlinkat dir_fd ".lock" w = (0, w1)
    ∧ w_inodes w1
      = <[d := set_entries (delete ".lock"%string) di]>
          (<[ino := set_nlink (st_nlink i - 1) i]> (w_inodes w))
    ∧ same_files w (with_inodes (λ _, w_inodes w) w1)
    ∧ w_errno w1 = w_errno w ∧ w_log w1 = w_log w.
Proof.
  intros Hd He Hnd Hwrite Hne.
  destruct (dir_at_inode _ _ _ _ Hd) as (Hdi & Hdir & _).
  exists (fs_unlink d ".lock" w).
  split; [|unfold fs_unlink; rewrite He; split; [|done]].
  - unfold sys_unlinkat. by rewrite Hd, He, Hnd, Hwrite.
  - simpl. apply map_eq. intros j. destruct (decide (j = d)) as [->|Hj].
    + by rewrite lookup_alter_eq, lookup_insert_eq, lookup_insert_ne, Hdi.
    + by rewrite lookup_alter_ne, (lookup_insert_ne _ d) by done.
Qed.

(** The entries for other inodes than the one updated with the
    directory are kept. *)
Lemma dir_entry_update w w1 d di di1 ino x name j i :
  w_inodes w !! d = Some di →
  w_inodes w1 = <[d := di1]> (<[ino := x]> (w_inodes w)) →
  i_entries di1 !! name = i_entries di !! name →
  dir_entry w d name = Some (j, i) → j ≠ d → j ≠ ino →
  dir_entry w1 d name = Some (j, i).
Proof.
  intros Hdi Hi1 Hname He Hjd Hji. unfold dir_entry in *.
  rewrite Hi1, lookup_insert_eq. rewrite Hdi in He. simpl in *. rewrite Hname.
  destruct (i_entries di !! name) as [j'|]; simpl in *; [|done].
  destruct (w_inodes w !! j') as [i'|] eqn:Hj; simpl in *; [|done]. simplify_eq.
  by rewrite !lookup_insert_ne, Hj by done.
Qed.

(** Taking a lock that is free. *)
Lemma create_symlink_lockfile_at_free fuel w dir_fd d di pid :
  w_env w = [] → dir_at w dir_fd = inr (d, di) → st_nlink di ≠ 0 →
  may_write w di = true → i_entries di !! ".lock"%string = None →
  ∃ w' ino,
    create_symlink_lockfile_at (S fuel) dir_fd ".lock" pid w = Ret 1 w'
    ∧ w_inodes w !! ino = None ∧ ino ≠ d
    ∧ w_inodes w'
      = <[d := set_entries (<[".lock"%string := ino]>) di]>
          (<[ino := new_inode w S_IFLNK 511 pid]> (w_inodes w))
    ∧ same_files w (with_inodes (λ _, w_inodes w) w')
    ∧ no_time_count w' = no_time_count w.
Proof.
  intros Hq Hd Hlink Hwrite Hlock.
  destruct (sys_symlinkat_free w dir_fd d di pid Hd Hlink Hwrite Hlock)
    as (w1 & ino & Hsym & Hino & Hne & Hi1 & Hs1 & He1 & Hl1).
  exists (with_log "Locked" w1), ino.
  split; [by apply symlink_made|]. split; [done|]. split; [done|]. split; [done|].
  split; [done|]. unfold no_time_count. simpl. rewrite Hl1.
  rewrite filter_app, length_app. simpl. lia.
Qed.

End LockTaken.




Section LockCycle.

Variable sizeof_time_t : Z.
Hypothesis sizeof_time_t_cases : sizeof_time_t = 4 ∨ sizeof_time_t = 8.

(** [dd_lock] on a problem directory whose lock is free: the state it
    leaves. *)
Lemma dd_lock_ok fuel dd flags w d di j ti :
  locked dd = false → w_env w = [] →
  dir_at w (dd_fd dd) = inr (d, di) → st_nlink di ≠ 0 → may_write w di = true →
  i_entries di !! ".lock"%string = None →
  dir_entry w d "time" = Some (j, ti) → j ≠ d →
  st_fmt ti = S_IFREG → st_nlink ti ≤ 1 → may_read w ti = true →
  0 ≤ time_file_value sizeof_time_t (i_data ti) →
  ∃ w' ino,
    dd_lock sizeof_time_t (S (S fuel)) dd WAIT_FOR_OTHER_PROCESS_USLEEP flags w
    = Ret (0, set_locked true (set_dd_time (time_file_value sizeof_time_t (i_data ti)) dd))
          w'
    ∧ w_inodes w !! ino = None ∧ ino ≠ d
    ∧ w_inodes w'
      = <[d := set_entries (<[".lock"%string := ino]>) di]>
          (<[ino := new_inode w S_IFLNK 511 (pid_text w)]> (w_inodes w))
    ∧ same_files w (with_inodes (λ _, w_inodes w) w').
Proof.
  intros Hl Hq Hd Hlink Hwrite Hlock Htime Hjd Hreg Hone Hread Hval.
  destruct (dir_at_inode _ _ _ _ Hd) as (Hdi & Hdir & _).
  unfold dd_lock. rewrite Hl. unfold getpid. rewrite bind_unfold. fold (pid_text w).
  rewrite dd_lock_retry_S, bind_unfold.
  destruct (create_symlink_lockfile_at_free fuel w (dd_fd dd) d di (pid_text w))
    as (w1 & ino & -> & Hfresh & Hne & Hi1 & Hs1 & _); [done..|].
  change (1 <? 0) with false. change (negb (0 <? 1)) with false. cbv iota.
  rewrite Z.eqb_refl. unfold dd_check. rewrite !bind_unfold.
  destruct Hs1 as (_ & Hp1 & Hf1 & He1 & Hpid1 & Hproc1 & Hpw1 & Hgr1 & Hq1). simpl in *.
  set (di1 := set_entries (<[".lock"%string := ino]>) di) in *.
  assert (Hd1 : dir_at w1 (dd_fd dd) = inr (d, di1)) by (by eapply dir_at_update).
  assert (Htime1 : dir_entry w1 d FILENAME_TIME = Some (j, ti)).
  { eapply (dir_entry_update w w1); [done|done| |done|done|].
    - simpl. by rewrite lookup_insert_ne.
    - intros ->. apply dir_entry_inode in Htime. congruence. }
  assert (Hread1 : may_read w1 ti = true).
  { unfold may_read, may_access in *. by rewrite He1. }
  assert (Hq1' : w_env w1 = []) by congruence.
  destruct (parse_time_file_at_value sizeof_time_t sizeof_time_t_cases (dd_fd dd)
              FILENAME_TIME w1 d di1 j ti Hq1' Hd1 Htime1 Hreg Hone Hread1)
    as (w2 & Hparse).
  pose proof (parse_time_file_at_files sizeof_time_t (dd_fd dd) FILENAME_TIME w1 Hq1'
                _ _ Hparse) as Hs2.
  rewrite Hparse.
  replace (time_file_value sizeof_time_t (i_data ti) <? 0) with false
    by (symmetry; apply Z.ltb_ge; lia).
  cbv iota. mrun. exists w2, ino. split; [reflexivity|]. split; [done|].
  split; [done|]. destruct Hs2 as (Hi2&?&?&?&?&?&?&?&?).
  split; [by rewrite Hi2, Hi1|]. repeat split; simpl; congruence.
Qed.

End LockCycle.

Section Unlock.

(** [dd_unlock] of a locked handle whose [.lock] is in place. *)
Lemma dd_unlock_ok dd w d di ino i :
  locked dd = true → w_env w = [] →
  dir_at w (dd_fd dd) = inr (d, di) → dir_entry w d ".lock" = Some (ino, i) →
  is_dir i = false → ino ≠ d → may_write w di = true →
  ∃ w', dd_unlock dd w = Ret (set_locked false dd) w'
    ∧ w_inodes w'
      = <[d := set_entries (delete ".lock"%string) di]>
          (<[ino := set_nlink (st_nlink i - 1) i]> (w_inodes w))
    ∧ same_files w (with_inodes (λ _, w_inodes w) w').
Proof.
  intros Hl Hq Hd He Hnd Hne Hwrite. unfold dd_unlock. rewrite Hl.
  unfold xunlinkat, unlinkat. cbv zeta. rewrite !bind_unfold, syscall_quiet by done.
  change (dd_fd (set_locked false dd)) with (dd_fd dd).
  destruct (sys_unlinkat_lock w (dd_fd dd) d di ino i Hd He Hnd Hwrite Hne)
    as (w1 & -> & Hi1 & Hs1 & _).
  cbn [fst snd]. change (negb (0 =? 0)) with false. cbv iota. mrun.
  eexists. split; [reflexivity|]. split; [done|]. done.
Qed.

End Unlock.

(** X10. [dd_lock], called as [dd_opendir] calls it on a problem
    directory whose lock is free, while no other process acts: when the
    directory is writable and its [time] file is a readable regular file
    with one link and a valid content, the lock is taken at once; the
    function returns 0, the handle is locked and holds the time stamp,
    [.lock] is a symbolic link to the decimal pid of the process, no
    descriptor is left open, and the other entries are as before. *)
Theorem dd_lock_problem_directory (sizeof_time_t : Z) (fuel : nat) (dd : dump_dir)
    (flags : Z) (w : world) (d : Z) (di : inode) (j : Z) (ti : inode) :
  sizeof_time_t = 4 ∨ sizeof_time_t = 8 →
  locked dd = false → w_env w = [] →
  dir_at w (dd_fd dd) = inr (d, di) → st_nlink di ≠ 0 → may_write w di = true →
  i_entries di !! ".lock"%string = None →
  dir_entry w d "time" = Some (j, ti) → j ≠ d →
  st_fmt ti = S_IFREG → st_nlink ti ≤ 1 → may_read w ti = true →
  0 ≤ time_file_value sizeof_time_t (i_data ti) →
  (2 ≤ fuel)%nat →
  ∃ w', dd_lock sizeof_time_t fuel dd WAIT_FOR_OTHER_PROCESS_USLEEP flags w
        = Ret (0, set_locked true
                    (set_dd_time (time_file_value sizeof_time_t (i_data ti)) dd)) w'
    ∧ lock_is w' (dd_fd dd) (pid_text w)
    ∧ w_fds w' = w_fds w
    ∧ (∀ name k x, name ≠ ".lock"%string → dir_entry w d name = Some (k, x) →
                   k ≠ d → dir_entry w' d name = Some (k, x)).
Proof.
  intros Hsz Hl Hq Hd Hlink Hwrite Hlock Htime Hjd Hreg Hone Hread Hval Hfuel.
  destruct fuel as [|[|fuel]]; [lia..|].
  destruct (dd_lock_ok sizeof_time_t Hsz fuel dd flags w d di j ti)
    as (w' & ino & Hrun & Hfresh & Hne & Hi' & Hs'); [done..|].
  destruct (dir_at_inode _ _ _ _ Hd) as (Hdi & Hdir & _).
  destruct Hs' as (_&_&Hf'&_). simpl in Hf'.
  exists w'. split; [done|]. split; [|split; [done|]].
  - exists d, (set_entries (<[".lock"%string := ino]>) di), ino,
      (new_inode w S_IFLNK 511 (pid_text w)).
    split; [by eapply dir_at_update|]. split; [done|]. split; [|done].
    unfold dir_entry. rewrite Hi', lookup_insert_eq. simpl.
    rewrite lookup_insert_eq. simpl. by rewrite lookup_insert_ne, lookup_insert_eq.
  - intros name k x Hname Hent Hkd.
    eapply (dir_entry_update w w'); [done|done| |done|done|].
    + simpl. by rewrite lookup_insert_ne.
    + intros ->. apply dir_entry_inode in Hent. congruence.
Qed.

Lemma dd_lock_problem_directory_witness :
  let w := world_with_item "time" (list_ascii_of_string "1700000000") in
  ∃ w', dd_lock 8 2 (sample_dd false) WAIT_FOR_OTHER_PROCESS_USLEEP 0 w
        = Ret (0, set_locked true (set_dd_time 1700000000 (sample_dd false))) w'
    ∧ lock_is w' 3 (list_ascii_of_string "4242").
Proof.
  intros w.
  destruct (dd_lock_problem_directory 8 2 (sample_dd false) 0 w 1
              (Inode S_IFDIR 2 493 0 0 [] (<["time"%string := 2]> ∅)) 2
              (Inode S_IFREG 1 420 0 0 (list_ascii_of_string "1700000000") ∅))
    as (w' & Hrun & Hlock & _).
  - by right.
  - reflexivity.
  - reflexivity.
  - vm_compute. reflexivity.
  - simpl. lia.
  - vm_compute. reflexivity.
  - vm_compute. reflexivity.
  - vm_compute. reflexivity.
  - lia.
  - reflexivity.
  - simpl. lia.
  - vm_compute. reflexivity.
  - vm_compute. discriminate.
  - lia.
  - by exists w'.
Defined.

(** X11. [dd_unlock] leaves an unlocked handle and the world as they
    are.  On a locked handle whose [.lock] entry is in place in a
    writable directory, while no other process acts, it removes the
    entry and returns the handle unlocked: [.lock] is then absent, no
    descriptor is opened, and the entries for the other inodes are as
    before. *)
Theorem dd_unlock_releases (dd : dump_dir) (w : world) (d : Z) (di : inode)
    (ino : Z) (i : inode) :
  (locked dd = false → dd_unlock dd w = Ret dd w)
  ∧ (locked dd = true → w_env w = [] →
     dir_at w (dd_fd dd) = inr (d, di) → dir_entry w d ".lock" = Some (ino, i) →
     is_dir i = false → ino ≠ d → may_write w di = true →
     ∃ w', dd_unlock dd w = Ret (set_locked false dd) w'
       ∧ (sys_fstatat (dd_fd dd) ".lock" w').1 = None
       ∧ w_fds w' = w_fds w
       ∧ (∀ name k x, name ≠ ".lock"%string → dir_entry w d name = Some (k, x) →
                      k ≠ d → k ≠ ino → dir_entry w' d name = Some (k, x))).
Proof.
  split; [intros Hl; unfold dd_unlock; by rewrite Hl|].
  intros Hl Hq Hd He Hnd Hne Hwrite.
  destruct (dd_unlock_ok dd w d di ino i) as (w' & Hrun & Hi' & Hs'); [done..|].
  destruct (dir_at_inode _ _ _ _ Hd) as (Hdi & Hdir & _).
  destruct Hs' as (_&_&Hf'&_). simpl in Hf'.
  exists w'. split; [done|]. split; [|split; [done|]].
  - unfold sys_fstatat.
    rewrite (dir_at_update w w' _ d di (set_entries (delete ".lock"%string) di) _ Hd Hf' Hi')
      by done.
    unfold dir_entry. rewrite Hi', lookup_insert_eq. simpl. by rewrite lookup_delete_eq.
  - intros name k x Hname Hent Hkd Hki.
    eapply (dir_entry_update w w'); [done|done| |done..].
    simpl. by rewrite lookup_delete_ne.
Qed.

Lemma dd_unlock_releases_witness :
  let w := world_with_entry ".lock"
             (Inode S_IFLNK 1 511 0 0 (list_ascii_of_string "4242") ∅) in
  ∃ w', dd_unlock (sample_dd true) w = Ret (sample_dd false) w'
        ∧ (sys_fstatat 3 ".lock" w').1 = None.
Proof.
  intros w.
  destruct (dd_unlock_releases (sample_dd true) w 1
              (Inode S_IFDIR 2 493 0 0 [] (<[".lock"%string := 2]> ∅)) 2
              (Inode S_IFLNK 1 511 0 0 (list_ascii_of_string "4242") ∅))
    as [_ Hrel].
  destruct Hrel as (w' & Hrun & Hgone & _).
  - reflexivity.
  - reflexivity.
  - vm_compute. reflexivity.
  - vm_compute. reflexivity.
  - reflexivity.
  - lia.
  - vm_compute. reflexivity.
  - by exists w'.
Defined.

(** X12. Locking and unlocking a problem directory, while no other
    process acts: after [dd_lock], as [dd_opendir] calls it on a
    writable directory with a valid [time] file and a free lock, and
    [dd_unlock] of the handle it returns, the directory has the entries
    it had before, all its entries are found as they were, and the
    descriptor table is the same. *)
Theorem dd_lock_unlock_round_trip (sizeof_time_t : Z) (fuel : nat) (dd : dump_dir)
    (flags : Z) (w : world) (d : Z) (di : inode) (j : Z) (ti : inode) :
  sizeof_time_t = 4 ∨ sizeof_time_t = 8 →
  locked dd = false → w_env w = [] →
  dir_at w (dd_fd dd) = inr (d, di) → st_nlink di ≠ 0 → may_write w di = true →
  i_entries di !! ".lock"%string = None →
  dir_entry w d "time" = Some (j, ti) → j ≠ d →
  st_fmt ti = S_IFREG → st_nlink ti ≤ 1 → may_read w ti = true →
  0 ≤ time_file_value sizeof_time_t (i_data ti) →
  (2 ≤ fuel)%nat →
  ∃ dd' w1 w2,
    dd_lock sizeof_time_t fuel dd WAIT_FOR_OTHER_PROCESS_USLEEP flags w = Ret (0, dd') w1
    ∧ dd_unlock dd' w1 = Ret (set_locked false dd') w2
    ∧ locked (set_locked false dd') = false
    ∧ dir_at w2 (dd_fd dd) = inr (d, di)
    ∧ w_fds w2 = w_fds w
    ∧ (∀ name k x, dir_entry w d name = Some (k, x) → k ≠ d →
                   dir_entry w2 d name = Some (k, x)).
Proof.
  intros Hsz Hl Hq Hd Hlink Hwrite Hlock Htime Hjd Hreg Hone Hread Hval Hfuel.
  destruct fuel as [|[|fuel]]; [lia..|].
  destruct (dd_lock_ok sizeof_time_t Hsz fuel dd flags w d di j ti)
    as (w1 & ino & Hrun & Hfresh & Hne & Hi1 & Hs1); [done..|].
  destruct (dir_at_inode _ _ _ _ Hd) as (Hdi & Hdir & _).
  destruct Hs1 as (_&_&Hf1&He1&_&_&_&_&Hq1). simpl in Hf1, He1, Hq1.
  set (dd' := set_locked true (set_dd_time (time_file_value sizeof_time_t (i_data ti)) dd))
    in *.
  set (di1 := set_entries (<[".lock"%string := ino]>) di) in *.
  set (i0 := new_inode w S_IFLNK 511 (pid_text w)) in *.
  assert (Hd1 : dir_at w1 (dd_fd dd') = inr (d, di1)) by (by eapply dir_at_update).
  destruct (dd_unlock_ok dd' w1 d di1 ino i0) as (w2 & Hun & Hi2 & Hs2);
    [done|congruence|done| |done|done| |].
  { unfold dir_entry. rewrite Hi1, lookup_insert_eq. simpl.
    unfold di1. simpl. rewrite lookup_insert_eq. simpl.
    by rewrite lookup_insert_ne, lookup_insert_eq. }
  { unfold may_write, may_access in *. by rewrite He1. }
  destruct Hs2 as (_&_&Hf2&_). simpl in Hf2.
  assert (Hback : set_entries (delete ".lock"%string) di1 = di).
  { unfold di1, set_entries. destruct di as [? ? ? ? ? ? entries]. simpl in *.
    f_equal. by apply delete_insert_id. }
  rewrite Hback in Hi2.
  exists dd', w1, w2. split; [done|]. split; [done|]. split; [done|].
  split; [|split; [congruence|]].
  - eapply (dir_at_update w1 w2); [exact Hd1|done|done|done].
  - intros name k x Hent Hkd. pose proof (dir_entry_inode _ _ _ _ _ Hent) as Hk.
    unfold dir_entry in *. rewrite Hdi in Hent. rewrite Hi2, lookup_insert_eq.
    simpl in *. destruct (i_entries di !! name) as [k'|]; simpl in *; [|done].
    destruct (w_inodes w !! k') as [x'|] eqn:Hk'; simpl in *; [|done]. simplify_eq.
    rewrite lookup_insert_ne by done. rewrite lookup_insert_ne by congruence.
    rewrite Hi1, lookup_insert_ne by done. rewrite lookup_insert_ne by congruence.
    by rewrite Hk'.
Qed.

Lemma dd_lock_unlock_round_trip_witness :
  let w := world_with_item "time" (list_ascii_of_string "1700000000") in
  ∃ dd' w1 w2,
    dd_lock 8 2 (sample_dd false) WAIT_FOR_OTHER_PROCESS_USLEEP 0 w = Ret (0, dd') w1
    ∧ dd_unlock dd' w1 = Ret (set_locked false dd') w2
    ∧ dir_at w2 3 = dir_at w 3.
Proof.
  intros w.
  destruct (dd_lock_unlock_round_trip 8 2 (sample_dd false) 0 w 1
              (Inode S_IFDIR 2 493 0 0 [] (<["time"%string := 2]> ∅)) 2
              (Inode S_IFREG 1 420 0 0 (list_ascii_of_string "1700000000") ∅))
    as (dd' & w1 & w2 & Hlock & Hunlock & _ & Hdir & _).
  - by right.
  - reflexivity.
  - reflexivity.
  - vm_compute. reflexivity.
  - simpl. lia.
  - vm_compute. reflexivity.
  - vm_compute. reflexivity.
  - vm_compute. reflexivity.
  - lia.
  - reflexivity.
  - simpl. lia.
  - vm_compute. reflexivity.
  - vm_compute. discriminate.
  - lia.
  - exists dd', w1, w2. split; [done|]. split; [done|].
    etrans; [exact Hdir|]. vm_compute. reflexivity.
Defined.

(** ** Saving an item *)

Section Save.

Lemma fd_inode_lookup w fd ino pos i :
  0 ≤ fd → w_fds w !! Z.to_nat fd = Some (OpenFile ino pos) →
  w_inodes w !! ino = Some i → fd_inode w fd = Some (ino, i).
Proof.
  intros Hfd Hf Hi. unfold fd_inode.
  destruct (Z.ltb_spec fd 0); [lia|]. rewrite Hf. simpl. by rewrite Hi.
Qed.

Lemma sys_fchown_fd w fd ino pos i uid gid :
  0 ≤ fd → w_fds w !! Z.to_nat fd = Some (OpenFile ino pos) →
  w_inodes w !! ino = Some i →
  w_euid w = 0 ∨ (w_euid w = st_uid i ∧ uid = st_uid i) →
  sys_fchown fd uid gid w = (0, with_inodes (<[ino := set_owner uid gid i]>) w).
Proof.
  intros Hfd Hf Hi Hown. unfold sys_fchown.
  rewrite (fd_inode_lookup w fd ino pos i) by done.
  destruct Hown as [->|[-> ->]]; [done|]. by rewrite !Z.eqb_refl, orb_true_r.
Qed.

Lemma sys_fchmod_fd w fd ino pos i mode :
  0 ≤ fd → w_fds w !! Z.to_nat fd = Some (OpenFile ino pos) →
  w_inodes w !! ino = Some i →
  w_euid w = 0 ∨ w_euid w = st_uid i →
  sys_fchmod fd mode w = (0, with_inodes (<[ino := set_mode mode i]>) w).
Proof.
  intros Hfd Hf Hi Hown. unfold sys_fchmod.
  rewrite (fd_inode_lookup w fd ino pos i) by done.
  destruct Hown as [->| ->]; [done|]. by rewrite !Z.eqb_refl, orb_true_r.
Qed.

Lemma sys_write_fd w fd ino i buf count :
  0 ≤ fd → w_fds w !! Z.to_nat fd = Some (OpenFile ino 0) →
  w_inodes w !! ino = Some i → st_fmt i = S_IFREG → i_data i = [] →
  sys_write fd buf count w
  = (Z.of_nat (length (take count buf)),
     with_fds (<[Z.to_nat fd := OpenFile ino (length (take count buf))]>)
       (with_inodes (<[ino := set_data (take count buf) i]>) w)).
Proof.
  intros Hfd Hf Hi Hreg Hdata. unfold sys_write.
  rewrite (fd_inode_lookup w fd ino 0 i) by done.
  rewrite Hreg, Hf, Hdata. simpl. rewrite drop_nil. by rewrite app_nil_r.
Qed.

Lemma sys_close_fd w fd ino pos i :
  0 ≤ fd → w_fds w !! Z.to_nat fd = Some (OpenFile ino pos) →
  w_inodes w !! ino = Some i →
  sys_close fd w = (0, with_fds (delete (Z.to_nat fd)) w).
Proof.
  intros Hfd Hf Hi. unfold sys_close. by rewrite (fd_inode_lookup w fd ino pos i).
Qed.

Lemma save_flags :
  has_flag (Z.lor (Z.lor (Z.lor O_WRONLY O_EXCL) O_CREAT) O_NOFOLLOW) O_CREAT = true.
Proof. reflexivity. Qed.

(** [save_binary_file_at] once the old entry is out of the way. *)
Lemma save_binary_file_at_from dir_fd name data size uid gid mode w r w0 d di0 :
  w_env w = [] → str_is_correct_filename name = true →
  sys_unlinkat dir_fd name w = (r, w0) →
  w_env w0 = [] →
  dir_at w0 dir_fd = inr (d, di0) → dir_entry w0 d name = None →
  st_nlink di0 ≠ 0 → may_write w0 di0 = true →
  uid = NO_UID ∨ w_euid w0 = 0 →
  0 ≤ size < 2 ^ 32 → (Z.to_nat size ≤ length data)%nat →
  let ino := fresh (dom (w_inodes w0)) in
  let file := Inode S_IFREG 1 mode (if uid =? NO_UID then w_euid w0 else uid)
                    (if uid =? NO_UID then 0 else gid) (take (Z.to_nat size) data) ∅ in
  ∃ w1, save_binary_file_at dir_fd name data size uid gid mode w = Ret true w1
    ∧ w_inodes w1 = <[ino := file]> (<[d := set_entries (<[name := ino]>) di0]> (w_inodes w0))
    ∧ same_files w0 (with_inodes (λ _, w_inodes w0) w1).
Proof.
  intros Hq Hname Hun Hq0 Hd He Hlink Hwrite Hown Hsize Hlen ino file.
  unfold save_binary_file_at.
  rewrite bind_unfold, correct_filename_relative by done.
  unfold unlinkat. rewrite bind_unfold, syscall_quiet, Hun by done.
  cbv beta iota.
  unfold openat. rewrite bind_unfold, syscall_quiet by done.
  cbn [fst snd]. unfold sys_openat. rewrite Hd, He, save_flags.
  destruct (st_nlink di0 =? 0) eqn:E; [apply Z.eqb_eq in E; done|]. clear E.
  rewrite Hwrite. unfold fs_create. fold ino.
  destruct (dir_at_inode _ _ _ _ Hd) as (Hdi & Hdir & fdir & Hdfd & Hfdir & Hof).
  assert (Hino : w_inodes w0 !! ino = None) by (apply not_elem_of_dom, is_fresh).
  assert (Hne : ino ≠ d) by congruence.
  set (fdn := fresh (dom (w_fds w0))).
  assert (Hfdn : w_fds w0 !! fdn = None) by (apply not_elem_of_dom, is_fresh).
  set (new := new_inode w0 S_IFREG mode []).
  assert (Htbl : alter (set_entries (<[name := ino]>)) d (<[ino := new]> (w_inodes w0))
                 = <[d := set_entries (<[name := ino]>) di0]> (<[ino := new]> (w_inodes w0))).
  { apply map_eq. intros j. destruct (decide (j = d)) as [->|Hj].
    - by rewrite lookup_alter_eq, lookup_insert_eq, lookup_insert_ne, Hdi.
    - by rewrite lookup_alter_ne, (lookup_insert_ne _ d) by done. }
  unfold open_fd. cbn [fst snd with_inodes w_fds w_inodes]. fold fdn.
  replace (Z.of_nat fdn <? 0) with false by (symmetry; apply Z.ltb_ge; lia).
  cbv iota.
  set (wo := with_fds _ _).
  assert (Hwo : w_inodes wo = <[d := set_entries (<[name := ino]>) di0]>
                                (<[ino := new]> (w_inodes w0))) by exact Htbl.
  assert (Hfo : w_fds wo = <[fdn := OpenFile ino 0]> (w_fds w0)) by reflexivity.
  assert (Hso : same_files w0 (with_fds (λ _, w_fds w0) (with_inodes (λ _, w_inodes w0) wo)))
    by (by repeat split).
  assert (Hqo : w_env wo = []) by done.
  assert (Heo : w_euid wo = w_euid w0) by done.
  clearbody wo.
  assert (Hfd : w_fds wo !! Z.to_nat (Z.of_nat fdn) = Some (OpenFile ino 0)).
  { by rewrite Nat2Z.id, Hfo, lookup_insert_eq. }
  assert (Hnew : w_inodes wo !! ino = Some new).
  { by rewrite Hwo, lookup_insert_ne, lookup_insert_eq. }
  rewrite bind_unfold.
  assert (Hchown : ∃ wc,
    (if negb (uid =? NO_UID)
     then fchown (Z.of_nat fdn) uid gid
          ≫= λ r0 : Z, if r0 =? -1
                       then perror_msg "Can't change ownership"
                            ≫= λ _ : (), close (Z.of_nat fdn) ≫= λ _ : Z, mret false
                       else mret true
     else mret true) wo = Ret true wc
    ∧ w_inodes wc = <[ino := set_owner (if uid =? NO_UID then w_euid w0 else uid)
                                       (if uid =? NO_UID then 0 else gid) new]> (w_inodes wo)
    ∧ same_files wo (with_inodes (λ _, w_inodes wo) wc)).
  { destruct (uid =? NO_UID) eqn:Euid.
    - exists wo. split; [done|]. split; [|by repeat split].
      rewrite insert_id; [done|]. by rewrite Hnew.
    - apply Z.eqb_neq in Euid. cbn [negb]. unfold fchown.
      rewrite bind_unfold, syscall_quiet by done.
      rewrite (sys_fchown_fd wo _ ino 0 new); [|lia|done|done|].
      2:{ rewrite Heo. simpl. destruct Hown as [?|?]; [done|by left]. }
      cbn [fst snd]. change (0 =? -1) with false. cbv iota.
      eexists. split; [reflexivity|]. split; [done|]. by repeat split. }
  destruct Hchown as (wc & -> & Hwc & Hsc). cbn [negb]. cbv iota.
  set (owned := set_owner _ _ new) in Hwc.
  destruct Hsc as (_ & Hpc & Hfc & Hec & Hpidc & Hprocc & Hpwc & Hgrc & Hqc).
  simpl in Hpc, Hfc, Hec, Hpidc, Hprocc, Hpwc, Hgrc, Hqc.
  assert (Hfdc : w_fds wc !! Z.to_nat (Z.of_nat fdn) = Some (OpenFile ino 0))
    by (by rewrite Hfc).
  unfold fchmod. rewrite bind_unfold, syscall_quiet by congruence.
  rewrite (sys_fchmod_fd wc _ ino 0 owned); [|lia|done|by rewrite Hwc, lookup_insert_eq|].
  2:{ rewrite Hec, Heo. unfold owned. simpl.
      destruct (Z.eqb_spec uid NO_UID); [by right|].
      destruct Hown as [?|?]; [done|by left]. }
  cbn [fst snd]. change (0 =? -1) with false. cbv iota.
  unfold full_write. rewrite bind_unfold, syscall_quiet by (simpl; congruence).
  rewrite (sys_write_fd _ _ ino (set_mode mode owned)); [|lia|done| |done|done].
  2:{ simpl. by rewrite lookup_insert_eq. }
  cbn [fst snd]. unfold close. rewrite bind_unfold, syscall_quiet by (simpl; congruence).
  rewrite (sys_close_fd _ _ ino (length (take (Z.to_nat size) data))
             (set_data (take (Z.to_nat size) data) (set_mode mode owned))); [|lia| |].
  2:{ simpl. by rewrite lookup_insert_eq. }
  2:{ simpl. by rewrite lookup_insert_eq. }
  cbn [fst snd]. rewrite length_take, Nat.min_l by done.
  replace (unsigned_wrap (Z.of_nat (Z.to_nat size)) =? size) with true.
  2:{ symmetry. apply Z.eqb_eq. unfold unsigned_wrap. rewrite Z2Nat.id, Z.mod_small; lia. }
  cbn [negb]. cbv iota. eexists. split; [reflexivity|].
  split.
  - simpl. rewrite !insert_insert_eq, Hwc, insert_insert_eq, Hwo.
    rewrite (insert_insert_ne _ d ino) by done. rewrite insert_insert_eq.
    done.
  - destruct Hso as (_ & ? & ? & ? & ? & ? & ? & ? & ?). simpl in *.
    repeat split; simpl; try congruence.
    rewrite Nat2Z.id, Hfc, Hfo, insert_insert_eq, delete_insert_eq.
    by apply delete_id.
Qed.

(** The directory after the entry [name] was unlinked. *)
Lemma sys_unlinkat_entry w dir_fd name d di ino i :
  dir_at w dir_fd = inr (d, di) → dir_entry w d name = Some (ino, i) →
  is_dir i = false → may_write w di = true → ino ≠ d →
  ∃ w1,
    sys_unlinkat dir_fd name w = (0, w1)
    ∧ w_inodes w1
      = <[d := set_entries (delete name) di]>
          (<[ino := set_nlink (st_nlink i - 1) i]> (w_inodes w))
    ∧ same_files w (with_inodes (λ _, w_inodes w) w1)
    ∧ w_errno w1 = w_errno w ∧ w_log w1 = w_log w.
Proof.
  intros Hd He Hnd Hwrite Hne.
  destruct (dir_at_inode _ _ _ _ Hd) as (Hdi & Hdir & _).
  exists (fs_unlink d name w).
  split; [|unfold fs_unlink; rewrite He; split; [|done]].
  - unfold sys_unlinkat. by rewrite Hd, He, Hnd, Hwrite.
  - simpl. apply map_eq. intros j. destruct (decide (j = d)) as [->|Hj].
    + by rewrite lookup_alter_eq, lookup_insert_eq, lookup_insert_ne, Hdi.
    + by rewrite lookup_alter_ne, (lookup_insert_ne _ d) by done.
Qed.

Lemma set_entries_insert_delete name (ino : Z) di :
  set_entries (<[name := ino]>) (set_entries (delete name) di)
  = set_entries (<[name := ino]>) di.
Proof. unfold set_entries. simpl. by rewrite insert_delete_eq. Qed.

(** [save_binary_file_at] in a directory that can take the item: the
    old entry is unlinked, and a new file holds the first [size] bytes. *)
Lemma save_binary_file_at_run dd name data size w d di :
  item_directory w dd d di → replaceable w d name →
  str_is_correct_filename name = true →
  0 ≤ size < 2 ^ 32 → (Z.to_nat size ≤ length data)%nat →
  ∃ w1 ino,
    save_binary_file_at (dd_fd dd) name data size (dd_uid dd) (dd_gid dd) (mode dd) w
    = Ret true w1
    ∧ unlinked w d name !! ino = None ∧ w_inodes w !! ino = None ∧ ino ≠ d
    ∧ (∃ i, saved_as w dd (take (Z.to_nat size) data) i
         ∧ w_inodes w1
           = <[ino := i]> (<[d := set_entries (<[name := ino]>) di]> (unlinked w d name)))
    ∧ same_files w (with_inodes (λ _, w_inodes w) w1).
Proof.
  intros (Hq & Hd & Hlink & Hwrite & Hown & Hmode & _) Hrep Hname Hsize Hlen.
  destruct (dir_at_inode _ _ _ _ Hd) as (Hdi & Hdir & _).
  assert (Hsaved : ∀ w0, w_euid w0 = w_euid w →
            saved_as w dd (take (Z.to_nat size) data)
              (Inode S_IFREG 1 (mode dd)
                 (if dd_uid dd =? NO_UID then w_euid w0 else dd_uid dd)
                 (if dd_uid dd =? NO_UID then 0 else dd_gid dd)
                 (take (Z.to_nat size) data) ∅)).
  { intros w0 He0. unfold saved_as. simpl. rewrite He0.
    repeat split. intros Hu _. by destruct (Z.eqb_spec (dd_uid dd) NO_UID). }
  unfold unlinked. destruct (dir_entry w d name) as [[old oi]|] eqn:He.
  - destruct (Hrep old oi He) as [Hnd Hne].
    destruct (sys_unlinkat_entry w (dd_fd dd) name d di old oi Hd He Hnd Hwrite Hne)
      as (w0 & Hun & Hi0 & Hs0 & _).
    pose proof Hs0 as (_ & _ & Hf0 & He0 & _). simpl in Hf0, He0.
    assert (Hq0 : w_env w0 = []) by (by apply (same_files_quiet _ _ Hs0)).
    assert (Hd0 : dir_at w0 (dd_fd dd) = inr (d, set_entries (delete name) di))
      by (by eapply dir_at_update).
    assert (He0' : dir_entry w0 d name = None).
    { unfold dir_entry. rewrite Hi0, lookup_insert_eq. simpl. by rewrite lookup_delete_eq. }
    assert (Hw0 : may_write w0 (set_entries (delete name) di) = true).
    { unfold may_write, may_access in *. by rewrite He0. }
    assert (Hown0 : dd_uid dd = NO_UID ∨ w_euid w0 = 0) by (by rewrite He0).
    destruct (save_binary_file_at_from (dd_fd dd) name data size (dd_uid dd) (dd_gid dd)
                (mode dd) w 0 w0 d (set_entries (delete name) di)
                Hq Hname Hun Hq0 Hd0 He0' Hlink Hw0 Hown0 Hsize Hlen)
      as (w1 & Hrun & Hi1 & Hs1).
    set (ino := fresh (dom (w_inodes w0))) in *.
    assert (Hino : w_inodes w0 !! ino = None) by (apply not_elem_of_dom, is_fresh).
    assert (Hnd' : ino ≠ d) by (intros ->; by rewrite Hi0, lookup_insert_eq in Hino).
    rewrite Hi0, lookup_insert_ne in Hino by done.
    assert (Hno : ino ≠ old) by (intros ->; by rewrite lookup_insert_eq in Hino).
    exists w1, ino. split; [done|]. split; [done|].
    split; [by rewrite lookup_insert_ne in Hino|]. split; [done|]. split.
    + eexists. split; [exact (Hsaved w0 He0)|].
      by rewrite Hi1, Hi0, insert_insert_eq, set_entries_insert_delete.
    + eapply same_files_trans; [exact Hs0|].
      destruct Hs1 as (?&?&?&?&?&?&?&?&?). simpl in *. by repeat split.
  - assert (Hun : sys_unlinkat (dd_fd dd) name w = (-1, with_errno ENOENT w)).
    { unfold sys_unlinkat. by rewrite Hd, He. }
    destruct (save_binary_file_at_from (dd_fd dd) name data size (dd_uid dd) (dd_gid dd)
                (mode dd) w (-1) (with_errno ENOENT w) d di)
      as (w1 & Hrun & Hi1 & Hs1); try done.
    set (ino := fresh (dom (w_inodes w))) in *.
    assert (Hino : w_inodes w !! ino = None) by (apply not_elem_of_dom, is_fresh).
    exists w1, ino. split; [done|]. split; [done|]. split; [done|].
    split; [congruence|]. split.
    + eexists. split; [exact (Hsaved (with_errno ENOENT w) eq_refl)|]. exact Hi1.
    + destruct Hs1 as (?&?&?&?&?&?&?&?&?). simpl in *. by repeat split.
Qed.

End Save.

Section SavedItem.

Lemma take_c_str data : take (length (c_str data)) data = c_str data.
Proof.
  induction data as [|c data IH]; [done|]. simpl.
  destruct (Ascii.eqb c NUL); [done|]. simpl. by rewrite IH.
Qed.

(** The world after an item was saved. *)
Lemma saved_item w w1 dd d di name ino file :
  dir_at w (dd_fd dd) = inr (d, di) → ino ≠ d →
  w_inodes w1 = <[ino := file]> (<[d := set_entries (<[name := ino]>) di]>
                                   (unlinked w d name)) →
  same_files w (with_inodes (λ _, w_inodes w) w1) →
  dir_at w1 (dd_fd dd) = inr (d, set_entries (<[name := ino]>) di)
  ∧ dir_entry w1 d name = Some (ino, file).
Proof.
  intros Hd Hne Hi1 (_ & _ & Hf & _). simpl in Hf.
  destruct (dir_at_inode _ _ _ _ Hd) as (Hdi & Hdir & _). split.
  - eapply dir_at_same; [done|done| |done].
    by rewrite Hi1, lookup_insert_ne, lookup_insert_eq.
  - unfold dir_entry. rewrite Hi1, lookup_insert_ne, lookup_insert_eq by done.
    simpl. rewrite lookup_insert_eq. simpl. by rewrite lookup_insert_eq.
Qed.

Lemma dd_exist_item dd name w d di ino i :
  str_is_correct_filename name = true → w_env w = [] →
  dir_at w (dd_fd dd) = inr (d, di) → dir_entry w d name = Some (ino, i) →
  dd_exist dd name w
  = Ret (bool_decide (st_fmt i = S_IFDIR) || bool_decide (st_fmt i = S_IFREG)) w.
Proof.
  intros Hname Hq Hd He. unfold dd_exist, exist_file_dir_at, fstatat.
  rewrite Hname. cbn [negb]. rewrite bind_unfold, syscall_quiet by done.
  unfold sys_fstatat. rewrite Hd, He. cbn [fst snd].
  by destruct (bool_decide (st_fmt i = S_IFDIR) || bool_decide (st_fmt i = S_IFREG)).
Qed.

Lemma dd_exist_no_item dd name w d di :
  str_is_correct_filename name = true → w_env w = [] →
  dir_at w (dd_fd dd) = inr (d, di) → dir_entry w d name = None →
  dd_exist dd name w = Ret false (with_errno ENOENT w).
Proof.
  intros Hname Hq Hd He. unfold dd_exist, exist_file_dir_at, fstatat.
  rewrite Hname. cbn [negb]. rewrite bind_unfold, syscall_quiet by done.
  unfold sys_fstatat. by rewrite Hd, He.
Qed.

End SavedItem.

(** X14. [dd_save_text] on a locked handle, with a valid name, in a
    directory that is writable, not sticky and still linked, where the
    name does not name a subdirectory, while no other process acts; the
    handle gives new files no owner, or the process is the super-user,
    and the mode of the handle has permission bits only.  The text up
    to its NUL, shorter than 2^32 bytes, is stored in a file that did
    not exist before: regular, with one link and the mode of the
    handle, owned by the process when the handle gives no owner, and
    otherwise by the owner of the handle, with its group when it gives
    one; the name is its entry, [dd_exist] then returns true, and no
    descriptor is left open. *)
Theorem dd_save_text_stores_item (dd : dump_dir) (name : string) (data : list ascii)
    (w : world) (d : Z) (di : inode) :
  locked dd = true → str_is_correct_filename name = true →
  item_directory w dd d di → replaceable w d name →
  Z.of_nat (length (c_str data)) < 2 ^ 32 →
  ∃ w1 ino i,
    dd_save_text dd name data w = Ret tt w1
    ∧ w_inodes w !! ino = None
    ∧ dir_entry w1 d name = Some (ino, i)
    ∧ saved_as w dd (c_str data) i
    ∧ dd_exist dd name w1 = Ret true w1
    ∧ w_fds w1 = w_fds w.
Proof.
  intros Hl Hname Hdir Hrep Hlen.
  assert (Hsize : unsigned_wrap (strlen data) = Z.of_nat (length (c_str data))).
  { unfold unsigned_wrap, strlen. apply Z.mod_small. lia. }
  destruct (save_binary_file_at_run dd name data (unsigned_wrap (strlen data)) w d di)
    as (w1 & ino & Hrun & _ & Hfresh & Hne & (i & Hsaved & Hi1) & Hs1); [done..| | |].
  { rewrite Hsize. lia. }
  { rewrite Hsize, Nat2Z.id. clear. induction data as [|c data IH]; [done|].
    simpl. destruct (Ascii.eqb c NUL); simpl; lia. }
  rewrite Hsize, Nat2Z.id, take_c_str in Hsaved.
  destruct Hdir as (Hq & Hd & _).
  destruct (saved_item w w1 dd d di name ino i Hd Hne Hi1 Hs1) as [Hd1 He1].
  exists w1, ino, i. split.
  { unfold dd_save_text. rewrite Hl, Hname. cbn [negb]. by rewrite bind_unfold, Hrun. }
  split; [done|]. split; [done|]. split; [done|]. split.
  - rewrite (dd_exist_item dd name w1 d _ ino i Hname
               ltac:(by apply (same_files_quiet _ _ Hs1)) Hd1 He1).
    destruct Hsaved as (-> & _). done.
  - by destruct Hs1 as (_ & _ & ? & _).
Qed.

Lemma dd_save_text_stores_item_witness :
  let w := world_with_item "time" (list_ascii_of_string "1700000000") in
  ∃ w1 ino i,
    dd_save_text (sample_dd true) "reason" (list_ascii_of_string "killed") w = Ret tt w1
    ∧ dir_entry w1 1 "reason" = Some (ino, i)
    ∧ i_data i = list_ascii_of_string "killed"
    ∧ dd_exist (sample_dd true) "reason" w1 = Ret true w1.
Proof.
  intros w.
  destruct (dd_save_text_stores_item (sample_dd true) "reason"
              (list_ascii_of_string "killed") w 1
              (Inode S_IFDIR 2 493 0 0 [] (<["time"%string := 2]> ∅)))
    as (w1 & ino & i & Hrun & _ & Hent & Hsaved & Hex & _).
  - reflexivity.
  - reflexivity.
  - split; [reflexivity|]. split; [vm_compute; reflexivity|]. split; [simpl; lia|].
    split; [vm_compute; reflexivity|]. split; [by left|]. split; reflexivity.
  - intros k x Hk. vm_compute in Hk. discriminate Hk.
  - vm_compute. reflexivity.
  - exists w1, ino, i. split; [exact Hrun|]. split; [exact Hent|].
    split; [|exact Hex]. by destruct Hsaved as (_ & _ & _ & ? & _).
Defined.

(** X15. [dd_save_binary] on a locked handle, with a valid name, in a
    directory that is writable, not sticky and still linked, where the
    name does not name a subdirectory, while no other process acts; the
    handle gives new files no owner, or the process is the super-user,
    and the mode of the handle has permission bits only.  It stores the
    first [size] bytes of the buffer in a new file and writes to no
    file that existed: every inode other than the directory is
    unchanged, but for the one the name named before, which loses a
    link and keeps its content; the entries of the directory are the
    former ones with the name now naming the new file. *)
Theorem dd_save_binary_keeps_other_files (dd : dump_dir) (name : string)
    (data : list ascii) (size : Z) (w : world) (d : Z) (di : inode) :
  locked dd = true → str_is_correct_filename name = true →
  item_directory w dd d di → replaceable w d name →
  0 ≤ size < 2 ^ 32 → (Z.to_nat size ≤ length data)%nat →
  ∃ w1 ino i,
    dd_save_binary dd name data size w = Ret tt w1
    ∧ w_inodes w !! ino = None
    ∧ w_inodes w1 !! ino = Some i
    ∧ saved_as w dd (take (Z.to_nat size) data) i
    ∧ dir_at w1 (dd_fd dd) = inr (d, set_entries (<[name := ino]>) di)
    ∧ (∀ k x, w_inodes w !! k = Some x → k ≠ d →
         ∃ x', w_inodes w1 !! k = Some x'
           ∧ (dir_entry w d name = Some (k, x) → x' = set_nlink (st_nlink x - 1) x)
           ∧ (dir_entry w d name ≠ Some (k, x) → x' = x)).
Proof.
  intros Hl Hname Hdir Hrep Hsize Hlen.
  destruct (save_binary_file_at_run dd name data size w d di)
    as (w1 & ino & Hrun & _ & Hfresh & Hne & (i & Hsaved & Hi1) & Hs1); [done..|].
  destruct Hdir as (Hq & Hd & _).
  destruct (saved_item w w1 dd d di name ino i Hd Hne Hi1 Hs1) as [Hd1 He1].
  exists w1, ino, i. split.
  { unfold dd_save_binary. rewrite Hl, Hname. cbn [negb]. by rewrite bind_unfold, Hrun. }
  split; [done|]. split; [by rewrite Hi1, lookup_insert_eq|]. split; [done|].
  split; [done|].
  intros k x Hk Hkd. assert (k ≠ ino) by congruence.
  rewrite Hi1, !lookup_insert_ne by done. unfold unlinked.
  destruct (dir_entry w d name) as [[old oi]|] eqn:He.
  - destruct (decide (k = old)) as [->|Hko].
    + apply dir_entry_inode in He. rewrite lookup_insert_eq. simplify_eq.
      eexists. split; [done|]. split; [done|]. by intros [].
    + rewrite lookup_insert_ne by done. exists x. split; [done|].
      split; [intros [= -> ->]; done|done].
  - exists x. split; [done|]. split; [done|done].
Qed.

Lemma dd_save_binary_keeps_other_files_witness :
  let w := world_with_item "time" (list_ascii_of_string "1700000000") in
  ∃ w1 ino i,
    dd_save_binary (sample_dd true) "time" ["a"; NUL; "b"; "c"]%char 3 w = Ret tt w1
    ∧ w_inodes w1 !! ino = Some i
    ∧ i_data i = ["a"; NUL; "b"]%char
    ∧ w_inodes w1 !! 2
      = Some (Inode S_IFREG 0 420 0 0 (list_ascii_of_string "1700000000") ∅).
Proof.
  intros w.
  destruct (dd_save_binary_keeps_other_files (sample_dd true) "time"
              ["a"; NUL; "b"; "c"]%char 3 w 1
              (Inode S_IFDIR 2 493 0 0 [] (<["time"%string := 2]> ∅)))
    as (w1 & ino & i & Hrun & _ & Hnew & Hsaved & _ & Hold).
  - reflexivity.
  - reflexivity.
  - split; [reflexivity|]. split; [vm_compute; reflexivity|]. split; [simpl; lia|].
    split; [vm_compute; reflexivity|]. split; [by left|]. split; reflexivity.
  - intros k x Hk. vm_compute in Hk. injection Hk as <- <-. split; [reflexivity|lia].
  - lia.
  - simpl. lia.
  - destruct (Hold 2 (Inode S_IFREG 1 420 0 0 (list_ascii_of_string "1700000000") ∅))
      as (x' & Hx' & Hlost & _); [vm_compute; reflexivity|lia|].
    exists w1, ino, i. split; [exact Hrun|]. split; [exact Hnew|].
    split; [by destruct Hsaved as (_ & _ & _ & ? & _)|].
    rewrite Hx', Hlost; [reflexivity|]. vm_compute. reflexivity.
Defined.

(** X16. Saving an item and deleting it again, on a locked handle,
    with a valid name, in a directory that is writable, not sticky and
    still linked, where the name does not name a subdirectory, while no
    other process acts; the handle gives new files no owner, or the
    process is the super-user, and the mode of the handle has
    permission bits only.  [dd_save_text] stores the text up to its NUL
    in a new file under the name; [dd_delete_item] then returns 0, and
    after it [dd_exist] returns false; the entries of the directory are
    the former ones without the name, so the directory is as it was
    when the name was not in use before, and no descriptor is left
    open. *)
Theorem dd_save_text_delete_item (dd : dump_dir) (name : string) (data : list ascii)
    (w : world) (d : Z) (di : inode) :
  locked dd = true → str_is_correct_filename name = true →
  item_directory w dd d di → replaceable w d name →
  Z.of_nat (length (c_str data)) < 2 ^ 32 →
  ∃ w1 w2 w3 ino i,
    dd_save_text dd name data w = Ret tt w1
    ∧ dir_entry w1 d name = Some (ino, i)
    ∧ saved_as w dd (c_str data) i
    ∧ dd_delete_item dd name w1 = Ret 0 w2
    ∧ dd_exist dd name w2 = Ret false w3
    ∧ dir_at w2 (dd_fd dd) = inr (d, set_entries (delete name) di)
    ∧ (i_entries di !! name = None → dir_at w2 (dd_fd dd) = inr (d, di))
    ∧ w_fds w2 = w_fds w.
Proof.
  intros Hl Hname Hdir Hrep Hlen.
  assert (Hsize : unsigned_wrap (strlen data) = Z.of_nat (length (c_str data))).
  { unfold unsigned_wrap, strlen. apply Z.mod_small. lia. }
  destruct (save_binary_file_at_run dd name data (unsigned_wrap (strlen data)) w d di)
    as (w1 & ino & Hrun & _ & Hfresh & Hne & (i & Hsaved & Hi1) & Hs1); [done..| | |].
  { rewrite Hsize. lia. }
  { rewrite Hsize, Nat2Z.id. clear. induction data as [|c data IH]; [done|].
    simpl. destruct (Ascii.eqb c NUL); simpl; lia. }
  rewrite Hsize, Nat2Z.id, take_c_str in Hsaved.
  destruct Hdir as (Hq & Hd & Hlink & Hwrite & _).
  destruct (saved_item w w1 dd d di name ino i Hd Hne Hi1 Hs1) as [Hd1 He1].
  assert (Hq1 : w_env w1 = []) by (by apply (same_files_quiet _ _ Hs1)).
  assert (Hw1 : may_write w1 (set_entries (<[name := ino]>) di) = true).
  { destruct Hs1 as (_ & _ & _ & He & _). simpl in He.
    unfold may_write, may_access in *. by rewrite He. }
  assert (Hnd : is_dir i = false).
  { destruct Hsaved as (Hreg & _). unfold is_dir. by rewrite Hreg. }
  destruct (sys_unlinkat_entry w1 (dd_fd dd) name d _ ino i Hd1 He1 Hnd Hw1 Hne)
    as (w2 & Hun & Hi2 & Hs2 & _).
  assert (Hf2 : w_fds w2 = w_fds w).
  { destruct Hs1 as (_ & _ & ? & _), Hs2 as (_ & _ & ? & _). simpl in *. congruence. }
  assert (Hback : set_entries (delete name) (set_entries (<[name := ino]>) di)
                  = set_entries (delete name) di).
  { unfold set_entries. simpl. by rewrite delete_insert_eq. }
  rewrite Hback in Hi2.
  assert (Hd2 : dir_at w2 (dd_fd dd) = inr (d, set_entries (delete name) di)).
  { eapply dir_at_update; [exact Hd|exact Hf2|exact Hi2|done]. }
  exists w1, w2, (with_errno ENOENT w2), ino, i. split.
  { unfold dd_save_text. rewrite Hl, Hname. cbn [negb]. by rewrite bind_unfold, Hrun. }
  split; [done|]. split; [done|]. split.
  { unfold dd_delete_item, unlinkat. rewrite Hl, Hname. cbn [negb].
    by rewrite bind_unfold, syscall_quiet, Hun by done. }
  split.
  { eapply dd_exist_no_item; [done| |exact Hd2|].
    - apply (same_files_quiet _ _ Hs2). by simpl.
    - unfold dir_entry. rewrite Hi2, lookup_insert_eq. simpl.
      by rewrite lookup_delete_eq. }
  split; [done|]. split; [|done].
  intros Hnone. rewrite Hd2. do 2 f_equal. unfold set_entries.
  destruct di as [? ? ? ? ? ? entries]. simpl in *. f_equal. by apply delete_id.
Qed.

Lemma dd_save_text_delete_item_witness :
  let w := world_with_item "time" (list_ascii_of_string "1700000000") in
  ∃ w1 w2 w3,
    dd_save_text (sample_dd true) "reason" (list_ascii_of_string "killed") w = Ret tt w1
    ∧ dd_delete_item (sample_dd true) "reason" w1 = Ret 0 w2
    ∧ dd_exist (sample_dd true) "reason" w2 = Ret false w3
    ∧ dir_at w2 3 = dir_at w 3.
Proof.
  intros w.
  destruct (dd_save_text_delete_item (sample_dd true) "reason"
              (list_ascii_of_string "killed") w 1
              (Inode S_IFDIR 2 493 0 0 [] (<["time"%string := 2]> ∅)))
    as (w1 & w2 & w3 & ino & i & Hsave & _ & _ & Hdel & Hex & _ & Hdir & _).
  - reflexivity.
  - reflexivity.
  - split; [reflexivity|]. split; [vm_compute; reflexivity|]. split; [simpl; lia|].
    split; [vm_compute; reflexivity|]. split; [by left|]. split; reflexivity.
  - intros k x Hk. vm_compute in Hk. discriminate Hk.
  - vm_compute. reflexivity.
  - exists w1, w2, w3. split; [exact Hsave|]. split; [exact Hdel|]. split; [exact Hex|].
    etrans; [apply Hdir; vm_compute; reflexivity|]. vm_compute. reflexivity.
Defined.

Section SaveRefused.

(** [save_binary_file_at] where the old entry stays, or none can be made. *)
Lemma save_binary_file_at_refused dir_fd name data size uid gid mode w d di :
  w_env w = [] → str_is_correct_filename name = true →
  dir_at w dir_fd = inr (d, di) →
  (∃ k x, dir_entry w d name = Some (k, x) ∧ is_dir x = true)
  ∨ may_write w di = false →
  ∃ w1, save_binary_file_at dir_fd name data size uid gid mode w = Ret false w1
    ∧ same_files w w1
    ∧ w_log w1 = w_log w ++ ["Can't open file"%string]
    ∧ (w_errno w1 = EEXIST ∨ w_errno w1 = EACCES ∨ w_errno w1 = ENOENT).
Proof.
  intros Hq Hname Hd Hcase. unfold save_binary_file_at.
  rewrite bind_unfold, correct_filename_relative by done.
  unfold unlinkat. rewrite bind_unfold, syscall_quiet by done.
  assert (Hun : ∃ r e, sys_unlinkat dir_fd name w = (r, with_errno e w)).
  { unfold sys_unlinkat, sys_fail. rewrite Hd.
    destruct Hcase as [(k & x & -> & ->)|Hro]; [by eexists _, _|].
    destruct (dir_entry w d name) as [[k x]|]; [|by eexists _, _].
    destruct (is_dir x); [by eexists _, _|]. rewrite Hro. by eexists _, _. }
  destruct Hun as (r & e & ->). cbn [fst snd].
  unfold openat. rewrite bind_unfold, syscall_quiet by done.
  assert (Hopen : ∃ e', sys_openat dir_fd name
                    (Z.lor (Z.lor (Z.lor O_WRONLY O_EXCL) O_CREAT) O_NOFOLLOW) mode
                    (with_errno e w) = (-1, with_errno e' w)
                  ∧ (e' = EEXIST ∨ e' = EACCES ∨ e' = ENOENT)).
  { unfold sys_openat, sys_fail.
    change (dir_at (with_errno e w) dir_fd) with (dir_at w dir_fd). rewrite Hd.
    change (dir_entry (with_errno e w) d name) with (dir_entry w d name).
    change (may_write (with_errno e w) di) with (may_write w di).
    destruct Hcase as [(k & x & -> & _)|Hro]; [exists EEXIST; by auto|].
    destruct (dir_entry w d name) as [[k x]|]; [exists EEXIST; by auto|].
    rewrite save_flags. destruct (st_nlink di =? 0); [exists ENOENT; by auto|].
    rewrite Hro. exists EACCES; by auto. }
  destruct Hopen as (e' & -> & He'). cbn [fst snd].
  change (-1 <? 0) with true. cbv iota. mrun.
  eexists. split; [reflexivity|]. split; [by repeat split|]. split; [done|done].
Qed.

End SaveRefused.

(** X17. [dd_save_text] gives its caller no sign of a failure: when the
    name names a subdirectory, or the directory is not writable by the
    process, it returns as it does after a success, while no file, no
    entry and no descriptor has changed; the log has one more message,
    [Can't open file], and [errno] is [EEXIST], [EACCES] or [ENOENT]. *)
Theorem dd_save_text_fails_silently (dd : dump_dir) (name : string) (data : list ascii)
    (w : world) (d : Z) (di : inode) :
  locked dd = true → str_is_correct_filename name = true → w_env w = [] →
  dir_at w (dd_fd dd) = inr (d, di) →
  (∃ k x, dir_entry w d name = Some (k, x) ∧ is_dir x = true)
  ∨ may_write w di = false →
  ∃ w1, dd_save_text dd name data w = Ret tt w1
    ∧ same_files w w1
    ∧ w_log w1 = w_log w ++ ["Can't open file"%string]
    ∧ (w_errno w1 = EEXIST ∨ w_errno w1 = EACCES ∨ w_errno w1 = ENOENT).
Proof.
  intros Hl Hname Hq Hd Hcase.
  destruct (save_binary_file_at_refused (dd_fd dd) name data (unsigned_wrap (strlen data))
              (dd_uid dd) (dd_gid dd) (mode dd) w d di Hq Hname Hd Hcase)
    as (w1 & Hrun & Hrest).
  exists w1. split; [|done].
  unfold dd_save_text. rewrite Hl, Hname. cbn [negb]. by rewrite bind_unfold, Hrun.
Qed.

Lemma dd_save_text_fails_silently_witness :
  let w := world_with_entry "sosreport" (Inode S_IFDIR 2 493 0 0 [] ∅) in
  ∃ w1, dd_save_text (sample_dd true) "sosreport" (list_ascii_of_string "x") w = Ret tt w1
    ∧ w_inodes w1 = w_inodes w
    ∧ w_log w1 = ["Can't open file"%string].
Proof.
  intros w.
  destruct (dd_save_text_fails_silently (sample_dd true) "sosreport"
              (list_ascii_of_string "x") w 1
              (Inode S_IFDIR 2 493 0 0 [] (<["sosreport"%string := 2]> ∅)))
    as (w1 & Hrun & Hsame & Hlog & _).
  - reflexivity.
  - reflexivity.
  - reflexivity.
  - vm_compute. reflexivity.
  - left. exists 2, (Inode S_IFDIR 2 493 0 0 [] ∅). split; vm_compute; reflexivity.
  - exists w1. split; [done|]. split; [by destruct Hsame|done].
Defined.

(** X18. [dd_load_text_ext] without [DD_OPEN_FOLLOW], for a valid name
    whose entry ([os_release] for the name [release]) is absent or a
    symbolic link, while no other process acts: it returns the empty
    text, or NULL when [DD_LOAD_TEXT_RETURN_NULL_ON_FAILURE] is set; no
    file, entry or descriptor changes; [errno] is [ENOENT] for a
    missing entry and [ELOOP] for a symbolic link; and
    [Can't open file] is logged unless [DD_FAIL_QUIETLY_ENOENT] is set,
    which silences it for the symbolic link too. *)
Theorem dd_load_text_ext_no_item (dd : dump_dir) (name : string) (flags : Z)
    (w : world) (d : Z) (di : inode) :
  str_is_correct_filename name = true →
  has_flag flags DD_OPEN_FOLLOW = false → w_env w = [] →
  dir_at w (dd_fd dd) = inr (d, di) →
  dir_entry w d (item_name name) = None
  ∨ (∃ k x, dir_entry w d (item_name name) = Some (k, x) ∧ st_fmt x = S_IFLNK) →
  ∃ w1, dd_load_text_ext dd name flags w
        = Ret (if has_flag flags DD_LOAD_TEXT_RETURN_NULL_ON_FAILURE
               then None else Some []) w1
    ∧ same_files w w1
    ∧ w_errno w1 = match dir_entry w d (item_name name) with
                   | Some _ => ELOOP
                   | None => ENOENT
                   end
    ∧ w_log w1 = (if has_flag flags DD_FAIL_QUIETLY_ENOENT then w_log w
                  else w_log w ++ ["Can't open file"%string]).
Proof.
  intros Hname Hflag Hq Hd Hcase.
  unfold dd_load_text_ext. rewrite Hname. cbn [negb]. fold (item_name name).
  assert (Hitem : str_is_correct_filename (item_name name) = true).
  { unfold item_name. by destruct (String.eqb name "release"). }
  unfold load_text_file_at.
  rewrite bind_unfold, correct_filename_relative by done.
  rewrite Hflag. unfold openat. rewrite bind_unfold, syscall_quiet by done.
  assert (Hopen : sys_openat (dd_fd dd) (item_name name) (Z.lor O_RDONLY O_NOFOLLOW) 0 w
                  = (-1, with_errno (match dir_entry w d (item_name name) with
                                     | Some _ => ELOOP
                                     | None => ENOENT
                                     end) w)).
  { unfold sys_openat, sys_fail. rewrite Hd.
    destruct Hcase as [-> | (k & x & -> & ->)]; done. }
  rewrite Hopen. cbn [fst snd]. unfold load_text_from_file_descriptor.
  change (-1 =? -1) with true. cbv iota.
  destruct (has_flag flags DD_FAIL_QUIETLY_ENOENT); cbn [negb]; mrun;
    (eexists; split; [reflexivity|]; split; [by repeat split|done]).
Qed.

Lemma dd_load_text_ext_no_item_witness :
  let w := world_with_entry "os_release"
             (Inode S_IFLNK 1 511 0 0 (list_ascii_of_string "/etc/shadow") ∅) in
  ∃ w1, dd_load_text_ext (sample_dd false) "release" DD_FAIL_QUIETLY_ENOENT w
        = Ret (Some []) w1
    ∧ w_errno w1 = ELOOP ∧ w_log w1 = [].
Proof.
  intros w.
  destruct (dd_load_text_ext_no_item (sample_dd false) "release"
              DD_FAIL_QUIETLY_ENOENT w 1
              (Inode S_IFDIR 2 493 0 0 [] (<["os_release"%string := 2]> ∅)))
    as (w1 & Hrun & _ & Herrno & Hlog).
  - reflexivity.
  - reflexivity.
  - reflexivity.
  - vm_compute. reflexivity.
  - right. eexists 2, _. split; [vm_compute; reflexivity|reflexivity].
  - exists w1. split; [exact Hrun|]. split; [exact Herrno|exact Hlog].
Defined.

(** ** Opening and closing a handle *)

Section Opening.

Variable sizeof_time_t : Z.

(** [dd_close] of a handle that is not locked and has no descriptor. *)
Lemma dd_close_no_fd dd w :
  locked dd = false → dd_fd dd < 0 → dd_close dd None w = Ret tt w.
Proof.
  intros Hl Hfd. unfold dd_close, dd_unlock. rewrite Hl. mrun.
  replace (0 <=? dd_fd dd) with false by (symmetry; apply Z.leb_gt; lia).
  by mrun.
Qed.

(** [dd_close] of a handle that is not locked. *)
Lemma dd_close_unlocked dd w :
  locked dd = false → 0 ≤ dd_fd dd → w_env w = [] →
  dd_close dd None w = Ret tt (sys_close (dd_fd dd) w).2.
Proof.
  intros Hl Hfd Hq. unfold dd_close, dd_unlock. rewrite Hl. mrun.
  replace (0 <=? dd_fd dd) with true by (symmetry; apply Z.leb_le; lia).
  unfold close. mrun. rewrite syscall_quiet by done. by mrun.
Qed.

(** The messages of [dd_do_open] for the error [e] of the system. *)
Lemma dd_do_open_cant_access_run dd flags w :
  locked dd = false → w_env w = [] →
  ∃ w', dd_do_open_cant_access dd flags w = Ret None w'
    ∧ w_log w' = w_log w ++
        (if (w_errno w =? ENOENT) || (w_errno w =? ENOTDIR)
         then if has_flag flags DD_FAIL_QUIETLY_ENOENT then []
              else ["does not exist"%string]
         else if has_flag flags DD_FAIL_QUIETLY_EACCES then []
              else ["Can't access"%string])
    ∧ same_files (if 0 <=? dd_fd dd then (sys_close (dd_fd dd) w).2 else w)
                 (with_errno (w_errno w) w')
    ∧ (dd_fd dd < 0 → w_errno w' = w_errno w).
Proof.
  intros Hl Hq. unfold dd_do_open_cant_access. mrun.
  destruct (0 <=? dd_fd dd) eqn:Hfd.
  - apply Z.leb_le in Hfd.
    destruct ((w_errno w =? ENOENT) || (w_errno w =? ENOTDIR));
      [destruct (has_flag flags DD_FAIL_QUIETLY_ENOENT)
      |destruct (has_flag flags DD_FAIL_QUIETLY_EACCES)];
      cbn [negb]; mrun; rewrite dd_close_unlocked by done; mrun;
      (eexists; split; [reflexivity|]); unfold sys_close, sys_fail;
      destruct (fd_inode _ (dd_fd dd)); simpl;
      rewrite ?app_nil_r; (split; [done|]); (split; [by repeat split|lia]).
  - apply Z.leb_gt in Hfd.
    destruct ((w_errno w =? ENOENT) || (w_errno w =? ENOTDIR));
      [destruct (has_flag flags DD_FAIL_QUIETLY_ENOENT)
      |destruct (has_flag flags DD_FAIL_QUIETLY_EACCES)];
      cbn [negb]; mrun; rewrite dd_close_no_fd by done; mrun;
      (eexists; split; [reflexivity|]); simpl;
      rewrite ?app_nil_r; (split; [done|]); (split; [by repeat split|done]).
Qed.

(** [dd_opendir] on the path of a directory: the directory is open as
    the next descriptor when [dd_do_open] starts. *)
Lemma dd_opendir_opened fuel dir flags w d di :
  directory_at_path w dir d di →
  let wo := (open_fd d w).2 in
  dd_opendir sizeof_time_t fuel dir flags w
  = dd_do_open sizeof_time_t fuel
      (set_dd_fd (next_fd w) (set_dd_dirname (stored_dirname dir) dd_init)) flags wo
  ∧ w_env wo = [] ∧ fd_inode wo (next_fd w) = Some (d, di)
  ∧ dir_at wo (next_fd w) = inr (d, di)
  ∧ w_inodes wo = w_inodes w
  ∧ w_fds wo = <[fresh (dom (w_fds w)) := OpenFile d 0]> (w_fds w)
  ∧ same_files w (with_fds (λ _, w_fds w) wo)
  ∧ w_errno wo = w_errno w ∧ w_log wo = w_log w.
Proof.
  intros (Hq & Hp & Hi & Hdir & Hread) wo.
  assert (Hopen : sys_open dir (Z.lor O_DIRECTORY O_NOFOLLOW) w = open_fd d w).
  { unfold sys_open. rewrite Hp. simpl. rewrite Hi. simpl. rewrite Hdir. simpl.
    unfold is_dir in Hdir. apply bool_decide_eq_true in Hdir.
    rewrite bool_decide_eq_false_2 by congruence. simpl.
    unfold open_existing. change (has_flag _ O_WRONLY) with false. cbv iota.
    by rewrite Hread. }
  pose proof (fd_inode_open_fd w d di Hi) as Hino. fold wo in Hino.
  change (open_fd d w).1 with (next_fd w) in Hino.
  split; [|split; [done|split; [done|split; [|by repeat split]]]].
  - unfold dd_opendir, dd_openfd, open. cbv zeta.
    by rewrite bind_unfold, syscall_quiet, Hopen by done.
  - unfold dir_at. by rewrite Hino, Hdir.
Qed.

End Opening.

(** [dd_do_open] up to the call of [dd_lock], on an open directory. *)
Ltac dd_do_open_start Hq Hino :=
  unfold dd_do_open;
  lazymatch goal with
  | |- context [dd_fd ?dd <? 0] =>
      replace (dd_fd dd <? 0) with false
        by (symmetry; apply Z.ltb_ge; simpl; unfold next_fd; lia)
  end;
  cbv iota; unfold fstat; rewrite bind_unfold, syscall_quiet by exact Hq;
  unfold sys_fstat; cbn [dd_fd set_dd_fd set_dd_dirname]; rewrite Hino;
  cbn [fst snd]; cbv iota; rewrite bind_unfold; unfold set_errno at 1;
  rewrite bind_unfold.

(** X19. [dd_opendir] on a path that cannot be opened as a directory,
    while no other process acts: it returns NULL, leaves the files and
    the descriptor table as they are, and logs one message at most:
    [does not exist] when the path is unknown or names something that
    is no directory, unless [DD_FAIL_QUIETLY_ENOENT] is set, and
    [Can't access] for the other errors, unless
    [DD_FAIL_QUIETLY_EACCES] is set. *)
Theorem dd_opendir_cannot_open (sizeof_time_t : Z) (fuel : nat) (dir : string)
    (flags : Z) (w : world) :
  w_env w = [] →
  (sys_open dir (Z.lor O_DIRECTORY O_NOFOLLOW) w).1 < 0 →
  ∃ w', dd_opendir sizeof_time_t fuel dir flags w = Ret None w'
    ∧ same_files w w'
    ∧ w_errno w' = w_errno (sys_open dir (Z.lor O_DIRECTORY O_NOFOLLOW) w).2
    ∧ w_log w' = w_log w ++
        (if (w_errno w' =? ENOENT) || (w_errno w' =? ENOTDIR)
         then if has_flag flags DD_FAIL_QUIETLY_ENOENT then []
              else ["does not exist"%string]
         else if has_flag flags DD_FAIL_QUIETLY_EACCES then []
              else ["Can't access"%string]).
Proof.
  intros Hq Hfail. unfold dd_opendir, dd_openfd, open. cbv zeta.
  rewrite bind_unfold, syscall_quiet by done.
  destruct (sys_open_directory dir w) as [[e Hopen]|(ino & i & _ & _ & Hopen)].
  2:{ rewrite Hopen in Hfail. pose proof (open_fd_nonneg w ino). lia. }
  cbv zeta in Hopen. rewrite Hopen. cbn [fst snd]. unfold dd_do_open.
  change (dd_fd (set_dd_fd (-1) _) <? 0) with true. cbv iota.
  destruct (dd_do_open_cant_access_run
              (set_dd_fd (-1)
                 (set_dd_dirname
                    (string_of_list_ascii (rm_trailing_slashes (list_ascii_of_string dir)))
                    dd_init)) flags (with_errno e w))
    as (w' & -> & Hlog & Hs & Herrno); [done..|].
  specialize (Herrno ltac:(simpl; lia)). simpl in Hlog, Hs, Herrno.
  exists w'. split; [done|]. split.
  { destruct Hs as (?&?&?&?&?&?&?&?&?). simpl in *. by repeat split. }
  split; [done|]. by rewrite Herrno.
Qed.

Lemma dd_opendir_cannot_open_witness :
  let w := world_with_entry "passwd" (Inode S_IFREG 1 420 0 0 [] ∅) in
  ∃ w', dd_opendir 8 0 "/var/tmp/missing/" DD_FAIL_QUIETLY_EACCES w = Ret None w'
    ∧ w_fds w' = w_fds w
    ∧ w_log w' = ["does not exist"%string].
Proof.
  intros w.
  destruct (dd_opendir_cannot_open 8 0 "/var/tmp/missing/" DD_FAIL_QUIETLY_EACCES w)
    as (w' & Hrun & Hs & Herrno & Hlog).
  - reflexivity.
  - vm_compute. reflexivity.
  - exists w'. split; [done|]. split; [by destruct Hs as (_ & _ & ? & _)|].
    rewrite Hlog, Herrno. vm_compute. reflexivity.
Defined.

(** X20. [dd_opendir] on the path of a directory that is no problem
    directory: readable, writable, without [.lock] and [time] entries,
    while no other process acts.  With fuel for the eleven turns of
    [dd_lock] it returns NULL; the descriptor it opened is closed, the
    directory is as it was, the last message of the log is
    [is not a problem directory], whatever the flags, and the lock was
    taken and released ten times, or once under
    [DD_DONT_WAIT_FOR_LOCK]. *)
Theorem dd_opendir_plain_directory (sizeof_time_t : Z) (fuel : nat) (dir : string)
    (flags : Z) (w : world) (d : Z) (di : inode) :
  directory_at_path w dir d di →
  st_nlink di ≠ 0 → may_write w di = true →
  i_entries di !! ".lock"%string = None → i_entries di !! "time"%string = None →
  (11 ≤ fuel)%nat →
  ∃ w', dd_opendir sizeof_time_t fuel dir flags w = Ret None w'
    ∧ w_fds w' = w_fds w
    ∧ w_inodes w' !! d = Some di
    ∧ List.last (w_log w') ""%string = "is not a problem directory"%string
    ∧ no_time_count w'
      = (no_time_count w
         + if has_flag flags DD_DONT_WAIT_FOR_LOCK then 1
           else Z.to_nat NO_TIME_FILE_COUNT)%nat.
Proof.
  intros Hpath Hlink Hwrite Hlock Htime Hfuel.
  destruct (dd_opendir_opened sizeof_time_t fuel dir flags w d di Hpath)
    as (-> & Hqo & Hino & Hdo & Hio & Hfo & Hso & Heo & Hlo).
  set (wo := (open_fd d w).2) in *. clearbody wo.
  dd_do_open_start Hqo Hino.
  set (dd0 := set_dd_mode _ _).
  assert (Heuid : w_euid wo = w_euid w) by (by destruct Hso as (_&_&_&?&_)).
  destruct (dd_lock_plain sizeof_time_t fuel dd0 flags (with_errno 0 wo) d di)
    as (w1 & -> & Herr & Hcount & Hplain & Hs1); [done| |done|].
  { repeat split; try done. unfold may_write, may_access in *. simpl. by rewrite Heuid. }
  change (-1 <? 0) with true. cbv iota. mrun. rewrite Herr.
  change (EISDIR =? EACCES) with false. rewrite andb_false_r. mrun.
  rewrite Herr. change (EISDIR =? EISDIR) with true. cbv iota. mrun.
  destruct Hplain as (Hq1 & Hd1 & _).
  rewrite dd_close_unlocked; [|done|simpl; unfold next_fd; lia|done]. mrun.
  eexists. split; [reflexivity|].
  destruct (dir_at_inode _ _ _ _ Hd1) as (Hdi1 & _ & f & _ & Hf & _).
  assert (Hfd : fd_inode (with_log "is not a problem directory" w1) (next_fd w)
                = Some (d, di)).
  { unfold dir_at in Hd1. simpl in Hd1. unfold fd_inode in *. simpl.
    destruct (next_fd w <? 0); [done|].
    destruct (w_fds w1 !! Z.to_nat (next_fd w)) as [f'|]; [|done]. simpl in *.
    destruct (w_inodes w1 !! of_ino f') as [i'|]; [|done]. simpl in *.
    destruct (is_dir i'); by simplify_eq. }
  unfold sys_close. simpl dd_fd. rewrite Hfd. cbn [fst snd].
  destruct Hs1 as (_ & _ & Hf1 & _). simpl in Hf1.
  split.
  { simpl. unfold next_fd. rewrite Nat2Z.id, Hf1, Hfo. apply fds_open_close1. }
  split; [done|]. split.
  { simpl. by rewrite last_last. }
  change (no_time_count (with_fds _ (with_log _ w1))) with
    (no_time_count (with_log "is not a problem directory" w1)).
  rewrite no_time_count_log by done. rewrite Hcount.
  unfold no_time_count. simpl. by rewrite Hlo.
Qed.

Lemma dd_opendir_plain_directory_witness :
  let w := world_with_item "reported_to" [] in
  ∃ w', dd_opendir 8 11 "/var/tmp/pd" 0 w = Ret None w'
    ∧ w_fds w' = w_fds w
    ∧ List.last (w_log w') ""%string = "is not a problem directory"%string
    ∧ no_time_count w' = 10%nat.
Proof.
  intros w.
  destruct (dd_opendir_plain_directory 8 11 "/var/tmp/pd" 0 w 1
              (Inode S_IFDIR 2 493 0 0 [] (<["reported_to"%string := 2]> ∅)))
    as (w' & Hrun & Hfds & _ & Hlast & Hcount).
  - repeat split; vm_compute; reflexivity.
  - simpl. lia.
  - vm_compute. reflexivity.
  - vm_compute. reflexivity.
  - vm_compute. reflexivity.
  - lia.
  - exists w'. split; [exact Hrun|]. split; [exact Hfds|]. split; [exact Hlast|].
    exact Hcount.
Defined.

Section Opened.

Variable sizeof_time_t : Z.
Hypothesis sizeof_time_t_cases : sizeof_time_t = 4 ∨ sizeof_time_t = 8.

(** [dd_opendir] on a problem directory whose lock is free. *)
Lemma dd_opendir_ok fuel dir flags w d di j ti :
  directory_at_path w dir d di →
  st_nlink di ≠ 0 → may_write w di = true →
  i_entries di !! ".lock"%string = None →
  dir_entry w d "time" = Some (j, ti) → j ≠ d →
  st_fmt ti = S_IFREG → st_nlink ti ≤ 1 → may_read w ti = true →
  0 ≤ time_file_value sizeof_time_t (i_data ti) →
  ∃ w' ino,
    dd_opendir sizeof_time_t (S (S fuel)) dir flags w
    = Ret (Some (DumpDir (stored_dirname dir) (next_fd w) true
                   (if w_euid w =? 0 then st_uid di else NO_UID)
                   (if w_euid w =? 0 then st_gid di else NO_UID)
                   (Z.land (st_mode di) 438)
                   (time_file_value sizeof_time_t (i_data ti)))) w'
    ∧ w_inodes w !! ino = None ∧ ino ≠ d
    ∧ w_inodes w'
      = <[d := set_entries (<[".lock"%string := ino]>) di]>
          (<[ino := new_inode w S_IFLNK 511 (pid_text w)]> (w_inodes w))
    ∧ w_fds w' = <[fresh (dom (w_fds w)) := OpenFile d 0]> (w_fds w)
    ∧ dir_at w' (next_fd w) = inr (d, set_entries (<[".lock"%string := ino]>) di)
    ∧ w_env w' = [] ∧ w_euid w' = w_euid w.
Proof.
  intros Hpath Hlink Hwrite Hlock Htime Hjd Hreg Hone Hread Hval.
  destruct (dd_opendir_opened sizeof_time_t (S (S fuel)) dir flags w d di Hpath)
    as (-> & Hqo & Hino & Hdo & Hio & Hfo & Hso & Heo & Hlo).
  set (wo := (open_fd d w).2) in *. clearbody wo.
  dd_do_open_start Hqo Hino.
  set (dd0 := set_dd_mode _ _).
  assert (Heuid : w_euid wo = w_euid w) by (by destruct Hso as (_&_&_&?&_)).
  assert (Hpid : pid_text (with_errno 0 wo) = pid_text w).
  { destruct Hso as (_&_&_&_&Hp&_). unfold pid_text. simpl in *. by rewrite Hp. }
  assert (Hnew : new_inode (with_errno 0 wo) S_IFLNK 511 (pid_text (with_errno 0 wo))
                 = new_inode w S_IFLNK 511 (pid_text w)).
  { rewrite Hpid. unfold new_inode. simpl. by rewrite Heuid. }
  destruct (dd_lock_ok sizeof_time_t sizeof_time_t_cases fuel dd0 flags (with_errno 0 wo)
              d di j ti)
    as (w1 & ino & -> & Hfresh & Hne & Hi1 & Hs1); try done.
  { unfold may_write, may_access in *. simpl. by rewrite Heuid. }
  { unfold dir_entry in *. simpl. by rewrite Hio. }
  { unfold may_read, may_access in *. simpl. by rewrite Heuid. }
  change (0 <? 0) with false. cbv iota. unfold geteuid. rewrite bind_unfold.
  destruct Hs1 as (_ & Hp1 & Hf1 & He1 & Hpid1 & _ & _ & _ & Hq1).
  simpl in Hp1, Hf1, He1, Hpid1, Hq1, Hi1, Hfresh. rewrite Hnew, Hio in Hi1.
  rewrite Hio in Hfresh.
  assert (Hd1 : dir_at w1 (next_fd w)
                = inr (d, set_entries (<[".lock"%string := ino]>) di)).
  { eapply (dir_at_update (with_errno 0 wo)); [exact Hdo|exact Hf1|exact Hi1|done]. }
  rewrite He1, Heuid. destruct (w_euid w =? 0) eqn:Eroot.
  - unfold fstat. rewrite bind_unfold, syscall_quiet by congruence. unfold sys_fstat.
    assert (Hfd1 : fd_inode w1 (next_fd w)
                   = Some (d, set_entries (<[".lock"%string := ino]>) di)).
    { unfold dir_at in Hd1. destruct (fd_inode w1 (next_fd w)) as [[d' di']|]; [|done].
      destruct (is_dir di'); by simplify_eq. }
    change (dd_fd (set_dd_owner _ _ _)) with (next_fd w). rewrite Hfd1.
    cbn [fst snd]. mrun. eexists w1, ino. split; [reflexivity|].
    split; [done|]. split; [done|]. split; [done|]. split; [congruence|].
    split; [done|]. split; congruence.
  - mrun. eexists w1, ino. split; [reflexivity|].
    split; [done|]. split; [done|]. split; [done|]. split; [congruence|].
    split; [done|]. split; congruence.
Qed.

End Opened.

(** X21. [dd_opendir] on the path of a problem directory whose lock is
    free, while no other process acts: the directory is readable and
    writable, and its [time] file is a readable regular file with one
    link and a valid content.  It returns a handle that is locked, with
    the path without its trailing slashes as name, the new descriptor,
    the time stamp of the [time] file, the read and write bits of the
    mode of the directory as mode, and as owner that of the directory
    for the super-user and none for another user; [.lock] is then a
    symbolic link to the decimal pid of the process. *)
Theorem dd_opendir_problem_directory (sizeof_time_t : Z) (fuel : nat) (dir : string)
    (flags : Z) (w : world) (d : Z) (di : inode) (j : Z) (ti : inode) :
  sizeof_time_t = 4 ∨ sizeof_time_t = 8 →
  directory_at_path w dir d di →
  st_nlink di ≠ 0 → may_write w di = true →
  i_entries di !! ".lock"%string = None →
  dir_entry w d "time" = Some (j, ti) → j ≠ d →
  st_fmt ti = S_IFREG → st_nlink ti ≤ 1 → may_read w ti = true →
  0 ≤ time_file_value sizeof_time_t (i_data ti) →
  (2 ≤ fuel)%nat →
  ∃ dd w', dd_opendir sizeof_time_t fuel dir flags w = Ret (Some dd) w'
    ∧ dd = DumpDir (stored_dirname dir) (next_fd w) true
             (if w_euid w =? 0 then st_uid di else NO_UID)
             (if w_euid w =? 0 then st_gid di else NO_UID)
             (Z.land (st_mode di) 438)
             (time_file_value sizeof_time_t (i_data ti))
    ∧ lock_is w' (dd_fd dd) (pid_text w)
    ∧ w_fds w' = <[fresh (dom (w_fds w)) := OpenFile d 0]> (w_fds w).
Proof.
  intros Hsz Hpath Hlink Hwrite Hlock Htime Hjd Hreg Hone Hread Hval Hfuel.
  destruct fuel as [|[|fuel]]; [lia..|].
  destruct (dd_opendir_ok sizeof_time_t Hsz fuel dir flags w d di j ti)
    as (w' & ino & Hrun & Hfresh & Hne & Hi' & Hf' & Hd' & _); [done..|].
  eexists _, w'. split; [exact Hrun|]. split; [done|]. split; [|done].
  exists d, (set_entries (<[".lock"%string := ino]>) di), ino,
    (new_inode w S_IFLNK 511 (pid_text w)).
  split; [done|]. split; [done|]. split; [|done].
  unfold dir_entry. rewrite Hi', lookup_insert_eq. simpl.
  rewrite lookup_insert_eq. simpl. by rewrite lookup_insert_ne, lookup_insert_eq.
Qed.

Lemma dd_opendir_problem_directory_witness :
  let w := world_with_item "time" (list_ascii_of_string "1700000000") in
  ∃ w', dd_opendir 8 2 "/var/tmp/pd" 0 w
        = Ret (Some (DumpDir "/var/tmp/pd" 4 true 0 0 420 1700000000)) w'
    ∧ lock_is w' 4 (list_ascii_of_string "4242").
Proof.
  intros w.
  destruct (dd_opendir_problem_directory 8 2 "/var/tmp/pd" 0 w 1
              (Inode S_IFDIR 2 493 0 0 [] (<["time"%string := 2]> ∅)) 2
              (Inode S_IFREG 1 420 0 0 (list_ascii_of_string "1700000000") ∅))
    as (dd & w' & Hrun & -> & Hlock & _).
  - by right.
  - repeat split; vm_compute; reflexivity.
  - simpl. lia.
  - vm_compute. reflexivity.
  - vm_compute. reflexivity.
  - vm_compute. reflexivity.
  - lia.
  - reflexivity.
  - simpl. lia.
  - vm_compute. reflexivity.
  - vm_compute. discriminate.
  - lia.
  - exists w'. split; [exact Hrun|exact Hlock].
Defined.

(** X22. Opening and closing a problem directory, while no other
    process acts: after [dd_opendir] on a problem directory whose lock
    is free and [dd_close] of the handle it returns, the descriptor
    table is the one before the open, the directory has the entries it
    had, without [.lock], and all its entries are found as they were. *)
Theorem dd_opendir_close_round_trip (sizeof_time_t : Z) (fuel : nat) (dir : string)
    (flags : Z) (w : world) (d : Z) (di : inode) (j : Z) (ti : inode) :
  sizeof_time_t = 4 ∨ sizeof_time_t = 8 →
  directory_at_path w dir d di →
  st_nlink di ≠ 0 → may_write w di = true →
  i_entries di !! ".lock"%string = None →
  dir_entry w d "time" = Some (j, ti) → j ≠ d →
  st_fmt ti = S_IFREG → st_nlink ti ≤ 1 → may_read w ti = true →
  0 ≤ time_file_value sizeof_time_t (i_data ti) →
  (2 ≤ fuel)%nat →
  ∃ dd w1 w2,
    dd_opendir sizeof_time_t fuel dir flags w = Ret (Some dd) w1
    ∧ dd_close dd None w1 = Ret tt w2
    ∧ w_fds w2 = w_fds w
    ∧ w_inodes w2 !! d = Some di
    ∧ (∀ name k x, dir_entry w d name = Some (k, x) → k ≠ d →
                   dir_entry w2 d name = Some (k, x)).
Proof.
  intros Hsz Hpath Hlink Hwrite Hlock Htime Hjd Hreg Hone Hread Hval Hfuel.
  destruct fuel as [|[|fuel]]; [lia..|].
  destruct (dd_opendir_ok sizeof_time_t Hsz fuel dir flags w d di j ti)
    as (w1 & ino & Hrun & Hfresh & Hne & Hi1 & Hf1 & Hd1 & Hq1 & He1); [done..|].
  destruct Hpath as (Hq & Hp & Hdi & Hdir & _).
  set (dd := DumpDir _ _ _ _ _ _ _) in Hrun.
  set (di1 := set_entries (<[".lock"%string := ino]>) di) in *.
  set (i0 := new_inode w S_IFLNK 511 (pid_text w)) in *.
  destruct (dd_unlock_ok dd w1 d di1 ino i0) as (w2 & Hun & Hi2 & Hs2);
    [done|done|exact Hd1| |done|done| |].
  { unfold dir_entry. rewrite Hi1, lookup_insert_eq. simpl.
    unfold di1. simpl. rewrite lookup_insert_eq. simpl.
    by rewrite lookup_insert_ne, lookup_insert_eq. }
  { unfold may_write, may_access in *. by rewrite He1. }
  destruct Hs2 as (_ & _ & Hf2 & _ & _ & _ & _ & _ & Hq2). simpl in Hf2, Hq2.
  assert (Hback : set_entries (delete ".lock"%string) di1 = di).
  { unfold di1, set_entries. destruct di as [? ? ? ? ? ? entries]. simpl in *.
    f_equal. by apply delete_insert_id. }
  rewrite Hback in Hi2.
  assert (Hd2 : dir_at w2 (next_fd w) = inr (d, di)).
  { eapply (dir_at_update w1 w2); [exact Hd1|done|exact Hi2|done]. }
  assert (Hfd2 : fd_inode w2 (next_fd w) = Some (d, di)).
  { unfold dir_at in Hd2. destruct (fd_inode w2 (next_fd w)) as [[d' di']|]; [|done].
    destruct (is_dir di'); by simplify_eq. }
  exists dd, w1, (with_fds (delete (Z.to_nat (next_fd w))) w2).
  split; [exact Hrun|]. split.
  { unfold dd_close. rewrite bind_unfold, Hun.
    change (0 <=? dd_fd (set_locked false dd)) with (0 <=? next_fd w).
    replace (0 <=? next_fd w) with true
      by (symmetry; apply Z.leb_le; unfold next_fd; lia).
    unfold close. mrun. rewrite syscall_quiet by congruence.
    unfold sys_close. change (dd_fd (set_locked false dd)) with (next_fd w).
    by rewrite Hfd2. }
  split.
  { simpl. unfold next_fd. rewrite Nat2Z.id, Hf2, Hf1. apply fds_open_close1. }
  split; [simpl; by rewrite Hi2, lookup_insert_eq|].
  intros name k x Hent Hkd. pose proof (dir_entry_inode _ _ _ _ _ Hent) as Hk.
  unfold dir_entry in *. simpl. rewrite Hdi in Hent. rewrite Hi2, lookup_insert_eq.
  simpl in *. destruct (i_entries di !! name) as [k'|]; simpl in *; [|done].
  destruct (w_inodes w !! k') as [x'|] eqn:Hk'; simpl in *; [|done]. simplify_eq.
  rewrite lookup_insert_ne by done. rewrite lookup_insert_ne by congruence.
  rewrite Hi1, lookup_insert_ne by done. rewrite lookup_insert_ne by congruence.
  by rewrite Hk'.
Qed.

Lemma dd_opendir_close_round_trip_witness :
  let w := world_with_item "time" (list_ascii_of_string "1700000000") in
  ∃ dd w1 w2,
    dd_opendir 8 2 "/var/tmp/pd" 0 w = Ret (Some dd) w1
    ∧ dd_close dd None w1 = Ret tt w2
    ∧ w_fds w2 = w_fds w
    ∧ w_inodes w2 !! 1 = w_inodes w !! 1.
Proof.
  intros w.
  destruct (dd_opendir_close_round_trip 8 2 "/var/tmp/pd" 0 w 1
              (Inode S_IFDIR 2 493 0 0 [] (<["time"%string := 2]> ∅)) 2
              (Inode S_IFREG 1 420 0 0 (list_ascii_of_string "1700000000") ∅))
    as (dd & w1 & w2 & Hopen & Hclose & Hfds & Hdir & _).
  - by right.
  - repeat split; vm_compute; reflexivity.
  - simpl. lia.
  - vm_compute. reflexivity.
  - vm_compute. reflexivity.
  - vm_compute. reflexivity.
  - lia.
  - reflexivity.
  - simpl. lia.
  - vm_compute. reflexivity.
  - vm_compute. discriminate.
  - lia.
  - exists dd, w1, w2. split; [exact Hopen|]. split; [exact Hclose|].
    split; [exact Hfds|]. etrans; [exact Hdir|]. vm_compute. reflexivity.
Defined.

Section ReadOnly.

Variable sizeof_time_t : Z.

(** [dd_lock] in a directory the process may not write to. *)
Lemma dd_lock_not_writable fuel dd sleep_usec flags w d di :
  locked dd = false → w_env w = [] →
  dir_at w (dd_fd dd) = inr (d, di) → st_nlink di ≠ 0 →
  dir_entry w d ".lock" = None → may_write w di = false →
  dd_lock sizeof_time_t (S (S fuel)) dd sleep_usec flags w
  = Ret (-1, dd) (with_errno EACCES w).
Proof.
  intros Hl Hq Hd Hlink Hlock Hro. unfold dd_lock. rewrite Hl.
  unfold getpid. rewrite bind_unfold, dd_lock_retry_S, bind_unfold.
  cbn [create_symlink_lockfile_at]. unfold symlinkat.
  rewrite bind_unfold, syscall_quiet by done.
  unfold sys_symlinkat. rewrite Hd.
  replace (st_nlink di =? 0) with false by (symmetry; by apply Z.eqb_neq).
  rewrite Hlock, Hro. unfold sys_fail. cbn [fst snd].
  change (-1 =? 0) with false. cbv iota. by mrun.
Qed.

End ReadOnly.

(** X23. [dd_opendir] on the path of a problem directory that the
    process may read and not write, whose lock is free and whose [time]
    file is valid, while no other process acts.  With
    [DD_OPEN_READONLY] it returns a handle that is not locked, with the
    time stamp, and with owner and group 0 as [dd_init] left them;
    without the flag it returns NULL, closes its descriptor, and logs
    [Can't access] unless [DD_FAIL_QUIETLY_EACCES] is set.  In both
    cases no inode changes: no lock is made. *)
Theorem dd_opendir_read_only (sizeof_time_t : Z) (fuel : nat) (dir : string)
    (flags : Z) (w : world) (d : Z) (di : inode) (j : Z) (ti : inode) :
  sizeof_time_t = 4 ∨ sizeof_time_t = 8 →
  directory_at_path w dir d di →
  st_nlink di ≠ 0 → may_write w di = false →
  dir_entry w d ".lock" = None →
  dir_entry w d "time" = Some (j, ti) →
  st_fmt ti = S_IFREG → st_nlink ti ≤ 1 → may_read w ti = true →
  0 ≤ time_file_value sizeof_time_t (i_data ti) →
  (2 ≤ fuel)%nat →
  ∃ w', dd_opendir sizeof_time_t fuel dir flags w
        = Ret (if has_flag flags DD_OPEN_READONLY
               then Some (DumpDir (stored_dirname dir) (next_fd w) false 0 0
                            (Z.land (st_mode di) 438)
                            (time_file_value sizeof_time_t (i_data ti)))
               else None) w'
    ∧ w_inodes w' = w_inodes w
    ∧ w_fds w' = (if has_flag flags DD_OPEN_READONLY
                  then <[fresh (dom (w_fds w)) := OpenFile d 0]> (w_fds w)
                  else w_fds w)
    ∧ (has_flag flags DD_OPEN_READONLY = false →
       w_log w' = w_log w ++ (if has_flag flags DD_FAIL_QUIETLY_EACCES then []
                              else ["Can't access"%string])).
Proof.
  intros Hsz Hpath Hlink Hro Hlock Htime Hreg Hone Hread Hval Hfuel.
  destruct fuel as [|[|fuel]]; [lia..|].
  destruct (dd_opendir_opened sizeof_time_t (S (S fuel)) dir flags w d di Hpath)
    as (-> & Hqo & Hino & Hdo & Hio & Hfo & Hso & Heo & Hlo).
  destruct Hpath as (Hq & Hp & Hdi & Hdir & Hrd).
  set (wo := (open_fd d w).2) in *. clearbody wo.
  dd_do_open_start Hqo Hino.
  set (dd0 := set_dd_mode _ _).
  assert (Heuid : w_euid wo = w_euid w) by (by destruct Hso as (_&_&_&?&_)).
  rewrite (dd_lock_not_writable sizeof_time_t fuel dd0 _ flags (with_errno 0 wo) d di);
    [|done|done|exact Hdo|done| |].
  2:{ unfold dir_entry in *. simpl. by rewrite Hio. }
  2:{ unfold may_write, may_access in *. simpl. by rewrite Heuid. }
  change (-1 <? 0) with true. cbv iota. mrun.
  change (w_errno (with_errno EACCES (with_errno 0 wo)) =? EACCES) with true.
  rewrite andb_true_r.
  destruct (has_flag flags DD_OPEN_READONLY) eqn:Hflag.
  - unfold faccessat_read. rewrite !bind_unfold, syscall_quiet by done.
    unfold sys_faccessat_read.
    change (dir_at (with_errno EACCES (with_errno 0 wo)) (dd_fd dd0))
      with (dir_at wo (next_fd w)). rewrite Hdo.
    replace (may_read (with_errno EACCES (with_errno 0 wo)) di) with true.
    2:{ unfold may_read, may_access in *. simpl. by rewrite Heuid. }
    cbn [fst snd]. mrun. change (0 =? 0) with true. cbv iota.
    unfold dd_check. rewrite bind_unfold.
    set (wa := with_errno EACCES (with_errno 0 wo)).
    destruct (parse_time_file_at_value sizeof_time_t Hsz (dd_fd dd0) FILENAME_TIME wa
                d di j ti) as (w' & Hparse); try done.
    { unfold dir_entry in *. simpl. by rewrite Hio. }
    { unfold may_read, may_access in *. simpl. by rewrite Heuid. }
    pose proof (parse_time_file_at_files sizeof_time_t (dd_fd dd0) FILENAME_TIME wa
                  Hqo _ _ Hparse) as Hs'.
    rewrite bind_unfold, Hparse.
    replace (time_file_value sizeof_time_t (i_data ti) <? 0) with false
      by (symmetry; apply Z.ltb_ge; lia).
    cbv iota. mrun. exists w'. split; [reflexivity|].
    destruct Hs' as (Hi' & _ & Hf' & _). simpl in Hi', Hf'.
    split; [congruence|]. split; [congruence|done].
  - mrun.
    change (w_errno (with_errno EACCES (with_errno 0 wo)) =? EISDIR) with false.
    cbv iota.
    destruct (dd_do_open_cant_access_run dd0 flags (with_errno EACCES (with_errno 0 wo)))
      as (w' & -> & Hlog & Hs' & _); [done..|].
    exists w'. split; [reflexivity|].
    change (0 <=? dd_fd dd0) with (0 <=? next_fd w) in Hs'.
    replace (0 <=? next_fd w) with true in Hs'
      by (symmetry; apply Z.leb_le; unfold next_fd; lia).
    unfold sys_close in Hs'.
    change (fd_inode (with_errno EACCES (with_errno 0 wo)) (dd_fd dd0))
      with (fd_inode wo (next_fd w)) in Hs'. rewrite Hino in Hs'.
    destruct Hs' as (Hi' & _ & Hf' & _). simpl in Hi', Hf'.
    split; [congruence|]. split.
    { rewrite Hf', Hfo. unfold next_fd. rewrite Nat2Z.id. apply fds_open_close1. }
    intros _. rewrite Hlog. simpl. by rewrite Hlo.
Qed.

Lemma dd_opendir_read_only_witness :
  let w := World (<[1 := Inode S_IFDIR 2 493 0 0 [] (<["time"%string := 2]> ∅)]>
                   (<[2 := Inode S_IFREG 1 420 0 0
                             (list_ascii_of_string "1700000000") ∅]> ∅))
                 (<["/var/tmp/pd"%string := 1]> ∅) ∅ 0 1000 4242 ∅ ∅ ∅ [] [] in
  ∃ w', dd_opendir 8 2 "/var/tmp/pd" DD_OPEN_READONLY w
        = Ret (Some (DumpDir "/var/tmp/pd" 0 false 0 0 420 1700000000)) w'
    ∧ w_inodes w' = w_inodes w.
Proof.
  intros w.
  destruct (dd_opendir_read_only 8 2 "/var/tmp/pd" DD_OPEN_READONLY w 1
              (Inode S_IFDIR 2 493 0 0 [] (<["time"%string := 2]> ∅)) 2
              (Inode S_IFREG 1 420 0 0 (list_ascii_of_string "1700000000") ∅))
    as (w' & Hrun & Hinodes & _).
  - by right.
  - repeat split; vm_compute; reflexivity.
  - simpl. lia.
  - vm_compute. reflexivity.
  - vm_compute. reflexivity.
  - vm_compute. reflexivity.
  - reflexivity.
  - simpl. lia.
  - vm_compute. reflexivity.
  - vm_compute. discriminate.
  - lia.
  - exists w'. split; [exact Hrun|exact Hinodes].
Defined.

(** X24. [dd_fdopendir] with a descriptor that is negative or not open,
    while no other process acts: it returns NULL and leaves the files
    and the descriptor table as they are; it logs [Can't access] unless
    [DD_FAIL_QUIETLY_EACCES] is set, also when
    [DD_FAIL_QUIETLY_ENOENT] is. *)
Theorem dd_fdopendir_bad_descriptor (sizeof_time_t : Z) (fuel : nat) (dir_fd : Z)
    (dir : string) (flags : Z) (w : world) :
  w_env w = [] → fd_inode w dir_fd = None →
  ∃ w', dd_fdopendir sizeof_time_t fuel dir_fd dir flags w = Ret None w'
    ∧ same_files w w'
    ∧ w_log w' = w_log w ++ (if has_flag flags DD_FAIL_QUIETLY_EACCES then []
                             else ["Can't access"%string]).
Proof.
  intros Hq Hbad. unfold dd_fdopendir. cbv zeta. mrun. unfold dd_do_open.
  set (dd0 := set_dd_fd dir_fd _).
  change (dd_fd dd0) with dir_fd.
  destruct (Z.ltb_spec dir_fd 0) as [Hneg|Hpos].
  - destruct (dd_do_open_cant_access_run dd0 flags (with_errno 0 w))
      as (w' & -> & Hlog & Hs' & _); [done..|].
    exists w'. split; [reflexivity|].
    change (0 <=? dd_fd dd0) with (0 <=? dir_fd) in Hs'.
    replace (0 <=? dir_fd) with false in Hs' by (symmetry; apply Z.leb_gt; lia).
    split; [|exact Hlog].
    destruct Hs' as (?&?&?&?&?&?&?&?&?). simpl in *. by repeat split.
  - unfold fstat. rewrite bind_unfold, syscall_quiet by done.
    unfold sys_fstat. change (fd_inode (with_errno 0 w) dir_fd) with (fd_inode w dir_fd).
    rewrite Hbad. unfold sys_fail. cbn [fst snd].
    destruct (dd_do_open_cant_access_run dd0 flags (with_errno EBADF (with_errno 0 w)))
      as (w' & -> & Hlog & Hs' & _); [done..|].
    exists w'. split; [reflexivity|].
    change (0 <=? dd_fd dd0) with (0 <=? dir_fd) in Hs'.
    replace (0 <=? dir_fd) with true in Hs' by (symmetry; apply Z.leb_le; lia).
    unfold sys_close in Hs'.
    change (fd_inode (with_errno EBADF (with_errno 0 w)) (dd_fd dd0))
      with (fd_inode w dir_fd) in Hs'. rewrite Hbad in Hs'.
    split; [|exact Hlog].
    destruct Hs' as (?&?&?&?&?&?&?&?&?). simpl in *. by repeat split.
Qed.

Lemma dd_fdopendir_bad_descriptor_witness :
  let w := world_with_item "time" (list_ascii_of_string "1700000000") in
  ∃ w', dd_fdopendir 8 2 7 "/var/tmp/pd" DD_FAIL_QUIETLY_ENOENT w = Ret None w'
    ∧ w_log w' = ["Can't access"%string].
Proof.
  intros w.
  destruct (dd_fdopendir_bad_descriptor 8 2 7 "/var/tmp/pd" DD_FAIL_QUIETLY_ENOENT w)
    as (w' & Hrun & _ & Hlog).
  - reflexivity.
  - vm_compute. reflexivity.
  - exists w'. split; [exact Hrun|exact Hlog].
Defined.


(** X25. [fdump_dir_stat_for_uid] and [dump_dir_stat_for_uid] return
    -1, 0 or 3, whatever the world and the policy
    [DUMP_DIR_OWNED_BY_USER]: the flags [DD_STAT_ACCESSIBLE_BY_UID] and
    [DD_STAT_OWNED_BY_UID] are never set one without the other, so the
    directory is reported as accessible exactly when it is reported as
    owned; and [fdump_dir_stat_for_uid] returns -1 with [errno] set to
    [ENOTDIR] only. *)
Theorem dump_dir_stat_for_uid_values (DUMP_DIR_OWNED_BY_USER : Z) (dir_fd : Z)
    (dirname : string) (uid : Z) (w : world) :
  (∃ r w', fdump_dir_stat_for_uid DUMP_DIR_OWNED_BY_USER dir_fd uid w = Ret r w'
     ∧ (r = -1 ∨ r = 0
        ∨ r = Z.lor DD_STAT_ACCESSIBLE_BY_UID DD_STAT_OWNED_BY_UID)
     ∧ (r = -1 → w_errno w' = ENOTDIR))
  ∧ (∃ r w', dump_dir_stat_for_uid DUMP_DIR_OWNED_BY_USER dirname uid w = Ret r w'
     ∧ (r = -1 ∨ r = 0
        ∨ r = Z.lor DD_STAT_ACCESSIBLE_BY_UID DD_STAT_OWNED_BY_UID)).
Proof.
  split.
  - destruct (fdump_dir_stat_for_uid_returns DUMP_DIR_OWNED_BY_USER dir_fd uid w)
      as (r & w' & Hrun & Hr).
    exists r, w'. split; [done|]. split.
    + destruct Hr as [[-> _]|[->| ->]]; auto.
    + intros ->. by destruct Hr as [[_ ?]|[?|?]].
  - unfold dump_dir_stat_for_uid, open, syscall. rewrite bind_unfold.
    destruct (sys_open dirname _ (env_step w)) as [fd w1].
    destruct (fd <? 0); [mrun; eexists _, _; split; [reflexivity|]; by left|].
    rewrite bind_unfold.
    destruct (fdump_dir_stat_for_uid_returns DUMP_DIR_OWNED_BY_USER fd uid w1)
      as (r & w2 & -> & Hr).
    unfold close, syscall. rewrite bind_unfold.
    destruct (sys_close fd (env_step w2)) as [c w3]. mrun.
    exists r, w3. split; [reflexivity|].
    destruct Hr as [[-> _]|[->| ->]]; auto.
Qed.

(** X26. [dd_lock] with another interval than
    [WAIT_FOR_OTHER_PROCESS_USLEEP], as [dd_create_skeleton] calls it,
    does not look for the [time] file: on a directory that is writable
    and still linked and has no [.lock] entry, while no other process
    acts, it returns 0 at once, whatever else the directory holds; the
    handle is locked, its time stamp is untouched, and [.lock] is a
    symbolic link to the decimal pid of the process. *)
Theorem dd_lock_without_time_check (sizeof_time_t : Z) (fuel : nat) (dd : dump_dir)
    (sleep_usec flags : Z) (w : world) (d : Z) (di : inode) :
  locked dd = false → sleep_usec ≠ WAIT_FOR_OTHER_PROCESS_USLEEP →
  w_env w = [] → dir_at w (dd_fd dd) = inr (d, di) →
  st_nlink di ≠ 0 → may_write w di = true →
  i_entries di !! ".lock"%string = None →
  (2 ≤ fuel)%nat →
  ∃ w', dd_lock sizeof_time_t fuel dd sleep_usec flags w = Ret (0, set_locked true dd) w'
    ∧ lock_is w' (dd_fd dd) (pid_text w)
    ∧ w_fds w' = w_fds w
    ∧ no_time_count w' = no_time_count w.
Proof.
  intros Hl Hsleep Hq Hd Hlink Hwrite Hlock Hfuel.
  destruct fuel as [|[|fuel]]; [lia..|].
  unfold dd_lock. rewrite Hl. unfold getpid. rewrite bind_unfold. fold (pid_text w).
  rewrite dd_lock_retry_S, bind_unfold.
  destruct (create_symlink_lockfile_at_free fuel w (dd_fd dd) d di (pid_text w))
    as (w1 & ino & -> & Hfresh & Hne & Hi1 & Hs1 & Hcount); [done..|].
  change (1 <? 0) with false. change (negb (0 <? 1)) with false. cbv iota.
  replace (sleep_usec =? WAIT_FOR_OTHER_PROCESS_USLEEP) with false
    by (symmetry; by apply Z.eqb_neq).
  exists w1. split; [reflexivity|].
  destruct Hs1 as (_ & _ & Hf1 & _). simpl in Hf1.
  split; [|done].
  exists d, (set_entries (<[".lock"%string := ino]>) di), ino,
    (new_inode w S_IFLNK 511 (pid_text w)).
  split; [by eapply dir_at_update|]. split; [done|]. split; [|done].
  unfold dir_entry. rewrite Hi1, lookup_insert_eq. simpl.
  rewrite lookup_insert_eq. simpl. by rewrite lookup_insert_ne, lookup_insert_eq.
Qed.

Lemma dd_lock_without_time_check_witness :
  let w := world_with_item "reported_to" [] in
  ∃ w', dd_lock 8 2 (sample_dd false) CREATE_LOCK_USLEEP 0 w
        = Ret (0, sample_dd true) w'
    ∧ lock_is w' 3 (list_ascii_of_string "4242").
Proof.
  intros w.
  destruct (dd_lock_without_time_check 8 2 (sample_dd false) CREATE_LOCK_USLEEP 0 w 1
              (Inode S_IFDIR 2 493 0 0 [] (<["reported_to"%string := 2]> ∅)))
    as (w' & Hrun & Hlock & _).
  - reflexivity.
  - discriminate.
  - reflexivity.
  - vm_compute. reflexivity.
  - simpl. lia.
  - vm_compute. reflexivity.
  - vm_compute. reflexivity.
  - lia.
  - exists w'. split; [exact Hrun|exact Hlock].
Defined.

(** X27. [parse_time_file_at] on a regular, readable file with one link
    and no NUL byte, while no other process acts: it returns the value
    of the content exactly when the content is shorter than the buffer
    of [sizeof(time_t) * 3 + 1] bytes and, without one trailing
    newline, is a non-empty sequence of decimal digits of a value below
    the largest [time_t]; it returns -1 for every other content; and it
    changes no file and leaves no descriptor open. *)
Theorem parse_time_file_at_digits (sizeof_time_t : Z) (dir_fd : Z) (name : string)
    (w : world) (d : Z) (di : inode) (ino : Z) (i : inode) :
  sizeof_time_t = 4 ∨ sizeof_time_t = 8 →
  w_env w = [] →
  dir_at w dir_fd = inr (d, di) → dir_entry w d name = Some (ino, i) →
  st_fmt i = S_IFREG → st_nlink i ≤ 1 → may_read w i = true →
  NUL ∉ i_data i →
  let stripped :=
    if TextLoader.ends_with_newline (i_data i) then removelast (i_data i)
    else i_data i in
  let valid :=
    Z.of_nat (length (i_data i)) < sizeof_time_buf sizeof_time_t
    ∧ stripped ≠ [] ∧ forallb is_digit stripped = true
    ∧ decimal stripped < 2 ^ (sizeof_time_t * 8 - 1) - 1 in
  ∃ r w', parse_time_file_at sizeof_time_t dir_fd name w = Ret r w'
    ∧ (valid → r = decimal stripped ∧ 0 ≤ r)
    ∧ (¬ valid → r = -1)
    ∧ same_files w w'.
Proof.
  intros Hsz Hq Hd He Hreg Hone Hread Hnul stripped valid.
  destruct (parse_time_file_at_value sizeof_time_t Hsz dir_fd name w d di ino i)
    as (w' & Hrun); [done..|].
  pose proof (parse_time_file_at_files sizeof_time_t dir_fd name w Hq _ _ Hrun) as Hs.
  destruct (time_file_value_spec sizeof_time_t (i_data i) Hnul) as [Hvalid Hnot].
  exists (time_file_value sizeof_time_t (i_data i)), w'.
  split; [done|]. split; [|split; [|done]].
  - intros Hv. destruct (Hvalid Hv) as [-> ?]. done.
  - intros Hv. by apply Hnot.
Qed.

Lemma parse_time_file_at_digits_witness :
  let w := world_with_time_file (list_ascii_of_string "1700000000" ++ [LF]) in
  ∃ w', parse_time_file_at 8 3 "time" w = Ret 1700000000 w'.
Proof.
  intros w.
  destruct (parse_time_file_at_digits 8 3 "time" w 1
              (Inode S_IFDIR 2 493 0 0 [] (<["time"%string := 2]> ∅)) 2
              (Inode S_IFREG 1 420 0 0 (list_ascii_of_string "1700000000" ++ [LF]) ∅))
    as (r & w' & Hrun & Hvalid & _).
  - by right.
  - reflexivity.
  - vm_compute. reflexivity.
  - vm_compute. reflexivity.
  - reflexivity.
  - simpl. lia.
  - vm_compute. reflexivity.
  - apply (bool_decide_unpack _). vm_compute. exact I.
  - destruct Hvalid as [-> _].
    + split; [vm_compute; reflexivity|]. split; [discriminate|].
      split; [vm_compute; reflexivity|vm_compute; reflexivity].
    + exists w'. exact Hrun.
Defined.

(** ** The lock sequence without time stamp *)

Section NoTimeStamp.

Variable sizeof_time_t : Z.
Hypothesis sizeof_time_t_cases : sizeof_time_t = 4 ∨ sizeof_time_t = 8.

Lemma time_file_value_cases data :
  time_file_value sizeof_time_t data = -1 ∨ 0 ≤ time_file_value sizeof_time_t data.
Proof.
  unfold time_file_value. destruct (_ <=? _); [by left|].
  set (time_buf := c_str _). rewrite isdigit_str_forall.
  destruct (bool_decide (time_buf = [])); [by left|]. cbn [negb andb].
  destruct (forallb is_digit time_buf) eqn:Hd; [|by left]. cbn [andb].
  destruct (_ <? _); [|by left]. right. by apply decimal_nonneg.
Qed.

(** The entry [time] of a directory, by its inode. *)
Lemma dir_entry_time w d di :
  w_inodes w !! d = Some di →
  dir_entry w d FILENAME_TIME
  = j ← i_entries di !! FILENAME_TIME; i ← w_inodes w !! j; Some (j, i).
Proof. intros Hd. unfold dir_entry. by rewrite Hd. Qed.

(** The parser on a directory without time stamp. *)
Lemma parse_time_file_at_unparseable dir_fd w d di :
  w_env w = [] → dir_at w dir_fd = inr (d, di) →
  no_parseable_time sizeof_time_t w d di →
  ∃ w', parse_time_file_at sizeof_time_t dir_fd FILENAME_TIME w = Ret (-1) w'
    ∧ same_files w w' ∧ no_time_count w' = no_time_count w.
Proof.
  intros Hq Hd Hno.
  destruct (dir_at_inode _ _ _ _ Hd) as (Hdi & _ & _).
  assert (Hrun : ∃ w', parse_time_file_at sizeof_time_t dir_fd FILENAME_TIME w
                       = Ret (-1) w').
  { destruct (sys_openat_read dir_fd FILENAME_TIME w) as
      [(e & Hopen & _)|(d' & di' & ino & i & Hd' & He & Hnl & Hr & Hopen)].
    - unfold parse_time_file_at, secure_openat_read, openat.
      rewrite !bind_unfold, syscall_quiet, Hopen by done. cbn [fst snd].
      change (-1 <? 0) with true. cbv iota. mrun.
      change (-1 <? 0) with true. cbv iota. mrun. by eexists.
    - rewrite Hd in Hd'. simplify_eq.
      unfold no_parseable_time in Hno. rewrite (dir_entry_time _ _ _ Hdi) in He.
      destruct (i_entries di' !! FILENAME_TIME) as [j|] eqn:Hj; [|done].
      simpl in He. destruct Hno as (Hjd & ti & Hti & Hfifo & Hnot).
      rewrite Hti in He. simpl in He. simplify_eq.
      assert (He : dir_entry w d' FILENAME_TIME = Some (ino, i)).
      { rewrite (dir_entry_time _ _ _ Hdi), Hj. simpl. by rewrite Hti. }
      destruct (decide (st_fmt i = S_IFREG ∧ st_nlink i ≤ 1)) as [[Hreg Hone]|Hbad].
      + destruct (parse_time_file_at_value sizeof_time_t sizeof_time_t_cases dir_fd
                    FILENAME_TIME w d' di' ino i Hq Hd He Hreg Hone Hr) as (w' & Hp).
        exists w'. rewrite Hp.
        destruct (time_file_value_cases (i_data i)) as [->|Hpos]; [done|].
        exfalso. apply Hnot. done.
      + pose proof (open_fd_nonneg w ino) as Hfd.
        pose proof (fd_inode_open_fd w ino i (dir_entry_inode _ _ _ _ _ He)) as Hino.
        unfold parse_time_file_at, secure_openat_read, openat.
        rewrite !bind_unfold, syscall_quiet, Hopen by done.
        destruct (open_fd ino w) as [fd w1] eqn:Ho. simpl in Hfd, Hino |- *.
        destruct (Z.ltb_spec fd 0) as [?|_]; [lia|].
        assert (Hq1 : w_env w1 = []) by (unfold open_fd in Ho; by simplify_eq).
        unfold fstat. rewrite bind_unfold, syscall_quiet by done.
        unfold sys_fstat. rewrite Hino. cbn [fst snd].
        assert (Hc : negb (bool_decide (st_fmt i = S_IFREG)) || (1 <? st_nlink i) = true).
        { destruct (decide (st_fmt i = S_IFREG)) as [Hreg|Hreg].
          - rewrite bool_decide_eq_true_2 by done. simpl. apply Z.ltb_lt.
            destruct (Z.le_gt_cases (st_nlink i) 1); [|lia]. exfalso. by apply Hbad.
          - by rewrite bool_decide_eq_false_2. }
        rewrite Hc. mrun. unfold close, syscall. mrun.
        destruct (sys_close _ _) as [c w3]. mrun.
        change (-1 <? 0) with true. cbv iota. mrun. by eexists. }
  destruct Hrun as (w' & Hrun). exists w'. split; [done|]. split.
  - exact (parse_time_file_at_files _ _ _ _ Hq _ _ Hrun).
  - exact (parse_time_file_at_post _ _ _ _ _ _ Hrun).
Qed.

(** The directory stays without time stamp when other inodes change. *)
Lemma no_parseable_time_same w w' d di di' :
  (∀ j ti, j ≠ d → w_inodes w !! j = Some ti → w_inodes w' !! j = Some ti) →
  i_entries di' !! FILENAME_TIME = i_entries di !! FILENAME_TIME →
  w_euid w' = w_euid w →
  no_parseable_time sizeof_time_t w d di → no_parseable_time sizeof_time_t w' d di'.
Proof.
  intros Hkeep Hentry He. unfold no_parseable_time. rewrite Hentry.
  destruct (i_entries di !! FILENAME_TIME) as [j|]; [|done].
  intros (Hjd & ti & Hti & Hfifo & Hnot). split; [done|]. exists ti.
  split; [by apply Hkeep|]. split; [done|].
  unfold may_read, may_access in *. by rewrite He.
Qed.

(** One pass on such a directory: the lock is taken, no time stamp is
    found, the lock is released; the inode of the lock stays, without
    a link. *)
Lemma dd_lock_round_no_time fuel dd flags count w d di :
  free_lock_no_time sizeof_time_t w (dd_fd dd) d di →
  ∃ w' ino,
    free_lock_no_time sizeof_time_t w' (dd_fd dd) d di
    ∧ w_inodes w !! ino = None
    ∧ w_inodes w'
      = <[ino := set_nlink 0 (new_inode w S_IFLNK 511 (pid_text w))]> (w_inodes w)
    ∧ same_files w (with_inodes (λ _, w_inodes w) w')
    ∧ no_time_count w' = S (no_time_count w)
    ∧ dd_lock_retry sizeof_time_t (S (S fuel)) dd WAIT_FOR_OTHER_PROCESS_USLEEP flags
        (pid_text w) count w
      = if (unsigned_wrap (count - 1) =? 0) || has_flag flags DD_DONT_WAIT_FOR_LOCK
        then Ret (-1, set_dd_time (-1) dd) (with_errno EISDIR w')
        else dd_lock_retry sizeof_time_t (S fuel) (set_dd_time (-1) dd)
               WAIT_FOR_OTHER_PROCESS_USLEEP flags (pid_text w)
               (unsigned_wrap (count - 1)) w'.
Proof.
  intros (Hq & Hd & Hlink & Hwrite & Hlock & Hno).
  destruct (dir_at_inode _ _ _ _ Hd) as (Hdi & Hdir & _).
  destruct (create_symlink_lockfile_at_free fuel w (dd_fd dd) d di (pid_text w))
    as (w1 & ino & Hcreate & Hfresh & Hne & Hi1 & Hs1 & Hc1); [done..|].
  set (i0 := new_inode w S_IFLNK 511 (pid_text w)) in *.
  set (di1 := set_entries (<[".lock"%string := ino]>) di) in *.
  destruct Hs1 as (_ & Hp1 & Hf1 & He1 & Hpid1 & Hproc1 & Hpw1 & Hgr1 & Hq1).
  simpl in Hp1, Hf1, He1, Hpid1, Hproc1, Hpw1, Hgr1, Hq1.
  assert (Hq1' : w_env w1 = []) by congruence.
  assert (Hd1 : dir_at w1 (dd_fd dd) = inr (d, di1)).
  { eapply (dir_at_update w w1 _ d di di1); [done|done|exact Hi1|done]. }
  assert (Hno1 : no_parseable_time sizeof_time_t w1 d di1).
  { apply (no_parseable_time_same w w1 d di di1);
      [|by simpl; rewrite lookup_insert_ne|done|done].
    intros j ti Hjd Hj. rewrite Hi1, !lookup_insert_ne; [done|congruence|done]. }
  destruct (parse_time_file_at_unparseable (dd_fd dd) w1 d di1 Hq1' Hd1 Hno1)
    as (w2 & Hparse & Hs2 & Hc2).
  destruct Hs2 as (Hi2 & Hp2 & Hf2 & He2 & Hpid2 & Hproc2 & Hpw2 & Hgr2 & Hq2).
  set (wc := with_log "Missing file: time" w2).
  assert (Hdc : dir_at wc (dd_fd dd) = inr (d, di1)).
  { eapply (dir_at_same w1); [done|simpl; congruence| |done].
    simpl. by rewrite Hi2, Hi1, lookup_insert_eq. }
  assert (Hlockc : dir_entry wc d ".lock" = Some (ino, i0)).
  { unfold dir_entry. simpl. rewrite Hi2, Hi1, lookup_insert_eq. simpl.
    rewrite lookup_insert_eq. simpl.
    by rewrite lookup_insert_ne, lookup_insert_eq by done. }
  assert (Hwritec : may_write wc di1 = true).
  { unfold may_write, may_access in *. simpl. by rewrite He2, He1. }
  destruct (sys_unlinkat_lock wc (dd_fd dd) d di1 ino i0 Hdc Hlockc eq_refl Hwritec Hne)
    as (w3 & Hunlink & Hi3 & Hs3 & _ & Hl3).
  destruct Hs3 as (_ & Hp3 & Hf3 & He3 & Hpid3 & Hproc3 & Hpw3 & Hgr3 & Hq3).
  simpl in Hp3, Hf3, He3, Hpid3, Hproc3, Hpw3, Hgr3, Hq3.
  assert (Hinodes : w_inodes w3 = <[ino := set_nlink 0 i0]> (w_inodes w)).
  { rewrite Hi3. simpl. rewrite Hi2, Hi1. apply map_eq. intros k.
    destruct (decide (k = d)) as [->|Hkd].
    - rewrite lookup_insert_eq, lookup_insert_ne, Hdi by done. f_equal.
      unfold di1, set_entries. destruct di as [? ? ? ? ? ? entries]. simpl in *.
      f_equal. by apply delete_insert_id.
    - rewrite (lookup_insert_ne _ d) by done.
      destruct (decide (k = ino)) as [->|Hki].
      + by rewrite !lookup_insert_eq.
      + by rewrite !lookup_insert_ne by done. }
  set (w' := with_log MSG_UNLOCKED_NO_TIME w3).
  assert (Hq' : w_env w' = []) by (simpl; congruence).
  exists w', ino. split; [|split; [done|split; [done|split; [|split]]]].
  - split; [done|]. split.
    { eapply (dir_at_same w); [done|simpl; congruence| |done].
      simpl. by rewrite Hinodes, lookup_insert_ne, Hdi. }
    split; [done|]. split.
    { unfold may_write, may_access in *. simpl. by rewrite He3, He2, He1. }
    split; [done|].
    apply (no_parseable_time_same w w' d di di); [|done|simpl; congruence|done].
    intros j ti Hjd Hj. simpl. rewrite Hinodes, lookup_insert_ne; [done|congruence].
  - repeat split; simpl; congruence.
  - unfold no_time_count in *. simpl. rewrite Hl3. simpl.
    rewrite !filter_app, !length_app in *. simpl. lia.
  - rewrite dd_lock_retry_S, bind_unfold, Hcreate.
    change (1 <? 0) with false. change (negb (0 <? 1)) with false. cbv iota.
    rewrite Z.eqb_refl. unfold dd_check. rewrite !bind_unfold, Hparse.
    change (-1 <? 0) with true. cbv iota. mrun. fold wc.
    change (dd_fd (set_dd_time (-1) dd)) with (dd_fd dd).
    unfold xunlinkat, unlinkat.
    rewrite !bind_unfold, syscall_quiet, Hunlink by (simpl; congruence).
    cbn [fst snd]. change (negb (0 =? 0)) with false. cbv iota. mrun. fold w'.
    destruct ((unsigned_wrap (count - 1) =? 0) || has_flag flags DD_DONT_WAIT_FOR_LOCK);
      mrun; [reflexivity|].
    unfold usleep. by rewrite syscall_quiet.
Qed.

(** The passes of [dd_lock] on such a directory, from the value [n] of
    [count]: the locks taken and released. *)
Lemma dd_lock_retry_no_time flags d di (n : nat) : ∀ fuel dd w,
  (1 ≤ n)%nat → Z.of_nat n < 2 ^ 32 → (n < fuel)%nat →
  free_lock_no_time sizeof_time_t w (dd_fd dd) d di →
  ∃ w' locks,
    dd_lock_retry sizeof_time_t fuel dd WAIT_FOR_OTHER_PROCESS_USLEEP flags (pid_text w)
      (Z.of_nat n) w
    = Ret (-1, set_dd_time (-1) dd) w'
    ∧ w_errno w' = EISDIR
    ∧ length locks = (if has_flag flags DD_DONT_WAIT_FOR_LOCK then 1 else n)%nat
    ∧ no_time_count w' = (no_time_count w + length locks)%nat
    ∧ NoDup locks
    ∧ (∀ ino, ino ∈ locks → released_lock w w' ino)
    ∧ (∀ k, k ∉ locks → w_inodes w' !! k = w_inodes w !! k)
    ∧ free_lock_no_time sizeof_time_t w' (dd_fd dd) d di
    ∧ same_files w (with_inodes (λ _, w_inodes w) w').
Proof.
  induction n as [|n IH]; intros fuel dd w Hn Hmax Hfuel Hfree; [lia|].
  destruct fuel as [|[|fuel]]; [lia..|].
  destruct (dd_lock_round_no_time fuel dd flags (Z.of_nat (S n)) w d di Hfree)
    as (w1 & ino1 & Hfree1 & Hfresh1 & Hi1 & Hs1 & Hcount1 & ->).
  replace (unsigned_wrap (Z.of_nat (S n) - 1)) with (Z.of_nat n)
    by (unfold unsigned_wrap; rewrite Z.mod_small; lia).
  assert (Hone : ∀ w', w_inodes w' = w_inodes w1 →
            (∀ ino, ino ∈ [ino1] → released_lock w w' ino)
            ∧ (∀ k, k ∉ [ino1] → w_inodes w' !! k = w_inodes w !! k)).
  { intros w' Hw'. split.
    - intros ino ->%list_elem_of_singleton. split; [done|].
      eexists. rewrite Hw', Hi1, lookup_insert_eq. done.
    - intros k Hk%not_elem_of_cons. rewrite Hw', Hi1, lookup_insert_ne; [done|].
      by destruct Hk as [? _]. }
  assert (Hstop : ∃ w' locks,
            Ret (-1, set_dd_time (-1) dd) (with_errno EISDIR w1)
            = Ret (-1, set_dd_time (-1) dd) w'
            ∧ w_errno w' = EISDIR
            ∧ length locks = 1%nat
            ∧ no_time_count w' = (no_time_count w + length locks)%nat
            ∧ NoDup locks
            ∧ (∀ ino, ino ∈ locks → released_lock w w' ino)
            ∧ (∀ k, k ∉ locks → w_inodes w' !! k = w_inodes w !! k)
            ∧ free_lock_no_time sizeof_time_t w' (dd_fd dd) d di
            ∧ same_files w (with_inodes (λ _, w_inodes w) w')).
  { exists (with_errno EISDIR w1), [ino1]. split; [done|]. split; [done|].
    split; [done|]. split.
    { change (no_time_count (with_errno EISDIR w1)) with (no_time_count w1).
      simpl. lia. }
    split; [apply NoDup_singleton|].
    destruct (Hone (with_errno EISDIR w1) eq_refl) as [? ?]. done. }
  destruct (has_flag flags DD_DONT_WAIT_FOR_LOCK) eqn:Hflag.
  { rewrite orb_true_r. exact Hstop. }
  rewrite orb_false_r. destruct n as [|n]; [exact Hstop|]. clear Hstop.
  replace (Z.of_nat (S n) =? 0) with false by (symmetry; apply Z.eqb_neq; lia).
  assert (Hpid : pid_text w1 = pid_text w).
  { unfold pid_text. destruct Hs1 as (_&_&_&_&Hpid&_). simpl in Hpid. by rewrite Hpid. }
  destruct (IH (S fuel) (set_dd_time (-1) dd) w1)
    as (w' & locks & Hrun & Herr & Hlen & Hcount & Hnodup & Hlocks & Hrest & Hfree'
        & Hs'); [lia..|done|].
  rewrite Hpid in Hrun.
  assert (Hnew : ino1 ∉ locks).
  { intros Hin. destruct (Hlocks _ Hin) as [Hnone _].
    by rewrite Hi1, lookup_insert_eq in Hnone. }
  exists w', (ino1 :: locks). split; [done|]. split; [done|].
  split; [simpl; lia|]. split; [simpl; lia|]. split; [by constructor|].
  split; [|split; [|split; [done|]]].
  - intros ino [->|Hin]%elem_of_cons.
    + split; [done|]. rewrite (Hrest _ Hnew), Hi1, lookup_insert_eq. by eexists.
    + destruct (Hlocks _ Hin) as (Hnone & i & Hi & Hfmt & Hdata & Hnl).
      rewrite Hi1 in Hnone. apply lookup_insert_None in Hnone as [Hnone _].
      split; [done|]. exists i. by rewrite <- Hpid.
  - intros k [Hk1 Hk]%not_elem_of_cons.
    by rewrite (Hrest _ Hk), Hi1, lookup_insert_ne.
  - destruct Hs1 as (_&?&?&?&?&?&?&?&?), Hs' as (_&?&?&?&?&?&?&?&?). simpl in *.
    repeat split; simpl; congruence.
Qed.

(** The pass that takes the lock and finds no time stamp, in any world:
    the next system call unlinks [.lock]. *)
Lemma dd_lock_retry_back_off fuel dd flags pid_buf count w w1 t w2 :
  create_symlink_lockfile_at fuel (dd_fd dd) ".lock" pid_buf w = Ret 1 w1 →
  parse_time_file_at sizeof_time_t (dd_fd dd) FILENAME_TIME w1 = Ret t w2 →
  t < 0 →
  dd_lock_retry sizeof_time_t (S fuel) dd WAIT_FOR_OTHER_PROCESS_USLEEP flags pid_buf
    count w
  = let '(r, w3) := sys_unlinkat (dd_fd dd) ".lock"
                      (env_step (with_log "Missing file: time" w2)) in
    if negb (r =? 0) then Die (with_log "Can't remove file" w3)
    else if (unsigned_wrap (count - 1) =? 0) || has_flag flags DD_DONT_WAIT_FOR_LOCK
    then Ret (-1, set_dd_time t dd) (with_errno EISDIR (with_log MSG_UNLOCKED_NO_TIME w3))
    else (usleep NO_TIME_FILE_USLEEP;;
          dd_lock_retry sizeof_time_t fuel (set_dd_time t dd)
            WAIT_FOR_OTHER_PROCESS_USLEEP flags pid_buf (unsigned_wrap (count - 1)))
           (with_log MSG_UNLOCKED_NO_TIME w3).
Proof.
  intros Hcreate Hparse Ht.
  rewrite dd_lock_retry_S, bind_unfold, Hcreate.
  change (1 <? 0) with false. change (negb (0 <? 1)) with false. cbv iota.
  rewrite Z.eqb_refl. unfold dd_check. rewrite !bind_unfold, Hparse.
  replace (t <? 0) with true by (symmetry; apply Z.ltb_lt; lia). cbv iota. mrun.
  change (dd_fd (set_dd_time t dd)) with (dd_fd dd).
  unfold xunlinkat, unlinkat, syscall. mrun.
  destruct (sys_unlinkat _ _ _) as [r w3]. mrun.
  destruct (negb (r =? 0)); [reflexivity|]. mrun.
  destruct ((unsigned_wrap (count - 1) =? 0) || has_flag flags DD_DONT_WAIT_FOR_LOCK);
    mrun; reflexivity.
Qed.

End NoTimeStamp.

(** C1. [dd_lock], called with the interval of [dd_opendir] on a handle
    that is not locked, runs the lock sequence with a count of
    [NO_TIME_FILE_COUNT].
    In any world, a pass of the sequence that takes the lock, by making
    [.lock], and then finds no parseable [time] file goes on with the
    system call that unlinks [.lock], and the process ends if that
    fails; then it logs, counts down, and returns -1 with [errno] set
    to [EISDIR] and the handle not locked when the count is used up or
    the caller passed [DD_DONT_WAIT_FOR_LOCK]; otherwise it sleeps for
    [NO_TIME_FILE_USLEEP] and runs the whole sequence again with the
    count one less.
    Whenever [dd_lock] returns, the number [n] of such passes is at
    most [NO_TIME_FILE_COUNT]; it returns -1 with [EISDIR] exactly when
    there was such a pass and either the flag was passed or there were
    [NO_TIME_FILE_COUNT] of them; then the handle is not locked and
    [.lock] is not in the directory.
    On a writable directory whose lock is free and whose [time] entry
    is missing, or is no FIFO and not a regular, readable file with one
    link and a content the parser accepts, while no other process acts,
    [dd_lock] with fuel for eleven turns does return -1 with [EISDIR],
    after [NO_TIME_FILE_COUNT] passes, or after one when the flag was
    passed: each pass made a new symbolic link to the process
    identifier and unlinked it, no other inode has changed, the
    directory is as it was, without [.lock], and the handle is not
    locked. *)
Theorem dd_lock_no_time_file (sizeof_time_t : Z) (fuel : nat) (dd : dump_dir)
    (flags : Z) (w : world) :
  locked dd = false →
  dd_lock sizeof_time_t fuel dd WAIT_FOR_OTHER_PROCESS_USLEEP flags w
  = dd_lock_retry sizeof_time_t fuel dd WAIT_FOR_OTHER_PROCESS_USLEEP flags (pid_text w)
      NO_TIME_FILE_COUNT w
  ∧ (∀ (turns : nat) (count : Z) (w0 w1 w2 : world) (t : Z),
       create_symlink_lockfile_at turns (dd_fd dd) ".lock" (pid_text w) w0 = Ret 1 w1 →
       parse_time_file_at sizeof_time_t (dd_fd dd) FILENAME_TIME w1 = Ret t w2 →
       t < 0 →
       dd_lock_retry sizeof_time_t (S turns) dd WAIT_FOR_OTHER_PROCESS_USLEEP flags
         (pid_text w) count w0
       = let '(r, w3) := sys_unlinkat (dd_fd dd) ".lock"
                           (env_step (with_log "Missing file: time" w2)) in
         if negb (r =? 0) then Die (with_log "Can't remove file" w3)
         else if (unsigned_wrap (count - 1) =? 0)
                 || has_flag flags DD_DONT_WAIT_FOR_LOCK
         then Ret (-1, set_dd_time t dd)
                  (with_errno EISDIR (with_log MSG_UNLOCKED_NO_TIME w3))
         else (usleep NO_TIME_FILE_USLEEP;;
               dd_lock_retry sizeof_time_t turns (set_dd_time t dd)
                 WAIT_FOR_OTHER_PROCESS_USLEEP flags (pid_text w)
                 (unsigned_wrap (count - 1)))
                (with_log MSG_UNLOCKED_NO_TIME w3))
  ∧ (∀ (r : Z) (dd' : dump_dir) (w' : world),
       dd_lock sizeof_time_t fuel dd WAIT_FOR_OTHER_PROCESS_USLEEP flags w
       = Ret (r, dd') w' →
       ∃ n : nat,
         no_time_count w' = (no_time_count w + n)%nat
         ∧ (n ≤ Z.to_nat NO_TIME_FILE_COUNT)%nat
         ∧ ((r = -1 ∧ w_errno w' = EISDIR) ↔
            (1 ≤ n)%nat ∧ (has_flag flags DD_DONT_WAIT_FOR_LOCK = true
                           ∨ n = Z.to_nat NO_TIME_FILE_COUNT))
         ∧ (r = -1 ∧ w_errno w' = EISDIR →
            locked dd' = false ∧ (sys_fstatat (dd_fd dd) ".lock" w').1 = None)
         ∧ (r = 0 ↔ locked dd' = true))
  ∧ (sizeof_time_t = 4 ∨ sizeof_time_t = 8 →
     ∀ (d : Z) (di : inode),
       free_lock_no_time sizeof_time_t w (dd_fd dd) d di → (11 ≤ fuel)%nat →
       ∃ (w' : world) (locks : list Z),
         dd_lock sizeof_time_t fuel dd WAIT_FOR_OTHER_PROCESS_USLEEP flags w
         = Ret (-1, set_dd_time (-1) dd) w'
         ∧ w_errno w' = EISDIR
         ∧ locked (set_dd_time (-1) dd) = false
         ∧ length locks = (if has_flag flags DD_DONT_WAIT_FOR_LOCK then 1%nat
                           else Z.to_nat NO_TIME_FILE_COUNT)
         ∧ no_time_count w' = (no_time_count w + length locks)%nat
         ∧ NoDup locks
         ∧ (∀ ino, ino ∈ locks → released_lock w w' ino)
         ∧ (∀ k, k ∉ locks → w_inodes w' !! k = w_inodes w !! k)
         ∧ dir_at w' (dd_fd dd) = inr (d, di)
         ∧ (sys_fstatat (dd_fd dd) ".lock" w').1 = None
         ∧ w_fds w' = w_fds w).
Proof.
  intros Hl.
  assert (Hstart : dd_lock sizeof_time_t fuel dd WAIT_FOR_OTHER_PROCESS_USLEEP flags w
                   = dd_lock_retry sizeof_time_t fuel dd WAIT_FOR_OTHER_PROCESS_USLEEP
                       flags (pid_text w) NO_TIME_FILE_COUNT w).
  { unfold dd_lock. rewrite Hl. unfold getpid. by rewrite bind_unfold. }
  split; [exact Hstart|]. split; [|split].
  - intros turns count w0 w1 w2 t Hcreate Hparse Ht.
    by apply (dd_lock_retry_back_off sizeof_time_t turns dd flags (pid_text w) count
                w0 w1 t w2).
  - intros r dd' w' Hrun. rewrite Hstart in Hrun.
    pose proof (dd_lock_retry_post sizeof_time_t flags (pid_text w) fuel dd 10 w Hl
                  ltac:(lia) _ _ Hrun) as (n & Hn & Hle & Hiff & Habs & _ & Hlk & _).
    exists n. done.
  - intros Hsize d di Hfree Hfuel. rewrite Hstart.
    destruct (dd_lock_retry_no_time sizeof_time_t Hsize flags d di 10 fuel dd w)
      as (w' & locks & Hrun & Herr & Hlen & Hcount & Hnodup & Hlocks & Hrest & Hfree'
          & Hs'); [lia|done|lia|done|].
    exists w', locks. split; [exact Hrun|]. split; [done|]. split; [done|].
    split; [done|]. split; [done|]. split; [done|]. split; [done|]. split; [done|].
    destruct Hfree' as (_ & Hd' & _ & _ & Hlock' & _). split; [done|]. split.
    + unfold sys_fstatat. rewrite Hd'. unfold dir_entry.
      destruct (dir_at_inode _ _ _ _ Hd') as (-> & _). simpl. by rewrite Hlock'.
    + by destruct Hs' as (_ & _ & ? & _).
Qed.

Lemma dd_lock_no_time_file_witness :
  let w := world_with_time_file (list_ascii_of_string "yesterday") in
  (∃ w' locks,
     dd_lock 8 11 (sample_dd false) WAIT_FOR_OTHER_PROCESS_USLEEP 0 w
     = Ret (-1, set_dd_time (-1) (sample_dd false)) w'
     ∧ w_errno w' = EISDIR
     ∧ length locks = 10%nat
     ∧ (∀ ino, ino ∈ locks → released_lock w w' ino)
     ∧ dir_at w' 3 = dir_at w 3
     ∧ (sys_fstatat 3 ".lock" w').1 = None)
  ∧ (∃ w1 w2 w3,
       create_symlink_lockfile_at 1 3 ".lock" (pid_text w) w = Ret 1 w1
       ∧ parse_time_file_at 8 3 FILENAME_TIME w1 = Ret (-1) w2
       ∧ sys_unlinkat 3 ".lock" (with_log "Missing file: time" w2) = (0, w3)
       ∧ dd_lock_retry 8 2 (sample_dd false) WAIT_FOR_OTHER_PROCESS_USLEEP 0
           (pid_text w) 1 w
         = Ret (-1, set_dd_time (-1) (sample_dd false))
               (with_errno EISDIR (with_log MSG_UNLOCKED_NO_TIME w3))).
Proof.
  intros w.
  destruct (dd_lock_no_time_file 8 11 (sample_dd false) 0 w eq_refl)
    as (_ & Hpass & _ & Htotal).
  split.
  - destruct (Htotal (or_intror eq_refl) 1
                (Inode S_IFDIR 2 493 0 0 [] (<["time"%string := 2]> ∅)))
      as (w' & locks & Hrun & Herr & _ & Hlen & _ & _ & Hlocks & _ & Hdir & Hfree & _).
    + split; [reflexivity|]. split; [vm_compute; reflexivity|]. split; [simpl; lia|].
      split; [vm_compute; reflexivity|]. split; [vm_compute; reflexivity|].
      split; [lia|]. eexists. split; [vm_compute; reflexivity|].
      split; [discriminate|]. intros (_ & _ & _ & Hval). vm_compute in Hval.
      by apply Hval.
    + lia.
    + exists w', locks. split; [exact Hrun|]. split; [exact Herr|].
      split; [exact Hlen|]. split; [exact Hlocks|]. split; [|exact Hfree].
      etrans; [exact Hdir|]. vm_compute. reflexivity.
  - destruct (create_symlink_lockfile_at 1 3 ".lock" (pid_text w) w)
      as [r1 w1| |] eqn:Hcreate; [|vm_compute in Hcreate; discriminate Hcreate..].
    pose proof Hcreate as Hval1. vm_compute in Hval1. injection Hval1 as Hr1 Hw1.
    destruct (parse_time_file_at 8 3 FILENAME_TIME w1)
      as [t w2| |] eqn:Hparse;
      [|rewrite <- Hw1 in Hparse; vm_compute in Hparse; discriminate Hparse..].
    pose proof Hparse as Hval2. rewrite <- Hw1 in Hval2. vm_compute in Hval2.
    injection Hval2 as Ht Hw2.
    destruct (sys_unlinkat 3 ".lock" (with_log "Missing file: time" w2))
      as [r3 w3] eqn:Hunlink.
    pose proof Hunlink as Hval3. rewrite <- Hw2 in Hval3. vm_compute in Hval3.
    injection Hval3 as Hr3 Hw3.
    subst r1 t r3. exists w1, w2, w3.
    split; [reflexivity|]. split; [exact Hparse|]. split; [exact Hunlink|].
    rewrite (Hpass 1%nat 1 w w1 w2 (-1) Hcreate Hparse ltac:(lia)).
    rewrite env_step_quiet by (rewrite <- Hw2; reflexivity).
    change (dd_fd (sample_dd false)) with 3. rewrite Hunlink. reflexivity.
Defined.
